(* ===== verification/_CoqProject ===== *)
-Q . S2P
Prelude.v
PyStr.v
PyFloat.v
Host.v
Namespace.v
Pose.v
Select.v
World.v
Bind.v
Snap.v
Qt.v
Marquee.v
Typing.v
Window.v
Session.v
Scale.v
WindowSession.v
Build.v
