(* ===== verification/Prelude.v ===== *)
(** * A verification development for the rig picker of picker_template

    ** The program

    The repository is a character-rig picker for Maya: a window of
    buttons laid over body and face diagrams that select, key, flip,
    mirror and reset the rig's controls, snap a limb between FK and IK,
    and select by dragging a rubber band.  It has four Python files:

    - [src/picker_model.py]: the handlers as free functions, each taking
      the namespace line edit as an optional argument;
    - [src/picker_controller.py]: the window of that variant (UI loading,
      button wiring, rubber-band selection), calling [picker_model];
    - [src/picker.py]: a second, self-contained variant in which the
      handlers are methods of the window class [Picker], each wrapped in
      an undo chunk ([cmds.undoInfo(openChunk/closeChunk)]);
    - [src/picker_run.py]: the bootstrap that opens the window.

    Every handler is a short sequence of calls to Maya's [cmds] API on the
    scene: query an attribute or a transform, compute, set it.  The
    handlers share no state but the text of the namespace line edit,
    which prefixes every control name.

    ** The development

    - [Prelude] (this file): Python list indexing and slicing, association
      lists (attributes in [listAttr] order), the hint databases [picker]
      (frame and invariant lemmas for [eauto]) and [py_rw] (rewriting),
      and the shared tactics.
    - [PyStr]: the [str] methods the names go through ([split] on one
      character, [join], [replace], [endswith], [in], [capitalize]) with
      CPython's semantics, and their lemmas: split/join round trip, split
      of a concatenation, replace of a single occurrence.
    - [PyFloat]: Python's [float()] on a string (white space, sign,
      [inf]/[nan], digits with underscores, fraction, exponent) as an
      executable parser, and its round trip with the literals Python
      writes.
    - [Host]: the part of Maya the handlers use.  The scene is a record
      (nodes by name in a [gmap], selection, keyed nodes, undo depth,
      modifier bits); each [cmds] call is an operation of a
      state-and-exception monad [M A = scene -> res A * scene] (a raised
      Python exception is a value; effects before it persist).  Matrices
      are abstract behind the class [XformAlgebra] (a group, composition
      from and decomposition into channels, the sixteen-float form); the
      handlers' theorems hold for every instance, and [TrsGroup] is one
      for concrete runs.  Frame lemmas ([preserves], [keeps],
      [undo_indep]) and the undo bracket [undo_chunk] with its theorems
      live here.
    - [Namespace]: [set_namespace] of both files, the prefixing of names.
    - [Pose]: [flip_pose] and [mirror_pose] of both files, the side and
      counterpart naming.
    - [Select]: [get_modifier], [select_control], [select_control_list],
      the select/key group handlers and the visibility toggles of both
      files.
    - [Bind]: [bind_pose] of both files: the user-attribute and channel
      resets under [try]/[except], the parsing of [skinPoseData] and the
      [xform] that applies it; the pure function [reset_node] the loops
      implement.
    - [World]: the theory of [Host.world], the world matrix a node gets
      by following its parent or, for a constrained joint, the source its
      switch attribute selects: the nodes it reads ([deps]), that the
      number of nodes is enough fuel, that it depends only on the records
      it reads (frame) and that editing channels moves no link (shape);
      then [cmds.xform(c, worldSpace=True, matrix=M)] gives [c] the world
      matrix [M], and a sequence of such sets in which no later node
      feeds an earlier one gives each node its matrix ([xform_set_all]).
    - [Snap]: [snap_fk_ik] of both files: the segment table (the dict of
      [start], [mid], [end] as an association list in its order), the
      namespace prefixing, the [fkIk] read, the capture loop, the switch
      and the world-space set loop ([snap_core]); a concrete left arm
      with FK and IK chains and joints constrained by [fkIk].
    - [Qt]: the part of Qt 5 the drag selection computes with, from
      [qrect.cpp]: [QPoint], [QRect] as its four stored coordinates,
      [normalized], [isNull], [intersects], [moveTopLeft].
    - [Marquee]: the drag selection of both windows ([mousePressEvent],
      [keyReleaseEvent], [mouseMoveEvent], [mouseReleaseEvent]): the
      window's drag attributes, the band's geometry and the buttons'
      style sheets as a state record, each handler a function on it
      (an exception keeps the assignments made before it), the event
      loop as [handle]/[run_events] and the states it reaches as the
      inductive [reachable]; the release hands its list to
      [Select.select_control_list_model] (or the undo-wrapped
      [picker.py] variant).
    - [Typing]: the type of every user attribute of every node
      ([attr_types]) and the frame lemmas showing that each [cmds] call
      of [Host] and each handler of both files keeps it, on every path.
      Like the well-formedness and duplicate-free selection lemmas of
      [Pose], [Bind], [Select] and [Snap], these are frame facts of the
      host model (no modelled [cmds] call adds, renames or retypes an
      attribute, and the selection calls remove duplicates): they hold
      whatever a handler does, and serve as lemmas, not as properties
      of the handlers.
    - [Window]: the two constructors' wiring ([Picker.__init__] of
      [picker_controller.py], lines 60-119, and of [picker.py], lines
      59-118): the loaded [.ui] as the names of its push buttons, line
      edits and labels in [findChildren] order, [findChildren(...)[0]]
      raising [IndexError], the [clicked.connect] calls as a list of
      (widget, action) connections, and a click as the run of the
      connected slots in connection order on the line edit's text and
      the scene ([run_model] calls [picker_model], [run_view] the
      [picker.py] methods); [load_images] of both files (image filter,
      label name, [findChild]).  This is where the components meet: a
      window's session is a sequence of clicks dispatched to the
      handlers of the other files.
    - [WindowSession]: a window of either file as one event loop: the
      state [wwin] (line edit text, drag attributes, scene), the events
      [wevent] (a click on a widget, a mouse or key event) and one step
      per event, [step_model] and [step_view], dispatching to [Window]'s
      slots and [Marquee]'s handlers; [tracked_buttons] builds the
      drag's style cache ([widget_styles_dict], lines 42-46 of both
      constructors).
    - [Build]: [Picker.__init__] of both files as one function
      ([build_window]: [load_images], the drag attributes and style
      cache, the window's sizes, the scaling loop of [Scale], then the
      file's wiring, which may raise), and both [openWindow]s with the
      constructor's outcome ([open_controller], [open_view]): the
      windows shown afterwards.
    - [Scale]: the loop of both constructors that scales every widget of
      the [.ui] by [scale_factor] ([setGeometry] of each widget, relative
      to its parent), the widgets' rectangles on screen it yields (their
      chain of parents, as [mapToGlobal]), and the window [Marquee] sees.
    - [Session]: [openWindow] of [picker.py] (the children of Maya's
      main window by object name; the first picker window closed, a new
      one built); [openWindow] of [picker_controller.py] at the level
      of window names ([openWindow_controller]: the windows of
      [QApplication.allWindows()] it destroys, the name and title of
      the new one); and [picker_run.py] as a whole ([picker_run]: the
      [sys.path] step, then the controller's [openWindow]).

    ** What is proved

    - Pose: flipping centre controls negates their translate X and
      rotate Y and Z and nothing else, and flipping twice gives back the
      scene; flipping a side control swaps its local matrix with its
      counterpart's, and selecting both sides cancels the swap; mirror
      copies one way; the counterpart of [pre_l_suf] is [pre_r_suf] and
      back, but not for names holding both tokens (an example); a name
      without underscore raises [IndexError] before any change;
      [picker.py]'s variant also exchanges the user attributes of a
      centre control with its [_r_] counterpart, which
      [picker_model.py]'s never touches.
    - Undo: the bracket of the [picker.py] handlers restores the undo
      depth on every path, exceptions included, and is otherwise
      invisible.
    - Namespace: the captured namespace is the part up to the last colon,
      prefixing the bare name gives the selected name back, and both
      variants show the same text.
    - Select: the modifier bits decode with alt over control over shift;
      a click adds, removes or replaces as a set operation and raises on
      a missing name; a toggle
      flips the attribute's truth value; each [picker.py] handler equals
      the [picker_model.py] one given the line edit's text.
    - Bind: the per-control work is the pure reset [reset_node] followed
      by the stored pose (a refinement of the [try]/[except] loops); the
      reset puts unlocked channels at rest and each user attribute at its
      default; a pose stored as Python writes a list of sixteen floats is
      parsed back ([float] round trip) and becomes the control's local
      matrix; an empty stored pose raises [ValueError] after the reset;
      [picker_model]'s variant does nothing without a line edit and looks
      for [{namespace}modules_grp]; with an empty namespace both variants
      agree.
    - Snap: on a rig whose controls to move are free, do not read the
      settings control and do not feed one another backwards, the switch
      succeeds, flips [fkIk] and gives every control of the newly active
      set the world matrix its reference had before the switch (the
      capture-then-apply property; on the demo arm the joints the skin
      follows stay where they were); the [picker.py] table is the
      [picker_model.py] table prefixed; with an empty namespace both
      variants agree; with a namespace [picker.py] reads [fkIk] on the
      namespace written twice and raises where [picker_model.py]
      switches.
    - Marquee: a left release selects exactly the tracked buttons
      meeting the band that lie in the active tab and restores their
      styles, so no highlight survives a drag; a pan with Alt moves the
      band without resizing it, and releasing Alt re-anchors the drag
      without a jump; every reachable state keeps the pan fields
      consistent (by rule induction), so an Alt move never raises; the
      loop up to the tab stops on any tree of widgets and finds the
      first [body_tab] or [face_tab] up the parent chain, as the
      [while] loop's relational description [tab_search] says; a drag released
      with Alt still held leaves its pan to the next drag, and from every
      reachable state a press, an Alt move and the release of Alt clear
      any pan (liveness); both windows' releases agree.
    - Window: both constructors succeed exactly on a [.ui] holding the
      widgets they look up (otherwise [IndexError]), and then connect
      the first widget of each looked-up name to its handler and every
      [_ctr] button to the selection of its own name, one slot per
      widget at most; a click on any widget gives the same line edit
      text and scene in both windows, except [flipPose] (whose variants
      differ) and, with a namespace, [bindPose] and the snap buttons
      (the naming defects above), and so does any session of clicks on
      buttons other than these three, whatever the namespace becomes
      along the way; the per-handler equalities of the two
      files (select, key, visibility, bind and snap with an empty
      namespace, set_namespace, mirror) are the lemmas this rests on;
      a file [stem.ext] with an image extension ends shown on the label
      [stem_label] unless a later file starts with [stem.].
    - WindowSession: the buttons the drag tracks are exactly the
      buttons a click selects; the two windows agree on every session
      of clicks, mouse and key events whose clicks avoid flip, bind and
      snap, the drag's releases included.
    - Build: a [.ui] lacking a looked-up widget makes both constructors
      raise after [openWindow] has taken the running picker window down,
      so none is shown ([picker.py] leaves a hidden child of the picker's
      name, which the next call closes); on a complete [.ui] both constructors build the
      same window, wired as specified, and the controller's
      [openWindow] leaves exactly one window named like the picker.
    - Scale: scaling by a positive integer factor scales every widget's
      rectangle on screen about the window's origin, and a drag between
      scaled points selects the same names as the unscaled drag, except
      for a drag ending exactly one pixel left of or above its start,
      where Qt 5's [normalized] leaves a band of width zero at scale 1
      (a concrete example shows the difference).
    - Session: [picker.py]'s [openWindow] leaves as many picker windows
      as there were but at least one, so repeated calls from a session
      with at most one keep exactly one, and a duplicate is never
      removed; the bootstrap's [sys.path] step is idempotent and adds no
      duplicate; the controller's [openWindow] destroys exactly the
      windows whose name contains ['pickerWindow'], another tool's
      included and [picker.py]'s ["HulkPickerWindow"] never (an
      example).

    ** Bounds and fuel

    World matrices and ancestors follow parent and constraint links with
    fuel [size (sc_nodes s)]: a chain without repetition visits each node
    at most once, so the number of nodes is enough for an acyclic scene;
    a cyclic one evaluates to [None] (Maya reports a cycle).  Loops are
    structural over the lists the code iterates.  Numbers are rationals
    ([Qc], normalised so that equality is Leibniz); Maya's doubles are
    not modelled bit for bit, the handlers only negate, copy and compare
    them with 0.  [float()] gives the exact rational of a decimal
    literal: rounding to binary64 and the overflow of [1e400] to [inf]
    are not modelled, and an infinite or NaN entry of a stored pose is an
    error of the model's [xform].  The search for a button's tab has
    fuel [size parents + 1], enough for any tree of widgets by the same
    pigeonhole argument ([Marquee.find_tab_total]); the position of a
    widget on screen ([Scale.offset]) follows its parents with the same
    fuel.  [Scale] takes the scale factor as a positive integer.  Qt's handling of a
    rectangle of negative size by [setGeometry] is not pinned down: the
    marquee theorems assume only that a rectangle of non-negative size is
    stored as given (the examples use the bound [expandedTo(0 x 0)]).

    ** Not modelled

    Not modelled: [loadUiWidget] and [load_icon] (Qt reads the [.ui]
    and image files; [Window] and [Build] start from the widgets they
    produce), [setWindowFlags] and [setWindowTitle] beyond the names
    [Session] keeps, a [scale_factor] that is not an
    integer (the bootstrap passes 1; [Scale] takes an integer),
    [setToolTip], what [destroy()] and [show()] do to Qt's native
    windows beyond the list of names ([Session] keeps only which
    windows are destroyed and which is added), and the [import] and
    [importlib.reload] of [picker_run.py], which only re-run the
    module-level assignments the development takes as constants.
    A session of [WindowSession] does not switch tabs: the current tab
    of [picker_tab] is a parameter of the window, read by each release.
    PySide is taken to call a slot that takes no argument without the
    [checked] flag of [clicked].
    Maya's behaviour is modelled where the handlers depend on it; where
    it is uncertain it is a stated choice: [xform] ignores locks, an
    empty [cmds.select([])] clears the selection, [listRelatives] lists
    descendants in key order, [attributeQuery(listDefault=True)] of a
    string attribute gives no default (its [[0]] raises and is caught). *)

From stdpp Require Export base list gmap strings.

Declare Scope picker_scope.
Delimit Scope picker_scope with picker.

Create HintDb picker discriminated.
Create Rewrite HintDb py_rw.

(** ** Python list indexing

    Python's [l[i]] accepts a negative index counted from the end and
    raises [IndexError] out of range; [None] stands for that error. *)

Definition py_index {A} (i : Z) (l : list A) : option A :=
  if bool_decide (0 <= i)%Z then l !! Z.to_nat i
  else if bool_decide (0 <= Z.of_nat (length l) + i)%Z
       then l !! Z.to_nat (Z.of_nat (length l) + i)
       else None.

(** Python's slice [l[:i]]: a negative bound counts from the end and
    clamps at zero; a bound past the end takes the whole list. *)
Definition py_slice_to {A} (i : Z) (l : list A) : list A :=
  if bool_decide (0 <= i)%Z then take (Z.to_nat i) l
  else take (Z.to_nat (Z.of_nat (length l) + i)) l.

(** ** Association lists

    Attributes of a node are listed by [listAttr] in creation order, so
    they are kept as an association list rather than a map. *)

Fixpoint assoc_get {A} (k : string) (l : list (string * A)) : option A :=
  match l with
  | [] => None
  | (k', v) :: l' => if decide (k = k') then Some v else assoc_get k l'
  end.

(** Update the first entry of key [k] in place; absent keys are left
    absent. *)
Fixpoint assoc_set {A} (k : string) (v : A) (l : list (string * A)) : list (string * A) :=
  match l with
  | [] => []
  | (k', v') :: l' => if decide (k = k') then (k', v) :: l' else (k', v') :: assoc_set k v l'
  end.

(** ** Tactics shared by the development *)

Ltac invc H := inversion H; subst; clear H.

(** A decidable proposition on a concrete input, by evaluating its
    decision procedure. *)
Ltac decide_vm := apply (bool_decide_unpack _); vm_compute; reflexivity.

(** A hypothesis about a concrete scene, decided by evaluation. *)
Ltac concrete := first [ reflexivity | by vm_compute | decide_vm ].

(** Case analysis on every [bool_decide] and [decide] of the goal. *)
Ltac case_decides :=
  repeat (case_bool_decide || case_decide); try lia.

(** ** Generic lemmas on lists and options *)

(** A filter that keeps no element of the list. *)
Lemma filter_none {A} (P : A -> Prop) `{!forall x, Decision (P x)} l :
  (forall x, x ∈ l -> ~ P x) -> filter P l = [].
Proof.
  induction l as [|x l IH]; intros Hl; [done|]. rewrite filter_cons_False by (apply Hl; left).
  apply IH. intros y Hy. apply Hl. by right.
Qed.

Lemma py_index_last {A} (l : list A) : py_index (-1) l = last l.
Proof.
  unfold py_index. case_decides.
  - destruct l as [|x l] using rev_ind; [simpl in *; lia|].
    rewrite last_snoc, length_app. simpl.
    replace (Z.to_nat (Z.of_nat (length l + 1) + -1)) with (length l) by lia.
    by rewrite lookup_app_r, Nat.sub_diag by lia.
  - destruct l; simpl in *; [done | lia].
Qed.

Lemma py_index_snoc_second_last {A} (l : list A) x y :
  py_index (-2) (l ++ [x; y]) = Some x.
Proof.
  unfold py_index. rewrite length_app. simpl. case_decides.
  replace (Z.to_nat (Z.of_nat (length l + 2) + -2)) with (length l) by lia.
  by rewrite lookup_app_r, Nat.sub_diag by lia.
Qed.

Lemma py_index_neg2_short {A} (l : list A) :
  length l < 2 -> py_index (-2) l = None.
Proof. intros H. unfold py_index. by case_decides. Qed.

Lemma py_slice_to_snoc {A} (l : list A) x : py_slice_to (-1) (l ++ [x]) = l.
Proof.
  unfold py_slice_to. rewrite length_app. simpl. case_decides.
  replace (Z.to_nat (Z.of_nat (length l + 1) + -1)) with (length l) by lia.
  by rewrite take_app_length.
Qed.

#[export] Hint Rewrite @py_index_last @py_index_snoc_second_last
  @py_slice_to_snoc : py_rw.

Lemma assoc_get_set_eq {A} k (v : A) l :
  is_Some (assoc_get k l) -> assoc_get k (assoc_set k v l) = Some v.
Proof.
  induction l as [|[k' v'] l IH]; simpl; intros Hs; [by destruct Hs|].
  case_decide; simpl; rewrite ?decide_True by done; [done|].
  rewrite decide_False by done. auto.
Qed.

Lemma assoc_get_set_ne {A} k k2 (v : A) l :
  k <> k2 -> assoc_get k2 (assoc_set k v l) = assoc_get k2 l.
Proof.
  induction l as [|[k' v'] l IH]; simpl; intros Hne; [done|].
  case_decide; subst; simpl.
  - by rewrite !decide_False by done.
  - case_decide; auto.
Qed.

Lemma assoc_set_keys {A} k (v : A) l : map fst (assoc_set k v l) = map fst l.
Proof. induction l as [|[k' v'] l IH]; simpl; [done|]. case_decide; simpl; by f_equal. Qed.

Lemma assoc_set_absent {A} k (v : A) l :
  assoc_get k l = None -> assoc_set k v l = l.
Proof.
  induction l as [|[k' v'] l IH]; simpl; [done|].
  case_decide; [done|]. intros Hk. by rewrite IH.
Qed.

#[export] Hint Rewrite @assoc_get_set_eq @assoc_set_keys : py_rw.

(** Looking past a prefix that does not hold the key. *)
Lemma assoc_get_app_notin {A} k (l1 l2 : list (string * A)) :
  k ∉ map fst l1 -> assoc_get k (l1 ++ l2) = assoc_get k l2.
Proof.
  induction l1 as [|[k' v'] l1 IH]; simpl; [done|]. intros Hk.
  rewrite decide_False by (intros ->; apply Hk; left). apply IH. intros Hin. apply Hk. by right.
Qed.

Lemma assoc_set_app_notin {A} k (v : A) (l1 l2 : list (string * A)) :
  k ∉ map fst l1 -> assoc_set k v (l1 ++ l2) = l1 ++ assoc_set k v l2.
Proof.
  induction l1 as [|[k' v'] l1 IH]; simpl; [done|]. intros Hk.
  rewrite decide_False by (intros ->; apply Hk; left). rewrite IH; [done|].
  intros Hin. apply Hk. by right.
Qed.

(** Writing back the value a key already has changes nothing. *)
Lemma assoc_set_get_same {A} k (v : A) l : assoc_get k l = Some v -> assoc_set k v l = l.
Proof.
  induction l as [|[k' v'] l IH]; simpl; [done|].
  case_decide; [intros [= ->]; by subst|]. intros Hk. by rewrite IH.
Qed.

Lemma assoc_get_notin {A} k (l : list (string * A)) : k ∉ map fst l -> assoc_get k l = None.
Proof. intros Hk. by rewrite <- (app_nil_r l), assoc_get_app_notin. Qed.

Lemma assoc_get_nodup_in {A} k (v : A) l : NoDup (map fst l) -> (k, v) ∈ l -> assoc_get k l = Some v.
Proof.
  induction l as [|[k' v'] l IH]; intros Hnd Hin; [set_solver|].
  apply NoDup_cons in Hnd as [Hk Hnd]. apply elem_of_cons in Hin as [[= -> ->]|Hin]; simpl.
  - by rewrite decide_True.
  - rewrite decide_False; [by apply IH|]. intros ->. apply Hk.
    apply list_elem_of_In, in_map_iff. exists (k', v). split; [done|]. by apply list_elem_of_In.
Qed.

(** With distinct keys, [assoc_set] rewrites the entry of its key
    wherever it is. *)
Lemma assoc_set_map {A} k (v : A) l :
  NoDup (map fst l) ->
  assoc_set k v l = map (fun kv : string * A => if decide (kv.1 = k) then (k, v) else kv) l.
Proof.
  induction l as [|[k' v'] l IH]; intros Hnd; [done|]. apply NoDup_cons in Hnd as [Hk' Hnd]. simpl.
  case_decide as Hk.
  - subst k'. simpl. rewrite decide_True by done. f_equal. clear IH Hnd. induction l as [|[k'' v''] l IHl]; [done|]. simpl in *.
    rewrite decide_False by (intros ->; apply Hk'; left). f_equal. apply IHl. intros ?; apply Hk'; by right.
  - simpl. rewrite decide_False by (intros ->; by apply Hk). f_equal. by apply IH.
Qed.

(** Distinct keys of a map are at most as many as its entries: the
    pigeonhole argument behind every fuel bound of the development. *)
Lemma nodup_dom_length {V} (l : list string) (m : gmap string V) :
  NoDup l -> (forall y, y ∈ l -> is_Some (m !! y)) -> length l <= size m.
Proof.
  intros Hl Hd. rewrite <- (size_list_to_set (C := gset string) l) by done.
  rewrite <- (size_dom (D := gset string) m). apply subseteq_size.
  intros y Hy. apply elem_of_list_to_set in Hy. apply elem_of_dom. auto.
Qed.

(** A property of the keys carries over to a list with the same keys. *)
Lemma Forall_same_keys {K B B'} (P : K -> Prop) (l : list (K * B)) (l' : list (K * B')) :
  l.*1 = l'.*1 -> Forall (fun kb : K * B => P kb.1) l -> Forall (fun kb : K * B' => P kb.1) l'.
Proof.
  revert l'. induction l as [|[k b] l IH]; intros [|[k' b'] l'] Heq; try done.
  injection Heq as <- Heq. intros [? ?]%Forall_cons. constructor; auto.
Qed.

(** Looking up in a list whose values were mapped. *)
Lemma assoc_get_map_values {A B} (f : A -> B) k (l : list (string * A)) :
  assoc_get k (map (fun p => (p.1, f p.2)) l) = f <$> assoc_get k l.
Proof. induction l as [|[k' v'] l IH]; simpl; [done|]. by case_decide. Qed.

(** Writing an entry commutes with mapping the values. *)
Lemma assoc_set_map_values {A B} (f : A -> B) k (v : A) (l : list (string * A)) :
  map (fun p => (p.1, f p.2)) (assoc_set k v l) = assoc_set k (f v) (map (fun p => (p.1, f p.2)) l).
Proof. induction l as [|[k' v'] l IH]; simpl; [done|]. case_decide; simpl; by rewrite ?IH. Qed.
