(* ===== verification/PyStr.v ===== *)
(** * PyStr: the Python string operations the picker relies on

    Every name of a rig node that the picker builds or inspects goes
    through a handful of [str] methods: [split] on one character
    ([':'], ['_'], ['['], [']'], [','], ['.']), [join], [replace],
    [endswith], the [in] test, [capitalize] and [format] (which is plain
    concatenation [+:+] here).  This file gives each one as an
    executable function on [string] with CPython's semantics, and the
    lemmas the components use: split/join round trip, split of a
    concatenation, replace on a string with one occurrence. *)

From S2P Require Import Prelude.
From Stdlib Require Import Ascii.
Local Open Scope string_scope.

(** ** Definitions *)

(** [s.split(c)] for a one-character separator [c]: never empty, the
    pieces are the maximal runs without [c]. *)
Fixpoint py_split (c : ascii) (s : string) : list string :=
  match s with
  | EmptyString => [EmptyString]
  | String a s' =>
      let rest := py_split c s' in
      if decide (a = c) then EmptyString :: rest
      else match rest with
           | x :: xs => String a x :: xs
           | [] => [String a EmptyString]
           end
  end.

(** [sep.join(l)]. *)
Definition py_join (sep : string) (l : list string) : string :=
  String.concat sep l.

(** [sub in s]. *)
Fixpoint py_contains (sub s : string) : bool :=
  String.prefix sub s ||
  match s with
  | EmptyString => false
  | String _ s' => py_contains sub s'
  end.

(** [s.endswith(suf)]. *)
Fixpoint py_endswith (suf s : string) : bool :=
  bool_decide (s = suf) ||
  match s with
  | EmptyString => false
  | String _ s' => py_endswith suf s'
  end.

(** [s.replace(old, new)]: scan left to right; at an occurrence of
    [old] emit [new] and skip the rest of the occurrence, so that
    occurrences do not overlap.  [skip] counts the characters of the
    current occurrence still to be skipped.  (The picker only calls it
    with a nonempty [old]: [''] would insert [new] between all
    characters, which is not modelled.) *)
Fixpoint replace_skip (old new : string) (skip : nat) (s : string) : string :=
  match s with
  | EmptyString => EmptyString
  | String a s' =>
      match skip with
      | S k => replace_skip old new k s'
      | O =>
          if String.prefix old s
          then new +:+ replace_skip old new (pred (String.length old)) s'
          else String a (replace_skip old new O s')
      end
  end.

Definition py_replace (old new s : string) : string := replace_skip old new O s.

(** [str.capitalize] on ASCII: the first character in upper case, the
    others in lower case. *)
Definition ascii_upper (c : ascii) : ascii :=
  let n := Ascii.nat_of_ascii c in
  if decide (97 <= n <= 122) then Ascii.ascii_of_nat (n - 32) else c.

Definition ascii_lower (c : ascii) : ascii :=
  let n := Ascii.nat_of_ascii c in
  if decide (65 <= n <= 90) then Ascii.ascii_of_nat (n + 32) else c.

Fixpoint str_map (f : ascii -> ascii) (s : string) : string :=
  match s with
  | EmptyString => EmptyString
  | String c s' => String (f c) (str_map f s')
  end.

Definition py_capitalize (s : string) : string :=
  match s with
  | EmptyString => EmptyString
  | String c s' => String (ascii_upper c) (str_map ascii_lower s')
  end.

(** No occurrence of [old] starts inside [a] in the string [a +:+ b]:
    the condition under which [replace] leaves the prefix [a] alone. *)
Fixpoint starts_free (old a b : string) : bool :=
  match a with
  | EmptyString => true
  | String c a' => negb (String.prefix old (String c (a' +:+ b))) && starts_free old a' b
  end.

(** [for c in s]: the one-character strings of [s], in order. *)
Fixpoint py_chars (s : string) : list string :=
  match s with
  | EmptyString => []
  | String c s' => String c EmptyString :: py_chars s'
  end.

(** ** Concrete runs *)

Example py_split_ns : py_split ":" "ns1:ns2:joint1" = ["ns1"; "ns2"; "joint1"].
Proof. reflexivity. Qed.

Example py_replace_side : py_replace "_l_" "_r_" "armFk_l_ctr" = "armFk_r_ctr".
Proof. reflexivity. Qed.

Example py_capitalize_arm : py_capitalize "arm" = "Arm".
Proof. reflexivity. Qed.

(** ** Lemmas on concatenation *)

(** stdpp makes [String.append] opaque to [simpl]; these two equations
    are its computation rules. *)
Lemma str_app_nil_l (b : string) : "" +:+ b = b.
Proof. reflexivity. Qed.

Lemma str_app_cons x (a b : string) : String x a +:+ b = String x (a +:+ b).
Proof. reflexivity. Qed.

#[export] Hint Rewrite str_app_nil_l str_app_cons : py_rw.

Lemma str_app_assoc (a b c : string) : (a +:+ b) +:+ c = a +:+ (b +:+ c).
Proof. induction a as [|x a IH]; [done|]. by rewrite !str_app_cons, IH. Qed.

Lemma str_app_nil_r (a : string) : a +:+ "" = a.
Proof. induction a as [|x a IH]; [done|]. by rewrite str_app_cons, IH. Qed.

Lemma str_length_app (a b : string) :
  String.length (a +:+ b) = String.length a + String.length b.
Proof. induction a as [|x a IH]; [done|]. rewrite str_app_cons. simpl. by rewrite IH. Qed.

#[export] Hint Rewrite str_app_assoc str_app_nil_r : py_rw.

Lemma prefix_app (p s : string) : String.prefix p (p +:+ s) = true.
Proof.
  induction p as [|x p IH]; [by destruct s|]. rewrite str_app_cons. simpl.
  destruct (Ascii.ascii_dec x x); [done | congruence].
Qed.

Lemma prefix_nil_l (s : string) : String.prefix "" s = true.
Proof. by destruct s. Qed.

(** ** The [in] test *)

Lemma py_contains_app_r sub a b :
  py_contains sub b = true -> py_contains sub (a +:+ b) = true.
Proof.
  induction a as [|x a IH]; [done|]. rewrite str_app_cons. simpl.
  intros H. rewrite IH by done. apply orb_true_r.
Qed.

Lemma py_contains_cons sub c s :
  py_contains sub (String c s) = String.prefix sub (String c s) || py_contains sub s.
Proof. reflexivity. Qed.

Lemma prefix_char c d s : String.prefix (String c "") (String d s) = bool_decide (d = c).
Proof. simpl. destruct (Ascii.ascii_dec c d); case_bool_decide; subst; by destruct s || congruence. Qed.

Lemma py_contains_prefix sub s : String.prefix sub s = true -> py_contains sub s = true.
Proof. destruct s; simpl; by intros ->. Qed.

Lemma py_contains_head sub b : py_contains sub (sub +:+ b) = true.
Proof. apply py_contains_prefix, prefix_app. Qed.

(** ** split and join *)

Lemma py_split_not_nil c s : py_split c s <> [].
Proof.
  destruct s; simpl; [done|].
  case_decide; [done|]. by destruct (py_split c s).
Qed.

(** The pieces of a split never contain the separator. *)
Lemma py_split_no_sep c s : Forall (fun x => py_contains (String c "") x = false) (py_split c s).
Proof.
  induction s as [|a s IH]; simpl; [by repeat constructor|].
  case_decide; [constructor; [done | exact IH]|].
  destruct (py_split c s) as [|x xs] eqn:E; [by apply py_split_not_nil in E|].
  inversion IH as [|? ? Hx Hxs]; subst. constructor; [|done]. simpl.
  destruct (Ascii.ascii_dec c a); [congruence|]. simpl. exact Hx.
Qed.

Lemma concat_cons_char sep a x xs :
  String.concat sep (String a x :: xs) = String a (String.concat sep (x :: xs)).
Proof. by destruct xs. Qed.

(** Round trip: joining the pieces with the separator gives the string
    back. *)
Theorem py_join_split c s : py_join (String c "") (py_split c s) = s.
Proof.
  unfold py_join. induction s as [|a s IH]; simpl; [done|].
  destruct (py_split c s) as [|x xs] eqn:E; [by apply py_split_not_nil in E|].
  case_decide; subst; [done | apply concat_cons_char].
Qed.

(** Splitting at a separator: the pieces of the two sides. *)
Lemma py_split_app_sep c a b :
  py_split c (a +:+ String c b) = (py_split c a ++ py_split c b)%list.
Proof.
  induction a as [|x a IH]; simpl.
  - by rewrite decide_True.
  - rewrite IH. case_decide; [done|].
    destruct (py_split c a) as [|y ys] eqn:E; [by apply py_split_not_nil in E|]. done.
Qed.

(** A string without the separator is one piece. *)
Lemma py_split_free c a :
  py_contains (String c "") a = false -> py_split c a = [a].
Proof.
  induction a as [|x a IH]; intros Ha; [done|]. simpl in *.
  destruct (Ascii.ascii_dec c x) as [->|Hne]; [by destruct a|]. simpl in Ha.
  rewrite IH by done. by rewrite decide_False by congruence.
Qed.

#[export] Hint Rewrite py_split_app_sep : py_rw.

(** ** replace *)

Lemma replace_skip_skip old new x b :
  replace_skip old new (String.length x) (x +:+ b) = replace_skip old new O b.
Proof. induction x as [|y x IH]; [done|]. by rewrite str_app_cons. Qed.

(** An occurrence at the head is replaced, and the scan resumes after it. *)
Lemma replace_head old new b :
  old <> "" ->
  replace_skip old new O (old +:+ b) = new +:+ replace_skip old new O b.
Proof.
  destruct old as [|x o]; [done|]. intros _.
  rewrite str_app_cons. simpl. destruct (ascii_dec x x); [|congruence].
  by rewrite prefix_app, replace_skip_skip.
Qed.

(** A prefix in which no occurrence starts is copied unchanged. *)
Lemma replace_free_prefix old new a b :
  starts_free old a b = true ->
  replace_skip old new O (a +:+ b) = a +:+ replace_skip old new O b.
Proof.
  induction a as [|x a IH]; [done|]. simpl.
  intros [Hx Ha]%andb_prop. apply negb_true_iff in Hx.
  rewrite str_app_cons. simpl. rewrite Hx, IH by done. done.
Qed.

(** A string without occurrence is unchanged. *)
Lemma replace_absent old new s :
  py_contains old s = false -> replace_skip old new O s = s.
Proof.
  induction s as [|x s IH]; [done|]. simpl.
  intros [Hx Hs]%orb_false_elim. rewrite Hx. by rewrite IH.
Qed.

(** A string with one occurrence of [old], as [a +:+ old +:+ b], where
    no occurrence starts in [a] and [b] has none. *)
Theorem py_replace_once old new a b :
  old <> "" ->
  starts_free old a (old +:+ b) = true ->
  py_contains old b = false ->
  py_replace old new (a +:+ old +:+ b) = a +:+ new +:+ b.
Proof.
  intros Hne Ha Hb. unfold py_replace.
  rewrite replace_free_prefix, replace_head, replace_absent by done. done.
Qed.

(** A string without the character [c] contains no string that starts
    with [c]. *)
Lemma py_contains_char_free c x s :
  py_contains (String c "") s = false -> py_contains (String c x) s = false.
Proof.
  induction s as [|d s IH]; [done|]. rewrite !py_contains_cons.
  intros [Hp Hs]%orb_false_elim. rewrite IH by done. rewrite orb_false_r.
  simpl in *. destruct (Ascii.ascii_dec c d); [|done]. by destruct s.
Qed.

(** The [in] test of one character distributes over a concatenation. *)
Lemma py_contains_char_app c a b :
  py_contains (String c "") (a +:+ b) = py_contains (String c "") a || py_contains (String c "") b.
Proof.
  induction a as [|x a IH]; [done|]. rewrite str_app_cons, !py_contains_cons, !prefix_char, IH.
  by rewrite orb_assoc.
Qed.

(** Splitting a joined list again: [(p + sep).join(x :: xs).split(c)]
    gives [x] and the other pieces with the padding [p] in front, when
    neither the pieces nor the padding hold the separator [c]
    ([", ".join(l).split(",")] keeps the blank after each comma). *)
Lemma py_split_join_pad c p q x xs :
  Forall (fun y => py_contains (String c "") y = false) (q :: p :: x :: xs) ->
  py_split c (q +:+ py_join (String c p) (x :: xs)) = (q +:+ x) :: map (fun y => p +:+ y) xs.
Proof.
  revert q x. induction xs as [|y ys IH]; intros q x Hf; unfold py_join in *.
  - apply py_split_free. rewrite py_contains_char_app.
    apply Forall_cons in Hf as [-> [_ [-> _]%Forall_cons]%Forall_cons]. done.
  - change (String.concat (String c p) (x :: y :: ys))
      with (x +:+ (String c p +:+ String.concat (String c p) (y :: ys))).
    rewrite <- str_app_assoc, str_app_cons, py_split_app_sep.
    rewrite py_split_free by (rewrite py_contains_char_app;
      apply Forall_cons in Hf as [-> [_ [-> _]%Forall_cons]%Forall_cons]; done).
    rewrite (IH p y); [done|].
    apply Forall_cons in Hf as [_ [Hp [_ Hf]%Forall_cons]%Forall_cons].
    by apply Forall_cons; split; [|apply Forall_cons].
Qed.


(** A joined string holds a character only if the separator or a piece
    does. *)
Lemma py_contains_join_free c sep l :
  py_contains (String c "") sep = false ->
  Forall (fun x => py_contains (String c "") x = false) l ->
  py_contains (String c "") (py_join sep l) = false.
Proof.
  intros Hs Hl. unfold py_join. induction Hl as [|x l Hx Hl IH]; [done|].
  destruct l as [|y l]; [done|].
  change (String.concat sep (x :: y :: l)) with (x +:+ (sep +:+ String.concat sep (y :: l))).
  by rewrite !py_contains_char_app, Hx, Hs, IH.
Qed.

(** [s.endswith(suf)] holds exactly of the strings [p ++ suf]. *)
Lemma py_endswith_app suf p : py_endswith suf (p +:+ suf) = true.
Proof.
  induction p as [|x p IH].
  - rewrite str_app_nil_l. destruct suf; simpl; [done|]. case_bool_decide; naive_solver.
  - rewrite str_app_cons. simpl. by rewrite IH, orb_true_r.
Qed.

Lemma py_endswith_split suf s : py_endswith suf s = true -> exists p, s = p +:+ suf.
Proof.
  induction s as [|x s IH]; simpl.
  - rewrite orb_false_r. intros ->%bool_decide_eq_true_1. by exists "".
  - intros [->%bool_decide_eq_true_1|(p & ->)%IH]%orb_true_iff; [by exists ""|].
    by exists (String x p).
Qed.

Lemma str_app_cancel_r a b s : a +:+ s = b +:+ s -> a = b.
Proof.
  revert b. induction a as [|x a IH]; intros [|y b] H; [done| | |].
  - apply (f_equal String.length) in H. rewrite !str_length_app in H. simpl in H. lia.
  - apply (f_equal String.length) in H. rewrite !str_length_app in H. simpl in H. lia.
  - rewrite !str_app_cons in H. injection H as -> H. by rewrite (IH b H).
Qed.

(** The first piece of [s.split(c)] is all of [s], or [s] goes on with
    the separator after it. *)
Lemma py_split_head c s x xs :
  py_split c s = x :: xs -> s = x \/ exists r, s = x +:+ String c r.
Proof.
  revert x xs. induction s as [|a s IH]; intros x xs; simpl; [intros [= <- _]; by left|].
  case_decide as Ha; [intros [= <- _]; subst; right; by exists s|].
  destruct (py_split c s) as [|y ys] eqn:E; [by apply py_split_not_nil in E|].
  intros [= <- _]. destruct (IH y ys eq_refl) as [->|(r & ->)]; [by left|right; by exists r].
Qed.
