(* ===== verification/PyFloat.v ===== *)
(** * PyFloat: Python's [float()] on a string

    [bind_pose] turns the text of a control's [skinPoseData] attribute
    into sixteen numbers with [float(x)] on each comma-separated piece.
    This file gives CPython's grammar for that conversion as an
    executable function: surrounding white space ([str.isspace] on
    ASCII, the separators [\x1c]-[\x1f] included) is stripped, then an
    optional sign, then either [inf], [infinity] or [nan] in any case, or
    a decimal literal: digits with single underscores between them, an
    optional fraction after ['.'], an optional exponent after ['e'] or
    ['E'], at least one digit before the exponent.  Anything else is the
    [ValueError] ([None] here).

    Numbers are exact rationals ([Qc]) as everywhere in the development:
    the rounding to binary64 and the overflow of [1e400] to [inf] are
    not modelled; the spellings of infinity and NaN give [NonFinite].

    The theorem is the round trip with the way Python writes a float in
    a list ([str] of a list of floats, the format the data is stored
    in): a sign, digits, a fraction and an exponent, with any white
    space around, parse back to their value. *)

From S2P Require Import Prelude PyStr.
From Stdlib Require Import Ascii QArith Qcanon Qpower.
Close Scope Qc_scope.
Close Scope Q_scope.
Local Open Scope string_scope.
Local Open Scope picker_scope.

(** ** The parser *)

Inductive pyfloat := Finite (q : Qc) | NonFinite.

(** [c.isspace()] for an ASCII character: [\t \n \v \f \r], the
    separators [\x1c]-[\x1f] and the blank. *)
Definition is_space (c : ascii) : bool :=
  let n := nat_of_ascii c in bool_decide ((9 <= n <= 13) \/ (28 <= n <= 32))%nat.

Fixpoint lstrip (s : string) : string :=
  match s with
  | String c s' => if is_space c then lstrip s' else s
  | EmptyString => EmptyString
  end.

Fixpoint rstrip (s : string) : string :=
  match s with
  | EmptyString => EmptyString
  | String c s' =>
      let r := rstrip s' in
      if is_space c && bool_decide (r = EmptyString) then EmptyString else String c r
  end.

Definition py_strip (s : string) : string := rstrip (lstrip s).

Definition is_digit (c : ascii) : bool := bool_decide (48 <= nat_of_ascii c <= 57)%nat.
Definition digit_val (c : ascii) : Z := (Z.of_nat (nat_of_ascii c) - 48)%Z.

(** A run of digits with single underscores between digits: the value
    accumulated onto [acc], the number of digits added to [n], and the
    rest of the string. *)
Fixpoint digitpart (s : string) (acc : Z) (n : nat) : Z * nat * string :=
  match s with
  | String c s' =>
      if is_digit c then digitpart s' (10 * acc + digit_val c)%Z (S n)
      else match s' with
           | String d s'' =>
               if bool_decide (c = "_"%char) && bool_decide (0 < n)%nat && is_digit d
               then digitpart s'' (10 * acc + digit_val d)%Z (S n)
               else (acc, n, s)
           | EmptyString => (acc, n, s)
           end
  | EmptyString => (acc, n, s)
  end.

Definition py_sign (s : string) : bool * string :=
  match s with
  | String "-"%char s' => (true, s')
  | String "+"%char s' => (false, s')
  | _ => (false, s)
  end.

Definition is_inf_or_nan (s : string) : bool :=
  bool_decide (str_map ascii_lower s ∈ ["inf"; "infinity"; "nan"]).

(** The fraction after the point: its digits continue the mantissa. *)
Definition fraction (s : string) (m : Z) : Z * nat * string :=
  match s with
  | String "."%char s' => digitpart s' m 0
  | _ => (m, 0%nat, s)
  end.

(** The exponent, [0] when there is none; [None] for an [e] without
    digits. *)
Definition exponent (s : string) : option (Z * string) :=
  match s with
  | String c s' =>
      if bool_decide (c = "e"%char \/ c = "E"%char) then
        let '(neg, s1) := py_sign s' in
        let '(e, ne, s2) := digitpart s1 0 0 in
        if bool_decide (ne = 0%nat) then None else Some ((if neg then - e else e)%Z, s2)
      else Some (0%Z, s)
  | EmptyString => Some (0%Z, EmptyString)
  end.

(** The number [+-m * 10^(e - f)]. *)
Definition dec_q (neg : bool) (m : Z) (f : nat) (e : Z) : Qc :=
  let q := Q2Qc (inject_Z m * Qpower (inject_Z 10) (e - Z.of_nat f)) in
  if neg then Qcopp q else q.

(** [float(x)] for a [str]; [None] is the [ValueError]. *)
Definition py_float (x : string) : option pyfloat :=
  let '(neg, s1) := py_sign (py_strip x) in
  if is_inf_or_nan s1 then Some NonFinite else
  let '(m0, n1, s2) := digitpart s1 0 0 in
  let '(m, f, s3) := fraction s2 m0 in
  if bool_decide (n1 + f = 0)%nat then None else
  match exponent s3 with
  | Some (e, EmptyString) => Some (Finite (dec_q neg m f e))
  | _ => None
  end.

(** ** How Python writes a float *)

Definition digit_char (k : nat) : ascii := ascii_of_nat (48 + k).
Arguments digit_char : simpl never.

Fixpoint digit_str (ds : list nat) : string :=
  match ds with
  | [] => EmptyString
  | k :: ds' => String (digit_char k) (digit_str ds')
  end.

(** The value of a digit sequence, after the digits already read. *)
Definition horner (ds : list nat) (acc : Z) : Z :=
  fold_left (fun a k => 10 * a + Z.of_nat k)%Z ds acc.

(** A decimal literal: sign, integer digits, fraction digits, exponent
    with its sign. *)
Record decimal := mk_decimal {
  dec_neg : bool;
  dec_int : list nat;
  dec_frac : list nat;
  dec_exp : option (bool * list nat)
}.

Definition exp_digits (d : decimal) : list nat :=
  match dec_exp d with Some (_, eds) => eds | None => [] end.

Definition dec_wf (d : decimal) : Prop :=
  (dec_int d ++ dec_frac d)%list <> [] /\
  Forall (fun k => k < 10) (dec_int d ++ dec_frac d ++ exp_digits d)%list /\
  (match dec_exp d with Some (_, eds) => eds <> [] | None => True end).

#[export] Instance dec_wf_dec d : Decision (dec_wf d).
Proof. unfold dec_wf. destruct (dec_exp d) as [[? ?]|]; apply _. Defined.

Definition frac_str (d : decimal) : string :=
  match dec_frac d with [] => "" | _ => String "." (digit_str (dec_frac d)) end.

Definition exp_str (d : decimal) : string :=
  match dec_exp d with
  | None => ""
  | Some (en, eds) => String "e" ((if en then "-" else "+") +:+ digit_str eds)
  end.

(** The literal after its sign. *)
Definition dec_body (d : decimal) : string :=
  digit_str (dec_int d) +:+ frac_str d +:+ exp_str d.

Definition dec_str (d : decimal) : string :=
  (if dec_neg d then "-" else "") +:+ dec_body d.

Definition dec_exp_val (d : decimal) : Z :=
  match dec_exp d with
  | Some (en, eds) => if en then (- horner eds 0)%Z else horner eds 0
  | None => 0%Z
  end.

Definition dec_value (d : decimal) : Qc :=
  dec_q (dec_neg d) (horner (dec_int d ++ dec_frac d)%list 0) (length (dec_frac d)) (dec_exp_val d).

(** White space: every character a space. *)
Fixpoint all_space (w : string) : bool :=
  match w with
  | EmptyString => true
  | String c w' => is_space c && all_space w'
  end.

Definition head_nonspace (s : string) : bool :=
  match s with String c _ => negb (is_space c) | EmptyString => false end.

Fixpoint ends_nonspace (s : string) : bool :=
  match s with
  | EmptyString => false
  | String c s' => if bool_decide (s' = EmptyString) then negb (is_space c) else ends_nonspace s'
  end.

(** The character after a run of digits ends it. *)
Definition stops_digits (s : string) : bool :=
  match s with
  | String c _ => negb (is_digit c) && negb (bool_decide (c = "_"%char))
  | EmptyString => true
  end.

Example py_float_examples :
  py_float " -2.5e-1 " = Some (Finite (dec_q true 25 1 (-1))) /\
  py_float "1_000.0" = Some (Finite (dec_q false 10000 1 0)) /\
  py_float "-Infinity" = Some NonFinite /\
  py_float "1__0" = None /\ py_float "." = None /\ py_float "1e" = None /\
  py_float "" = None /\ py_float "_1" = None /\ py_float ".5" = Some (Finite (dec_q false 5 1 0)).
Proof. vm_compute. repeat split. Qed.

(** ** Lemmas on the pieces *)

Lemma digit_char_props k :
  k < 10 ->
  is_digit (digit_char k) = true /\ digit_val (digit_char k) = Z.of_nat k /\
  is_space (digit_char k) = false.
Proof.
  intros Hk. unfold is_digit, digit_val, is_space, digit_char.
  rewrite nat_ascii_embedding by lia.
  split; [apply bool_decide_eq_true_2; lia|]. split; [lia|]. apply bool_decide_eq_false_2; lia.
Qed.

Lemma digitpart_digits ds rest acc n :
  Forall (fun k => k < 10) ds -> stops_digits rest = true ->
  digitpart (digit_str ds +:+ rest) acc n = (horner ds acc, (n + length ds)%nat, rest).
Proof.
  revert acc n. induction ds as [|k ds IH]; intros acc n Hds Hr.
  - rewrite str_app_nil_l, Nat.add_0_r. destruct rest as [|c r]; [done|].
    simpl in Hr. apply andb_prop in Hr as [Hd Hu]. apply negb_true_iff in Hd, Hu.
    simpl. rewrite Hd. destruct r; [done|]. by rewrite Hu.
  - apply Forall_cons in Hds as [Hk Hds]. destruct (digit_char_props k Hk) as (Hd & Hv & _).
    cbn [digit_str]. rewrite str_app_cons. cbn [digitpart]. rewrite Hd, Hv, IH by done.
    f_equal. f_equal. simpl. lia.
Qed.

Lemma horner_app ds1 ds2 acc : horner (ds1 ++ ds2) acc = horner ds2 (horner ds1 acc).
Proof. apply fold_left_app. Qed.

Lemma lstrip_app_space w s : all_space w = true -> lstrip (w +:+ s) = lstrip s.
Proof.
  induction w as [|c w IH]; [done|]. simpl. intros [Hc Hw]%andb_prop.
  rewrite ?str_app_cons. cbn [lstrip]. rewrite Hc. by apply IH.
Qed.

Lemma lstrip_nonspace s : head_nonspace s = true -> lstrip s = s.
Proof. destruct s as [|c s]; simpl; [done|]. by intros ->%negb_true_iff. Qed.

Lemma rstrip_space w : all_space w = true -> rstrip w = "".
Proof. induction w as [|c w IH]; [done|]. simpl. intros [-> Hw]%andb_prop. by rewrite IH. Qed.

Lemma rstrip_app_space a w : ends_nonspace a = true -> all_space w = true -> rstrip (a +:+ w) = a.
Proof.
  intros Ha Hw. induction a as [|c a IH]; [done|]. rewrite str_app_cons. cbn [rstrip].
  simpl in Ha. case_bool_decide as Hnil.
  - subst a. rewrite str_app_nil_l, rstrip_space by done. apply negb_true_iff in Ha. by rewrite Ha.
  - rewrite IH by done. rewrite (bool_decide_eq_false_2 (a = "")) by done. by rewrite andb_false_r.
Qed.

Lemma ends_nonspace_app a b : ends_nonspace b = true -> ends_nonspace (a +:+ b) = true.
Proof.
  intros Hb. induction a as [|c a IH]; [done|]. rewrite str_app_cons. simpl.
  case_bool_decide as E; [|done]. destruct a; [|discriminate]. rewrite str_app_nil_l in E. by subst b.
Qed.

Lemma digit_str_ends ds :
  ds <> [] -> Forall (fun k => k < 10) ds -> ends_nonspace (digit_str ds) = true.
Proof.
  induction ds as [|k ds IH]; intros Hne Hds; [done|]. apply Forall_cons in Hds as [Hk Hds].
  cbn [digit_str ends_nonspace]. case_bool_decide as E.
  - by destruct (digit_char_props k Hk) as (_ & _ & ->).
  - apply IH; [|done]. by intros ->.
Qed.

(** Stripping white space around a literal gives the literal back. *)
Lemma py_strip_around w1 s w2 :
  all_space w1 = true -> all_space w2 = true ->
  head_nonspace s = true -> ends_nonspace s = true ->
  py_strip (w1 +:+ s +:+ w2) = s.
Proof.
  intros H1 H2 Hh He. unfold py_strip. rewrite lstrip_app_space by done.
  rewrite lstrip_nonspace.
  - by apply rstrip_app_space.
  - destruct s; [done|]. by rewrite str_app_cons.
Qed.

(** ** The pieces of a printed literal *)

Lemma digit_char_cases k :
  k < 10 -> ascii_lower (digit_char k) <> "i"%char /\ ascii_lower (digit_char k) <> "n"%char /\
            py_sign (String (digit_char k) "") = (false, String (digit_char k) "").
Proof. intros Hk. do 10 (destruct k as [|k]; [vm_compute; split; [|split]; congruence|]). lia. Qed.

(** A literal after its sign starts with a digit or the point. *)
Lemma dec_body_shape d :
  dec_wf d ->
  exists c rest, dec_body d = String c rest /\
    ((exists k, k < 10 /\ c = digit_char k) \/ c = "."%char).
Proof.
  intros (Hne & Hf & _). unfold dec_body, frac_str. destruct (dec_int d) as [|k ks] eqn:Ei.
  - destruct (dec_frac d) as [|k ks]; [done|]. rewrite str_app_nil_l. eexists _, _.
    split; [by rewrite str_app_cons | by right].
  - simpl in Hf. apply Forall_cons in Hf as [Hk _]. cbn [digit_str]. rewrite str_app_cons.
    eexists _, _. split; [done|]. left. eauto.
Qed.

Lemma not_inf_or_nan c rest :
  ascii_lower c <> "i"%char -> ascii_lower c <> "n"%char -> is_inf_or_nan (String c rest) = false.
Proof.
  intros Hi Hn. unfold is_inf_or_nan. apply bool_decide_eq_false_2. cbn [str_map].
  rewrite !elem_of_cons, elem_of_nil. intros [H|[H|[H|[]]]]; injection H as H _; auto.
Qed.

Lemma dec_body_facts d :
  dec_wf d ->
  py_sign (dec_body d) = (false, dec_body d) /\ is_inf_or_nan (dec_body d) = false /\
  head_nonspace (dec_body d) = true.
Proof.
  intros Hwf. destruct (dec_body_shape d Hwf) as (c & rest & -> & [(k & Hk & ->) | ->]).
  - destruct (digit_char_cases k Hk) as (Hi & Hn & Hs).
    destruct (digit_char_props k Hk) as (_ & _ & Hsp).
    split; [|split]; [| by apply not_inf_or_nan | by cbn; rewrite Hsp].
    unfold py_sign in *. destruct (digit_char k) as [[] [] [] [] [] [] [] []]; try done;
      injection Hs; congruence.
  - split; [done|]. split; [by apply not_inf_or_nan; vm_compute|done].
Qed.

Lemma dec_sign_split d : dec_wf d -> py_sign (dec_str d) = (dec_neg d, dec_body d).
Proof.
  intros Hwf. unfold dec_str. destruct (dec_neg d); [done|].
  rewrite str_app_nil_l. apply dec_body_facts, Hwf.
Qed.

Lemma stops_exp d : stops_digits (exp_str d) = true.
Proof. unfold exp_str. by destruct (dec_exp d) as [[??]|]. Qed.

Lemma stops_frac_exp d : stops_digits (frac_str d +:+ exp_str d) = true.
Proof. unfold frac_str, exp_str. by destruct (dec_frac d), (dec_exp d) as [[??]|]. Qed.

Lemma fraction_dec d m :
  Forall (fun k => k < 10) (dec_frac d) ->
  fraction (frac_str d +:+ exp_str d) m = (horner (dec_frac d) m, length (dec_frac d), exp_str d).
Proof.
  intros Hf. unfold frac_str. destruct (dec_frac d) as [|k ks] eqn:E.
  - rewrite str_app_nil_l. unfold exp_str. by destruct (dec_exp d) as [[??]|].
  - rewrite str_app_cons. cbn [fraction]. by rewrite digitpart_digits by auto using stops_exp.
Qed.

Lemma exponent_dec d : dec_wf d -> exponent (exp_str d) = Some (dec_exp_val d, "").
Proof.
  intros (_ & Hf & He). unfold exp_str, dec_exp_val, exp_digits in *.
  destruct (dec_exp d) as [[en eds]|]; [|done].
  apply Forall_app in Hf as [_ [_ Hf]%Forall_app].
  cbn [exponent]. rewrite bool_decide_eq_true_2 by (left; done).
  replace (py_sign ((if en then "-" else "+") +:+ digit_str eds)) with (en, digit_str eds)
    by (by destruct en).
  rewrite <- (str_app_nil_r (digit_str eds)), digitpart_digits by done.
  rewrite bool_decide_eq_false_2 by (destruct eds; simpl; [done|lia]). by destruct en.
Qed.

Lemma dec_str_ends d : dec_wf d -> ends_nonspace (dec_str d) = true.
Proof.
  intros (Hne & Hf & He). apply Forall_app in Hf as [Hi Hf]. apply Forall_app in Hf as [Hfr Hx].
  unfold dec_str, dec_body, exp_str, frac_str, exp_digits in *.
  apply ends_nonspace_app. destruct (dec_exp d) as [[en eds]|].
  - do 2 apply ends_nonspace_app. cbn. rewrite bool_decide_eq_false_2.
    + apply ends_nonspace_app, digit_str_ends; done.
    + by destruct en.
  - rewrite str_app_nil_r. destruct (dec_frac d) as [|k ks].
    + rewrite str_app_nil_r. apply digit_str_ends; [|done]. intros E. apply Hne. by rewrite E.
    + apply ends_nonspace_app. cbn [ends_nonspace]. rewrite bool_decide_eq_false_2 by done.
      by apply digit_str_ends.
Qed.

Lemma dec_str_head d : dec_wf d -> head_nonspace (dec_str d) = true.
Proof.
  intros Hwf. unfold dec_str. destruct (dec_neg d); [done|].
  rewrite str_app_nil_l. apply dec_body_facts, Hwf.
Qed.

(** ** The round trip *)

(** [float()] reads back what Python writes: a decimal literal
    with a sign, integer digits, a fraction and an exponent, with any
    white space around it, converts to its value. *)
Theorem py_float_dec_str d w1 w2 :
  dec_wf d -> all_space w1 = true -> all_space w2 = true ->
  py_float (w1 +:+ dec_str d +:+ w2) = Some (Finite (dec_value d)).
Proof.
  intros Hwf H1 H2. pose proof Hwf as (Hne & Hf & _).
  apply Forall_app in Hf as [Hi [Hfr _]%Forall_app].
  unfold py_float. rewrite py_strip_around by auto using dec_str_head, dec_str_ends.
  rewrite dec_sign_split by done. destruct (dec_body_facts d Hwf) as (_ & -> & _).
  unfold dec_body. rewrite digitpart_digits by (done || apply stops_frac_exp).
  rewrite fraction_dec by done. rewrite bool_decide_eq_false_2.
  2: { intros E. apply Hne, length_zero_iff_nil. rewrite length_app. lia. }
  rewrite exponent_dec by done.
  unfold dec_value. by rewrite horner_app.
Qed.

(** ** Characters a literal never holds *)

(** The characters of a printed literal. *)
Definition lit_char (c : ascii) : bool :=
  is_digit c || bool_decide (c ∈ ["."; "e"; "-"; "+"]%char).

Lemma digit_str_free c ds :
  is_digit c = false -> Forall (fun k => k < 10) ds -> py_contains (String c "") (digit_str ds) = false.
Proof.
  intros Hc. induction ds as [|k ds IH]; intros Hds; [done|]. apply Forall_cons in Hds as [Hk Hds].
  cbn [digit_str]. rewrite py_contains_cons, prefix_char, IH by done. rewrite orb_false_r.
  apply bool_decide_eq_false_2. intros <-. destruct (digit_char_props k Hk) as (Hd & _). congruence.
Qed.

Lemma py_contains_char_cons c x s :
  py_contains (String c "") (String x s) = bool_decide (x = c) || py_contains (String c "") s.
Proof. by rewrite py_contains_cons, prefix_char. Qed.

Lemma py_contains_char_nil c : py_contains (String c "") "" = false.
Proof. reflexivity. Qed.

(** So splitting on a separator such as [','], ['['] or [']'] leaves a
    literal whole. *)
Lemma dec_str_free c d :
  dec_wf d -> lit_char c = false -> py_contains (String c "") (dec_str d) = false.
Proof.
  destruct d as [neg int frac ex]. intros (_ & Hf & _) Hc. apply orb_false_elim in Hc as [Hd Hl].
  apply Forall_app in Hf as [Hi [Hfr Hx]%Forall_app].
  assert (Hne : forall x, x ∈ ["."; "e"; "-"; "+"]%char -> bool_decide (x = c) = false).
  { intros x Hin. apply bool_decide_eq_false_2. intros ->. by apply bool_decide_eq_false_1 in Hl. }
  unfold dec_str, dec_body, frac_str, exp_str, exp_digits in *.
  simpl in *. destruct neg, frac, ex as [[[] eds]|]; cbv beta iota;
    repeat first [rewrite py_contains_char_app | rewrite py_contains_char_cons
                 | rewrite py_contains_char_nil | rewrite digit_str_free by done
                 | rewrite Hne by set_solver]; done.
Qed.

(** The form the pieces of a split list have: white space, then the
    literal. *)
Lemma py_float_padded d w :
  dec_wf d -> all_space w = true -> py_float (w +:+ dec_str d) = Some (Finite (dec_value d)).
Proof.
  intros Hd Hw. rewrite <- (str_app_nil_r (dec_str d)), <- str_app_assoc.
  rewrite str_app_assoc. by apply py_float_dec_str.
Qed.

Lemma dec_strs_free c ds :
  lit_char c = false -> Forall dec_wf ds ->
  Forall (fun x => py_contains (String c "") x = false) (map dec_str ds).
Proof.
  intros Hc Hds. apply Forall_map. eapply Forall_impl; [exact Hds|]. intros d Hd. by apply dec_str_free.
Qed.

Lemma mapM_py_float_padded w ds :
  all_space w = true -> Forall dec_wf ds ->
  mapM py_float (map (fun y => w +:+ y) (map dec_str ds)) = Some (map (fun d => Finite (dec_value d)) ds).
Proof.
  intros Hw Hds. induction Hds as [|d ds Hd Hds IH]; [done|]. simpl.
  by rewrite py_float_padded, IH.
Qed.
