(* ===== verification/Host.v ===== *)
(** * Host: the part of Maya's scene and of [maya.cmds] the picker uses

    The picker has no algorithm of its own apart from naming: each
    handler is a sequence of [cmds] calls.  This file models the host
    state those calls read and write, and each call as an operation of a
    state-and-exception monad [M]:

    - [scene]: the nodes of the scene graph by name ([gmap string node]),
      the selection, the nodes keyed so far, the depth of open undo
      chunks, and the keyboard modifier bits [cmds.getModifiers] reports;
    - [node]: a transform with its parent, its local translate / rotate /
      scale channels, the channels that are locked, its user-defined
      attributes in [listAttr(ud=True)] order, and how the rig drives
      its world transform ([drive]);
    - [M A = scene -> res A * scene]: a call returns a value or raises a
      Python exception; what it changed before raising stays changed, as
      in Python (there is no rollback).

    Matrices are left abstract behind the [XformAlgebra] interface: a
    group of transforms, composition of a matrix from the channels and
    its decomposition back, and the conversion of the flat list of
    sixteen floats [xform(matrix=...)] takes.  The handlers' theorems are
    proved against the interface; [TrsGroup] below is an instance
    (translations only) that makes concrete runs compute. *)

From S2P Require Import Prelude PyStr.
From Stdlib Require Import QArith Qcanon Ascii.
Close Scope Qc_scope.
Close Scope Q_scope.
Local Open Scope string_scope.

#[export] Instance Qc_eq_decision : EqDecision Qc := Qc_eq_dec.

(** ** Values and exceptions *)

Definition vec3 := (Qc * Qc * Qc)%type.

(** The local transform as Maya stores it: translate, rotate (Euler
    angles) and scale, three axes each. *)
Record trs := mk_trs { tr_t : vec3; tr_r : vec3; tr_s : vec3 }.

(** What [cmds.getAttr] returns: a float, a bool or a string. *)
Inductive value :=
| VNum (q : Qc)
| VBool (b : bool)
| VStr (s : string).

#[export] Instance value_eq_dec : EqDecision value.
Proof. solve_decision. Defined.

(** Python truthiness of a value ([if cmds.getAttr(...)]). *)
Definition py_truthy (v : value) : bool :=
  match v with
  | VNum q => bool_decide (q <> Q2Qc 0)
  | VBool b => b
  | VStr s => bool_decide (s <> "")
  end.

(** Python's [v == 0]: [False == 0] holds, a string is never [0]. *)
Definition py_eq_zero (v : value) : bool :=
  match v with
  | VNum q => bool_decide (q = Q2Qc 0)
  | VBool b => negb b
  | VStr _ => false
  end.

Definition vnum (z : Z) : value := VNum (Q2Qc (inject_Z z)).

(** The exceptions the calls raise: Maya's "No object matches name",
    a missing attribute, a locked or connected attribute, and Python's
    own errors. *)
Inductive exn :=
| NoObject (n : string)
| NoAttr (n a : string)
| Locked (n a : string)
| IndexError
| TypeError
| ValueError
| AttributeError
| RuntimeError.

(** ** Nodes and the scene *)

Record attr := mk_attr {
  at_value : value;
  at_default : list value;   (** [attributeQuery(listDefault=True)] *)
  at_locked : bool
}.

(** How the rig evaluates a node's world matrix: a free transform under
    its parent, or a two-target constraint switched by an attribute
    (the FK/IK blend of the skin joints: target [src0] while the switch
    reads 0, [src1] otherwise). *)
Inductive drive :=
| Free
| Blend (sw_node sw_attr src0 src1 : string).

#[export] Instance drive_eq_dec : EqDecision drive.
Proof. solve_decision. Defined.

Record node := mk_node {
  nd_parent : option string;
  nd_trs : trs;
  nd_locked : list string;            (** locked channels, e.g. ["sx"] *)
  nd_attrs : list (string * attr);    (** user-defined, listAttr order *)
  nd_drive : drive
}.

Record scene := mk_scene {
  sc_nodes : gmap string node;
  sc_sel : list string;
  sc_keyed : list string;
  sc_undo : nat;
  sc_mods : Z
}.

(** ** The monad *)

Inductive res (A : Type) :=
| Ok (a : A)
| Exc (e : exn).
Arguments Ok {A} a.
Arguments Exc {A} e.

Definition M (A : Type) := scene -> res A * scene.

Definition ret {A} (a : A) : M A := fun s => (Ok a, s).

Definition bind {A B} (c : M A) (k : A -> M B) : M B :=
  fun s => match c s with
           | (Ok a, s') => k a s'
           | (Exc e, s') => (Exc e, s')
           end.

Definition raise {A} (e : exn) : M A := fun s => (Exc e, s).

(** OCaml's binding operator for the monad; [let* _ := c in k] runs [c]
    for its effect. *)
Notation "'let*' x := c1 'in' c2" := (bind c1 (fun x => c2))
  (at level 10, x name, c1 at level 100, c2 at level 200) : picker_scope.
Local Open Scope picker_scope.

(** [try: c except: pass]. *)
Definition try_pass (c : M unit) : M unit :=
  fun s => (Ok tt, snd (c s)).

(** [try: c finally: fin]: [fin] runs on both paths; the body's outcome
    is the result unless [fin] itself raises. *)
Definition try_finally {A} (c : M A) (fin : M unit) : M A :=
  fun s => let '(r, s1) := c s in
           let '(r2, s2) := fin s1 in
           match r2 with
           | Exc e => (Exc e, s2)
           | Ok _ => (r, s2)
           end.

(** [for x in l: body x]: an exception leaves the loop. *)
Fixpoint for_ {A} (l : list A) (body : A -> M unit) : M unit :=
  match l with
  | [] => ret tt
  | x :: l' => let* _ := body x in for_ l' body
  end.

(** Read the scene without changing it. *)
Definition gets {A} (f : scene -> A) : M A := fun s => (Ok (f s), s).

Definition modify (f : scene -> scene) : M unit := fun s => (Ok tt, f s).

Definition run {A} (c : M A) (s : scene) : res A := fst (c s).
Definition exec {A} (c : M A) (s : scene) : scene := snd (c s).

(** ** Scene updates *)

Definition with_nodes (s : scene) (m : gmap string node) : scene :=
  mk_scene m (sc_sel s) (sc_keyed s) (sc_undo s) (sc_mods s).
Definition with_sel (s : scene) (l : list string) : scene :=
  mk_scene (sc_nodes s) l (sc_keyed s) (sc_undo s) (sc_mods s).
Definition with_keyed (s : scene) (l : list string) : scene :=
  mk_scene (sc_nodes s) (sc_sel s) l (sc_undo s) (sc_mods s).
Definition with_undo (s : scene) (d : nat) : scene :=
  mk_scene (sc_nodes s) (sc_sel s) (sc_keyed s) d (sc_mods s).

Definition set_trs (nd : node) (t : trs) : node :=
  mk_node (nd_parent nd) t (nd_locked nd) (nd_attrs nd) (nd_drive nd).
Definition set_attrs (nd : node) (l : list (string * attr)) : node :=
  mk_node (nd_parent nd) (nd_trs nd) (nd_locked nd) l (nd_drive nd).

(** ** Channels [tx] ... [sz] *)

Inductive axis := AX | AY | AZ.

Definition v_get (v : vec3) (i : axis) : Qc :=
  let '(x, y, z) := v in match i with AX => x | AY => y | AZ => z end.
Definition v_set (v : vec3) (i : axis) (q : Qc) : vec3 :=
  let '(x, y, z) := v in
  match i with AX => (q, y, z) | AY => (x, q, z) | AZ => (x, y, q) end.

Inductive chan_kind := KT | KR | KS.

(** The channel a short attribute name such as ["rz"] denotes. *)
Definition chan_of_name (a : string) : option (chan_kind * axis) :=
  match a with
  | String k (String x EmptyString) =>
      let kind := match k with
                  | "t"%char => Some KT | "r"%char => Some KR | "s"%char => Some KS
                  | _ => None end in
      let ax := match x with
                | "x"%char => Some AX | "y"%char => Some AY | "z"%char => Some AZ
                | _ => None end in
      match kind, ax with Some k', Some x' => Some (k', x') | _, _ => None end
  | _ => None
  end.

Definition trs_get (t : trs) (k : chan_kind) (i : axis) : Qc :=
  v_get (match k with KT => tr_t t | KR => tr_r t | KS => tr_s t end) i.
Definition trs_set (t : trs) (k : chan_kind) (i : axis) (q : Qc) : trs :=
  match k with
  | KT => mk_trs (v_set (tr_t t) i q) (tr_r t) (tr_s t)
  | KR => mk_trs (tr_t t) (v_set (tr_r t) i q) (tr_s t)
  | KS => mk_trs (tr_t t) (tr_r t) (v_set (tr_s t) i q)
  end.

(** [setAttr] converts the value to the attribute's type: numbers and
    booleans convert into each other, strings only into strings. *)
Definition coerce (old new : value) : option value :=
  match old, new with
  | VNum _, VNum q => Some (VNum q)
  | VNum _, VBool b => Some (vnum (if b then 1 else 0))
  | VBool _, VBool b => Some (VBool b)
  | VBool _, VNum q => Some (VBool (bool_decide (q <> Q2Qc 0)))
  | VStr _, VStr t => Some (VStr t)
  | _, _ => None
  end.

(** ** The calls that do not involve matrices *)

Definition get_node (n : string) : M node :=
  fun s => match sc_nodes s !! n with
           | Some nd => (Ok nd, s)
           | None => (Exc (NoObject n), s)
           end.

Definition put_node (n : string) (nd : node) : M unit :=
  modify (fun s => with_nodes s (<[n := nd]> (sc_nodes s))).

(** [cmds.getAttr('{n}.{a}')]. *)
Definition getAttr (n a : string) : M value :=
  let* nd := get_node n in
  match chan_of_name a with
  | Some (k, i) => ret (VNum (trs_get (nd_trs nd) k i))
  | None =>
      match assoc_get a (nd_attrs nd) with
      | Some att => ret (at_value att)
      | None => raise (NoAttr n a)
      end
  end.

(** [cmds.setAttr('{n}.{a}', v)]: fails on a locked attribute and on a
    value of the wrong type. *)
Definition setAttr (n a : string) (v : value) : M unit :=
  let* nd := get_node n in
  match chan_of_name a with
  | Some (k, i) =>
      if decide (a ∈ nd_locked nd) then raise (Locked n a) else
      match coerce (VNum (trs_get (nd_trs nd) k i)) v with
      | Some (VNum q) => put_node n (set_trs nd (trs_set (nd_trs nd) k i q))
      | _ => raise TypeError
      end
  | None =>
      match assoc_get a (nd_attrs nd) with
      | None => raise (NoAttr n a)
      | Some att =>
          if at_locked att then raise (Locked n a) else
          match coerce (at_value att) v with
          | Some v' => put_node n (set_attrs nd
                         (assoc_set a (mk_attr v' (at_default att) (at_locked att)) (nd_attrs nd)))
          | None => raise TypeError
          end
      end
  end.

(** [cmds.listAttr(n, userDefined=True)], [[]] standing for [None]. *)
Definition listAttr_ud (n : string) : M (list string) :=
  let* nd := get_node n in ret (map fst (nd_attrs nd)).

(** [cmds.attributeQuery(a, node=n, listDefault=True)]. *)
Definition attributeQuery_default (a n : string) : M (list value) :=
  let* nd := get_node n in
  match assoc_get a (nd_attrs nd) with
  | Some att => ret (at_default att)
  | None => raise (NoAttr n a)
  end.

(** [cmds.attributeQuery(a, node=n, exists=True)]. *)
Definition attributeQuery_exists (a n : string) : M bool :=
  let* nd := get_node n in
  ret (bool_decide (is_Some (chan_of_name a)) || bool_decide (is_Some (assoc_get a (nd_attrs nd)))).

(** [cmds.ls(selection=True)]. *)
Definition ls_selection : M (list string) := gets sc_sel.

(** [cmds.getModifiers()]. *)
Definition getModifiers : M Z := gets sc_mods.

(** [cmds.undoInfo(openChunk=True)] and [closeChunk=True]. *)
Definition undo_open : M unit := modify (fun s => with_undo s (S (sc_undo s))).
Definition undo_close : M unit := modify (fun s => with_undo s (pred (sc_undo s))).

(** Every name must exist: Maya raises on the first missing one. *)
Fixpoint check_exist (l : list string) : M unit :=
  match l with
  | [] => ret tt
  | n :: l' => let* _ := get_node n in check_exist l'
  end.

(** [cmds.select(l)], [cmds.select(l, add=True)] and
    [cmds.select(l, deselect=True)]. *)
Definition select_replace (l : list string) : M unit :=
  let* _ := check_exist l in modify (fun s => with_sel s (remove_dups l)).
Definition select_add (l : list string) : M unit :=
  let* _ := check_exist l in
  modify (fun s => with_sel s (sc_sel s ++ remove_dups (filter (fun x => x ∉ sc_sel s) l))).
Definition select_deselect (l : list string) : M unit :=
  let* _ := check_exist l in
  modify (fun s => with_sel s (filter (fun x => x ∉ l) (sc_sel s))).

(** [cmds.setKeyframe(l)]. *)
Definition setKeyframe (l : list string) : M unit :=
  let* _ := check_exist l in modify (fun s => with_keyed s (sc_keyed s ++ l)).

(** ** Matrices: the interface the handlers rely on *)

(** What the picker needs of Maya's 4x4 transforms: they form a group,
    a matrix is composed from the nine channels and decomposed back into
    channels that compose to it again (no shear), and the flat list of
    floats [xform(matrix=...)] accepts has sixteen entries. *)
Class XformAlgebra := {
  mat : Type;
  mat_mul : mat -> mat -> mat;
  mat_inv : mat -> mat;
  mat_id : mat;
  compose : trs -> mat;
  decompose : mat -> trs;
  mat_of_floats : list Qc -> option mat;
  mat_mul_assoc a b c : mat_mul a (mat_mul b c) = mat_mul (mat_mul a b) c;
  mat_mul_id_l a : mat_mul mat_id a = a;
  mat_mul_inv_r a : mat_mul a (mat_inv a) = mat_id;
  compose_decompose m : compose (decompose m) = m;
  mat_of_floats_some l : is_Some (mat_of_floats l) <-> length l = 16
}.

Section Matrices.
Context `{XA : XformAlgebra}.

(** The world matrix of a node: the parent's world matrix times the
    local one, or, for a constrained node, the world matrix of the
    target its switch attribute selects.  [fuel] bounds the length of
    the dependency chain (a cycle evaluates to [None]). *)
Fixpoint world_fuel (fuel : nat) (nodes : gmap string node) (n : string) : option mat :=
  match fuel with
  | O => None
  | S f =>
      match nodes !! n with
      | None => None
      | Some nd =>
          match nd_drive nd with
          | Free =>
              match nd_parent nd with
              | None => Some (compose (nd_trs nd))
              | Some p => (fun w => mat_mul w (compose (nd_trs nd))) <$> world_fuel f nodes p
              end
          | Blend sw a src0 src1 =>
              match nodes !! sw with
              | None => None
              | Some swn =>
                  match assoc_get a (nd_attrs swn) with
                  | None => None
                  | Some att => world_fuel f nodes (if py_eq_zero (at_value att) then src0 else src1)
                  end
              end
          end
      end
  end.

(** A dependency chain visits each node at most once, so the number of
    nodes is enough fuel for an acyclic scene. *)
Definition world (s : scene) (n : string) : option mat :=
  world_fuel (size (sc_nodes s)) (sc_nodes s) n.

Definition world_of (n : string) : M mat :=
  fun s => match world s n with
           | Some w => (Ok w, s)
           | None => (Exc RuntimeError, s)
           end.

(** [cmds.xform(n, query=True, objectSpace=True, matrix=True)]. *)
Definition xform_get_matrix_os (n : string) : M mat :=
  let* nd := get_node n in ret (compose (nd_trs nd)).

(** [cmds.xform(n, objectSpace=True, matrix=m)]: the channels become the
    decomposition of [m]. *)
Definition xform_set_matrix_os (n : string) (m : mat) : M unit :=
  let* nd := get_node n in put_node n (set_trs nd (decompose m)).

(** The same with a list of floats, as [bind_pose] passes it. *)
Definition xform_set_floats_os (n : string) (l : list Qc) : M unit :=
  match mat_of_floats l with
  | Some m => xform_set_matrix_os n m
  | None => let* _ := get_node n in raise RuntimeError
  end.

(** [cmds.xform(n, query=True, worldSpace=True, matrix=True)]. *)
Definition xform_get_matrix_ws (n : string) : M mat :=
  let* _ := get_node n in world_of n.

(** [cmds.xform(n, worldSpace=True, matrix=m)]: the local channels are
    chosen so that the parent's world matrix times them is [m]. *)
Definition xform_set_matrix_ws (n : string) (m : mat) : M unit :=
  let* nd := get_node n in
  match nd_parent nd with
  | None => put_node n (set_trs nd (decompose m))
  | Some p =>
      let* wp := world_of p in
      put_node n (set_trs nd (decompose (mat_mul (mat_inv wp) m)))
  end.

End Matrices.

(** [cmds.xform(n, query=True, objectSpace=True, translation=True)] and
    [rotation=True], and the corresponding edits. *)
Definition xform_get_t (n : string) : M vec3 :=
  let* nd := get_node n in ret (tr_t (nd_trs nd)).
Definition xform_get_r (n : string) : M vec3 :=
  let* nd := get_node n in ret (tr_r (nd_trs nd)).
Definition xform_set_t (n : string) (v : vec3) : M unit :=
  let* nd := get_node n in
  put_node n (set_trs nd (mk_trs v (tr_r (nd_trs nd)) (tr_s (nd_trs nd)))).
Definition xform_set_r (n : string) (v : vec3) : M unit :=
  let* nd := get_node n in
  put_node n (set_trs nd (mk_trs (tr_t (nd_trs nd)) v (tr_s (nd_trs nd)))).

(** ** The hierarchy: [cmds.listRelatives(g, allDescendents=True)] *)

Fixpoint ancestors_fuel (fuel : nat) (nodes : gmap string node) (n : string) : list string :=
  match fuel with
  | O => []
  | S f =>
      match nodes !! n with
      | Some nd =>
          match nd_parent nd with
          | Some p => p :: ancestors_fuel f nodes p
          | None => []
          end
      | None => []
      end
  end.

Definition ancestors (s : scene) (n : string) : list string :=
  ancestors_fuel (size (sc_nodes s)) (sc_nodes s) n.

(** The nodes below [g], in the map's key order ([None] when there is
    none, as Maya returns [None]). *)
Definition descendants (s : scene) (g : string) : list string :=
  filter (fun n => g ∈ ancestors s n) (map fst (map_to_list (sc_nodes s))).

Definition listRelatives_ad (g : string) : M (option (list string)) :=
  let* _ := get_node g in
  let* ds := gets (fun s => descendants s g) in
  ret (match ds with [] => None | _ => Some ds end).

(** Iterating over Python's [None] raises [TypeError]. *)
Definition iter_list {A} (o : option (list A)) : M (list A) :=
  match o with
  | Some l => ret l
  | None => raise TypeError
  end.

(** [try: ... finally: cmds.undoInfo(closeChunk=True)] after opening a
    chunk: the bracket every handler of [picker.py] puts around its
    body. *)
Definition undo_chunk {A} (body : M A) : M A :=
  let* _ := undo_open in try_finally body undo_close.

(** ** Reasoning about the monad *)

Lemma bind_ok {A B} (c : M A) (k : A -> M B) s a s' :
  c s = (Ok a, s') -> bind c k s = k a s'.
Proof. unfold bind. by intros ->. Qed.

Lemma bind_exc {A B} (c : M A) (k : A -> M B) s e s' :
  c s = (Exc e, s') -> bind c k s = (Exc e, s').
Proof. unfold bind. by intros ->. Qed.

Lemma for_cons {A} (x : A) l (body : A -> M unit) :
  for_ (x :: l) body = bind (body x) (fun _ => for_ l body).
Proof. reflexivity. Qed.

Lemma for_app {A} (l1 l2 : list A) (body : A -> M unit) s :
  for_ (l1 ++ l2) body s = bind (for_ l1 body) (fun _ => for_ l2 body) s.
Proof.
  revert s. induction l1 as [|x l1 IH]; intros s; [done|]. simpl. unfold bind at 1 2 3.
  destruct (body x s) as [[a|e] s']; [|done]. apply IH.
Qed.

(** A computation leaves the part [f] of the scene unchanged, on every
    path, the raising ones included. *)
Definition preserves {X A} (f : scene -> X) (c : M A) : Prop :=
  forall s, f (exec c s) = f s.

Section Preserves.
Context {X : Type} (f : scene -> X).

Lemma preserves_ret {A} (a : A) : preserves f (ret a).
Proof. done. Qed.

Lemma preserves_raise {A} e : preserves f (@raise A e).
Proof. done. Qed.

Lemma preserves_gets {A} (g : scene -> A) : preserves f (gets g).
Proof. done. Qed.

Lemma preserves_bind {A B} (c : M A) (k : A -> M B) :
  preserves f c -> (forall a, preserves f (k a)) -> preserves f (bind c k).
Proof.
  intros Hc Hk s. specialize (Hc s). unfold exec, bind in *.
  destruct (c s) as [[a|e] s'] eqn:E; simpl in *; [|done].
  rewrite <- Hc. apply Hk.
Qed.

Lemma preserves_for {A} (l : list A) body :
  (forall x, preserves f (body x)) -> preserves f (for_ l body).
Proof. intros H. induction l; simpl; [done|]. by apply preserves_bind. Qed.

Lemma preserves_try_pass c : preserves f c -> preserves f (try_pass c).
Proof. intros H s. apply H. Qed.

Lemma preserves_try_finally {A} (c : M A) fin :
  preserves f c -> preserves f fin -> preserves f (try_finally c fin).
Proof.
  intros Hc Hf s. unfold exec, try_finally. specialize (Hc s). unfold exec in Hc.
  destruct (c s) as [r s1]. simpl in Hc. specialize (Hf s1). unfold exec in Hf.
  destruct (fin s1) as [[] s2]; simpl in *; congruence.
Qed.

Lemma preserves_get_node n : preserves f (get_node n).
Proof. intros s. unfold exec, get_node. by destruct (sc_nodes s !! n). Qed.

Lemma preserves_iter_list {A} (o : option (list A)) : preserves f (iter_list o).
Proof. by destruct o. Qed.

End Preserves.

#[export] Hint Resolve preserves_ret preserves_raise preserves_gets preserves_bind
  preserves_for preserves_try_pass preserves_try_finally preserves_get_node
  preserves_iter_list : picker.

(** The undo depth changes only through [undo_open] and [undo_close]. *)
Lemma put_node_undo n nd : preserves sc_undo (put_node n nd).
Proof. done. Qed.

Lemma modify_sel_undo g : preserves sc_undo (modify (fun s => with_sel s (g s))).
Proof. done. Qed.

Lemma modify_keyed_undo g : preserves sc_undo (modify (fun s => with_keyed s (g s))).
Proof. done. Qed.

Lemma world_of_undo `{XformAlgebra} n : preserves sc_undo (world_of n).
Proof. intros s. unfold exec, world_of. by destruct (world s n). Qed.

Lemma put_node_sel n nd : preserves sc_sel (put_node n nd).
Proof. done. Qed.

Lemma modify_keyed_sel g : preserves sc_sel (modify (fun s => with_keyed s (g s))).
Proof. done. Qed.

#[export] Hint Resolve put_node_undo modify_sel_undo modify_keyed_undo world_of_undo
  put_node_sel modify_keyed_sel : picker.

(** The structural part of a frame proof: follow binds, loops, [try]
    and the branches of the code, and close the leaves from the hint
    database. *)
Ltac solve_preserves :=
  repeat (match goal with
    | |- preserves _ (bind _ _) => apply preserves_bind
    | |- preserves _ (for_ _ _) => apply preserves_for
    | |- preserves _ (try_pass _) => apply preserves_try_pass
    | |- preserves _ (try_finally _ _) => apply preserves_try_finally
    | |- preserves _ (match ?x with _ => _ end) => destruct x
    | |- preserves _ (if ?b then _ else _) => destruct b
    | |- preserves _ _ => solve [eauto with picker]
    | |- forall _, preserves _ _ => intro
    end).

Section UndoFrame.
Context `{XformAlgebra}.

Lemma getAttr_undo n a : preserves sc_undo (getAttr n a).
Proof. unfold getAttr. solve_preserves. Qed.
Lemma setAttr_undo n a v : preserves sc_undo (setAttr n a v).
Proof. unfold setAttr. solve_preserves. Qed.
Lemma listAttr_ud_undo n : preserves sc_undo (listAttr_ud n).
Proof. unfold listAttr_ud. solve_preserves. Qed.
Lemma attributeQuery_default_undo a n : preserves sc_undo (attributeQuery_default a n).
Proof. unfold attributeQuery_default. solve_preserves. Qed.
Lemma attributeQuery_exists_undo a n : preserves sc_undo (attributeQuery_exists a n).
Proof. unfold attributeQuery_exists. solve_preserves. Qed.
Lemma check_exist_undo l : preserves sc_undo (check_exist l).
Proof. induction l; simpl; solve_preserves. Qed.
Lemma select_replace_undo l : preserves sc_undo (select_replace l).
Proof. unfold select_replace. pose proof check_exist_undo. solve_preserves. Qed.
Lemma select_add_undo l : preserves sc_undo (select_add l).
Proof. unfold select_add. pose proof check_exist_undo. solve_preserves. Qed.
Lemma select_deselect_undo l : preserves sc_undo (select_deselect l).
Proof. unfold select_deselect. pose proof check_exist_undo. solve_preserves. Qed.
Lemma setKeyframe_undo l : preserves sc_undo (setKeyframe l).
Proof. unfold setKeyframe. pose proof check_exist_undo. solve_preserves. Qed.
Lemma xform_get_matrix_os_undo n : preserves sc_undo (xform_get_matrix_os n).
Proof. unfold xform_get_matrix_os. solve_preserves. Qed.
Lemma xform_set_matrix_os_undo n m : preserves sc_undo (xform_set_matrix_os n m).
Proof. unfold xform_set_matrix_os. solve_preserves. Qed.
Lemma xform_set_floats_os_undo n l : preserves sc_undo (xform_set_floats_os n l).
Proof. unfold xform_set_floats_os. pose proof xform_set_matrix_os_undo. solve_preserves. Qed.
Lemma xform_get_matrix_ws_undo n : preserves sc_undo (xform_get_matrix_ws n).
Proof. unfold xform_get_matrix_ws. solve_preserves. Qed.
Lemma xform_set_matrix_ws_undo n m : preserves sc_undo (xform_set_matrix_ws n m).
Proof. unfold xform_set_matrix_ws. solve_preserves. Qed.
Lemma xform_get_t_undo n : preserves sc_undo (xform_get_t n).
Proof. unfold xform_get_t. solve_preserves. Qed.
Lemma xform_get_r_undo n : preserves sc_undo (xform_get_r n).
Proof. unfold xform_get_r. solve_preserves. Qed.
Lemma xform_set_t_undo n v : preserves sc_undo (xform_set_t n v).
Proof. unfold xform_set_t. solve_preserves. Qed.
Lemma xform_set_r_undo n v : preserves sc_undo (xform_set_r n v).
Proof. unfold xform_set_r. solve_preserves. Qed.
Lemma listRelatives_ad_undo g : preserves sc_undo (listRelatives_ad g).
Proof. unfold listRelatives_ad. solve_preserves. Qed.

End UndoFrame.

#[export] Hint Resolve getAttr_undo setAttr_undo listAttr_ud_undo attributeQuery_default_undo
  attributeQuery_exists_undo check_exist_undo select_replace_undo select_add_undo
  select_deselect_undo setKeyframe_undo xform_get_matrix_os_undo xform_set_matrix_os_undo
  xform_set_floats_os_undo xform_get_matrix_ws_undo xform_set_matrix_ws_undo
  xform_get_t_undo xform_get_r_undo xform_set_t_undo xform_set_r_undo
  listRelatives_ad_undo : picker.

(** The bracket: after [undo_chunk body], whatever [body] did, raised
    exceptions included, the undo depth is back where it was, provided
    the body itself opens and closes nothing. *)
Lemma undo_chunk_depth {A} (body : M A) s :
  preserves sc_undo body -> sc_undo (exec (undo_chunk body) s) = sc_undo s.
Proof.
  intros Hb. unfold undo_chunk, exec, bind, undo_open, modify, try_finally. simpl.
  specialize (Hb (with_undo s (S (sc_undo s)))). unfold exec in Hb.
  destruct (body _) as [r s1]. simpl in *. by rewrite Hb.
Qed.

(** (C11) The undo bracket of [picker.py] restores the undo depth on every
    path, an exception raised by the body included, provided the body
    opens and closes no chunk itself. *)
Theorem undo_chunk_balanced {A} (body : M A) s :
  preserves sc_undo body -> sc_undo (exec (undo_chunk body) s) = sc_undo s.
Proof. apply undo_chunk_depth. Qed.

(** ... and the outcome of the bracket is the body's, exceptions
    included: the bracket neither swallows nor raises anything. *)
Theorem undo_chunk_result {A} (body : M A) s :
  run (undo_chunk body) s = run body (with_undo s (S (sc_undo s))).
Proof.
  unfold undo_chunk, run, bind, undo_open, modify, try_finally. simpl.
  by destruct (body _).
Qed.

(** ** A concrete instance of the interface

    Transforms are the channel triples themselves, composed by adding
    each channel: a group in which every law holds with Leibniz equality
    (Qc is normalised).  It is not Maya's matrix algebra; it is there so
    that the handlers run on concrete scenes.  Sixteen floats are read as
    a row-major matrix whose last row holds the translation. *)
Module TrsGroup.
Local Open Scope Qc_scope.

Definition v_add (a b : vec3) : vec3 :=
  let '(x, y, z) := a in let '(x', y', z') := b in (x + x', y + y', z + z').
Definition v_opp (a : vec3) : vec3 := let '(x, y, z) := a in (- x, - y, - z).
Definition v_zero : vec3 := (0, 0, 0).

Definition t_mul (a b : trs) : trs :=
  mk_trs (v_add (tr_t a) (tr_t b)) (v_add (tr_r a) (tr_r b)) (v_add (tr_s a) (tr_s b)).
Definition t_inv (a : trs) : trs := mk_trs (v_opp (tr_t a)) (v_opp (tr_r a)) (v_opp (tr_s a)).
Definition t_id : trs := mk_trs v_zero v_zero v_zero.

Definition t_of_floats (l : list Qc) : option trs :=
  if decide (length l = 16)%nat then
    match l !! 12%nat, l !! 13%nat, l !! 14%nat with
    | Some x, Some y, Some z => Some (mk_trs (x, y, z) v_zero v_zero)
    | _, _, _ => None
    end
  else None.

Lemma v_add_assoc a b c : v_add a (v_add b c) = v_add (v_add a b) c.
Proof. destruct a as [[]], b as [[]], c as [[]]. simpl. by rewrite !Qcplus_assoc. Qed.
Lemma v_add_zero_l a : v_add v_zero a = a.
Proof. destruct a as [[]]. simpl. by rewrite !Qcplus_0_l. Qed.
Lemma v_add_opp_r a : v_add a (v_opp a) = v_zero.
Proof. destruct a as [[]]. simpl. by rewrite !Qcplus_opp_r. Qed.

Lemma t_of_floats_some l : is_Some (t_of_floats l) <-> length l = 16%nat.
Proof.
  unfold t_of_floats. split; [by case_decide; [|intros []]|].
  intros Hl. rewrite decide_True by done.
  destruct (lookup_lt_is_Some_2 l 12) as [x ->]; [lia|].
  destruct (lookup_lt_is_Some_2 l 13) as [y ->]; [lia|].
  destruct (lookup_lt_is_Some_2 l 14) as [z ->]; [lia|]. by eexists.
Qed.

#[export] Program Instance trs_algebra : XformAlgebra := {
  mat := trs; mat_mul := t_mul; mat_inv := t_inv; mat_id := t_id;
  compose := fun t => t; decompose := fun m => m; mat_of_floats := t_of_floats }.
Next Obligation. intros. unfold t_mul. simpl. by rewrite !v_add_assoc. Qed.
Next Obligation. destruct a. unfold t_mul, t_id. cbn [tr_t tr_r tr_s]. by rewrite !v_add_zero_l. Qed.
Next Obligation. destruct a. unfold t_mul, t_inv, t_id. cbn [tr_t tr_r tr_s]. by rewrite !v_add_opp_r. Qed.
Next Obligation. apply t_of_floats_some. Qed.

End TrsGroup.

(** ** Running the calls on a known scene *)

(** Observations of the scene the theorems speak about. *)
Definition local_trs (s : scene) (n : string) : option trs := nd_trs <$> sc_nodes s !! n.

Definition local_matrix `{XformAlgebra} (s : scene) (n : string) : option mat :=
  (fun nd => compose (nd_trs nd)) <$> sc_nodes s !! n.

Definition attr_value (s : scene) (n a : string) : option value :=
  nd ← sc_nodes s !! n; at_value <$> assoc_get a (nd_attrs nd).

Section Run.
Context `{XA : XformAlgebra}.
Implicit Types (s : scene) (n : string) (nd : node).

Lemma get_node_ok s n nd : sc_nodes s !! n = Some nd -> get_node n s = (Ok nd, s).
Proof. unfold get_node. by intros ->. Qed.

Lemma get_node_none s n : sc_nodes s !! n = None -> get_node n s = (Exc (NoObject n), s).
Proof. unfold get_node. by intros ->. Qed.

Lemma put_node_run s n nd :
  put_node n nd s = (Ok tt, with_nodes s (<[n := nd]> (sc_nodes s))).
Proof. reflexivity. Qed.

Lemma getAttr_user s n a nd att :
  sc_nodes s !! n = Some nd -> chan_of_name a = None -> assoc_get a (nd_attrs nd) = Some att ->
  getAttr n a s = (Ok (at_value att), s).
Proof. intros Hn Ha Hat. unfold getAttr, bind. by rewrite get_node_ok with (nd := nd), Ha, Hat. Qed.

Lemma setAttr_user s n a v v' nd att :
  sc_nodes s !! n = Some nd -> chan_of_name a = None -> assoc_get a (nd_attrs nd) = Some att ->
  at_locked att = false -> coerce (at_value att) v = Some v' ->
  setAttr n a v s = (Ok tt, with_nodes s (<[n := set_attrs nd
      (assoc_set a (mk_attr v' (at_default att) (at_locked att)) (nd_attrs nd))]> (sc_nodes s))).
Proof.
  intros Hn Ha Hat Hl Hc. unfold setAttr, bind.
  by rewrite get_node_ok with (nd := nd), Ha, Hat, Hl, Hc.
Qed.

Lemma xform_get_matrix_os_ok s n nd :
  sc_nodes s !! n = Some nd -> xform_get_matrix_os n s = (Ok (compose (nd_trs nd)), s).
Proof. intros Hn. unfold xform_get_matrix_os, bind. by rewrite get_node_ok with (nd := nd). Qed.

Lemma xform_set_matrix_os_ok s n nd m :
  sc_nodes s !! n = Some nd ->
  xform_set_matrix_os n m s = (Ok tt, with_nodes s (<[n := set_trs nd (decompose m)]> (sc_nodes s))).
Proof. intros Hn. unfold xform_set_matrix_os, bind. by rewrite get_node_ok with (nd := nd). Qed.

Lemma xform_get_t_ok s n nd :
  sc_nodes s !! n = Some nd -> xform_get_t n s = (Ok (tr_t (nd_trs nd)), s).
Proof. intros Hn. unfold xform_get_t, bind. by rewrite get_node_ok with (nd := nd). Qed.

Lemma xform_get_r_ok s n nd :
  sc_nodes s !! n = Some nd -> xform_get_r n s = (Ok (tr_r (nd_trs nd)), s).
Proof. intros Hn. unfold xform_get_r, bind. by rewrite get_node_ok with (nd := nd). Qed.

Lemma xform_set_t_ok s n nd v :
  sc_nodes s !! n = Some nd ->
  xform_set_t n v s = (Ok tt, with_nodes s (<[n := set_trs nd
    (mk_trs v (tr_r (nd_trs nd)) (tr_s (nd_trs nd)))]> (sc_nodes s))).
Proof. intros Hn. unfold xform_set_t, bind. by rewrite get_node_ok with (nd := nd). Qed.

Lemma xform_set_r_ok s n nd v :
  sc_nodes s !! n = Some nd ->
  xform_set_r n v s = (Ok tt, with_nodes s (<[n := set_trs nd
    (mk_trs (tr_t (nd_trs nd)) v (tr_s (nd_trs nd)))]> (sc_nodes s))).
Proof. intros Hn. unfold xform_set_r, bind. by rewrite get_node_ok with (nd := nd). Qed.

End Run.

Lemma with_nodes_nodes s m : sc_nodes (with_nodes s m) = m.
Proof. reflexivity. Qed.

Lemma with_nodes_id s : with_nodes s (sc_nodes s) = s.
Proof. by destruct s. Qed.

Lemma with_nodes_twice s m1 m2 : with_nodes (with_nodes s m1) m2 = with_nodes s m2.
Proof. reflexivity. Qed.

Lemma set_trs_trs nd t : nd_trs (set_trs nd t) = t.
Proof. reflexivity. Qed.

Lemma set_trs_id nd : set_trs nd (nd_trs nd) = nd.
Proof. by destruct nd. Qed.

Lemma set_trs_twice nd t1 t2 : set_trs (set_trs nd t1) t2 = set_trs nd t2.
Proof. reflexivity. Qed.

#[export] Hint Rewrite with_nodes_nodes with_nodes_id with_nodes_twice set_trs_trs
  set_trs_id set_trs_twice : py_rw.

(** ** Building concrete scenes *)

Definition q (z : Z) : Qc := Q2Qc (inject_Z z).
Definition v3 (x y z : Z) : vec3 := (q x, q y, q z).
Definition rest_trs : trs := mk_trs (v3 0 0 0) (v3 0 0 0) (v3 1 1 1).

(** A free transform with a user attribute list. *)
Definition ctrl (parent : option string) (t : trs) (attrs : list (string * attr)) : node :=
  mk_node parent t [] attrs Free.

Definition num_attr (z : Z) : attr := mk_attr (vnum z) [vnum 0] false.

Definition scene_of (nodes : list (string * node)) (sel : list string) : scene :=
  mk_scene (list_to_map nodes) sel [] 0 0.

(** ** Well-formed scenes

    Maya refuses a user attribute that repeats a name or takes the name
    of a channel: [listAttr(ud=True)] lists distinct names, none of them
    [tx] ... [sz]. *)
Definition wf_node (nd : node) : Prop :=
  NoDup (map fst (nd_attrs nd)) /\ Forall (fun a => chan_of_name a = None) (map fst (nd_attrs nd)).

Definition wf_scene (s : scene) : Prop := map_Forall (fun _ nd => wf_node nd) (sc_nodes s).

#[export] Instance wf_node_dec nd : Decision (wf_node nd).
Proof. unfold wf_node. apply _. Defined.

(** The transforms of the scene, by name. *)
Definition trs_view (s : scene) : gmap string trs := nd_trs <$> sc_nodes s.

Lemma preserves_pure {X A} (f : scene -> X) (c : M A) :
  (forall s, exec c s = s) -> preserves f c.
Proof. intros H s. by rewrite H. Qed.

Lemma preserves_for_Forall {X A} (f : scene -> X) (l : list A) body :
  Forall (fun x => preserves f (body x)) l -> preserves f (for_ l body).
Proof. induction 1; simpl; [done|]. by apply preserves_bind. Qed.

Lemma getAttr_exec n a s : exec (getAttr n a) s = s.
Proof.
  unfold exec, getAttr, bind, get_node. destruct (sc_nodes s !! n); [|done].
  destruct (chan_of_name a) as [[]|]; [done|]. by destruct (assoc_get _ _).
Qed.

Lemma listAttr_ud_run s n nd :
  sc_nodes s !! n = Some nd -> listAttr_ud n s = (Ok (map fst (nd_attrs nd)), s).
Proof. intros Hn. unfold listAttr_ud, bind. by rewrite (get_node_ok _ _ _ Hn). Qed.

(** Setting a user attribute leaves every transform where it was. *)
Lemma setAttr_trs_view n a v :
  chan_of_name a = None -> preserves trs_view (setAttr n a v).
Proof.
  intros Ha s. unfold exec, setAttr, bind, get_node.
  destruct (sc_nodes s !! n) as [nd|] eqn:E; [|done]. simpl. rewrite Ha.
  destruct (assoc_get a (nd_attrs nd)); [|done]. destruct (at_locked _); [done|].
  destruct (coerce _ _); [|done]. simpl. unfold trs_view. simpl.
  rewrite fmap_insert. simpl. apply insert_id. by rewrite lookup_fmap, E.
Qed.

Lemma getAttr_trs_view n a : preserves trs_view (getAttr n a).
Proof. apply preserves_pure, getAttr_exec. Qed.

#[export] Hint Resolve setAttr_trs_view getAttr_trs_view : picker.

(** ** Invariants kept by the calls *)

(** [c] keeps the property [P] of the scene on every path. *)
Definition keeps {A} (P : scene -> Prop) (c : M A) : Prop :=
  forall s, P s -> P (exec c s).

Section Keeps.
Context (P : scene -> Prop).

Lemma keeps_of_preserves {X A} (f : scene -> X) (c : M A) :
  (forall s s', f s' = f s -> P s -> P s') -> preserves f c -> keeps P c.
Proof. intros HP Hc s Hs. eapply HP; [apply Hc|done]. Qed.

Lemma keeps_ret {A} (a : A) : keeps P (ret a).
Proof. by intros s. Qed.
Lemma keeps_raise {A} e : keeps P (@raise A e).
Proof. by intros s. Qed.
Lemma keeps_gets {A} (g : scene -> A) : keeps P (gets g).
Proof. by intros s. Qed.
Lemma keeps_get_node n : keeps P (get_node n).
Proof. intros s. unfold exec, get_node. by destruct (sc_nodes s !! n). Qed.

Lemma keeps_bind {A B} (c : M A) (k : A -> M B) :
  keeps P c -> (forall a, keeps P (k a)) -> keeps P (bind c k).
Proof.
  intros Hc Hk s Hs. specialize (Hc s Hs). unfold exec, bind in *.
  destruct (c s) as [[a|e] s']; simpl in *; [apply Hk|]; assumption.
Qed.

Lemma keeps_for {A} (l : list A) body : (forall x, keeps P (body x)) -> keeps P (for_ l body).
Proof. intros H. induction l; simpl; [apply keeps_ret|]. by apply keeps_bind. Qed.

Lemma keeps_try_pass c : keeps P c -> keeps P (try_pass c).
Proof. intros H s Hs. by apply H. Qed.

Lemma keeps_try_finally {A} (c : M A) fin : keeps P c -> keeps P fin -> keeps P (try_finally c fin).
Proof.
  intros Hc Hf s Hs. specialize (Hc s Hs). unfold exec, try_finally in *.
  destruct (c s) as [r s1]. specialize (Hf s1 Hc). unfold exec in Hf.
  destruct (fin s1) as [r2 s2]. destruct r2; simpl in *; assumption.
Qed.

Lemma keeps_iter_list {A} (o : option (list A)) : keeps P (iter_list o).
Proof. destruct o; by intros s. Qed.

End Keeps.

#[export] Hint Resolve keeps_ret keeps_raise keeps_gets keeps_get_node keeps_bind keeps_for
  keeps_try_pass keeps_try_finally keeps_iter_list : picker.

Ltac solve_keeps :=
  repeat (match goal with
    | |- keeps _ (bind _ _) => apply keeps_bind
    | |- keeps _ (for_ _ _) => apply keeps_for
    | |- keeps _ (try_pass _) => apply keeps_try_pass
    | |- keeps _ (try_finally _ _) => apply keeps_try_finally
    | |- keeps _ (match ?x with _ => _ end) => destruct x
    | |- keeps _ (if ?b then _ else _) => destruct b
    | |- keeps _ _ => solve [eauto with picker]
    | |- forall _, keeps _ _ => intro
    end).

(** Replacing a node by one with the same attribute names keeps the
    scene well formed. *)
Lemma wf_scene_insert s n nd nd' :
  wf_scene s -> sc_nodes s !! n = Some nd -> map fst (nd_attrs nd') = map fst (nd_attrs nd) ->
  wf_scene (with_nodes s (<[n := nd']> (sc_nodes s))).
Proof.
  intros Hwf Hn Hk. apply map_Forall_insert_2; [|done].
  pose proof (map_Forall_lookup_1 _ _ _ _ Hwf Hn) as Hnd. unfold wf_node in *. by rewrite Hk.
Qed.

(** Every call that rewrites a node keeps its attribute names. *)
Ltac solve_wf_put :=
  let s := fresh "s" in let Hs := fresh "Hs" in
  intros s Hs; unfold exec, bind, get_node;
  destruct (sc_nodes s !! _) as [?nd|] eqn:?E; [|done]; simpl;
  repeat (case_match; simpl; try done);
  eapply wf_scene_insert; eauto; simpl; rewrite ?assoc_set_keys; done.

Section WfFrame.
Context `{XformAlgebra}.

Lemma put_set_trs_wf n t :
  keeps wf_scene (let* nd := get_node n in put_node n (set_trs nd t)).
Proof. solve_wf_put. Qed.

Lemma setAttr_wf n a v : keeps wf_scene (setAttr n a v).
Proof. unfold setAttr. solve_wf_put. Qed.
Lemma getAttr_wf n a : keeps wf_scene (getAttr n a).
Proof. intros s Hs. by rewrite getAttr_exec. Qed.
Lemma listAttr_ud_wf n : keeps wf_scene (listAttr_ud n).
Proof. unfold listAttr_ud. solve_keeps. Qed.
Lemma xform_get_matrix_os_wf n : keeps wf_scene (xform_get_matrix_os n).
Proof. unfold xform_get_matrix_os. solve_keeps. Qed.
Lemma xform_set_matrix_os_wf n m : keeps wf_scene (xform_set_matrix_os n m).
Proof. unfold xform_set_matrix_os. solve_wf_put. Qed.
Lemma xform_get_t_wf n : keeps wf_scene (xform_get_t n).
Proof. unfold xform_get_t. solve_keeps. Qed.
Lemma xform_get_r_wf n : keeps wf_scene (xform_get_r n).
Proof. unfold xform_get_r. solve_keeps. Qed.
Lemma xform_set_t_wf n v : keeps wf_scene (xform_set_t n v).
Proof. unfold xform_set_t. solve_wf_put. Qed.
Lemma xform_set_r_wf n v : keeps wf_scene (xform_set_r n v).
Proof. unfold xform_set_r. solve_wf_put. Qed.
Lemma undo_open_wf : keeps wf_scene undo_open.
Proof. intros s Hs. exact Hs. Qed.
Lemma undo_close_wf : keeps wf_scene undo_close.
Proof. intros s Hs. exact Hs. Qed.

End WfFrame.

#[export] Hint Resolve setAttr_wf getAttr_wf listAttr_ud_wf xform_get_matrix_os_wf
  xform_set_matrix_os_wf xform_get_t_wf xform_get_r_wf xform_set_t_wf xform_set_r_wf
  undo_open_wf undo_close_wf : picker.

Lemma undo_chunk_balanced_witness :
  preserves sc_undo (ret tt) /\
  sc_undo (exec (undo_chunk (ret tt)) (scene_of [] [])) = sc_undo (scene_of [] []).
Proof.
  assert (H : preserves sc_undo (ret tt)) by apply preserves_ret.
  split; [exact H | exact (undo_chunk_balanced _ _ H)].
Defined.

(** ** Bodies that do not look at the undo queue

    Such a body computes the same whatever the undo depth, and an undo
    bracket around it changes nothing observable. *)
Definition undo_indep {A} (c : M A) : Prop :=
  forall s d, c (with_undo s d) = (fst (c s), with_undo (snd (c s)) d).

Lemma with_undo_id s : with_undo s (sc_undo s) = s.
Proof. by destruct s. Qed.

Section UndoIndep.

Lemma undo_indep_ret {A} (a : A) : undo_indep (ret a).
Proof. done. Qed.
Lemma undo_indep_raise {A} e : undo_indep (@raise A e).
Proof. done. Qed.
Lemma undo_indep_get_node n : undo_indep (get_node n).
Proof. intros s d. unfold get_node. simpl. by destruct (sc_nodes s !! n). Qed.
Lemma undo_indep_put_node n nd : undo_indep (put_node n nd).
Proof. done. Qed.
Lemma undo_indep_iter_list {A} (o : option (list A)) : undo_indep (iter_list o).
Proof. by destruct o. Qed.
Lemma undo_indep_ls_selection : undo_indep ls_selection.
Proof. done. Qed.
Lemma undo_indep_getModifiers : undo_indep getModifiers.
Proof. done. Qed.

Lemma undo_indep_bind {A B} (c : M A) (k : A -> M B) :
  undo_indep c -> (forall a, undo_indep (k a)) -> undo_indep (bind c k).
Proof.
  intros Hc Hk s d. unfold bind. rewrite Hc.
  destruct (c s) as [[a|e] s']; simpl; [apply Hk|done].
Qed.

Lemma undo_indep_for {A} (l : list A) body : (forall x, undo_indep (body x)) -> undo_indep (for_ l body).
Proof. intros H. induction l; simpl; [done|]. by apply undo_indep_bind. Qed.

Lemma undo_indep_try_pass c : undo_indep c -> undo_indep (try_pass c).
Proof. intros H s d. unfold try_pass. by rewrite H. Qed.

End UndoIndep.

#[export] Hint Resolve undo_indep_ret undo_indep_raise undo_indep_get_node undo_indep_put_node
  undo_indep_iter_list undo_indep_ls_selection undo_indep_getModifiers undo_indep_bind
  undo_indep_for undo_indep_try_pass : picker.

Ltac solve_undo_indep :=
  repeat (match goal with
    | |- undo_indep (bind _ _) => apply undo_indep_bind
    | |- undo_indep (for_ _ _) => apply undo_indep_for
    | |- undo_indep (try_pass _) => apply undo_indep_try_pass
    | |- undo_indep (match ?x with _ => _ end) => destruct x
    | |- undo_indep (if ?b then _ else _) => destruct b
    | |- undo_indep _ => solve [eauto with picker]
    | |- forall _, undo_indep _ => intro
    end).

(** An undo bracket around an undo-independent body is invisible: the
    [picker.py] handler computes exactly what its bare body does. *)
Theorem undo_chunk_transparent {A} (body : M A) s :
  undo_indep body -> undo_chunk body s = body s.
Proof.
  intros Hb. unfold undo_chunk, bind, undo_open, modify, try_finally. simpl.
  rewrite Hb. pose proof (Hb s (sc_undo s)) as Hs. rewrite with_undo_id in Hs.
  destruct (body s) as [r s']. simpl in *. injection Hs as Hs.
  rewrite Hs at 2. by destruct s'.
Qed.

Section UndoIndepPrims.
Context `{XformAlgebra}.

Lemma getAttr_undo_indep n a : undo_indep (getAttr n a).
Proof. unfold getAttr. solve_undo_indep. Qed.
Lemma setAttr_undo_indep n a v : undo_indep (setAttr n a v).
Proof. unfold setAttr. solve_undo_indep. Qed.
Lemma listAttr_ud_undo_indep n : undo_indep (listAttr_ud n).
Proof. unfold listAttr_ud. solve_undo_indep. Qed.
Lemma attributeQuery_default_undo_indep a n : undo_indep (attributeQuery_default a n).
Proof. unfold attributeQuery_default. solve_undo_indep. Qed.
Lemma attributeQuery_exists_undo_indep a n : undo_indep (attributeQuery_exists a n).
Proof. unfold attributeQuery_exists. solve_undo_indep. Qed.
Lemma check_exist_undo_indep l : undo_indep (check_exist l).
Proof. induction l; simpl; solve_undo_indep. Qed.
Lemma select_replace_undo_indep l : undo_indep (select_replace l).
Proof. unfold select_replace. apply undo_indep_bind; [apply check_exist_undo_indep|done]. Qed.
Lemma select_add_undo_indep l : undo_indep (select_add l).
Proof. unfold select_add. apply undo_indep_bind; [apply check_exist_undo_indep|done]. Qed.
Lemma select_deselect_undo_indep l : undo_indep (select_deselect l).
Proof. unfold select_deselect. apply undo_indep_bind; [apply check_exist_undo_indep|done]. Qed.
Lemma setKeyframe_undo_indep l : undo_indep (setKeyframe l).
Proof. unfold setKeyframe. apply undo_indep_bind; [apply check_exist_undo_indep|done]. Qed.
Lemma listRelatives_ad_undo_indep g : undo_indep (listRelatives_ad g).
Proof. unfold listRelatives_ad. apply undo_indep_bind; [apply undo_indep_get_node|done]. Qed.
Lemma world_of_undo_indep n : undo_indep (world_of n).
Proof. intros s d. unfold world_of, world. simpl. by destruct (world_fuel _ _ _). Qed.
Lemma xform_get_matrix_os_undo_indep n : undo_indep (xform_get_matrix_os n).
Proof. unfold xform_get_matrix_os. solve_undo_indep. Qed.
Lemma xform_set_matrix_os_undo_indep n m : undo_indep (xform_set_matrix_os n m).
Proof. unfold xform_set_matrix_os. solve_undo_indep. Qed.
Lemma xform_set_floats_os_undo_indep n l : undo_indep (xform_set_floats_os n l).
Proof.
  unfold xform_set_floats_os. pose proof xform_set_matrix_os_undo_indep. solve_undo_indep.
Qed.
Lemma xform_get_matrix_ws_undo_indep n : undo_indep (xform_get_matrix_ws n).
Proof. unfold xform_get_matrix_ws. pose proof world_of_undo_indep. solve_undo_indep. Qed.
Lemma xform_set_matrix_ws_undo_indep n m : undo_indep (xform_set_matrix_ws n m).
Proof. unfold xform_set_matrix_ws. pose proof world_of_undo_indep. solve_undo_indep. Qed.
Lemma xform_get_t_undo_indep n : undo_indep (xform_get_t n).
Proof. unfold xform_get_t. solve_undo_indep. Qed.
Lemma xform_get_r_undo_indep n : undo_indep (xform_get_r n).
Proof. unfold xform_get_r. solve_undo_indep. Qed.
Lemma xform_set_t_undo_indep n v : undo_indep (xform_set_t n v).
Proof. unfold xform_set_t. solve_undo_indep. Qed.
Lemma xform_set_r_undo_indep n v : undo_indep (xform_set_r n v).
Proof. unfold xform_set_r. solve_undo_indep. Qed.

End UndoIndepPrims.

#[export] Hint Resolve getAttr_undo_indep setAttr_undo_indep listAttr_ud_undo_indep
  attributeQuery_default_undo_indep attributeQuery_exists_undo_indep check_exist_undo_indep
  select_replace_undo_indep select_add_undo_indep select_deselect_undo_indep
  setKeyframe_undo_indep listRelatives_ad_undo_indep world_of_undo_indep
  xform_get_matrix_os_undo_indep xform_set_matrix_os_undo_indep xform_set_floats_os_undo_indep
  xform_get_matrix_ws_undo_indep xform_set_matrix_ws_undo_indep xform_get_t_undo_indep
  xform_get_r_undo_indep xform_set_t_undo_indep xform_set_r_undo_indep : picker.
