(* ===== verification/Namespace.v ===== *)
(** * Namespace: capturing and applying the rig's namespace

    Models [set_namespace] of [src/picker_model.py] (lines 20-31) and
    [Picker.set_namespace] / [Picker.get_namespace] of [src/picker.py]
    (lines 131-146), and the prefixing every handler applies to a control
    name.  The namespace is everything of the first selected name up to
    its last [':'], that colon included; the line edit keeps it as text.

    Theorems: the captured namespace is the part before the last colon
    (so prefixing the bare name gives the selected name back), names
    without a colon give no namespace, and the two variants leave the
    same text in the line edit. *)

From S2P Require Import Prelude PyStr Host.
From Stdlib Require Import Ascii.
Local Open Scope string_scope.
Local Open Scope picker_scope.

(** ** The code *)

(** The expression [':'.join(selection.split(':')[:-1]) + ':'] guarded by
    [':' in selection]; [None] when the guard fails. *)
Definition namespace_of (selection : string) : option string :=
  if py_contains ":" selection
  then Some (py_join ":" (py_slice_to (-1) (py_split ":" selection)) +:+ ":")
  else None.

(** [picker_model.set_namespace]: the value passed to
    [line_edit.setText], [None] when nothing or no namespaced node is
    selected. *)
Definition set_namespace_model : M (option string) :=
  let* selection := ls_selection in
  match selection with
  | first :: _ => ret (namespace_of first)
  | [] => ret None
  end.

(** [Picker.set_namespace] in [picker.py]: the same, with [''] in both
    [else] branches. *)
Definition set_namespace_view : M string :=
  let* selection := ls_selection in
  match selection with
  | first :: _ =>
      match namespace_of first with
      | Some ns => ret ns
      | None => ret ""
      end
  | [] => ret ""
  end.

(** [QLineEdit.setText]: PySide converts [None] to the empty string. *)
Definition qt_set_text (t : option string) : string :=
  match t with Some s => s | None => "" end.

(** [picker_model]'s handlers take the line edit as an optional argument
    and read [namespace_le.text()] only when it is given; an empty text
    means no prefix.  [Some ns] prefixes. *)
Definition model_namespace (namespace_le : option string) : option string :=
  match namespace_le with
  | Some ns => if decide (ns = "") then None else Some ns
  | None => None
  end.

(** ['{}{}'.format(namespace, name)] with an optional namespace. *)
Definition prefix_name (ns : option string) (name : string) : string :=
  match ns with Some p => p +:+ name | None => name end.

(** ** Lemmas *)

(** The namespace of a name with a colon, computed piecewise. *)
Theorem namespace_of_split ns base :
  py_contains ":" base = false ->
  namespace_of (ns +:+ ":" +:+ base) = Some (ns +:+ ":").
Proof.
  intros Hb. unfold namespace_of.
  rewrite py_contains_app_r by apply py_contains_head.
  change (":" +:+ base) with (String ":" base).
  rewrite (py_split_app_sep ":" ns base), (py_split_free ":" base) by done.
  rewrite py_slice_to_snoc. by rewrite py_join_split.
Qed.

(** A name without a colon has no namespace. *)
Lemma namespace_of_none name :
  py_contains ":" name = false -> namespace_of name = None.
Proof. unfold namespace_of. by intros ->. Qed.

(** A name with a colon splits at its last colon. *)
Lemma split_last_colon x :
  py_contains ":" x = true ->
  exists ns base, x = ns +:+ ":" +:+ base /\ py_contains ":" base = false.
Proof.
  induction x as [|c x IH]; [done|]. rewrite py_contains_cons, prefix_char.
  destruct (py_contains ":" x) eqn:Hx.
  - intros _. destruct IH as (ns & base & -> & Hb); [done|].
    exists (String c ns), base. split; [by rewrite str_app_cons | done].
  - rewrite orb_false_r. intros ->%bool_decide_eq_true_1. by exists "", x.
Qed.

(** ** Theorems *)

(** (C15) Capture round trip: when a namespace is captured from a name,
    the name is that namespace followed by a bare name without colon,
    and the namespace ends with the colon; so prefixing the bare name,
    as every handler does, gives the selected name back. *)
Theorem namespace_of_roundtrip x ns :
  namespace_of x = Some ns ->
  exists base, x = prefix_name (Some ns) base /\ py_contains ":" base = false
               /\ exists ns0, ns = ns0 +:+ ":".
Proof.
  intros H. destruct (py_contains ":" x) eqn:Hx; [|by rewrite namespace_of_none in H].
  destruct (split_last_colon x Hx) as (ns0 & base & -> & Hb).
  rewrite namespace_of_split in H by done. injection H as <-.
  exists base. simpl. rewrite str_app_assoc. eauto.
Qed.

(** (C14) Both handlers capture the part of the first selected name up to
    and including its last colon, and change nothing in the scene. *)
Theorem set_namespace_captures s ns base rest :
  sc_sel s = (ns +:+ ":" +:+ base) :: rest ->
  py_contains ":" base = false ->
  set_namespace_view s = (Ok (ns +:+ ":"), s) /\
  set_namespace_model s = (Ok (Some (ns +:+ ":")), s).
Proof.
  intros Hs Hb. unfold set_namespace_view, set_namespace_model, bind, ls_selection, gets.
  rewrite Hs. simpl. by rewrite namespace_of_split.
Qed.

(** The two variants leave the same text in the line edit, whatever the
    selection: [picker_model] passes [None] where [picker.py] passes
    [''], and [setText] shows both as the empty text. *)
Theorem set_namespace_variants_agree s :
  exec set_namespace_model s = s /\ exec set_namespace_view s = s /\
  (match run set_namespace_model s with Ok t => Ok (qt_set_text t) | Exc e => Exc e end)
    = run set_namespace_view s.
Proof.
  unfold set_namespace_view, set_namespace_model, exec, run, bind, ls_selection, gets. simpl.
  destruct (sc_sel s) as [|x l]; [done|]. by destruct (namespace_of x).
Qed.

Example namespace_of_spec_examples :
  namespace_of "ns1:ns2:joint1" = Some "ns1:ns2:" /\ namespace_of "joint1" = None.
Proof. split; reflexivity. Qed.

(** ** Witnesses *)

Lemma set_namespace_captures_witness :
  sc_sel (scene_of [] ["ns1:ns2:joint1"]) = ("ns1:ns2" +:+ ":" +:+ "joint1") :: [] /\
  py_contains ":" "joint1" = false /\
  set_namespace_view (scene_of [] ["ns1:ns2:joint1"]) = (Ok ("ns1:ns2" +:+ ":"), scene_of [] ["ns1:ns2:joint1"]) /\
  set_namespace_model (scene_of [] ["ns1:ns2:joint1"])
    = (Ok (Some ("ns1:ns2" +:+ ":")), scene_of [] ["ns1:ns2:joint1"]).
Proof.
  assert (H1 : sc_sel (scene_of [] ["ns1:ns2:joint1"]) = ("ns1:ns2" +:+ ":" +:+ "joint1") :: [])
    by reflexivity.
  assert (H2 : py_contains ":" "joint1" = false) by reflexivity.
  split; [exact H1|]. split; [exact H2|]. exact (set_namespace_captures _ _ _ _ H1 H2).
Defined.

Lemma namespace_of_roundtrip_witness :
  namespace_of "ns1:ns2:joint1" = Some "ns1:ns2:" /\
  exists base, "ns1:ns2:joint1" = prefix_name (Some "ns1:ns2:") base /\ py_contains ":" base = false
               /\ exists ns0, "ns1:ns2:" = ns0 +:+ ":".
Proof.
  assert (H : namespace_of "ns1:ns2:joint1" = Some "ns1:ns2:") by reflexivity.
  split; [exact H | exact (namespace_of_roundtrip _ _ H)].
Defined.
