(* ===== verification/Pose.v ===== *)
(** * Pose: flipping and mirroring the selected controls

    Models [flip_pose] and [mirror_pose] of [src/picker_model.py]
    (lines 79-133) and the static methods [Picker.flip_pose] and
    [Picker.mirror_pose] of [src/picker.py] (lines 205-269).

    A control's side is the token before the last underscore of its
    name ([armFk_l_ctr] is on side [_l_]); its counterpart is the name
    with every occurrence of the side replaced by the opposite side
    ([str.replace] replaces them all).  Flip negates the centre
    controls' rotate Y/Z and translate X and swaps the local matrix and
    the user attributes of a side control with its counterpart; mirror
    copies them to the counterpart.  The two files differ: in
    [picker.py] the attribute swap of [flip_pose] is outside the
    [else], so it also runs for centre controls, against the [_r_]
    name; and [picker.py] wraps each handler in an undo chunk.

    Theorems: what flip does to a centre control and that flipping twice
    restores the scene; the matrix swap of a side pair and that
    selecting both sides cancels it; mirror copies one way; the naming
    of counterparts; the [IndexError] path; the undo bracket. *)

From S2P Require Import Prelude PyStr Host.
From Stdlib Require Import Ascii QArith Qcanon.
Close Scope Qc_scope.
Close Scope Q_scope.
Local Open Scope string_scope.
Local Open Scope picker_scope.

Section Pose.
Context `{XA : XformAlgebra}.

(** ** Naming *)

(** ['_{}_'.format(ctr.split('_')[-2])]; [None] is the [IndexError] of
    a name with no underscore. *)
Definition side_of (ctr : string) : option string :=
  (fun tok => "_" +:+ tok +:+ "_") <$> py_index (-2) (py_split "_" ctr).

(** ['_l_' if side == '_r_' else '_r_']. *)
Definition opposite_of (side : string) : string :=
  if decide (side = "_r_") then "_l_" else "_r_".

(** [ctr.replace(side, opposite_side)]. *)
Definition counterpart (side ctr : string) : string :=
  py_replace side (opposite_of side) ctr.

(** ** The loop bodies *)

(** Centre control: [rotation=(r[0], -r[1], -r[2])], then
    [translation=(-t[0], t[1], t[2])]. *)
Definition flip_center (ctr : string) : M unit :=
  let* ctr_translate := xform_get_t ctr in
  let* ctr_rotate := xform_get_r ctr in
  let '(rx, ry, rz) := ctr_rotate in
  let '(tx, ty, tz) := ctr_translate in
  let* _ := xform_set_r ctr (rx, Qcopp ry, Qcopp rz) in
  xform_set_t ctr (Qcopp tx, ty, tz).

(** Side control: read both local matrices, then write each onto the
    other, the counterpart first. *)
Definition swap_matrices (ctr opp : string) : M unit :=
  let* ctr_xform := xform_get_matrix_os ctr in
  let* ctr_opposite_xform := xform_get_matrix_os opp in
  let* _ := xform_set_matrix_os opp ctr_xform in
  xform_set_matrix_os ctr ctr_opposite_xform.

(** One attribute of the swap, inside [try: ... except: pass]. *)
Definition swap_attr (ctr opp user_attr : string) : M unit :=
  try_pass (
    let* attr_value := getAttr ctr user_attr in
    let* attr_opposite_value := getAttr opp user_attr in
    let* _ := setAttr opp user_attr attr_value in
    setAttr ctr user_attr attr_opposite_value).

(** [user_attrs = cmds.listAttr(ctr, userDefined=True)]; [if user_attrs:]
    loop over a second [listAttr] call. *)
Definition swap_user_attrs (ctr opp : string) : M unit :=
  let* user_attrs := listAttr_ud ctr in
  if decide (user_attrs = []) then ret tt else
  let* user_attrs' := listAttr_ud ctr in
  for_ user_attrs' (swap_attr ctr opp).

(** The body of [picker_model.flip_pose]'s loop. *)
Definition flip_one_model (ctr : string) : M unit :=
  match side_of ctr with
  | None => raise IndexError
  | Some side =>
      if decide (side = "_c_") then flip_center ctr
      else let* _ := swap_matrices ctr (counterpart side ctr) in
           swap_user_attrs ctr (counterpart side ctr)
  end.

(** [picker_model.flip_pose]. *)
Definition flip_pose_model : M unit :=
  let* selection := ls_selection in for_ selection flip_one_model.

(** The body of [Picker.flip_pose]'s loop: the attribute swap follows
    the [if]/[else], for centre controls too. *)
Definition flip_one_view (ctr : string) : M unit :=
  match side_of ctr with
  | None => raise IndexError
  | Some side =>
      let* _ := (if decide (side = "_c_") then flip_center ctr
                 else swap_matrices ctr (counterpart side ctr)) in
      swap_user_attrs ctr (counterpart side ctr)
  end.

(** [Picker.flip_pose]. *)
Definition flip_pose_view : M unit :=
  undo_chunk (let* selection := ls_selection in for_ selection flip_one_view).

(** One attribute of the mirror copy. *)
Definition copy_attr (ctr opp user_attr : string) : M unit :=
  try_pass (
    let* attr_value := getAttr ctr user_attr in
    setAttr opp user_attr attr_value).

Definition copy_user_attrs (ctr opp : string) : M unit :=
  let* user_attrs := listAttr_ud ctr in
  if decide (user_attrs = []) then ret tt else
  let* user_attrs' := listAttr_ud ctr in
  for_ user_attrs' (copy_attr ctr opp).

(** The body of [mirror_pose]'s loop, the same in both files. *)
Definition mirror_one (ctr : string) : M unit :=
  match side_of ctr with
  | None => raise IndexError
  | Some side =>
      if decide (side <> "_c_") then
        let* ctr_xform := xform_get_matrix_os ctr in
        let* _ := xform_set_matrix_os (counterpart side ctr) ctr_xform in
        copy_user_attrs ctr (counterpart side ctr)
      else ret tt
  end.

(** [picker_model.mirror_pose] and [Picker.mirror_pose]. *)
Definition mirror_pose_model : M unit :=
  let* selection := ls_selection in for_ selection mirror_one.

Definition mirror_pose_view : M unit :=
  undo_chunk (let* selection := ls_selection in for_ selection mirror_one).

(** ** Centre controls *)

(** What [flip_center] does to the channels. *)
Definition mirror_center (t : trs) : trs :=
  let '(tx, ty, tz) := tr_t t in
  let '(rx, ry, rz) := tr_r t in
  mk_trs (Qcopp tx, ty, tz) (rx, Qcopp ry, Qcopp rz) (tr_s t).

Definition mirror_center_node (nd : node) : node := set_trs nd (mirror_center (nd_trs nd)).

Lemma mirror_center_involutive nd : mirror_center_node (mirror_center_node nd) = nd.
Proof.
  destruct nd as [p [[[tx ty] tz] [[rx ry] rz] sc] l a d]. unfold mirror_center_node, mirror_center.
  simpl. by rewrite !Qcopp_involutive.
Qed.

(** What [flip_center] does to an existing node. *)
Lemma flip_center_eq s c nd :
  sc_nodes s !! c = Some nd ->
  flip_center c s = (Ok tt, with_nodes s (<[c := mirror_center_node nd]> (sc_nodes s))).
Proof.
  intros Hc. unfold flip_center.
  rewrite (bind_ok _ _ _ _ _ (xform_get_t_ok _ _ _ Hc)).
  rewrite (bind_ok _ _ _ _ _ (xform_get_r_ok _ _ _ Hc)).
  destruct nd as [p [[[tx ty] tz] [[rx ry] rz] sc] l a d]. simpl.
  rewrite (bind_ok _ _ _ _ _ (xform_set_r_ok _ _ _ _ Hc)).
  rewrite (xform_set_t_ok _ _ _ _ (lookup_insert_eq _ _ _)).
  by rewrite with_nodes_twice, with_nodes_nodes, insert_insert_eq.
Qed.

(** Flipping an existing centre control negates its translate X
    and its rotate Y and Z, keeps everything else, and raises nothing. *)
Theorem flip_center_run s c nd :
  sc_nodes s !! c = Some nd ->
  flip_center c s = (Ok tt, with_nodes s (<[c := mirror_center_node nd]> (sc_nodes s))).
Proof. apply flip_center_eq. Qed.

End Pose.

(** ** Loops that update one node per element *)

Lemma lookup_foldl_alter (g : node -> node) (l : list string) (m : gmap string node) k :
  foldl (fun m c => alter g c m) m l !! k
  = Nat.iter (length (filter (fun c => c = k) l)) (fmap g) (m !! k).
Proof.
  revert m. induction l as [|c l IH]; intros m; [done|]. simpl. rewrite IH, lookup_alter.
  rewrite filter_cons. case_decide; subst; simpl; [|done].
  by rewrite <- Nat.iter_succ_r.
Qed.

Lemma iter_involution_double {A} (g : A -> A) n (o : option A) :
  (forall x, g (g x) = x) -> Nat.iter (n + n) (fmap g) o = o.
Proof.
  intros Hg. assert (Hh : forall x : option A, g <$> (g <$> x) = x)
    by (intros []; simpl; by rewrite ?Hg).
  induction n as [|n IH]; [done|].
  replace (S n + S n) with (S (S (n + n))) by lia. simpl. by rewrite Hh.
Qed.

(** A loop whose body alters one existing node by [g] alters each node
    of the list in turn. *)
Lemma for_alter_run (body : string -> M unit) (g : node -> node) (l : list string) s :
  (forall c s', c ∈ l -> is_Some (sc_nodes s' !! c) ->
     body c s' = (Ok tt, with_nodes s' (alter g c (sc_nodes s')))) ->
  Forall (fun c => is_Some (sc_nodes s !! c)) l ->
  for_ l body s = (Ok tt, with_nodes s (foldl (fun m c => alter g c m) (sc_nodes s) l)).
Proof.
  revert s. induction l as [|c l IH]; intros s Hb Hl; simpl; [by rewrite with_nodes_id|].
  inversion Hl as [|? ? Hc Hl']; subst.
  rewrite (bind_ok _ _ _ _ _ (Hb c s ltac:(set_solver) Hc)).
  rewrite IH; [by rewrite with_nodes_twice|set_solver|].
  eapply Forall_impl; [exact Hl'|]. intros x Hx. simpl. rewrite lookup_alter.
  case_decide; subst; [by apply fmap_is_Some | done].
Qed.

Lemma alter_as_insert (f : node -> node) (m : gmap string node) i x :
  m !! i = Some x -> alter f i m = <[i := f x]> m.
Proof. intros Hi. rewrite <- (insert_id m i x) at 1 by done. by rewrite alter_insert_eq. Qed.

Section PoseTheorems.
Context `{XA : XformAlgebra}.

Lemma flip_one_model_center s c :
  side_of c = Some "_c_" -> is_Some (sc_nodes s !! c) ->
  flip_one_model c s = (Ok tt, with_nodes s (alter mirror_center_node c (sc_nodes s))).
Proof.
  intros Hs [nd Hc]. unfold flip_one_model. rewrite Hs, decide_True by done.
  by rewrite flip_center_eq with (nd := nd), (alter_as_insert _ _ _ nd).
Qed.

Lemma ls_selection_run s : ls_selection s = (Ok (sc_sel s), s).
Proof. reflexivity. Qed.

(** With every selected control an existing centre control, the loop
    mirrors the channels of each, once per occurrence in the selection. *)
Lemma flip_pose_model_center_run s :
  Forall (fun c => side_of c = Some "_c_" /\ is_Some (sc_nodes s !! c)) (sc_sel s) ->
  flip_pose_model s =
    (Ok tt, with_nodes s (foldl (fun m c => alter mirror_center_node c m) (sc_nodes s) (sc_sel s))).
Proof.
  intros Hsel. unfold flip_pose_model. rewrite (bind_ok _ _ _ _ _ (ls_selection_run s)).
  apply for_alter_run.
  - intros c s' Hc Hs'. apply flip_one_model_center; [|done].
    eapply Forall_forall in Hsel; [apply Hsel|done].
  - eapply Forall_impl; [exact Hsel|]. by intros ? [].
Qed.

Lemma count_nodup (l : list string) k :
  NoDup l -> length (filter (fun x => x = k) l) = if decide (k ∈ l) then 1 else 0.
Proof.
  induction l as [|x l IH]; intros Hnd; [done|]. apply NoDup_cons in Hnd as [Hx Hnd].
  rewrite filter_cons. destruct (decide (x = k)) as [->|Hk].
  - cbn [length]. rewrite IH by done. rewrite (decide_False (P := k ∈ l)) by done.
    rewrite decide_True by set_solver. done.
  - rewrite IH by done. repeat case_decide; set_solver.
Qed.

(** (C4) Flipping centre controls: when every selected control is an
    existing centre control, selected once, [flip_pose_model] raises
    nothing and gives each selected control its translate X and its
    rotate Y and Z negated ([mirror_center]: every other channel, the
    user attributes and every other node kept); flipping again gives
    back the scene exactly. *)
Theorem flip_pose_model_center s :
  NoDup (sc_sel s) ->
  Forall (fun c => side_of c = Some "_c_" /\ is_Some (sc_nodes s !! c)) (sc_sel s) ->
  fst (flip_pose_model s) = Ok tt /\
  (forall c, sc_nodes (exec flip_pose_model s) !! c =
               if decide (c ∈ sc_sel s) then mirror_center_node <$> sc_nodes s !! c else sc_nodes s !! c) /\
  exec flip_pose_model (exec flip_pose_model s) = s.
Proof.
  intros Hnd Hsel. unfold exec. rewrite (flip_pose_model_center_run s Hsel). cbn [fst snd].
  split_and!; [done| |].
  - intros c. simpl. rewrite lookup_foldl_alter, count_nodup by done.
    case_decide; [|done]. by destruct (sc_nodes s !! c).
  - rewrite flip_pose_model_center_run.
    + simpl. rewrite with_nodes_twice. etransitivity; [|apply with_nodes_id]. f_equal.
      apply map_eq. intros k. rewrite !lookup_foldl_alter, <- Nat.iter_add.
      apply iter_involution_double, mirror_center_involutive.
    + simpl. eapply Forall_impl; [exact Hsel|]. intros c [Hs [nd Hnd']]. split; [done|].
      rewrite lookup_foldl_alter, Hnd'. clear. induction (length _); simpl; [by eexists|].
      destruct IHn as [x ->]. by eexists.
Qed.

End PoseTheorems.

(** ** Concrete runs *)

Import TrsGroup.

Module PoseDemo.

Definition spine := ctrl None (mk_trs (v3 3 1 2) (v3 10 20 30) (v3 1 1 1)) [("twist", num_attr 5)].
Definition armL := ctrl None (mk_trs (v3 5 0 0) (v3 0 45 0) (v3 1 1 1)) [("bend", num_attr 1)].
Definition armR := ctrl None (mk_trs (v3 (-5) 0 0) (v3 0 (-30) 0) (v3 1 1 1)) [("bend", num_attr 7)].
Definition spineR := ctrl None rest_trs [("twist", num_attr 9)].

Definition rig (sel : list string) : scene :=
  scene_of [("spine_c_ctr", spine); ("armFk_l_ctr", armL); ("armFk_r_ctr", armR)] sel.

End PoseDemo.

Import PoseDemo.

(** Witness of C4 on a selection of one centre control. *)
Lemma flip_pose_model_center_witness :
  NoDup (sc_sel (rig ["spine_c_ctr"])) /\
  Forall (fun c => side_of c = Some "_c_" /\ is_Some (sc_nodes (rig ["spine_c_ctr"]) !! c))
    (sc_sel (rig ["spine_c_ctr"])) /\
  exec flip_pose_model (exec flip_pose_model (rig ["spine_c_ctr"])) = rig ["spine_c_ctr"].
Proof.
  assert (H : Forall (fun c => side_of c = Some "_c_" /\ is_Some (sc_nodes (rig ["spine_c_ctr"]) !! c))
    (sc_sel (rig ["spine_c_ctr"]))) by (repeat constructor; vm_compute; eauto).
  assert (Hn : NoDup (sc_sel (rig ["spine_c_ctr"]))) by (apply NoDup_singleton).
  split_and!; [exact Hn | exact H | apply (flip_pose_model_center _ Hn H)].
Defined.

(** ** Side controls *)

Lemma for_try_pass_run {A} (l : list A) (b : A -> M unit) s :
  fst (for_ l (fun x => try_pass (b x)) s) = Ok tt.
Proof. revert s. induction l as [|x l IH]; intros s; [done|]. simpl. unfold bind at 1. apply IH. Qed.

Lemma local_matrix_view `{XformAlgebra} s n : local_matrix s n = compose <$> trs_view s !! n.
Proof. unfold local_matrix, trs_view. rewrite lookup_fmap. by destruct (sc_nodes s !! n). Qed.

Section SideTheorems.
Context `{XA : XformAlgebra}.

(** Swapping the user attributes moves no transform and raises nothing
    (every failure is caught per attribute). *)
Lemma swap_user_attrs_run c o s nd :
  sc_nodes s !! c = Some nd -> wf_node nd ->
  fst (swap_user_attrs c o s) = Ok tt /\ trs_view (exec (swap_user_attrs c o) s) = trs_view s.
Proof.
  intros Hc [_ Hch]. unfold swap_user_attrs, exec.
  rewrite (bind_ok _ _ _ _ _ (listAttr_ud_run _ _ _ Hc)).
  case_decide; [done|]. rewrite (bind_ok _ _ _ _ _ (listAttr_ud_run _ _ _ Hc)).
  split; [apply for_try_pass_run|]. apply (preserves_for_Forall trs_view).
  eapply Forall_impl; [exact Hch|]. intros a Ha. unfold swap_attr. solve_preserves.
Qed.

Lemma swap_matrices_run c o s ndc ndo :
  c <> o -> sc_nodes s !! c = Some ndc -> sc_nodes s !! o = Some ndo ->
  swap_matrices c o s = (Ok tt, with_nodes s
    (<[c := set_trs ndc (decompose (compose (nd_trs ndo)))]>
     (<[o := set_trs ndo (decompose (compose (nd_trs ndc)))]> (sc_nodes s)))).
Proof.
  intros Hne Hc Ho. unfold swap_matrices.
  rewrite (bind_ok _ _ _ _ _ (xform_get_matrix_os_ok _ _ _ Hc)).
  rewrite (bind_ok _ _ _ _ _ (xform_get_matrix_os_ok _ _ _ Ho)).
  rewrite (bind_ok _ _ _ _ _ (xform_set_matrix_os_ok _ _ _ _ Ho)).
  rewrite xform_set_matrix_os_ok with (nd := ndc); [done|].
  by rewrite with_nodes_nodes, lookup_insert_ne.
Qed.

(** The matrix swap of a side control with its counterpart. *)
Lemma side_swap_matrices s c side ndc ndo :
  wf_scene s -> side_of c = Some side -> side <> "_c_" -> counterpart side c <> c ->
  sc_nodes s !! c = Some ndc -> sc_nodes s !! counterpart side c = Some ndo ->
  fst (flip_one_model c s) = Ok tt /\
  local_matrix (exec (flip_one_model c) s) c = Some (compose (nd_trs ndo)) /\
  local_matrix (exec (flip_one_model c) s) (counterpart side c) = Some (compose (nd_trs ndc)).
Proof.
  intros Hwf Hs Hnc Hne Hc Ho. unfold flip_one_model, exec. rewrite Hs, decide_False by done.
  rewrite (bind_ok _ _ _ _ _ (swap_matrices_run _ _ _ _ _ (not_eq_sym Hne) Hc Ho)).
  set (s1 := with_nodes s _).
  destruct (swap_user_attrs_run c (counterpart side c) s1 (set_trs ndc (decompose (compose (nd_trs ndo)))))
    as [Hok Hview]; [apply lookup_insert_eq|apply (map_Forall_lookup_1 _ _ _ _ Hwf Hc)|].
  unfold exec in Hview. destruct (swap_user_attrs _ _ s1) as [r s2]. simpl in *.
  split; [done|]. rewrite !local_matrix_view, Hview. unfold trs_view, s1.
  rewrite !lookup_fmap, with_nodes_nodes, lookup_insert_eq, lookup_insert_ne, lookup_insert_eq by done.
  simpl. by rewrite !compose_decompose.
Qed.

(** (C5) Flipping a side control swaps its local matrix with its
    counterpart's, and raises nothing. *)
Theorem flip_one_model_side_swap s c side ndc ndo :
  wf_scene s -> side_of c = Some side -> side <> "_c_" -> counterpart side c <> c ->
  sc_nodes s !! c = Some ndc -> sc_nodes s !! counterpart side c = Some ndo ->
  fst (flip_one_model c s) = Ok tt /\
  local_matrix (exec (flip_one_model c) s) c = Some (compose (nd_trs ndo)) /\
  local_matrix (exec (flip_one_model c) s) (counterpart side c) = Some (compose (nd_trs ndc)).
Proof. apply side_swap_matrices. Qed.

End SideTheorems.

(** ** The attribute swap of [Picker.flip_pose] *)

(** Values of the same attribute type: [setAttr] stores them as given. *)
Definition same_type (v w : value) : bool :=
  match v, w with
  | VNum _, VNum _ | VBool _, VBool _ | VStr _, VStr _ => true
  | _, _ => false
  end.

(** The user attribute [a] of node [n]. *)
Definition user_attr (s : scene) (n a : string) : option attr :=
  nd ← sc_nodes s !! n; assoc_get a (nd_attrs nd).

(** [c] and [o] both carry the unlocked user attribute [a], with values
    of the same type. *)
Definition swappable (s : scene) (c o a : string) : Prop :=
  chan_of_name a = None /\
  exists attc atto, user_attr s c a = Some attc /\ user_attr s o a = Some atto /\
    at_locked attc = false /\ at_locked atto = false /\ same_type (at_value attc) (at_value atto) = true.

Lemma coerce_same_type old new : same_type new old = true -> coerce old new = Some new.
Proof. by destruct old, new. Qed.

Lemma same_type_sym v w : same_type v w = same_type w v.
Proof. by destruct v, w. Qed.

Lemma user_attr_Some s n a att :
  user_attr s n a = Some att <-> exists nd, sc_nodes s !! n = Some nd /\ assoc_get a (nd_attrs nd) = Some att.
Proof. unfold user_attr. destruct (sc_nodes s !! n); naive_solver. Qed.

Lemma attr_value_user s n a : attr_value s n a = at_value <$> user_attr s n a.
Proof. unfold attr_value, user_attr. by destruct (sc_nodes s !! n). Qed.

Lemma user_attr_set s n nd a x m b :
  sc_nodes s !! n = Some nd -> is_Some (assoc_get a (nd_attrs nd)) ->
  user_attr (with_nodes s (<[n := set_attrs nd (assoc_set a x (nd_attrs nd))]> (sc_nodes s))) m b =
    if decide (m = n /\ b = a) then Some x else user_attr s m b.
Proof.
  intros Hn Ha. unfold user_attr. rewrite with_nodes_nodes.
  destruct (decide (m = n)) as [->|Hm]; [rewrite lookup_insert_eq, Hn; simpl|].
  - destruct (decide (b = a)) as [->|Hb]; [rewrite decide_True by done; by apply assoc_get_set_eq|].
    rewrite decide_False by naive_solver. by apply assoc_get_set_ne.
  - rewrite lookup_insert_ne, decide_False by naive_solver. done.
Qed.

Lemma swappable_ext s s' c o a :
  (forall n, user_attr s' n a = user_attr s n a) -> swappable s c o a -> swappable s' c o a.
Proof. intros Hs (Ha & attc & atto & Hc & Ho & H). split; [done|]. exists attc, atto. by rewrite !Hs. Qed.

(** One attribute: both values exchanged, nothing else changed. *)
Lemma swap_attr_step s c o a :
  c <> o -> swappable s c o a ->
  attr_value (exec (swap_attr c o a) s) c a = attr_value s o a /\
  attr_value (exec (swap_attr c o a) s) o a = attr_value s c a /\
  (forall n b, b <> a \/ (n <> c /\ n <> o) -> user_attr (exec (swap_attr c o a) s) n b = user_attr s n b).
Proof.
  intros Hne (Ha & attc & atto & Hc' & Ho' & Hlc & Hlo & Hty).
  destruct (proj1 (user_attr_Some _ _ _ _) Hc') as (ndc & Hc & Hac).
  destruct (proj1 (user_attr_Some _ _ _ _) Ho') as (ndo & Ho & Hao).
  unfold exec, swap_attr, try_pass. cbn [snd].
  rewrite (bind_ok _ _ _ _ _ (getAttr_user _ _ _ _ _ Hc Ha Hac)).
  rewrite (bind_ok _ _ _ _ _ (getAttr_user _ _ _ _ _ Ho Ha Hao)).
  rewrite (bind_ok _ _ _ _ _ (setAttr_user s o a (at_value attc) (at_value attc) ndo atto Ho Ha Hao Hlo
             (coerce_same_type _ _ Hty))).
  set (s1 := with_nodes s _).
  assert (Hc1 : sc_nodes s1 !! c = Some ndc) by (unfold s1; by rewrite with_nodes_nodes, lookup_insert_ne).
  rewrite (setAttr_user s1 c a (at_value atto) (at_value atto) ndc attc Hc1 Ha Hac Hlc
             ltac:(apply coerce_same_type; by rewrite same_type_sym)).
  cbn [snd].
  assert (H1 : forall m b, user_attr s1 m b = if decide (m = o /\ b = a)
              then Some (mk_attr (at_value attc) (at_default atto) (at_locked atto)) else user_attr s m b)
    by (intros; apply user_attr_set; [done|by eexists]).
  rewrite !attr_value_user, !user_attr_set by (done || by eexists). rewrite !H1.
  split_and!.
  - rewrite decide_True by done. by rewrite Ho'.
  - rewrite decide_False by naive_solver. rewrite decide_True by done. by rewrite Hc'.
  - intros n b Hnb. rewrite user_attr_set by (done || by eexists). rewrite H1.
    rewrite !decide_False by naive_solver. done.
Qed.

(** The loop over the attributes: the listed attributes exchanged, every
    other attribute of every node kept. *)
Lemma swap_attrs_loop L s c o :
  c <> o -> NoDup L -> Forall (swappable s c o) L ->
  (forall b, b ∈ L -> attr_value (exec (for_ L (swap_attr c o)) s) c b = attr_value s o b /\
                      attr_value (exec (for_ L (swap_attr c o)) s) o b = attr_value s c b) /\
  (forall n b, b ∉ L \/ (n <> c /\ n <> o) -> user_attr (exec (for_ L (swap_attr c o)) s) n b = user_attr s n b).
Proof.
  intros Hne. revert s. induction L as [|a L IH]; intros s Hnd HL.
  - split; [intros b Hb; by apply elem_of_nil in Hb|done].
  - apply NoDup_cons in Hnd as [Ha Hnd]. apply Forall_cons in HL as [Hsa HL].
    destruct (swap_attr_step s c o a Hne Hsa) as (H1 & H2 & Hfr).
    set (s1 := exec (swap_attr c o a) s) in *.
    assert (Hex : exec (for_ (a :: L) (swap_attr c o)) s = exec (for_ L (swap_attr c o)) s1)
      by (unfold exec; rewrite for_cons; by rewrite (bind_ok _ _ _ tt s1)).
    assert (HL1 : Forall (swappable s1 c o) L).
    { apply Forall_forall. intros b Hb. apply (swappable_ext s); [|by eapply Forall_forall in HL].
      intros n. apply Hfr. left. set_solver. }
    destruct (IH s1 Hnd HL1) as [IHv IHf]. rewrite Hex. split.
    + intros b [->|Hb]%elem_of_cons.
      * rewrite !attr_value_user, !IHf by (by left). rewrite <- !attr_value_user. done.
      * rewrite (proj1 (IHv b Hb)), (proj2 (IHv b Hb)), !attr_value_user, !Hfr by (left; set_solver). done.
    + intros n b Hnb. rewrite IHf by (destruct Hnb; [left; set_solver|by right]).
      apply Hfr. destruct Hnb; [left; set_solver|by right].
Qed.

(** Flipping a centre control leaves every user attribute. *)
Lemma user_attr_mirror_center s c nd n b :
  sc_nodes s !! c = Some nd ->
  user_attr (with_nodes s (<[c := mirror_center_node nd]> (sc_nodes s))) n b = user_attr s n b.
Proof.
  intros Hc. unfold user_attr. rewrite with_nodes_nodes.
  destruct (decide (n = c)) as [->|Hn]; [by rewrite lookup_insert_eq, Hc|by rewrite lookup_insert_ne].
Qed.

(** (C34) [Picker.flip_pose] exchanges the user attributes of a centre
    control with its [_r_] counterpart: when every user attribute of
    the centre control [c] is an unlocked attribute of both nodes with
    values of the same type, the loop body of [picker.py] raises
    nothing and leaves each of these attributes of [c] with the
    counterpart's value and the counterpart's with [c]'s, while the
    body of [picker_model.py] changes no user attribute of any node. *)
Theorem flip_view_center_swaps_attrs s c ndc :
  wf_scene s -> side_of c = Some "_c_" -> counterpart "_c_" c <> c -> sc_nodes s !! c = Some ndc ->
  Forall (swappable s c (counterpart "_c_" c)) (map fst (nd_attrs ndc)) ->
  fst (flip_one_view c s) = Ok tt /\
  (forall a, a ∈ map fst (nd_attrs ndc) ->
     attr_value (exec (flip_one_view c) s) c a = attr_value s (counterpart "_c_" c) a /\
     attr_value (exec (flip_one_view c) s) (counterpart "_c_" c) a = attr_value s c a) /\
  (forall n a, attr_value (exec (flip_one_model c) s) n a = attr_value s n a).
Proof.
  intros Hwf Hs Hne Hc HL. set (o := counterpart "_c_" c) in *.
  pose proof (flip_center_eq s c ndc Hc) as Hfc.
  set (s1 := with_nodes s (<[c := mirror_center_node ndc]> (sc_nodes s))) in *.
  assert (Hu : forall n b, user_attr s1 n b = user_attr s n b) by (intros; by apply user_attr_mirror_center).
  assert (Hc1 : sc_nodes s1 !! c = Some (mirror_center_node ndc)) by apply lookup_insert_eq.
  split_and!; cycle 2.
  { intros n a. unfold flip_one_model, exec. rewrite Hs, decide_True, Hfc by done. cbn [snd].
    by rewrite !attr_value_user, Hu. }
  all: unfold flip_one_view, exec; rewrite Hs, decide_True by done; rewrite (bind_ok _ _ _ _ _ Hfc).
  all: unfold swap_user_attrs; rewrite (bind_ok _ _ _ _ _ (listAttr_ud_run _ _ _ Hc1)); cbn [nd_attrs mirror_center_node set_trs].
  all: case_decide as Hemp; [rewrite ?Hemp; try done; intros a Ha; by apply elem_of_nil in Ha|].
  all: rewrite (bind_ok _ _ _ _ _ (listAttr_ud_run _ _ _ Hc1)); cbn [nd_attrs mirror_center_node set_trs].
  - apply for_try_pass_run.
  - intros a Ha.
    destruct (swap_attrs_loop (map fst (nd_attrs ndc)) s1 c o) as [Hv _].
    + done.
    + exact (proj1 (Hwf c ndc Hc)).
    + eapply Forall_impl; [exact HL|]. intros b. apply swappable_ext. intros n. by rewrite Hu.
    + fold o. unfold exec in Hv. destruct (Hv a Ha) as [E1 E2]. rewrite E1, E2, !attr_value_user, !Hu. done.
Qed.

Section PoseInvariants.
Context `{XA : XformAlgebra}.

Ltac unfold_pose :=
  unfold flip_pose_model, flip_pose_view, mirror_pose_model, mirror_pose_view, undo_chunk,
    flip_one_model, flip_one_view, mirror_one, flip_center, swap_matrices, swap_user_attrs,
    swap_attr, copy_user_attrs, copy_attr, ls_selection.

(** Well-formedness of the scene (distinct, non-channel attribute
    names on every node) is an invariant of both variants of flip and
    mirror, on every path. *)
Theorem pose_handlers_keep_wf :
  keeps wf_scene flip_pose_model /\ keeps wf_scene flip_pose_view /\
  keeps wf_scene mirror_pose_model /\ keeps wf_scene mirror_pose_view.
Proof. unfold_pose. refine (conj _ (conj _ (conj _ _))); solve_keeps. Qed.

Lemma flip_one_model_wf c : keeps wf_scene (flip_one_model c).
Proof. unfold_pose. solve_keeps. Qed.

(** (C9) Selecting both controls of a pair and flipping cancels out: the
    first iteration swaps the two matrices, the second swaps them back.
    Both local matrices end as they started. *)
Theorem flip_pose_both_sides_cancel s c o side side' ndc ndo :
  wf_scene s -> sc_sel s = [c; o] ->
  side_of c = Some side -> side <> "_c_" -> counterpart side c = o ->
  side_of o = Some side' -> side' <> "_c_" -> counterpart side' o = c -> c <> o ->
  sc_nodes s !! c = Some ndc -> sc_nodes s !! o = Some ndo ->
  fst (flip_pose_model s) = Ok tt /\
  local_matrix (exec flip_pose_model s) c = Some (compose (nd_trs ndc)) /\
  local_matrix (exec flip_pose_model s) o = Some (compose (nd_trs ndo)).
Proof.
  intros Hwf Hsel Hs Hnc Ho Hs' Hnc' Hc' Hne Hc Hndo. subst o.
  destruct (side_swap_matrices s c side ndc ndo) as (Hok1 & Hm1 & Hm2); try done.
  pose proof (flip_one_model_wf c s Hwf) as Hwf1. unfold exec in *.
  destruct (flip_one_model c s) as [r1 s1] eqn:E1. simpl in *. subst r1.
  rewrite !local_matrix_view in Hm1, Hm2. unfold trs_view in Hm1, Hm2. rewrite !lookup_fmap in Hm1, Hm2.
  destruct (sc_nodes s1 !! c) as [n1c|] eqn:E1c, (sc_nodes s1 !! counterpart side c) as [n1o|] eqn:E1o;
    try done. simpl in Hm1, Hm2. injection Hm1 as Hm1. injection Hm2 as Hm2.
  destruct (side_swap_matrices s1 (counterpart side c) side' n1o n1c) as (Hok2 & Hm3 & Hm4);
    try rewrite Hc'; try done.
  rewrite Hc' in Hm4. unfold exec in Hm3, Hm4.
  destruct (flip_one_model (counterpart side c) s1) as [r2 s2] eqn:E2. simpl in *. subst r2.
  unfold flip_pose_model. rewrite (bind_ok _ _ _ _ _ (ls_selection_run s)), Hsel. simpl.
  rewrite (bind_ok _ _ _ _ _ E1), (bind_ok _ _ _ _ _ E2). simpl.
  split; [done|]. split; [rewrite Hm4|rewrite Hm3]; congruence.
Qed.

(** Copying the user attributes moves no transform and raises nothing. *)
Lemma copy_user_attrs_run c o s nd :
  sc_nodes s !! c = Some nd -> wf_node nd ->
  fst (copy_user_attrs c o s) = Ok tt /\ trs_view (exec (copy_user_attrs c o) s) = trs_view s.
Proof.
  intros Hc [_ Hch]. unfold copy_user_attrs, exec.
  rewrite (bind_ok _ _ _ _ _ (listAttr_ud_run _ _ _ Hc)).
  case_decide; [done|]. rewrite (bind_ok _ _ _ _ _ (listAttr_ud_run _ _ _ Hc)).
  split; [apply for_try_pass_run|]. apply (preserves_for_Forall trs_view).
  eapply Forall_impl; [exact Hch|]. intros a Ha. unfold copy_attr. solve_preserves.
Qed.

(** (C10) Mirror copies one way: the counterpart gets the control's local
    matrix, and the control's own transform is unchanged. *)
Theorem mirror_one_copies s c side ndc ndo :
  wf_scene s -> side_of c = Some side -> side <> "_c_" -> counterpart side c <> c ->
  sc_nodes s !! c = Some ndc -> sc_nodes s !! counterpart side c = Some ndo ->
  fst (mirror_one c s) = Ok tt /\
  local_matrix (exec (mirror_one c) s) (counterpart side c) = Some (compose (nd_trs ndc)) /\
  local_trs (exec (mirror_one c) s) c = Some (nd_trs ndc).
Proof.
  intros Hwf Hs Hnc Hne Hc Ho. unfold mirror_one, exec. rewrite Hs, decide_True by done.
  rewrite (bind_ok _ _ _ _ _ (xform_get_matrix_os_ok _ _ _ Hc)).
  rewrite (bind_ok _ _ _ _ _ (xform_set_matrix_os_ok _ _ _ _ Ho)).
  set (s1 := with_nodes s _).
  destruct (copy_user_attrs_run c (counterpart side c) s1 ndc) as [Hok Hview];
    [by unfold s1; rewrite with_nodes_nodes, lookup_insert_ne|
     apply (map_Forall_lookup_1 _ _ _ _ Hwf Hc)|].
  unfold exec in Hview. destruct (copy_user_attrs _ _ s1) as [r s2]. simpl in *.
  split; [done|]. unfold local_trs. rewrite local_matrix_view, Hview.
  assert (Hl : nd_trs <$> sc_nodes s2 !! c = trs_view s2 !! c) by (unfold trs_view; by rewrite lookup_fmap).
  rewrite Hl, Hview. unfold trs_view, s1. rewrite !lookup_fmap, with_nodes_nodes.
  rewrite lookup_insert_eq, lookup_insert_ne by done. simpl. by rewrite compose_decompose, Hc.
Qed.

End PoseInvariants.

(** ** Naming of counterparts *)

Lemma side_of_split pre tok suf :
  py_contains "_" suf = false -> side_of (pre +:+ "_" +:+ tok +:+ "_" +:+ suf)
    = (fun t => "_" +:+ t +:+ "_") <$> py_index (-2) (py_split "_" pre ++ py_split "_" tok ++ [suf]).
Proof.
  intros Hsuf. unfold side_of.
  change ("_" +:+ tok +:+ "_" +:+ suf) with (String "_" (tok +:+ String "_" suf)).
  by rewrite py_split_app_sep, py_split_app_sep, (py_split_free _ suf).
Qed.

(** Counterpart names: for a control named [pre_l_suf], with a
    last segment [suf] free of underscores and no occurrence of [_l_] or
    [_r_] starting in [pre], the side is [_l_], the counterpart is
    [pre_r_suf], whose side is [_r_] and whose counterpart is the
    control again. *)
Theorem counterpart_roundtrip pre suf :
  py_contains "_" suf = false ->
  starts_free "_l_" pre ("_l_" +:+ suf) = true ->
  starts_free "_r_" pre ("_r_" +:+ suf) = true ->
  side_of (pre +:+ "_l_" +:+ suf) = Some "_l_" /\
  counterpart "_l_" (pre +:+ "_l_" +:+ suf) = pre +:+ "_r_" +:+ suf /\
  side_of (pre +:+ "_r_" +:+ suf) = Some "_r_" /\
  counterpart "_r_" (pre +:+ "_r_" +:+ suf) = pre +:+ "_l_" +:+ suf.
Proof.
  intros Hsuf Hl Hr. unfold counterpart, opposite_of.
  rewrite !decide_False, decide_True by done.
  rewrite !py_replace_once by (done || by apply py_contains_char_free).
  change ("_l_" +:+ suf) with ("_" +:+ "l" +:+ "_" +:+ suf).
  change ("_r_" +:+ suf) with ("_" +:+ "r" +:+ "_" +:+ suf).
  rewrite !side_of_split by done. simpl.
  rewrite !(py_index_snoc_second_last (py_split "_" pre)). done.
Qed.

(** [str.replace] replaces every occurrence of the side, so a name that
    holds both [_r_] and [_l_] has a counterpart whose counterpart is
    another name. *)
Example counterpart_not_involutive :
  side_of "x_r_y_l_ctr" = Some "_l_" /\
  counterpart "_l_" "x_r_y_l_ctr" = "x_r_y_r_ctr" /\
  side_of "x_r_y_r_ctr" = Some "_r_" /\
  counterpart "_r_" "x_r_y_r_ctr" = "x_l_y_l_ctr".
Proof. vm_compute. repeat split. Qed.

(** ** The error path and the undo bracket *)

Section PoseErrors.
Context `{XA : XformAlgebra}.

Lemma side_of_no_underscore c : py_contains "_" c = false -> side_of c = None.
Proof. intros Hc. unfold side_of. by rewrite py_split_free. Qed.

(** (C28) A selected name without an underscore makes [split('_')[-2]]
    raise [IndexError]: when it comes first, flip and mirror stop
    there, leave the scene untouched and let the exception out; the
    [picker.py] variants still close their undo chunk, so the scene is
    exactly as before. *)
Theorem pose_index_error s c rest :
  sc_sel s = c :: rest -> py_contains "_" c = false ->
  flip_pose_model s = (Exc IndexError, s) /\ mirror_pose_model s = (Exc IndexError, s) /\
  flip_pose_view s = (Exc IndexError, s) /\ mirror_pose_view s = (Exc IndexError, s).
Proof.
  intros Hsel Hc. unfold flip_pose_model, mirror_pose_model, flip_pose_view, mirror_pose_view,
    undo_chunk, try_finally, flip_one_model, flip_one_view, mirror_one, bind, ls_selection, gets,
    undo_open, undo_close, modify.
  simpl. rewrite Hsel. simpl. rewrite side_of_no_underscore by done. simpl.
  by destruct s.
Qed.


End PoseErrors.

(** ** Witnesses on the demo rig *)

Module PoseDemo2.
Definition rig2 (sel : list string) : scene :=
  scene_of [("spine_c_ctr", spine); ("spine_r_ctr", spineR)] sel.
End PoseDemo2.
Import PoseDemo2.

Lemma rig_wf sel : wf_scene (rig sel).
Proof. unfold wf_scene. apply (bool_decide_unpack _). vm_compute. reflexivity. Qed.

(** On the demo rig with [spine_c_ctr] and [spine_r_ctr]: [picker.py]
    exchanges their [twist] values, [picker_model.py] keeps them. *)
Example flip_view_center_demo :
  attr_value (exec flip_pose_model (rig2 ["spine_c_ctr"])) "spine_c_ctr" "twist" = Some (vnum 5) /\
  attr_value (exec flip_pose_view (rig2 ["spine_c_ctr"])) "spine_c_ctr" "twist" = Some (vnum 9) /\
  attr_value (exec flip_pose_view (rig2 ["spine_c_ctr"])) "spine_r_ctr" "twist" = Some (vnum 5).
Proof. vm_compute. repeat split. Qed.

Lemma flip_view_center_swaps_attrs_witness :
  wf_scene (rig2 []) /\
  attr_value (exec (flip_one_view "spine_c_ctr") (rig2 [])) "spine_c_ctr" "twist" =
    attr_value (rig2 []) "spine_r_ctr" "twist".
Proof.
  assert (Hwf : wf_scene (rig2 [])) by (unfold wf_scene; apply (bool_decide_unpack _); vm_compute; reflexivity).
  split; [exact Hwf|].
  destruct (flip_view_center_swaps_attrs (rig2 []) "spine_c_ctr" spine) as (_ & H & _);
    [exact Hwf|concrete|vm_compute; congruence|concrete| |].
  - change (map fst (nd_attrs spine)) with ["twist"]. apply Forall_singleton.
    split; [reflexivity|]. exists (num_attr 5), (num_attr 9). split_and!; vm_compute; reflexivity.
  - apply (H "twist"). vm_compute. left.
Defined.

Lemma flip_center_run_witness :
  sc_nodes (rig []) !! "spine_c_ctr" = Some spine /\
  flip_center "spine_c_ctr" (rig []) =
    (Ok tt, with_nodes (rig []) (<["spine_c_ctr" := mirror_center_node spine]> (sc_nodes (rig [])))).
Proof.
  assert (H : sc_nodes (rig []) !! "spine_c_ctr" = Some spine) by concrete.
  split; [exact H | exact (flip_center_run _ _ _ H)].
Defined.

Lemma flip_one_model_side_swap_witness :
  fst (flip_one_model "armFk_l_ctr" (rig [])) = Ok tt /\
  local_matrix (exec (flip_one_model "armFk_l_ctr") (rig [])) "armFk_l_ctr" = Some (compose (nd_trs armR)) /\
  local_matrix (exec (flip_one_model "armFk_l_ctr") (rig [])) (counterpart "_l_" "armFk_l_ctr")
    = Some (compose (nd_trs armL)).
Proof.
  apply (flip_one_model_side_swap (rig []) "armFk_l_ctr" "_l_" armL armR);
    [apply rig_wf|concrete..].
Defined.

Lemma flip_pose_both_sides_cancel_witness :
  fst (flip_pose_model (rig ["armFk_l_ctr"; "armFk_r_ctr"])) = Ok tt /\
  local_matrix (exec flip_pose_model (rig ["armFk_l_ctr"; "armFk_r_ctr"])) "armFk_l_ctr"
    = Some (compose (nd_trs armL)) /\
  local_matrix (exec flip_pose_model (rig ["armFk_l_ctr"; "armFk_r_ctr"])) "armFk_r_ctr"
    = Some (compose (nd_trs armR)).
Proof.
  apply (flip_pose_both_sides_cancel _ "armFk_l_ctr" "armFk_r_ctr" "_l_" "_r_");
    [apply rig_wf|concrete..].
Defined.

Lemma mirror_one_copies_witness :
  fst (mirror_one "armFk_l_ctr" (rig [])) = Ok tt /\
  local_matrix (exec (mirror_one "armFk_l_ctr") (rig [])) (counterpart "_l_" "armFk_l_ctr")
    = Some (compose (nd_trs armL)) /\
  local_trs (exec (mirror_one "armFk_l_ctr") (rig [])) "armFk_l_ctr" = Some (nd_trs armL).
Proof.
  apply (mirror_one_copies (rig []) "armFk_l_ctr" "_l_" armL armR); [apply rig_wf|concrete..].
Defined.

Lemma counterpart_roundtrip_witness :
  side_of ("armFk" +:+ "_l_" +:+ "ctr") = Some "_l_" /\
  counterpart "_l_" ("armFk" +:+ "_l_" +:+ "ctr") = "armFk" +:+ "_r_" +:+ "ctr" /\
  side_of ("armFk" +:+ "_r_" +:+ "ctr") = Some "_r_" /\
  counterpart "_r_" ("armFk" +:+ "_r_" +:+ "ctr") = "armFk" +:+ "_l_" +:+ "ctr".
Proof. apply counterpart_roundtrip; concrete. Defined.

Lemma pose_index_error_witness :
  flip_pose_model (rig ["root"]) = (Exc IndexError, rig ["root"]) /\
  mirror_pose_model (rig ["root"]) = (Exc IndexError, rig ["root"]) /\
  flip_pose_view (rig ["root"]) = (Exc IndexError, rig ["root"]) /\
  mirror_pose_view (rig ["root"]) = (Exc IndexError, rig ["root"]).
Proof. apply (pose_index_error _ "root" []); concrete. Defined.
