(* ===== verification/Select.v ===== *)
(** * Select: modifiers, selection, keying and visibility toggles

    Models [get_modifier], [select_control], [select_control_list],
    [select_all/body/face_controls], [key_all/body/face_controls],
    [vis_controls] and [vis_geometries] of [src/picker_model.py]
    (lines 5-17 and 193-353) and the methods of the same names of
    [Picker] in [src/picker.py] (lines 148-161 and 324-474).

    [picker_model.py] takes the namespace line edit as an optional
    argument ([None]: the group handlers do nothing) and prefixes only a
    non-empty namespace; [picker.py] reads [self.namespace_le.text()]
    (the parameter [namespace] below) and always prefixes it, inside an
    undo chunk.

    Theorems: the modifier decoding and its precedence; what each
    selection mode does to the selection and that the selection never
    gets a duplicate; a visibility toggle flips the attribute's truth
    value; and, for the group handlers, the two variants agree. *)

From S2P Require Import Prelude PyStr Host Namespace.
Local Open Scope string_scope.
Local Open Scope picker_scope.

(** ** Modifiers *)

Inductive modifier := Shift | Control | Alt.

#[export] Instance modifier_eq_dec : EqDecision modifier.
Proof. solve_decision. Defined.

(** The three tests of [get_modifier], in order: a later one overrides
    an earlier one. *)
Definition decode_modifiers (mods : Z) : option modifier :=
  let mod_value := if bool_decide (0 < Z.land mods 1)%Z then Some Shift else None in
  let mod_value := if bool_decide (0 < Z.land mods 4)%Z then Some Control else mod_value in
  if bool_decide (0 < Z.land mods 8)%Z then Some Alt else mod_value.

(** [get_modifier()]. *)
Definition get_modifier : M (option modifier) :=
  let* mods := getModifiers in ret (decode_modifiers mods).

(** The [if get_modifier() == 'shift' ... elif get_modifier() ==
    'control' ... else] of the selection handlers: the modifiers are read
    again for the [elif]. *)
Definition select_with_modifier (names : list string) : M unit :=
  let* m := get_modifier in
  if decide (m = Some Shift) then select_add names else
  let* m' := get_modifier in
  if decide (m' = Some Control) then select_deselect names else select_replace names.

(** ** Clicking a control button *)

Definition select_control_model (control_name : string) (namespace_le : option string) : M unit :=
  select_with_modifier [prefix_name (model_namespace namespace_le) control_name].

Definition select_control_view (namespace control_name : string) : M unit :=
  undo_chunk (select_with_modifier [namespace +:+ control_name]).

Definition select_control_list_model (control_list : list string) (namespace_le : option string)
    : M unit :=
  select_with_modifier (map (prefix_name (model_namespace namespace_le)) control_list).

Definition select_control_list_view (namespace : string) (control_list : list string) : M unit :=
  undo_chunk (select_with_modifier (map (fun c => namespace +:+ c) control_list)).

(** ** The group handlers *)

Definition modules_grp : string := "modules_c_grp".
Definition body_modules_grp : string := "bodyModules_c_grp".
Definition face_modules_grp : string := "faceModules_c_grp".

(** [[x for x in cmds.listRelatives(grp, allDescendents=True) if
    x.endswith('_ctr')]]: iterating the [None] of a group without
    descendants raises [TypeError]. *)
Definition group_controls (grp : string) : M (list string) :=
  let* rel := listRelatives_ad grp in
  let* xs := iter_list rel in
  ret (filter (fun x => py_endswith "_ctr" x = true) xs).

(** [select_all_controls] and the like in [picker_model.py]: nothing
    without a line edit, the bare group for an empty namespace. *)
Definition group_action_model (act : list string -> M unit) (grp : string)
    (namespace_le : option string) : M unit :=
  match namespace_le with
  | None => ret tt
  | Some namespace =>
      if decide (namespace <> "")
      then let* ctrls := group_controls (namespace +:+ grp) in act ctrls
      else let* ctrls := group_controls grp in act ctrls
  end.

Definition group_action_view (act : list string -> M unit) (grp namespace : string) : M unit :=
  undo_chunk (let* ctrls := group_controls (namespace +:+ grp) in act ctrls).

Definition select_all_controls_model := group_action_model select_replace modules_grp.
Definition select_body_controls_model := group_action_model select_replace body_modules_grp.
Definition select_face_controls_model := group_action_model select_replace face_modules_grp.
Definition key_all_controls_model := group_action_model setKeyframe modules_grp.
Definition key_body_controls_model := group_action_model setKeyframe body_modules_grp.
Definition key_face_controls_model := group_action_model setKeyframe face_modules_grp.

Definition select_all_controls_view := group_action_view select_replace modules_grp.
Definition select_body_controls_view := group_action_view select_replace body_modules_grp.
Definition select_face_controls_view := group_action_view select_replace face_modules_grp.
Definition key_all_controls_view := group_action_view setKeyframe modules_grp.
Definition key_body_controls_view := group_action_view setKeyframe body_modules_grp.
Definition key_face_controls_view := group_action_view setKeyframe face_modules_grp.

(** ** Visibility toggles *)

(** [vis = 0 if cmds.getAttr(node.attr) else 1; cmds.setAttr(node.attr, vis)]. *)
Definition toggle_attr (node attr : string) : M unit :=
  let* v := getAttr node attr in
  setAttr node attr (vnum (if py_truthy v then 0 else 1)).

Definition general_ctr : string := "general_c_ctr".

Definition vis_toggle_model (attr : string) (namespace_le : option string) : M unit :=
  match namespace_le with
  | None => ret tt
  | Some namespace =>
      if decide (namespace <> "") then toggle_attr (namespace +:+ general_ctr) attr
      else toggle_attr general_ctr attr
  end.

Definition vis_toggle_view (attr namespace : string) : M unit :=
  undo_chunk (toggle_attr (namespace +:+ general_ctr) attr).

Definition vis_controls_model := vis_toggle_model "visControls".
Definition vis_geometries_model := vis_toggle_model "visGeometries".
Definition vis_controls_view := vis_toggle_view "visControls".
Definition vis_geometries_view := vis_toggle_view "visGeometries".

(** ** Modifier decoding *)

Lemma land_pow2 (m k : Z) :
  (0 <= k)%Z -> Z.land m (2 ^ k) = if Z.testbit m k then (2 ^ k)%Z else 0%Z.
Proof.
  intros Hk. apply Z.bits_inj'. intros n Hn. rewrite Z.land_spec, Z.pow2_bits_eqb by done.
  destruct (Z.eqb_spec k n) as [<-|Hne]; destruct (Z.testbit m k) eqn:E;
    rewrite ?Z.pow2_bits_eqb, ?Z.bits_0, ?andb_false_r, ?andb_true_r by done; try done.
  - by rewrite Z.eqb_refl.
  - apply Z.eqb_neq in Hne. by rewrite Hne.
Qed.

Lemma land_pos_testbit (m k p : Z) :
  p = (2 ^ k)%Z -> (0 <= k)%Z -> bool_decide (0 < Z.land m p)%Z = Z.testbit m k.
Proof.
  intros -> Hk. rewrite land_pow2 by done.
  destruct (Z.testbit m k); apply bool_decide_eq_true || apply bool_decide_eq_false;
    [apply Z.pow_pos_nonneg|]; lia.
Qed.

(** (C32) [get_modifier] reads bits 0 (shift), 2 (control) and 3 (alt)
    of [cmds.getModifiers()], and a later bit wins: shift with control is
    [control], anything with alt is [alt]; caps lock (bit 1) and higher
    bits are ignored. *)
Theorem decode_modifiers_bits mods :
  decode_modifiers mods =
    (if Z.testbit mods 3 then Some Alt
     else if Z.testbit mods 2 then Some Control
     else if Z.testbit mods 0 then Some Shift else None) /\
  decode_modifiers mods = decode_modifiers (Z.land mods 13).
Proof.
  unfold decode_modifiers.
  rewrite (land_pos_testbit mods 0 1), (land_pos_testbit mods 2 4), (land_pos_testbit mods 3 8)
    by (reflexivity || lia).
  rewrite (land_pos_testbit _ 0 1), (land_pos_testbit _ 2 4), (land_pos_testbit _ 3 8)
    by (reflexivity || lia).
  rewrite !Z.land_spec. split; [by destruct (Z.testbit mods 3), (Z.testbit mods 2)|].
  by destruct (Z.testbit mods 3), (Z.testbit mods 2), (Z.testbit mods 0).
Qed.

(** ** Selection *)

Lemma check_exist_ok l s :
  Forall (fun n => is_Some (sc_nodes s !! n)) l -> check_exist l s = (Ok tt, s).
Proof.
  induction 1 as [|n l [nd Hn] _ IH]; [done|]. simpl.
  by rewrite (bind_ok _ _ _ _ _ (get_node_ok _ _ _ Hn)).
Qed.

Lemma check_exist_missing l s n :
  n ∈ l -> sc_nodes s !! n = None -> exists e, check_exist l s = (Exc e, s).
Proof.
  induction l as [|x l IH]; [set_solver|]. intros Hin Hn. simpl. unfold bind at 1.
  destruct (sc_nodes s !! x) as [nd|] eqn:Hx.
  - rewrite (get_node_ok _ _ _ Hx). apply IH; [|done].
    apply elem_of_cons in Hin as [->|]; [congruence|done].
  - rewrite (get_node_none _ _ Hx). by eexists.
Qed.

(** What the selection becomes under each modifier, as a set. *)
Definition selection_spec (m : option modifier) (sel names : list string) (x : string) : Prop :=
  match m with
  | Some Shift => x ∈ sel \/ x ∈ names
  | Some Control => x ∈ sel /\ x ∉ names
  | _ => x ∈ names
  end.

Lemma get_modifier_run s : get_modifier s = (Ok (decode_modifiers (sc_mods s)), s).
Proof. reflexivity. Qed.

(** (C16) When every name exists, a selection click with shift adds the
    names to the selection, with control removes them, and otherwise
    replaces the selection by them; nothing else in the scene changes,
    and a selection without duplicates stays so. *)
Theorem select_with_modifier_spec s names :
  Forall (fun n => is_Some (sc_nodes s !! n)) names ->
  exists s', select_with_modifier names s = (Ok tt, s') /\
    sc_nodes s' = sc_nodes s /\
    (forall x, x ∈ sc_sel s' <-> selection_spec (decode_modifiers (sc_mods s)) (sc_sel s) names x) /\
    (NoDup (sc_sel s) -> NoDup (sc_sel s')).
Proof.
  intros Hex. unfold select_with_modifier, select_add, select_deselect, select_replace.
  rewrite (bind_ok _ _ _ _ _ (get_modifier_run s)).
  unfold selection_spec. destruct (decode_modifiers (sc_mods s)) as [[]|] eqn:Em; simpl.
  all: try rewrite (bind_ok _ _ _ _ _ (get_modifier_run s)), Em; simpl.
  all: rewrite (bind_ok _ _ _ _ _ (check_exist_ok _ _ Hex)); eexists; split; [reflexivity|].
  all: simpl; split; [done|]; split.
  - intros x. rewrite elem_of_app, elem_of_remove_dups, list_elem_of_filter.
    destruct (decide (x ∈ sc_sel s)); naive_solver.
  - intros Hnd. apply NoDup_app. split; [done|]. split; [|apply NoDup_remove_dups].
    intros x Hx. rewrite elem_of_remove_dups, list_elem_of_filter. naive_solver.
  - intros x. rewrite list_elem_of_filter. naive_solver.
  - intros Hnd. by apply NoDup_filter.
  - intros x. apply elem_of_remove_dups.
  - intros _. apply NoDup_remove_dups.
  - intros x. apply elem_of_remove_dups.
  - intros _. apply NoDup_remove_dups.
Qed.

(** A click on a name that does not exist raises, and the selection is
    left as it was. *)
Theorem select_with_modifier_missing s names n :
  n ∈ names -> sc_nodes s !! n = None ->
  exists e, select_with_modifier names s = (Exc e, s).
Proof.
  intros Hin Hn. destruct (check_exist_missing names s n Hin Hn) as [e He].
  exists e. unfold select_with_modifier, select_add, select_deselect, select_replace.
  rewrite (bind_ok _ _ _ _ _ (get_modifier_run s)).
  destruct (decide _); [by rewrite (bind_exc _ _ _ _ _ He)|].
  rewrite (bind_ok _ _ _ _ _ (get_modifier_run s)).
  destruct (decide _); by rewrite (bind_exc _ _ _ _ _ He).
Qed.

(** ** Visibility toggles *)

Lemma py_truthy_coerce (old : value) (b : bool) :
  (exists q, old = VNum q) \/ (exists b', old = VBool b') ->
  exists v', coerce old (vnum (if b then 0 else 1)) = Some v' /\ py_truthy v' = negb b.
Proof.
  intros [[q0 ->]|[b0 ->]]; eexists; split; try reflexivity; by destruct b.
Qed.

(** (C17) Toggling a visibility attribute that exists, is not locked and
    holds a number or a boolean raises nothing and gives it the opposite
    truth value: [0 if getAttr(...) else 1], stored by Maya in the
    attribute's own type. *)
Theorem toggle_attr_flips s n a nd att :
  sc_nodes s !! n = Some nd -> chan_of_name a = None ->
  assoc_get a (nd_attrs nd) = Some att -> at_locked att = false ->
  (exists q, at_value att = VNum q) \/ (exists b, at_value att = VBool b) ->
  fst (toggle_attr n a s) = Ok tt /\
  exists v', attr_value (exec (toggle_attr n a) s) n a = Some v' /\
             py_truthy v' = negb (py_truthy (at_value att)).
Proof.
  intros Hn Ha Hat Hl Hv. unfold toggle_attr, exec.
  rewrite (bind_ok _ _ _ _ _ (getAttr_user _ _ _ _ _ Hn Ha Hat)).
  destruct (py_truthy_coerce (at_value att) (py_truthy (at_value att)) Hv) as (v' & Hc & Ht).
  rewrite (setAttr_user _ _ _ _ _ _ _ Hn Ha Hat Hl Hc). split; [done|].
  exists v'. split; [|done]. unfold attr_value. simpl. rewrite lookup_insert_eq. simpl.
  by rewrite assoc_get_set_eq by (rewrite Hat; by eexists).
Qed.

(** ** Invariant: the selection has no duplicates *)

Definition sel_nodup (s : scene) : Prop := NoDup (sc_sel s).

Lemma keeps_sel_nodup {A} (c : M A) : preserves sc_sel c -> keeps sel_nodup c.
Proof. apply keeps_of_preserves. unfold sel_nodup. by intros s s' ->. Qed.

Lemma check_exist_exec l s : exec (check_exist l) s = s.
Proof.
  revert s. induction l as [|n l IH]; intros s; [done|]. simpl. unfold exec, bind, get_node.
  destruct (sc_nodes s !! n); [apply IH|done].
Qed.

(** The three selection calls: on the raising path the scene is
    untouched; otherwise the new selection has no duplicate. *)
Ltac solve_select_nodup l :=
  let s := fresh "s" in let Hs := fresh "Hs" in let E := fresh "E" in
  intros s Hs; unfold exec, bind; pose proof (check_exist_exec l s) as E; unfold exec in E;
  destruct (check_exist l s) as [[] ?s'] ; simpl in *; subst; [|done]; unfold sel_nodup in *; simpl.

Lemma select_replace_nodup l : keeps sel_nodup (select_replace l).
Proof. unfold select_replace. solve_select_nodup l. apply NoDup_remove_dups. Qed.

Lemma select_add_nodup l : keeps sel_nodup (select_add l).
Proof.
  unfold select_add. solve_select_nodup l. apply NoDup_app. split; [done|].
  split; [|apply NoDup_remove_dups]. intros x Hx. rewrite elem_of_remove_dups, list_elem_of_filter.
  naive_solver.
Qed.

Lemma select_deselect_nodup l : keeps sel_nodup (select_deselect l).
Proof. unfold select_deselect. solve_select_nodup l. by apply NoDup_filter. Qed.

Lemma check_exist_sel l : preserves sc_sel (check_exist l).
Proof. intros s. by rewrite check_exist_exec. Qed.

Lemma getAttr_nodup n a : keeps sel_nodup (getAttr n a).
Proof. intros s Hs. by rewrite getAttr_exec. Qed.
Lemma setAttr_nodup n a v : keeps sel_nodup (setAttr n a v).
Proof. apply keeps_sel_nodup. unfold setAttr. solve_preserves. Qed.
Lemma setKeyframe_nodup l : keeps sel_nodup (setKeyframe l).
Proof. apply keeps_sel_nodup. unfold setKeyframe. pose proof check_exist_sel. solve_preserves. Qed.
Lemma listRelatives_ad_nodup g : keeps sel_nodup (listRelatives_ad g).
Proof. unfold listRelatives_ad. solve_keeps. Qed.
Lemma undo_open_nodup : keeps sel_nodup undo_open.
Proof. intros s Hs. exact Hs. Qed.
Lemma undo_close_nodup : keeps sel_nodup undo_close.
Proof. intros s Hs. exact Hs. Qed.

#[export] Hint Resolve select_replace_nodup select_add_nodup select_deselect_nodup getAttr_nodup
  setAttr_nodup setKeyframe_nodup listRelatives_ad_nodup undo_open_nodup undo_close_nodup : picker.

(** No handler of either file puts a name twice in the selection:
    a selection without duplicates stays so, on every path. *)
Theorem selection_handlers_keep_nodup (namespace : string) (namespace_le : option string)
    (control_name : string) (control_list : list string) (a : string) :
  keeps sel_nodup (select_control_model control_name namespace_le) /\
  keeps sel_nodup (select_control_view namespace control_name) /\
  keeps sel_nodup (select_control_list_model control_list namespace_le) /\
  keeps sel_nodup (select_control_list_view namespace control_list) /\
  (forall grp, keeps sel_nodup (group_action_model select_replace grp namespace_le) /\
               keeps sel_nodup (group_action_view select_replace grp namespace) /\
               keeps sel_nodup (group_action_model setKeyframe grp namespace_le) /\
               keeps sel_nodup (group_action_view setKeyframe grp namespace)) /\
  keeps sel_nodup (vis_toggle_model a namespace_le) /\
  keeps sel_nodup (vis_toggle_view a namespace).
Proof.
  unfold select_control_model, select_control_view, select_control_list_model,
    select_control_list_view, group_action_model, group_action_view, vis_toggle_model,
    vis_toggle_view, toggle_attr, select_with_modifier, get_modifier, getModifiers,
    group_controls, undo_chunk.
  refine (conj _ (conj _ (conj _ (conj _ (conj (fun grp => conj _ (conj _ (conj _ _))) (conj _ _))))));
    solve_keeps.
Qed.

(** ** The two files agree *)

Lemma group_controls_undo_indep g : undo_indep (group_controls g).
Proof. unfold group_controls. solve_undo_indep. Qed.

Lemma select_with_modifier_undo_indep l : undo_indep (select_with_modifier l).
Proof. unfold select_with_modifier, get_modifier. solve_undo_indep. Qed.

Lemma toggle_attr_undo_indep n a : undo_indep (toggle_attr n a).
Proof. unfold toggle_attr. solve_undo_indep. Qed.

Lemma prefix_model_namespace ns x : prefix_name (model_namespace (Some ns)) x = ns +:+ x.
Proof. simpl. by case_decide; subst. Qed.

Lemma select_control_list_view_eq ns l s :
  select_control_list_view ns l s = select_control_list_model l (Some ns) s.
Proof.
  unfold select_control_list_view, select_control_list_model.
  rewrite undo_chunk_transparent by apply select_with_modifier_undo_indep.
  by erewrite (map_ext (prefix_name _)) by apply prefix_model_namespace.
Qed.

(** Given the text of the namespace line edit, each [picker.py]
    handler computes exactly what the [picker_model.py] function given
    that line edit computes, outcome and scene, exceptions included:
    the undo bracket is invisible and an empty namespace prefixes
    nothing in both. *)
Theorem view_handlers_refine_model (act : list string -> M unit) ns s control_name control_list grp a :
  (forall l, undo_indep (act l)) ->
  select_control_view ns control_name s = select_control_model control_name (Some ns) s /\
  select_control_list_view ns control_list s = select_control_list_model control_list (Some ns) s /\
  group_action_view act grp ns s = group_action_model act grp (Some ns) s /\
  vis_toggle_view a ns s = vis_toggle_model a (Some ns) s.
Proof.
  intros Hact.
  unfold select_control_view, select_control_model, select_control_list_view,
    select_control_list_model, group_action_view, group_action_model, vis_toggle_view,
    vis_toggle_model.
  rewrite !undo_chunk_transparent
    by (solve_undo_indep; eauto using select_with_modifier_undo_indep, group_controls_undo_indep,
          toggle_attr_undo_indep).
  rewrite prefix_model_namespace. erewrite (map_ext (prefix_name _)) by apply prefix_model_namespace.
  split; [done|]. split; [done|].
  by case_decide as Hns; [|subst].
Qed.

(** ** Witnesses *)

Module SelectDemo.
Definition general := ctrl None rest_trs
  [("visControls", mk_attr (VBool true) [VBool true] false);
   ("visGeometries", mk_attr (VBool true) [VBool true] false)].
Definition ui (sel : list string) (mods : Z) : scene :=
  mk_scene (list_to_map [("a_ctr", ctrl None rest_trs []); ("b_ctr", ctrl None rest_trs []);
                         ("general_c_ctr", general)]) sel [] 0 mods.
End SelectDemo.
Import SelectDemo.

Lemma select_with_modifier_spec_witness :
  Forall (fun n => is_Some (sc_nodes (ui ["a_ctr"] 1) !! n)) ["b_ctr"] /\
  exists s', select_with_modifier ["b_ctr"] (ui ["a_ctr"] 1) = (Ok tt, s') /\
    sc_nodes s' = sc_nodes (ui ["a_ctr"] 1) /\
    (forall x, x ∈ sc_sel s' <->
       selection_spec (decode_modifiers (sc_mods (ui ["a_ctr"] 1))) (sc_sel (ui ["a_ctr"] 1)) ["b_ctr"] x) /\
    (NoDup (sc_sel (ui ["a_ctr"] 1)) -> NoDup (sc_sel s')).
Proof.
  assert (H : Forall (fun n => is_Some (sc_nodes (ui ["a_ctr"] 1) !! n)) ["b_ctr"])
    by (repeat constructor; vm_compute; eauto).
  split; [exact H | exact (select_with_modifier_spec _ _ H)].
Defined.

Lemma select_with_modifier_missing_witness :
  "nope_ctr" ∈ ["nope_ctr"] /\ sc_nodes (ui [] 0) !! "nope_ctr" = None /\
  exists e, select_with_modifier ["nope_ctr"] (ui [] 0) = (Exc e, ui [] 0).
Proof.
  assert (H1 : "nope_ctr" ∈ ["nope_ctr"]) by set_solver.
  assert (H2 : sc_nodes (ui [] 0) !! "nope_ctr" = None) by reflexivity.
  split; [exact H1|]. split; [exact H2|]. exact (select_with_modifier_missing _ _ _ H1 H2).
Defined.

Lemma toggle_attr_flips_witness :
  fst (toggle_attr "general_c_ctr" "visControls" (ui [] 0)) = Ok tt /\
  exists v', attr_value (exec (toggle_attr "general_c_ctr" "visControls") (ui [] 0))
               "general_c_ctr" "visControls" = Some v' /\
             py_truthy v' = negb (py_truthy (VBool true)).
Proof.
  apply (toggle_attr_flips _ _ _ general (mk_attr (VBool true) [VBool true] false));
    [reflexivity..|right; by eexists].
Defined.

Lemma view_handlers_refine_model_witness :
  (forall l, undo_indep (select_replace l)) /\
  select_control_view "" "a_ctr" (ui [] 0) = select_control_model "a_ctr" (Some "") (ui [] 0) /\
  select_control_list_view "" ["a_ctr"] (ui [] 0)
    = select_control_list_model ["a_ctr"] (Some "") (ui [] 0) /\
  group_action_view select_replace modules_grp "" (ui [] 0)
    = group_action_model select_replace modules_grp (Some "") (ui [] 0) /\
  vis_toggle_view "visControls" "" (ui [] 0) = vis_toggle_model "visControls" (Some "") (ui [] 0).
Proof.
  assert (H : forall l, undo_indep (select_replace l)) by apply select_replace_undo_indep.
  split; [exact H | exact (view_handlers_refine_model _ _ _ _ _ _ _ H)].
Defined.
