(* ===== verification/World.v ===== *)
(** * World: the world matrix of a node, its fuel and its frame

    [Host.world] follows the parent (or, for a constrained node, the
    target its switch attribute selects) with fuel [size (sc_nodes s)].
    This file shows that the fuel is never the limit for a scene where
    the matrix exists: a successful computation visits distinct nodes of
    the scene ([wpath]), so the number of nodes is enough fuel and more
    fuel gives the same matrix; and that the matrix depends only on the
    records of the nodes it reads ([wdeps]): editing any other node, or
    only the channels of any node, leaves the path unchanged.  With these,
    [xform(worldSpace=True, matrix=m)] gives the node the world matrix
    [m] ([xform_set_matrix_ws_world]); a sequence of such sets on free
    nodes ([settable]) in which no node set later feeds one set earlier
    ([indep]) gives each node its matrix and moves no link
    ([xform_set_all]), the lemma [Snap] builds on. *)

From S2P Require Import Prelude Host.
Local Open Scope string_scope.
Local Open Scope picker_scope.

Section WorldDefs.
Context `{XA : XformAlgebra}.

(** ** One step of the world computation *)

Inductive wstep := WRoot (w : mat) | WNext (n' : string) (k : mat -> mat) | WFail.

Definition world_step (nodes : gmap string node) (n : string) : wstep :=
  match nodes !! n with
  | None => WFail
  | Some nd =>
      match nd_drive nd with
      | Free =>
          match nd_parent nd with
          | None => WRoot (compose (nd_trs nd))
          | Some p => WNext p (fun w => mat_mul w (compose (nd_trs nd)))
          end
      | Blend sw a src0 src1 =>
          match nodes !! sw with
          | None => WFail
          | Some swn =>
              match assoc_get a (nd_attrs swn) with
              | None => WFail
              | Some att => WNext (if py_eq_zero (at_value att) then src0 else src1) (fun w => w)
              end
          end
      end
  end.

(** The node the computation continues with, if any. *)
Definition wnext (nodes : gmap string node) (n : string) : option string :=
  match world_step nodes n with WNext n' _ => Some n' | _ => None end.

(** The nodes the computation goes through, and the nodes whose records
    it reads (the path and the switches of the constrained nodes). *)
Fixpoint wpath (fuel : nat) (nodes : gmap string node) (n : string) : list string :=
  match fuel with
  | O => []
  | S f => n :: match wnext nodes n with Some n' => wpath f nodes n' | None => [] end
  end.

Definition switch_of (nodes : gmap string node) (n : string) : list string :=
  match nodes !! n with
  | Some nd => match nd_drive nd with Blend sw _ _ _ => [sw] | Free => [] end
  | None => []
  end.

Fixpoint wdeps (fuel : nat) (nodes : gmap string node) (n : string) : list string :=
  match fuel with
  | O => []
  | S f => n :: switch_of nodes n ++
           match wnext nodes n with Some n' => wdeps f nodes n' | None => [] end
  end.

(** [k] steps along the path. *)
Fixpoint walk (k : nat) (nodes : gmap string node) (n : string) : option string :=
  match k with
  | O => Some n
  | S k' => match wnext nodes n with Some n' => walk k' nodes n' | None => None end
  end.

(** The nodes the world matrix of [n] depends on in scene [s]. *)
Definition deps (s : scene) (n : string) : list string :=
  wdeps (size (sc_nodes s)) (sc_nodes s) n.

End WorldDefs.

Section WorldFuel.
Context `{XA : XformAlgebra}.

Lemma world_fuel_step f m n :
  world_fuel (S f) m n =
  match world_step m n with
  | WRoot w => Some w
  | WNext n' k => k <$> world_fuel f m n'
  | WFail => None
  end.
Proof.
  simpl. unfold world_step. destruct (m !! n) as [nd|]; [|done].
  destruct (nd_drive nd) as [|sw a s0 s1]; [by destruct (nd_parent nd)|].
  destruct (m !! sw) as [swn|]; [|done]. destruct (assoc_get a (nd_attrs swn)); [|done].
  by destruct (world_fuel f m _).
Qed.

Lemma wnext_step m n n' : wnext m n = Some n' <-> exists k, world_step m n = WNext n' k.
Proof.
  unfold wnext. split.
  - destruct (world_step m n); intros H; try done. injection H as ->. eauto.
  - by intros [k ->].
Qed.

(** ** More fuel gives the same matrix *)

Lemma world_fuel_S f m n w : world_fuel f m n = Some w -> world_fuel (S f) m n = Some w.
Proof.
  revert n w. induction f as [|f IH]; intros n w H; [done|].
  rewrite world_fuel_step in *. destruct (world_step m n) as [|n' k|]; try done.
  destruct (world_fuel f m n') eqn:E; [|done]. by rewrite (IH _ _ E).
Qed.

Lemma world_fuel_le f g m n w : f <= g -> world_fuel f m n = Some w -> world_fuel g m n = Some w.
Proof. induction 1; eauto using world_fuel_S. Qed.

(** ** A successful computation visits distinct nodes of the scene *)

Lemma walk_world j g m n y w :
  walk j m n = Some y -> world_fuel g m n = Some w ->
  j < g /\ exists w', world_fuel (g - j) m y = Some w'.
Proof.
  revert n g w. induction j as [|j IH]; intros n g w Hw Hg.
  - injection Hw as <-. destruct g as [|g]; [discriminate Hg|]. split; [lia|].
    rewrite Nat.sub_0_r. eauto.
  - cbn [walk] in Hw. destruct g as [|g]; [discriminate Hg|]. rewrite world_fuel_step in Hg.
    destruct (wnext m n) as [n'|] eqn:En; [|done]. apply wnext_step in En as [k Ek].
    rewrite Ek in Hg. destruct (world_fuel g m n') as [w0|] eqn:E; [|done].
    destruct (IH _ _ _ Hw E) as [Hlt Hy]. split; [lia|].
    by replace (S g - S j) with (g - j) by lia.
Qed.

(** A node the path comes back to has no world matrix, whatever the
    fuel. *)
Lemma walk_cycle k m n : walk (S k) m n = Some n -> forall g, world_fuel g m n = None.
Proof.
  intros Hc g. induction g as [g IH] using (well_founded_induction lt_wf).
  destruct (world_fuel g m n) as [w|] eqn:E; [|done].
  destruct (walk_world _ _ _ _ _ _ Hc E) as [Hlt [w' Hw']].
  rewrite (IH (g - S k)) in Hw'; [done|lia].
Qed.

Lemma wpath_walk f m n y : y ∈ wpath f m n -> exists j, walk j m n = Some y.
Proof.
  revert n. induction f as [|f IH]; intros n Hy; [by apply elem_of_nil in Hy|].
  cbn [wpath] in Hy. apply elem_of_cons in Hy as [->|Hy]; [by exists 0|].
  destruct (wnext m n) as [n'|] eqn:E; [|by apply elem_of_nil in Hy].
  destruct (IH _ Hy) as [j Hj]. exists (S j). cbn [walk]. by rewrite E.
Qed.

Lemma wpath_nodup f m n w : world_fuel f m n = Some w -> NoDup (wpath f m n).
Proof.
  revert n w. induction f as [|f IH]; intros n w Hw; [done|].
  pose proof Hw as Hw0. rewrite world_fuel_step in Hw. cbn [wpath].
  destruct (world_step m n) as [w0|n' k|] eqn:E; try done.
  - assert (wnext m n = None) as -> by (unfold wnext; by rewrite E).
    constructor; [set_solver|constructor].
  - assert (En : wnext m n = Some n') by (unfold wnext; by rewrite E). rewrite En.
    destruct (world_fuel f m n') as [w1|] eqn:E1; [|done]. constructor; [|eauto].
    intros Hin. destruct (wpath_walk _ _ _ _ Hin) as [j Hj].
    assert (Hc : walk (S j) m n = Some n) by (cbn [walk]; by rewrite En).
    by rewrite (walk_cycle _ _ _ Hc (S f)) in Hw0.
Qed.

Lemma wpath_dom f m n w y : world_fuel f m n = Some w -> y ∈ wpath f m n -> is_Some (m !! y).
Proof.
  revert n w. induction f as [|f IH]; intros n w Hw Hy; [by apply elem_of_nil in Hy|].
  assert (Hn : is_Some (m !! n)).
  { destruct (m !! n) eqn:Em; [eauto|]. rewrite world_fuel_step in Hw. unfold world_step in Hw.
    by rewrite Em in Hw. }
  cbn [wpath] in Hy. apply elem_of_cons in Hy as [->|Hy]; [done|].
  rewrite world_fuel_step in Hw. destruct (wnext m n) as [n'|] eqn:En; [|by apply elem_of_nil in Hy].
  apply wnext_step in En as [k Ek]. rewrite Ek in Hw.
  destruct (world_fuel f m n') eqn:E1; [|done]. eauto.
Qed.

(** The computation takes exactly as many steps as its path is long. *)
Lemma world_fuel_wpath f m n w :
  world_fuel f m n = Some w -> world_fuel (length (wpath f m n)) m n = Some w.
Proof.
  revert n w. induction f as [|f IH]; intros n w Hw; [done|].
  rewrite world_fuel_step in Hw. cbn [wpath length]. rewrite world_fuel_step.
  unfold wnext. destruct (world_step m n) as [w0|n' k|]; try done.
  destruct (world_fuel f m n') as [w1|] eqn:E1; [|done]. by rewrite (IH _ _ E1).
Qed.

(** The number of nodes is enough fuel: a world matrix found with any
    fuel is found with [size m] and with any more. *)
Lemma world_fuel_enough f g m n w :
  world_fuel f m n = Some w -> size m <= g -> world_fuel g m n = Some w.
Proof.
  intros Hw Hg. apply (world_fuel_le (length (wpath f m n))); [|by apply world_fuel_wpath].
  etrans; [|exact Hg]. apply nodup_dom_length; [by eapply wpath_nodup|]. intros y. by eapply wpath_dom.
Qed.

(** One node fewer suffices when the path avoids a node of the scene. *)
Lemma world_fuel_avoid f m n w c ndc :
  world_fuel f m n = Some w -> m !! c = Some ndc -> c ∉ wpath f m n ->
  world_fuel (size m - 1) m n = Some w.
Proof.
  intros Hw Hc Hnot. apply (world_fuel_le (length (wpath f m n))); [|by apply world_fuel_wpath].
  replace (size m - 1) with (size (delete c m)) by (rewrite map_size_delete_Some; [lia|eauto]).
  apply nodup_dom_length; [by eapply wpath_nodup|].
  intros y Hy. rewrite lookup_delete_ne by (intros ->; done). by eapply wpath_dom.
Qed.

End WorldFuel.

Section WorldFrame.
Context `{XA : XformAlgebra}.

(** ** The matrix depends only on the records it reads *)

Lemma world_step_frame m m' n :
  m' !! n = m !! n -> (forall sw, sw ∈ switch_of m n -> m' !! sw = m !! sw) ->
  world_step m' n = world_step m n.
Proof.
  intros Hn Hs. unfold world_step. rewrite Hn. unfold switch_of in Hs.
  destruct (m !! n) as [nd|]; [|done].
  destruct (nd_drive nd) as [|sw a s0 s1]; [done|]. by rewrite Hs by set_solver.
Qed.

Lemma world_fuel_frame f m m' n :
  (forall y, y ∈ wdeps f m n -> m' !! y = m !! y) ->
  world_fuel f m' n = world_fuel f m n /\ wdeps f m' n = wdeps f m n.
Proof.
  revert n. induction f as [|f IH]; intros n Hy; [done|].
  assert (Hn : m' !! n = m !! n) by (apply Hy; cbn [wdeps]; set_solver).
  assert (Hsw : switch_of m' n = switch_of m n) by (unfold switch_of; by rewrite Hn).
  assert (Hs : world_step m' n = world_step m n).
  { apply world_step_frame; [done|]. intros sw Hsw'. apply Hy. cbn [wdeps]. set_solver. }
  assert (Hw : wnext m' n = wnext m n) by (unfold wnext; by rewrite Hs).
  rewrite !world_fuel_step, Hs. cbn [wdeps]. rewrite Hsw, Hw.
  destruct (wnext m n) as [n'|] eqn:En.
  - destruct (proj1 (wnext_step _ _ _) En) as [k Ek]. rewrite Ek.
    destruct (IH n') as [-> ->]; [|done]. intros y Hy'. apply Hy. cbn [wdeps]. rewrite En. set_solver.
  - split; [|done]. destruct (world_step m n) eqn:E; try done.
    unfold wnext in En. by rewrite E in En.
Qed.

Lemma wpath_wdeps f m n y : y ∈ wpath f m n -> y ∈ wdeps f m n.
Proof.
  revert n. induction f as [|f IH]; intros n; [done|]. cbn [wpath wdeps].
  destruct (wnext m n); rewrite !elem_of_cons, ?elem_of_app; [|set_solver].
  intros [->|H]; [by left | right; right; by apply IH].
Qed.

Lemma wdeps_mono f m n y : y ∈ wdeps f m n -> y ∈ wdeps (S f) m n.
Proof.
  revert n. induction f as [|f IH]; intros n; [by intros ?%elem_of_nil|]. cbn [wdeps] in *.
  destruct (wnext m n); rewrite !elem_of_cons, !elem_of_app; [|set_solver].
  intros [->|[H|H]]; [by left | by right; left | right; right; by apply IH].
Qed.

(** ** Editing channels moves no link *)

Definition shape (nd : node) : option string * drive * list (string * attr) :=
  (nd_parent nd, nd_drive nd, nd_attrs nd).

Definition shape_eq (m m' : gmap string node) : Prop :=
  forall y, shape <$> m' !! y = shape <$> m !! y.

Lemma shape_eq_set_trs m c nd t : m !! c = Some nd -> shape_eq m (<[c := set_trs nd t]> m).
Proof.
  intros Hc y. destruct (decide (y = c)) as [->|Hne].
  - by rewrite lookup_insert_eq, Hc.
  - by rewrite lookup_insert_ne.
Qed.

Lemma wnext_shape m m' n : shape_eq m m' -> wnext m' n = wnext m n /\ switch_of m' n = switch_of m n.
Proof.
  intros Hsh. unfold wnext, world_step, switch_of. pose proof (Hsh n) as Hn.
  destruct (m !! n) as [nd|], (m' !! n) as [nd'|]; simpl in Hn; try done.
  injection Hn as Hp Hd Ha. rewrite Hd. destruct (nd_drive nd) as [|sw a s0 s1]; [rewrite Hp; split; [by destruct (nd_parent nd)|done]|].
  split; [|done]. pose proof (Hsh sw) as Hs.
  destruct (m !! sw) as [swn|], (m' !! sw) as [swn'|]; simpl in Hs; try done.
  injection Hs as _ _ ->. by destruct (assoc_get a (nd_attrs swn)).
Qed.

Lemma wdeps_shape f m m' n : shape_eq m m' -> wdeps f m' n = wdeps f m n.
Proof.
  intros Hsh. revert n. induction f as [|f IH]; intros n; [done|]. cbn [wdeps].
  destruct (wnext_shape _ _ n Hsh) as [-> ->]. by destruct (wnext m n); rewrite ?IH.
Qed.

End WorldFrame.

Section WorldShape.
Context `{XA : XformAlgebra}.

Lemma shape_eq_refl m : shape_eq m m.
Proof. done. Qed.

Lemma shape_eq_trans m1 m2 m3 : shape_eq m1 m2 -> shape_eq m2 m3 -> shape_eq m1 m3.
Proof. intros H1 H2 y. by rewrite H2, H1. Qed.

Lemma shape_eq_size m m' : shape_eq m m' -> size m' = size m.
Proof.
  intros Hsh. rewrite <- (size_dom (D := gset string) m), <- (size_dom (D := gset string) m').
  f_equal. apply set_eq. intros y. rewrite !elem_of_dom. pose proof (Hsh y) as Hy.
  destruct (m !! y), (m' !! y); simpl in Hy; split; intros [? ?]; try done; eauto.
Qed.

Lemma world_step_shape m m' n :
  shape_eq m m' ->
  match world_step m n, world_step m' n with
  | WRoot _, WRoot _ | WFail, WFail => True
  | WNext a _, WNext b _ => a = b
  | _, _ => False
  end.
Proof.
  intros Hsh. unfold world_step. pose proof (Hsh n) as Hn.
  destruct (m !! n) as [nd|], (m' !! n) as [nd'|]; simpl in Hn; try done.
  injection Hn as Hp Hd Ha. rewrite Hd. destruct (nd_drive nd) as [|sw a s0 s1].
  { rewrite Hp. by destruct (nd_parent nd). }
  pose proof (Hsh sw) as Hs.
  destruct (m !! sw) as [swn|], (m' !! sw) as [swn'|]; simpl in Hs; try done.
  injection Hs as _ _ ->. by destruct (assoc_get a (nd_attrs swn)).
Qed.

(** Whether a world matrix exists depends on the links only. *)
Lemma world_fuel_shape_some f m m' n :
  shape_eq m m' -> is_Some (world_fuel f m n) -> is_Some (world_fuel f m' n).
Proof.
  intros Hsh. revert n. induction f as [|f IH]; intros n Hw; [done|].
  rewrite world_fuel_step in *. pose proof (world_step_shape _ _ n Hsh) as Hs.
  destruct (world_step m n), (world_step m' n); try done; subst.
  destruct (world_fuel f m _) eqn:E; [|by destruct Hw].
  destruct (IH _ (mk_is_Some _ _ E)) as [w' ->]. eauto.
Qed.

Lemma deps_shape s s' n :
  shape_eq (sc_nodes s) (sc_nodes s') -> deps s' n = deps s n.
Proof. intros Hsh. unfold deps. rewrite (shape_eq_size _ _ Hsh). by apply wdeps_shape. Qed.

Lemma world_shape_some s s' n :
  shape_eq (sc_nodes s) (sc_nodes s') -> is_Some (world s n) -> is_Some (world s' n).
Proof. intros Hsh. unfold world. rewrite (shape_eq_size _ _ Hsh). by apply world_fuel_shape_some. Qed.

Lemma size_pos (m : gmap string node) c nd : m !! c = Some nd -> exists k, size m = S k.
Proof.
  intros Hc. destruct (size m) eqn:E; [|eauto].
  apply map_size_empty_iff in E. subst m. by rewrite lookup_empty in Hc.
Qed.

(** A node is among the nodes its own matrix reads. *)
Lemma deps_self s n : is_Some (sc_nodes s !! n) -> n ∈ deps s n.
Proof.
  intros [nd Hn]. unfold deps. destruct (size_pos _ _ _ Hn) as [k ->]. cbn [wdeps]. set_solver.
Qed.

(** Past the end of a successful computation, fuel adds no node. *)
Lemma wdeps_stable f g m n w : world_fuel f m n = Some w -> f <= g -> wdeps g m n = wdeps f m n.
Proof.
  revert g n w. induction f as [|f IH]; intros g n w Hw Hle; [done|]. destruct g as [|g]; [lia|].
  rewrite world_fuel_step in Hw. cbn [wdeps]. unfold wnext.
  destruct (world_step m n) as [|n' k|]; try done.
  destruct (world_fuel f m n') eqn:E; [|done]. by rewrite (IH g n' _ E) by lia.
Qed.

(** The matrix of a free node reads everything its parent's reads. *)
Lemma deps_parent s c nd p :
  sc_nodes s !! c = Some nd -> nd_drive nd = Free -> nd_parent nd = Some p ->
  is_Some (world s p) -> c ∉ deps s p -> deps s p ⊆ deps s c.
Proof.
  intros Hc Hf Hp [w Hw] Hnot. unfold deps, world in *. destruct (size_pos _ _ _ Hc) as [k Hk].
  assert (Hwk : world_fuel k (sc_nodes s) p = Some w).
  { replace k with (size (sc_nodes s) - 1) by lia. eapply world_fuel_avoid; [exact Hw|exact Hc|].
    intros Hin. by apply Hnot, wpath_wdeps. }
  rewrite Hk, (wdeps_stable _ _ _ _ _ Hwk) by lia. cbn [wdeps].
  assert (Hnx : wnext (sc_nodes s) c = Some p) by (unfold wnext, world_step; by rewrite Hc, Hf, Hp).
  rewrite Hnx. set_solver.
Qed.

(** The world matrix and the reads of [n] see only the records they read. *)
Lemma world_frame s s' n :
  size (sc_nodes s') = size (sc_nodes s) ->
  (forall y, y ∈ deps s n -> sc_nodes s' !! y = sc_nodes s !! y) ->
  world s' n = world s n /\ deps s' n = deps s n.
Proof. intros Hsz Hy. unfold world, deps. rewrite Hsz. by apply world_fuel_frame. Qed.

End WorldShape.

Section WorldSet.
Context `{XA : XformAlgebra}.

Lemma mat_mul_inv_cancel w M : mat_mul w (mat_mul (mat_inv w) M) = M.
Proof. by rewrite mat_mul_assoc, mat_mul_inv_r, mat_mul_id_l. Qed.

(** [cmds.xform(c, worldSpace=True, matrix=M)] on a free node whose
    parent has a world matrix not depending on [c]: only [c]'s channels
    change, and its world matrix becomes [M]. *)
Lemma xform_set_matrix_ws_world s c nd M :
  sc_nodes s !! c = Some nd -> nd_drive nd = Free ->
  (forall p, nd_parent nd = Some p -> is_Some (world s p) /\ c ∉ deps s p) ->
  exists t, xform_set_matrix_ws c M s = (Ok tt, with_nodes s (<[c := set_trs nd t]> (sc_nodes s))) /\
    world (with_nodes s (<[c := set_trs nd t]> (sc_nodes s))) c = Some M.
Proof.
  intros Hc Hfree Hpar. destruct (size_pos _ _ _ Hc) as [k Hk].
  assert (Hstep : forall t, world (with_nodes s (<[c := set_trs nd t]> (sc_nodes s))) c =
            match nd_parent nd with
            | None => Some (compose t)
            | Some p => (fun w => mat_mul w (compose t)) <$> world_fuel k (<[c := set_trs nd t]> (sc_nodes s)) p
            end).
  { intros t. unfold world. rewrite with_nodes_nodes, map_size_insert_Some, Hk by eauto.
    rewrite world_fuel_step. unfold world_step. rewrite lookup_insert_eq. simpl. rewrite Hfree.
    by destruct (nd_parent nd). }
  unfold xform_set_matrix_ws, bind. rewrite (get_node_ok _ _ _ Hc).
  destruct (nd_parent nd) as [p|] eqn:Hp.
  - destruct (Hpar p eq_refl) as [[wp Hwp] Hdep]. unfold world_of. rewrite Hwp.
    exists (decompose (mat_mul (mat_inv wp) M)). split; [done|]. rewrite Hstep.
    unfold world, deps in Hwp, Hdep. rewrite Hk in Hwp, Hdep.
    assert (Hw : world_fuel k (sc_nodes s) p = Some wp).
    { replace k with (size (sc_nodes s) - 1) by lia. eapply world_fuel_avoid; [exact Hwp|exact Hc|].
      intros Hin. by apply Hdep, wpath_wdeps. }
    assert (Hfr : forall y, y ∈ wdeps k (sc_nodes s) p ->
      <[c := set_trs nd (decompose (mat_mul (mat_inv wp) M))]> (sc_nodes s) !! y = sc_nodes s !! y).
    { intros y Hy. rewrite lookup_insert_ne; [done|]. intros ->. by apply Hdep, wdeps_mono. }
    rewrite (proj1 (world_fuel_frame k (sc_nodes s) _ p Hfr)), Hw.
    cbn [fmap option_fmap option_map]. by rewrite compose_decompose, mat_mul_inv_cancel.
  - exists (decompose M). split; [done|]. by rewrite Hstep, compose_decompose.
Qed.

End WorldSet.

Section WorldLoop.
Context `{XA : XformAlgebra}.

(** ** A sequence of world-space sets *)

(** [c] can be placed in world space: a free node whose parent, if any,
    has a world matrix that does not read [c]. *)
Definition settable (s : scene) (c : string) : Prop :=
  match sc_nodes s !! c with
  | Some nd => nd_drive nd = Free /\
      match nd_parent nd with Some p => is_Some (world s p) /\ c ∉ deps s p | None => True end
  | None => False
  end.

(** No node set later feeds the matrix of a node set earlier. *)
Fixpoint indep {B} (s : scene) (L : list (string * B)) : Prop :=
  match L with
  | [] => True
  | (c, _) :: L' => Forall (fun cb : string * B => cb.1 ∉ deps s c) L' /\ indep s L'
  end.

#[export] Instance settable_dec s c : Decision (settable s c).
Proof. unfold settable. repeat case_match; apply _. Defined.

#[export] Instance indep_dec {B} s (L : list (string * B)) : Decision (indep s L).
Proof. induction L as [|[c b] L IH]; simpl; apply _. Defined.

Lemma settable_shape s s' c :
  shape_eq (sc_nodes s) (sc_nodes s') -> settable s c -> settable s' c.
Proof.
  intros Hsh. unfold settable. pose proof (Hsh c) as Hc.
  destruct (sc_nodes s !! c) as [nd|], (sc_nodes s' !! c) as [nd'|]; simpl in Hc; try done.
  injection Hc as Hp Hd _. rewrite Hp, Hd. destruct (nd_parent nd) as [p|]; [|done].
  rewrite (deps_shape _ _ p Hsh). intros [? [? ?]]. eauto using world_shape_some.
Qed.

Lemma indep_shape {B} s s' (L : list (string * B)) :
  shape_eq (sc_nodes s) (sc_nodes s') -> indep s L -> indep s' L.
Proof.
  intros Hsh. induction L as [|[c b] L IH]; [done|]. simpl. rewrite (deps_shape _ _ c Hsh). tauto.
Qed.

(** Setting each [c] of [L] to its matrix [M] in order: every node of
    [L] ends with its matrix, no link moves and no other node changes. *)
Lemma xform_set_all s (L : list (string * mat)) :
  Forall (fun cM : string * mat => settable s cM.1) L -> indep s L ->
  exists s', for_ L (fun '(c, M) => xform_set_matrix_ws c M) s = (Ok tt, s') /\
    s' = with_nodes s (sc_nodes s') /\ shape_eq (sc_nodes s) (sc_nodes s') /\
    (forall y, y ∉ L.*1 -> sc_nodes s' !! y = sc_nodes s !! y) /\
    Forall (fun cM : string * mat => world s' cM.1 = Some cM.2) L.
Proof.
  revert s. induction L as [|[c M] L IH]; intros s HL Hind.
  { exists s. by rewrite with_nodes_id. }
  apply Forall_cons in HL as [Hc HL]. destruct Hind as [Hfst Hind]. simpl in Hc.
  unfold settable in Hc. destruct (sc_nodes s !! c) as [nd|] eqn:Hnd; [|done]. destruct Hc as [Hfree Hpar].
  destruct (xform_set_matrix_ws_world s c nd M Hnd Hfree) as [t [Hrun Hw]].
  { intros p Hp. by rewrite Hp in Hpar. }
  set (s1 := with_nodes s (<[c := set_trs nd t]> (sc_nodes s))) in *.
  assert (Hsh1 : shape_eq (sc_nodes s) (sc_nodes s1)) by (by apply shape_eq_set_trs).
  destruct (IH s1) as (s2 & Hrun2 & Hs2 & Hsh2 & Hout & Hws).
  { eapply Forall_impl; [exact HL|]. intros [??]. by apply settable_shape. }
  { by eapply indep_shape. }
  exists s2. rewrite for_cons. unfold bind at 1. cbn beta iota. rewrite Hrun. split; [done|].
  split; [by rewrite Hs2|]. split; [by eapply shape_eq_trans|]. split.
  { intros y Hy. rewrite Hout by set_solver. apply lookup_insert_ne. set_solver. }
  constructor; [|done]. simpl. rewrite <- Hw. unfold world. rewrite (shape_eq_size _ _ Hsh2).
  destruct (world_fuel_frame (size (sc_nodes s1)) (sc_nodes s1) (sc_nodes s2) c) as [-> _]; [|done].
  intros y Hy. apply Hout. intros Hy'. apply list_elem_of_fmap in Hy' as [[y' M'] [-> Hy']].
  eapply Forall_forall in Hfst; [|exact Hy']. apply Hfst. simpl.
  change (y' ∈ deps s1 c) in Hy. by rewrite (deps_shape _ _ c Hsh1) in Hy.
Qed.

Lemma settable_node s c : settable s c -> is_Some (sc_nodes s !! c).
Proof. unfold settable. destruct (sc_nodes s !! c); [eauto|done]. Qed.

Lemma indep_fst {B B'} s (L : list (string * B)) (L' : list (string * B')) :
  L.*1 = L'.*1 -> indep s L -> indep s L'.
Proof.
  revert L'. induction L as [|[c b] L IH]; intros [|[c' b'] L'] Heq; try done.
  injection Heq as <- Heq. simpl. intros [Hf Hi]. split; [|by apply IH].
  by apply (Forall_same_keys (fun y => y ∉ deps s c) L).
Qed.

Lemma xform_get_matrix_ws_ok s n w : world s n = Some w -> xform_get_matrix_ws n s = (Ok w, s).
Proof.
  intros Hw. unfold xform_get_matrix_ws, bind, world_of.
  assert (Hn : is_Some (sc_nodes s !! n)).
  { unfold world in Hw. destruct (size (sc_nodes s)); [done|]. simpl in Hw.
    destruct (sc_nodes s !! n); [eauto|done]. }
  destruct Hn as [nd Hn]. by rewrite (get_node_ok _ _ _ Hn), Hw.
Qed.

(** An edit outside the records [c]'s matrix reads keeps [c] settable. *)
Lemma settable_frame s s' c :
  size (sc_nodes s') = size (sc_nodes s) ->
  (forall y, y ∈ deps s c -> sc_nodes s' !! y = sc_nodes s !! y) ->
  settable s c -> settable s' c.
Proof.
  intros Hsz Hy Hc. pose proof Hc as Hc'. unfold settable in *.
  destruct (sc_nodes s !! c) as [nd|] eqn:Hnd; [|done].
  rewrite (Hy c) by (apply deps_self; eauto). rewrite Hnd. destruct Hc as [Hf Hp]. split; [done|].
  destruct (nd_parent nd) as [p|] eqn:Ep; [|done]. destruct Hp as [Hw Hnot].
  pose proof (deps_parent _ _ _ _ Hnd Hf Ep Hw Hnot) as Hsub.
  destruct (world_frame s s' p Hsz) as [-> ->]; [|done]. intros y Hyp. apply Hy. set_solver.
Qed.

Lemma indep_deps {B} s s' (L : list (string * B)) :
  (forall c, c ∈ L.*1 -> deps s' c = deps s c) -> indep s L -> indep s' L.
Proof.
  induction L as [|[c b] L IH]; [done|]. intros Hd. simpl. rewrite Hd by set_solver.
  intros [? ?]. split; [done|]. apply IH; [|done]. intros c' ?. apply Hd. set_solver.
Qed.

Lemma world_of_wf n : keeps wf_scene (world_of n).
Proof. intros s Hs. unfold exec, world_of. by destruct (world s n). Qed.

Lemma xform_get_matrix_ws_wf n : keeps wf_scene (xform_get_matrix_ws n).
Proof. unfold xform_get_matrix_ws. pose proof world_of_wf. solve_keeps. Qed.

Lemma xform_set_matrix_ws_wf n M : keeps wf_scene (xform_set_matrix_ws n M).
Proof.
  intros s Hs. unfold exec, xform_set_matrix_ws, bind, get_node, world_of.
  destruct (sc_nodes s !! n) as [nd|] eqn:E; [|done]. cbn beta iota.
  destruct (nd_parent nd); [destruct (world s _)|]; try done; by eapply wf_scene_insert.
Qed.

End WorldLoop.

#[export] Hint Resolve world_of_wf xform_get_matrix_ws_wf xform_set_matrix_ws_wf : picker.
