(* ===== verification/Bind.v ===== *)
(** * Bind: resetting the rig to its bind pose

    Models [bind_pose] of [src/picker_model.py] (lines 34-76) and
    [Picker.bind_pose] of [src/picker.py] (lines 163-203).  For every
    control under the modules group the handler
    - resets each user-defined attribute to its default value
      ([attributeQuery(listDefault=True)[0]]), each inside
      [try: ... except: pass];
    - sets the nine channels [tx] ... [sz] to 0, the scales to 1, again
      each inside [try: ... except: pass] (a locked channel keeps its
      value);
    - when the control has a [skinPoseData] attribute, reads its text,
      keeps what lies between the last ['['] and the next [']'], splits
      it at the commas, converts each piece with [float] and sets the
      local matrix from the sixteen numbers.

    [picker_model.py] looks under ['{namespace}modules_grp'] when the
    namespace is not empty (the [_c_] of the group is missing), under
    [modules_c_grp] when it is, and does nothing without a line edit;
    [picker.py] always looks under ['{namespace}modules_c_grp'] and
    brackets the work in an undo chunk.

    Theorems: the per-control work equals a pure reset of the node
    followed by the skin pose (the try/except loops refined by a
    function); the reset puts every unlocked channel at rest; data
    written as Python writes a list of floats is parsed back and the
    control ends with exactly that matrix; malformed data stops the
    handler with [ValueError]; the namespace discrepancy; the
    well-formedness of the scene is kept. *)

From S2P Require Import Prelude PyStr PyFloat Host Namespace Select.
From Stdlib Require Import Ascii QArith Qcanon.
Close Scope Qc_scope.
Close Scope Q_scope.
Local Open Scope string_scope.
Local Open Scope picker_scope.

Section BindCode.
Context `{XA : XformAlgebra}.

(** ** The code *)

Definition skin_pose_attr : string := "skinPoseData".

(** [skin_pose_data.split('[')[-1].split(']')[0].split(',')] followed by
    [[float(x) for x in skin_pose_data]]; [.split] on a number is the
    [AttributeError] of Python. *)
Definition skin_pose_floats (skin_pose_data : value) : M (list pyfloat) :=
  match skin_pose_data with
  | VStr data =>
      match py_index (-1) (py_split "[" data) with
      | None => raise IndexError
      | Some a =>
          match py_index 0 (py_split "]" a) with
          | None => raise IndexError
          | Some b =>
              match mapM py_float (py_split "," b) with
              | Some fs => ret fs
              | None => raise ValueError
              end
          end
      end
  | _ => raise AttributeError
  end.

(** [cmds.xform(ctr, objectSpace=True, matrix=skin_pose_data)] with the
    floats of Python: the finite ones are the matrix entries; an
    infinite or NaN entry is an error of the model. *)
Definition finite_floats (fs : list pyfloat) : option (list Qc) :=
  mapM (fun f => match f with Finite x => Some x | NonFinite => None end) fs.

Definition xform_set_pyfloats_os (n : string) (fs : list pyfloat) : M unit :=
  match finite_floats fs with
  | Some l => xform_set_floats_os n l
  | None => let* _ := get_node n in raise RuntimeError
  end.

(** [user_attr_dv = cmds.attributeQuery(user_attr, node=ctr,
    listDefault=True)[0]] and [cmds.setAttr('{}.{}'.format(ctr,
    user_attr), user_attr_dv)] inside [try: ... except: pass]. *)
Definition reset_user_attr (ctr user_attr : string) : M unit :=
  try_pass (
    let* dflt := attributeQuery_default user_attr ctr in
    match py_index 0 dflt with
    | None => raise IndexError
    | Some user_attr_dv => setAttr ctr user_attr user_attr_dv
    end).

(** [user_attrs = cmds.listAttr(ctr, userDefined=True)]; [if user_attrs:]
    loop over a second [listAttr] call. *)
Definition reset_user_attrs (ctr : string) : M unit :=
  let* user_attrs := listAttr_ud ctr in
  if decide (user_attrs = []) then ret tt else
  let* user_attrs' := listAttr_ud ctr in
  for_ user_attrs' (reset_user_attr ctr).

(** [for attr in 'trs': for axis in 'xyz': attr_value = 1 if attr ==
    's' else 0] and the guarded [setAttr]. *)
Definition reset_channels (ctr : string) : M unit :=
  for_ (py_chars "trs") (fun attr =>
    for_ (py_chars "xyz") (fun axis =>
      let attr_value := if decide (attr = "s") then 1%Z else 0%Z in
      try_pass (setAttr ctr (attr +:+ axis) (vnum attr_value)))).

(** [if cmds.attributeQuery(skin_pose_attr, node=ctr, exists=True):]
    read, parse and apply the stored matrix. *)
Definition apply_skin_pose (ctr : string) : M unit :=
  let* has_skin_pose := attributeQuery_exists skin_pose_attr ctr in
  if has_skin_pose then
    let* skin_pose_data := getAttr ctr skin_pose_attr in
    let* fs := skin_pose_floats skin_pose_data in
    xform_set_pyfloats_os ctr fs
  else ret tt.

(** The body of the loop over the controls, the same in both files. *)
Definition bind_one (ctr : string) : M unit :=
  let* _ := reset_user_attrs ctr in
  let* _ := reset_channels ctr in
  apply_skin_pose ctr.

(** [picker_model.bind_pose(namespace_le)]. *)
Definition bind_pose_model (namespace_le : option string) : M unit :=
  let* control_list :=
    match namespace_le with
    | Some namespace =>
        if decide (namespace <> "")
        then group_controls (namespace +:+ "modules_grp")
        else group_controls modules_grp
    | None => ret []
    end in
  for_ control_list bind_one.

(** [Picker.bind_pose]. *)
Definition bind_pose_view (namespace : string) : M unit :=
  undo_chunk (
    let* control_list := group_controls (namespace +:+ modules_grp) in
    for_ control_list bind_one).

(** ** The reset as a function

    What the two loops of [bind_one] do to a well-formed control, as a
    function on its node: each user attribute takes its first default
    value when it has one, is unlocked and accepts it; each unlocked
    channel goes to rest. *)

Definition reset_attr (att : attr) : attr :=
  match at_default att with
  | [] => att
  | dv :: _ =>
      if at_locked att then att else
      match coerce (at_value att) dv with
      | Some v => mk_attr v (at_default att) (at_locked att)
      | None => att
      end
  end.

Definition rest_value (k : chan_kind) : Qc := match k with KS => q 1 | _ => q 0 end.

Definition channel_name (k : chan_kind) (i : axis) : string :=
  String (match k with KT => "t" | KR => "r" | KS => "s" end)
    (String (match i with AX => "x" | AY => "y" | AZ => "z" end) "").

Definition all_channels : list (chan_kind * axis) :=
  [(KT, AX); (KT, AY); (KT, AZ); (KR, AX); (KR, AY); (KR, AZ); (KS, AX); (KS, AY); (KS, AZ)].

Definition reset_channel (locked : list string) (t : trs) (c : chan_kind * axis) : trs :=
  if decide (channel_name c.1 c.2 ∈ locked) then t else trs_set t c.1 c.2 (rest_value c.1).

Definition reset_trs (locked : list string) (t : trs) : trs :=
  fold_left (reset_channel locked) all_channels t.

Definition reset_node (nd : node) : node :=
  set_trs (set_attrs nd (map (fun p => (p.1, reset_attr p.2)) (nd_attrs nd)))
    (reset_trs (nd_locked nd) (nd_trs nd)).

(** Python's [str] of a list of strings already formatted:
    ['[' + ', '.join(l) + ']']. *)
Definition py_str_list (l : list string) : string := "[" +:+ py_join ", " l +:+ "]".

(** The same reset, one loop step at a time: [reset_attr_at a] is the
    step of the attribute loop, [set_channel] the step of the channel
    loop with the code's [attr +:+ axis] and [attr_value]. *)
Definition reset_entry (p : string * attr) : string * attr := (p.1, reset_attr p.2).

Definition reset_attr_at (a : string) (nd : node) : node :=
  match assoc_get a (nd_attrs nd) with
  | Some att => set_attrs nd (assoc_set a (reset_attr att) (nd_attrs nd))
  | None => nd
  end.

Definition set_channel (locked : list string) (t : trs) (p : string * string) : trs :=
  match chan_of_name (p.1 +:+ p.2) with
  | Some (k, i) =>
      if decide (p.1 +:+ p.2 ∈ locked) then t
      else trs_set t k i (Q2Qc (inject_Z (if decide (p.1 = "s") then 1%Z else 0%Z)))
  | None => t
  end.

End BindCode.

(** ** Running the loops *)

#[export] Instance chan_kind_eq_dec : EqDecision chan_kind.
Proof. solve_decision. Defined.
#[export] Instance axis_eq_dec : EqDecision axis.
Proof. solve_decision. Defined.

Lemma set_attrs_id nd : set_attrs nd (nd_attrs nd) = nd.
Proof. by destruct nd. Qed.

Lemma set_attrs_twice nd l1 l2 : set_attrs (set_attrs nd l1) l2 = set_attrs nd l2.
Proof. reflexivity. Qed.

Lemma for_map {A B} (f : A -> B) (l : list A) (body : B -> M unit) :
  for_ (map f l) body = for_ l (fun x => body (f x)).
Proof. induction l as [|x l IH]; [done|]. simpl. by rewrite IH. Qed.

(** Two nested [for] loops run the pairs in order. *)
Lemma for_nested {A B} (l : list A) (g : list B) (body : A -> B -> M unit) s :
  for_ l (fun x => for_ g (body x)) s =
  for_ (concat (map (fun x => map (pair x) g) l)) (fun p => body p.1 p.2) s.
Proof.
  revert s. induction l as [|x l IH]; intros s; [done|]. cbn [map concat].
  assert (Hg : forall s, for_ (map (pair x) g) (fun p => body p.1 p.2) s = for_ g (body x) s)
    by (intros; by rewrite for_map).
  rewrite for_app. cbn [for_]. unfold bind. rewrite Hg.
  destruct (for_ g (body x) s) as [[[]|e] s']; [apply IH|done].
Qed.

(** A loop whose every step rewrites one node [ctr] through [f] runs
    as the left fold of [f] on that node. *)
Lemma for_node_local {A} (P : A -> Prop) (l : list A) (body : A -> M unit)
    (f : A -> node -> node) ctr s nd :
  (forall x s nd, P x -> sc_nodes s !! ctr = Some nd ->
     body x s = (Ok tt, with_nodes s (<[ctr := f x nd]> (sc_nodes s)))) ->
  Forall P l -> sc_nodes s !! ctr = Some nd ->
  for_ l body s = (Ok tt, with_nodes s (<[ctr := fold_left (fun nd x => f x nd) l nd]> (sc_nodes s))).
Proof.
  intros Hb Hl. revert s nd. induction Hl as [|x l Hx Hl IH]; intros s nd Hn; simpl.
  - by rewrite insert_id, with_nodes_id.
  - rewrite (bind_ok _ _ _ _ _ (Hb x s nd Hx Hn)).
    rewrite (IH _ (f x nd)) by (by rewrite with_nodes_nodes, lookup_insert_eq).
    by rewrite with_nodes_nodes, insert_insert_eq, with_nodes_twice.
Qed.

(** One step of the attribute loop. *)
Lemma reset_user_attr_run ctr a s nd :
  chan_of_name a = None -> sc_nodes s !! ctr = Some nd ->
  reset_user_attr ctr a s = (Ok tt, with_nodes s (<[ctr := reset_attr_at a nd]> (sc_nodes s))).
Proof.
  intros Ha Hn. unfold reset_user_attr, try_pass, attributeQuery_default, reset_attr_at, bind.
  rewrite (get_node_ok _ _ _ Hn). destruct (assoc_get a (nd_attrs nd)) as [att|] eqn:Hat;
    [|by rewrite insert_id, with_nodes_id].
  unfold reset_attr. destruct (at_default att) as [|dv ds] eqn:Hd; simpl.
  { by rewrite assoc_set_get_same, set_attrs_id, insert_id, with_nodes_id. }
  unfold setAttr, bind. rewrite (get_node_ok _ _ _ Hn), Ha, Hat.
  destruct (at_locked att); simpl; [by rewrite assoc_set_get_same, set_attrs_id, insert_id, with_nodes_id|].
  destruct (coerce (at_value att) dv); simpl; [by rewrite Hd|].
  by rewrite assoc_set_get_same, set_attrs_id, insert_id, with_nodes_id.
Qed.

(** One step of the channel loop. *)
Lemma set_channel_run ctr s nd (p : string * string) :
  is_Some (chan_of_name (p.1 +:+ p.2)) -> sc_nodes s !! ctr = Some nd ->
  try_pass (setAttr ctr (p.1 +:+ p.2) (vnum (if decide (p.1 = "s") then 1%Z else 0%Z))) s
  = (Ok tt, with_nodes s (<[ctr := set_trs nd (set_channel (nd_locked nd) (nd_trs nd) p)]> (sc_nodes s))).
Proof.
  intros [[k i] Hk] Hn. unfold try_pass, setAttr, set_channel, bind.
  rewrite (get_node_ok _ _ _ Hn), Hk. case_decide; simpl; [|done].
  by rewrite set_trs_id, insert_id, with_nodes_id.
Qed.

Lemma reset_entry_keys l : map fst (map reset_entry l) = map fst l.
Proof. rewrite map_map. by apply map_ext. Qed.

(** The attribute loop over a node's own, distinct names resets each
    entry in place. *)
Lemma fold_reset_attrs pre post nd :
  nd_attrs nd = (map reset_entry pre ++ post)%list -> NoDup (map fst (pre ++ post)%list) ->
  fold_left (fun nd a => reset_attr_at a nd) (map fst post) nd
  = set_attrs nd (map reset_entry (pre ++ post)%list).
Proof.
  revert pre nd. induction post as [|[a att] post IH]; intros pre nd Hnd Hdup; simpl.
  - rewrite app_nil_r in *. by rewrite <- Hnd, set_attrs_id.
  - assert (Ha : a ∉ map fst (map reset_entry pre)).
    { rewrite reset_entry_keys. intros Hin. rewrite map_app in Hdup.
      apply NoDup_app in Hdup as (_ & Hdis & _). apply (Hdis a Hin). left. }
    assert (Hs : reset_attr_at a nd
                 = set_attrs nd (map reset_entry pre ++ (a, reset_attr att) :: post)%list).
    { unfold reset_attr_at. rewrite Hnd, assoc_get_app_notin by done. simpl.
      rewrite decide_True by done. rewrite assoc_set_app_notin by done. simpl.
      by rewrite decide_True. }
    rewrite Hs.
    rewrite (IH (pre ++ [(a, att)])%list); rewrite <- ?app_assoc; [done| |done].
    simpl. by rewrite map_app, <- app_assoc.
Qed.

(** The channel loop composes its steps on the node's transform. *)
Lemma fold_set_channels l nd :
  fold_left (fun nd p => set_trs nd (set_channel (nd_locked nd) (nd_trs nd) p)) l nd
  = set_trs nd (fold_left (set_channel (nd_locked nd)) l (nd_trs nd)).
Proof.
  revert nd. induction l as [|p l IH]; intros nd; simpl; [by rewrite set_trs_id|].
  rewrite IH. simpl. by rewrite set_trs_twice.
Qed.

(** ** The channels after the reset *)

Lemma trs_get_set t k i v k' i' :
  trs_get (trs_set t k i v) k' i' = if decide ((k, i) = (k', i')) then v else trs_get t k' i'.
Proof.
  destruct t as [[[tx ty] tz] [[rx ry] rz] [[sx sy] sz]]. by destruct k, i, k', i'.
Qed.

Lemma trs_get_fold_reset locked cs t k i :
  NoDup cs ->
  trs_get (fold_left (reset_channel locked) cs t) k i =
  if decide ((k, i) ∈ cs)
  then (if decide (channel_name k i ∈ locked) then trs_get t k i else rest_value k)
  else trs_get t k i.
Proof.
  revert t. induction cs as [|[k' i'] cs IH]; intros t Hnd; cbn [fold_left].
  { by rewrite decide_False by set_solver. }
  apply NoDup_cons in Hnd as [Hn Hnd]. rewrite IH by done. unfold reset_channel. cbn [fst snd].
  destruct (decide ((k, i) = (k', i'))) as [[= -> ->]|Hne].
  - rewrite (decide_True (P := (k', i') ∈ (k', i') :: cs)) by set_solver.
    rewrite (decide_False (P := (k', i') ∈ cs)) by done.
    destruct (decide (channel_name k' i' ∈ locked)); [done|]. by rewrite trs_get_set, decide_True.
  - assert (Ht : trs_get (if decide (channel_name k' i' ∈ locked) then t
                          else trs_set t k' i' (rest_value k')) k i = trs_get t k i).
    { destruct (decide (channel_name k' i' ∈ locked)); [done|].
      rewrite trs_get_set, decide_False by congruence. done. }
    destruct (decide ((k, i) ∈ cs)) as [Hc|Hc].
    + rewrite (decide_True (P := (k, i) ∈ (k', i') :: cs)) by set_solver.
      destruct (decide (channel_name k i ∈ locked)); [exact Ht|done].
    + rewrite (decide_False (P := (k, i) ∈ (k', i') :: cs)) by set_solver. exact Ht.
Qed.

Lemma all_channels_nodup : NoDup all_channels.
Proof. apply (bool_decide_unpack _). by vm_compute. Qed.

Lemma all_channels_complete k i : (k, i) ∈ all_channels.
Proof. apply (bool_decide_unpack _). by destruct k, i; vm_compute. Qed.

(** After the reset every channel that is not locked holds its rest
    value (0 for translate and rotate, 1 for scale), and every locked
    channel keeps its value. *)
Lemma reset_trs_channels locked t k i :
  trs_get (reset_trs locked t) k i =
  if decide (channel_name k i ∈ locked) then trs_get t k i else rest_value k.
Proof.
  unfold reset_trs. rewrite trs_get_fold_reset by apply all_channels_nodup.
  by rewrite decide_True by apply all_channels_complete.
Qed.

(** ** Parsing the stored pose *)

(** The text Python writes for a non-empty list of floats is split back
    into the literals (after the first, each keeps the blank after the
    comma) and every piece converts to its value. *)
Lemma skin_pose_floats_str ds s :
  Forall dec_wf ds -> ds <> [] ->
  skin_pose_floats (VStr (py_str_list (map dec_str ds))) s
  = (Ok (map (fun d => Finite (dec_value d)) ds), s).
Proof.
  intros Hwf Hne. destruct ds as [|d ds]; [done|]. pose proof Hwf as [Hd Hds]%Forall_cons.
  assert (HJ : forall c, c ∈ ["["; "]"]%char ->
                 py_contains (String c "") (py_join ", " (map dec_str (d :: ds))) = false).
  { intros c Hc. apply list_elem_of_In in Hc as [<-|[<-|[]]];
      (apply py_contains_join_free; [done | by apply dec_strs_free]). }
  unfold skin_pose_floats, py_str_list. rewrite str_app_cons, str_app_nil_l. cbn [py_split].
  rewrite decide_True by done.
  rewrite (py_split_free "[") by (rewrite py_contains_char_app, HJ by set_solver; done).
  change (py_index (-1) ["";  py_join ", " (map dec_str (d :: ds)) +:+ "]"])
    with (Some (py_join ", " (map dec_str (d :: ds)) +:+ "]")). cbv iota beta.
  change "]" with (String "]" ""). rewrite py_split_app_sep, (py_split_free "]") by (apply HJ; set_solver).
  change (py_index 0 ([py_join ", " (map dec_str (d :: ds))] ++ py_split "]" "")%list)
    with (Some (py_join ", " (map dec_str (d :: ds)))). cbv iota beta.
  rewrite <- (str_app_nil_l (py_join _ _)). change ", " with (String "," " "). cbn [map].
  rewrite py_split_join_pad.
  - cbn [mapM]. rewrite py_float_padded by done. rewrite mapM_py_float_padded by done. done.
  - do 2 (apply Forall_cons; split; [done|]). by apply (dec_strs_free "," (d :: ds)).
Qed.

Section BindRun.
Context `{XA : XformAlgebra}.

Lemma reset_user_attrs_run ctr s nd :
  sc_nodes s !! ctr = Some nd -> wf_node nd ->
  reset_user_attrs ctr s
  = (Ok tt, with_nodes s (<[ctr := set_attrs nd (map reset_entry (nd_attrs nd))]> (sc_nodes s))).
Proof.
  intros Hn [Hdup Hch]. unfold reset_user_attrs.
  rewrite (bind_ok _ _ _ _ _ (listAttr_ud_run _ _ _ Hn)). case_decide as E.
  - apply map_eq_nil in E. rewrite E. simpl. rewrite <- E, set_attrs_id.
    by rewrite insert_id, with_nodes_id.
  - rewrite (bind_ok _ _ _ _ _ (listAttr_ud_run _ _ _ Hn)).
    rewrite (for_node_local (fun a => chan_of_name a = None) _ _ reset_attr_at ctr _ nd);
      [|by intros; apply reset_user_attr_run|done|done].
    by rewrite (fold_reset_attrs [] (nd_attrs nd)).
Qed.

Lemma reset_channels_run ctr s nd :
  sc_nodes s !! ctr = Some nd ->
  reset_channels ctr s
  = (Ok tt, with_nodes s (<[ctr := set_trs nd (reset_trs (nd_locked nd) (nd_trs nd))]> (sc_nodes s))).
Proof.
  intros Hn. unfold reset_channels. rewrite for_nested.
  rewrite (for_node_local (fun p => is_Some (chan_of_name (p.1 +:+ p.2))) _ _
    (fun p nd => set_trs nd (set_channel (nd_locked nd) (nd_trs nd) p)) ctr _ nd).
  - by rewrite fold_set_channels.
  - intros p s' nd' Hp Hn'. by apply set_channel_run.
  - repeat constructor; eexists; reflexivity.
  - done.
Qed.

Lemma reset_node_attrs nd : nd_attrs (reset_node nd) = map reset_entry (nd_attrs nd).
Proof. reflexivity. Qed.

(** (C1) The work [bind_pose] does on one well-formed control is a
    pure reset of its node ([reset_node]: defaults for the user
    attributes, rest values for the unlocked channels), followed, when
    the control has a [skinPoseData] attribute, by parsing its reset
    value and setting the local matrix from it: the [try]/[except]
    loops of the code implement the function. *)
Theorem bind_one_refines s ctr nd :
  sc_nodes s !! ctr = Some nd -> wf_node nd ->
  bind_one ctr s =
    let s' := with_nodes s (<[ctr := reset_node nd]> (sc_nodes s)) in
    match assoc_get skin_pose_attr (nd_attrs (reset_node nd)) with
    | None => (Ok tt, s')
    | Some att => (let* fs := skin_pose_floats (at_value att) in xform_set_pyfloats_os ctr fs) s'
    end.
Proof.
  intros Hn Hwf. unfold bind_one.
  rewrite (bind_ok _ _ _ _ _ (reset_user_attrs_run _ _ _ Hn Hwf)).
  rewrite (bind_ok _ _ _ _ _ (reset_channels_run _ _ _ (lookup_insert_eq _ _ _))).
  rewrite with_nodes_nodes, insert_insert_eq, with_nodes_twice.
  change (set_trs _ _) with (reset_node nd).
  unfold apply_skin_pose, attributeQuery_exists, bind.
  rewrite (get_node_ok _ _ _ (lookup_insert_eq _ _ _)). simpl.
  destruct (assoc_get skin_pose_attr _) as [att|] eqn:Ha.
  2: { by rewrite bool_decide_eq_false_2 by by intros [? ?]. }
  rewrite bool_decide_eq_true_2 by eauto. simpl. unfold bind. by rewrite (getAttr_user _ _ _ _ att (lookup_insert_eq _ _ _)).
Qed.

Lemma finite_floats_map l : finite_floats (map (fun x => Finite x) l) = Some l.
Proof. induction l as [|x l IH]; [done|]. unfold finite_floats in *. simpl. by rewrite IH. Qed.

(** The stored pose survives the reset of the user attributes when it
    has no default ([attributeQuery(listDefault=True)] gives nothing for
    a string attribute). *)
Lemma skin_pose_after_reset nd att :
  assoc_get skin_pose_attr (nd_attrs nd) = Some att -> at_default att = [] ->
  assoc_get skin_pose_attr (nd_attrs (reset_node nd)) = Some att.
Proof.
  intros Ha Hd. rewrite reset_node_attrs. unfold reset_entry.
  rewrite (assoc_get_map_values reset_attr), Ha. simpl. unfold reset_attr. by rewrite Hd.
Qed.

(** (C6) A control whose [skinPoseData] holds sixteen floats as Python
    writes a list of floats ends [bind_pose] with exactly the matrix
    they denote as its local matrix, its user attributes reset and
    nothing else of the scene changed. *)
Theorem bind_one_restores_skin_pose s ctr nd att ds :
  sc_nodes s !! ctr = Some nd -> wf_node nd ->
  assoc_get skin_pose_attr (nd_attrs nd) = Some att -> at_default att = [] ->
  at_value att = VStr (py_str_list (map dec_str ds)) -> Forall dec_wf ds -> length ds = 16 ->
  exists m, mat_of_floats (map dec_value ds) = Some m /\
    bind_one ctr s
    = (Ok tt, with_nodes s (<[ctr := set_trs (reset_node nd) (decompose m)]> (sc_nodes s))).
Proof.
  intros Hn Hwf Ha Hd Hv Hds Hlen.
  destruct (proj2 (mat_of_floats_some (map dec_value ds))) as [m Hm]; [by rewrite length_map|].
  exists m. split; [done|]. rewrite (bind_one_refines _ _ nd), (skin_pose_after_reset nd att) by done.
  cbv zeta. unfold bind. rewrite Hv, skin_pose_floats_str by (done || by intros ->).
  unfold xform_set_pyfloats_os. rewrite <- (map_map dec_value Finite), finite_floats_map.
  unfold xform_set_floats_os. rewrite Hm.
  rewrite (xform_set_matrix_os_ok _ _ (reset_node nd)) by apply lookup_insert_eq.
  by rewrite with_nodes_nodes, insert_insert_eq, with_nodes_twice.
Qed.

(** (C12) On a well-formed control without a stored pose, [bind_pose]
    rewrites that control only: every unlocked channel is at rest
    (translate and rotate 0, scale 1), every locked channel keeps its
    value, and every user attribute is as [reset_attr] gives it (its
    first default when it has one, is unlocked and accepts it). *)
Theorem bind_one_resets s ctr nd :
  sc_nodes s !! ctr = Some nd -> wf_node nd -> assoc_get skin_pose_attr (nd_attrs nd) = None ->
  exists nd' : node, bind_one ctr s = (Ok tt, with_nodes s (<[ctr := nd']> (sc_nodes s))) /\
    (forall k i, trs_get (nd_trs nd') k i =
       if decide (channel_name k i ∈ nd_locked nd) then trs_get (nd_trs nd) k i else rest_value k) /\
    (forall a att, assoc_get a (nd_attrs nd) = Some att -> assoc_get a (nd_attrs nd') = Some (reset_attr att)).
Proof.
  intros Hn Hwf Hno. exists (reset_node nd). split; [|split].
  - rewrite (bind_one_refines _ _ nd) by done. rewrite reset_node_attrs. unfold reset_entry.
    by rewrite (assoc_get_map_values reset_attr), Hno.
  - intros k i. apply reset_trs_channels.
  - intros a att Ha. rewrite reset_node_attrs. unfold reset_entry.
    by rewrite (assoc_get_map_values reset_attr), Ha.
Qed.

(** (C24) An empty [skinPoseData] text (a pose never stored) splits into
    one empty piece, [float('')] raises [ValueError], and the handler
    stops at that control: its attributes and channels are already
    reset, its matrix is not set, and the exception escapes the loop. *)
Theorem bind_one_empty_skin_pose s ctr nd att :
  sc_nodes s !! ctr = Some nd -> wf_node nd ->
  assoc_get skin_pose_attr (nd_attrs nd) = Some att -> at_default att = [] -> at_value att = VStr "" ->
  bind_one ctr s = (Exc ValueError, with_nodes s (<[ctr := reset_node nd]> (sc_nodes s))).
Proof.
  intros Hn Hwf Ha Hd Hv. rewrite (bind_one_refines _ _ nd), (skin_pose_after_reset nd att) by done.
  cbv zeta. unfold bind. by rewrite Hv.
Qed.

End BindRun.

(** ** The handlers *)

Section BindHandlers.
Context `{XA : XformAlgebra}.

Lemma attributeQuery_default_wf a n : keeps wf_scene (attributeQuery_default a n).
Proof. unfold attributeQuery_default. solve_keeps. Qed.
Lemma attributeQuery_exists_wf a n : keeps wf_scene (attributeQuery_exists a n).
Proof. unfold attributeQuery_exists. solve_keeps. Qed.
Lemma xform_set_floats_os_wf n l : keeps wf_scene (xform_set_floats_os n l).
Proof. unfold xform_set_floats_os. solve_keeps. Qed.
Lemma group_controls_wf g : keeps wf_scene (group_controls g).
Proof. unfold group_controls, listRelatives_ad. solve_keeps. Qed.

#[local] Hint Resolve attributeQuery_default_wf attributeQuery_exists_wf xform_set_floats_os_wf
  group_controls_wf : picker.

Lemma bind_one_wf c : keeps wf_scene (bind_one c).
Proof.
  unfold bind_one, reset_user_attrs, reset_user_attr, reset_channels, apply_skin_pose,
    skin_pose_floats, xform_set_pyfloats_os.
  solve_keeps.
Qed.

Lemma bind_one_undo_indep c : undo_indep (bind_one c).
Proof.
  unfold bind_one, reset_user_attrs, reset_user_attr, reset_channels, apply_skin_pose,
    skin_pose_floats, xform_set_pyfloats_os.
  solve_undo_indep.
Qed.

#[local] Hint Resolve bind_one_wf bind_one_undo_indep group_controls_undo_indep : picker.

(** Well-formedness of the scene is an invariant of both variants
    of [bind_pose], on every path. *)
Theorem bind_handlers_keep_wf namespace_le namespace :
  keeps wf_scene (bind_pose_model namespace_le) /\ keeps wf_scene (bind_pose_view namespace).
Proof. unfold bind_pose_model, bind_pose_view, undo_chunk. split; solve_keeps. Qed.

(** With an empty namespace the [picker.py] handler computes
    exactly what [picker_model.bind_pose] computes given that line
    edit, outcome and scene: the undo bracket is invisible. *)
Theorem bind_pose_view_refines_model s :
  bind_pose_view "" s = bind_pose_model (Some "") s.
Proof.
  unfold bind_pose_view, bind_pose_model. rewrite undo_chunk_transparent by solve_undo_indep.
  by rewrite decide_False by (intros H; by apply H).
Qed.

(** (C25) [picker_model.bind_pose] does nothing without a line edit, and
    with a non-empty namespace it looks for ['{namespace}modules_grp'],
    not the [modules_c_grp] of [picker.py] and of the other handlers: on
    a rig without such a node it raises at once and resets nothing. *)
Theorem bind_pose_model_namespace s ns :
  bind_pose_model None s = (Ok tt, s) /\
  (ns <> "" -> sc_nodes s !! (ns +:+ "modules_grp") = None ->
   bind_pose_model (Some ns) s = (Exc (NoObject (ns +:+ "modules_grp")), s)).
Proof.
  split; [done|]. intros Hne Hn. unfold bind_pose_model. rewrite decide_True by done.
  unfold group_controls, listRelatives_ad, bind. by rewrite (get_node_none _ _ Hn).
Qed.

End BindHandlers.

(** ** A concrete control *)

Module BindDemo.
Import TrsGroup.

(** The identity written as Python writes a list of floats:
    ["[1.0, 0.0, 0.0, 0.0, 0.0, 1.0, ...]"]. *)
Definition ident16 : list decimal :=
  map (fun k => mk_decimal false [k] [0] None) [1; 0; 0; 0; 0; 1; 0; 0; 0; 0; 1; 0; 0; 0; 0; 1].

Definition skin (text : string) : attr := mk_attr (VStr text) [] false.

Definition hand (ns text : string) : node :=
  mk_node (Some (ns +:+ "modules_c_grp")) (mk_trs (v3 3 1 2) (v3 10 20 30) (v3 2 2 2)) ["sy"]
    [("twist", num_attr 5); ("skinPoseData", skin text)] Free.

Definition grp : node := ctrl None rest_trs [].

(** A control without a stored pose, its scale Y locked. *)
Definition arm : node :=
  mk_node (Some "modules_c_grp") (mk_trs (v3 3 1 2) (v3 10 20 30) (v3 2 2 2)) ["sy"]
    [("twist", num_attr 5); ("visFk", mk_attr (VBool false) [VBool true] false)] Free.

Definition rig (ns text : string) : scene :=
  scene_of [(ns +:+ "modules_c_grp", grp); (ns +:+ "hand_l_ctr", hand ns text)] [].

End BindDemo.

Import BindDemo.
Import TrsGroup.

Example py_str_list_ident16 :
  String.substring 0 22 (py_str_list (map dec_str ident16)) = "[1.0, 0.0, 0.0, 0.0, 0".
Proof. reflexivity. Qed.

Lemma bind_one_refines_witness :
  bind_one "hand_l_ctr" (rig "" "") =
    (let s' := with_nodes (rig "" "") (<["hand_l_ctr" := reset_node (hand "" "")]> (sc_nodes (rig "" ""))) in
     match assoc_get skin_pose_attr (nd_attrs (reset_node (hand "" ""))) with
     | None => (Ok tt, s')
     | Some att => (let* fs := skin_pose_floats (at_value att) in xform_set_pyfloats_os "hand_l_ctr" fs) s'
     end).
Proof. apply (bind_one_refines _ _ (hand "" "")); concrete. Defined.

Lemma bind_one_restores_skin_pose_witness :
  exists m, mat_of_floats (map dec_value ident16) = Some m /\
    bind_one "hand_l_ctr" (rig "" (py_str_list (map dec_str ident16)))
    = (Ok tt, with_nodes (rig "" (py_str_list (map dec_str ident16)))
         (<["hand_l_ctr" := set_trs (reset_node (hand "" (py_str_list (map dec_str ident16)))) (decompose m)]>
           (sc_nodes (rig "" (py_str_list (map dec_str ident16)))))).
Proof.
  apply (bind_one_restores_skin_pose _ _ (hand "" (py_str_list (map dec_str ident16)))
    (skin (py_str_list (map dec_str ident16)))); concrete.
Defined.

Lemma bind_one_resets_witness :
  exists nd' : node, bind_one "arm_l_ctr" (scene_of [("arm_l_ctr", arm)] [])
    = (Ok tt, with_nodes (scene_of [("arm_l_ctr", arm)] [])
               (<["arm_l_ctr" := nd']> (sc_nodes (scene_of [("arm_l_ctr", arm)] [])))) /\
    (forall k i, trs_get (nd_trs nd') k i =
       if decide (channel_name k i ∈ nd_locked arm) then trs_get (nd_trs arm) k i else rest_value k) /\
    (forall a att, assoc_get a (nd_attrs arm) = Some att -> assoc_get a (nd_attrs nd') = Some (reset_attr att)).
Proof. apply (bind_one_resets _ _ arm); concrete. Defined.

Lemma bind_one_empty_skin_pose_witness :
  bind_one "hand_l_ctr" (rig "" "")
  = (Exc ValueError, with_nodes (rig "" "") (<["hand_l_ctr" := reset_node (hand "" "")]> (sc_nodes (rig "" "")))).
Proof. apply (bind_one_empty_skin_pose _ _ (hand "" "") (skin "")); concrete. Defined.

Lemma bind_pose_model_namespace_witness :
  bind_pose_model None (rig "char:" "") = (Ok tt, rig "char:" "") /\
  bind_pose_model (Some "char:") (rig "char:" "")
  = (Exc (NoObject ("char:" +:+ "modules_grp")), rig "char:" "").
Proof.
  destruct (bind_pose_model_namespace (rig "char:" "") "char:") as [H1 H2].
  split; [exact H1 | apply H2; concrete].
Defined.

(** The same rig under [picker.py]: the group is found and the control
    is reset (the empty pose text then raises, after the reset). *)
Example bind_pose_view_namespace_demo :
  bind_pose_view "char:" (rig "char:" "")
  = (Exc ValueError, with_nodes (rig "char:" "")
      (<["char:hand_l_ctr" := reset_node (hand "char:" "")]> (sc_nodes (rig "char:" "")))).
Proof. vm_compute. reflexivity. Qed.
