(* ===== verification/Snap.v ===== *)
(** * Snap: switching a limb between FK and IK without moving it

    Models [snap_fk_ik] of [src/picker_model.py] (lines 136-190) and
    [Picker.snap_fk_ik] of [src/picker.py] (lines 271-322).  The handler
    builds a table of three segments ([start], [mid], [end]), each with
    an FK control, an IK control (none for [start]), the node whose world
    matrix the FK control should take ([fk_snap]) and the one the IK
    control should take ([ik_snap]); reads [fkIk] on the limb's settings
    control (0: FK drives the limb); captures the world matrices of the
    references of the set about to become active; flips [fkIk]; and sets
    each control of that set to its captured world matrix.

    The table is the Python dict, an association list here in its
    insertion order; [snap_xform] is the field the first loop fills.
    [picker_model.py] prefixes the namespace on every name after building
    the table; [picker.py] builds the names with it, and reads
    ['{}{}.fkIk'.format(namespace, settings_control)] although
    [settings_control] already holds the namespace.

    Theorems: every control of the target set ends with the world matrix
    its reference had before the switch (the capture-before-toggle
    property of the spec) and [fkIk] is flipped ([snap_core_run], from
    [capture_run], [apply_captured] and [World.xform_set_all]); the two
    ways of building the names agree; with an empty namespace the
    [picker.py] handler is the [picker_model.py] one; with a namespace
    [picker.py] queries a doubled name; both keep the scene well formed.
    [SnapDemo] is a left arm on which the switch from IK to FK keeps the
    skinned joints in place. *)

From S2P Require Import Prelude PyStr Host Namespace World.
From Stdlib Require Import Ascii.
Local Open Scope string_scope.
Local Open Scope picker_scope.

Section SnapCode.
Context `{XA : XformAlgebra}.

(** ** The table *)

Record snap_seg := mk_snap_seg {
  fk_control : option string;
  ik_control : option string;
  fk_snap : option string;
  ik_snap : option string;
  snap_xform : option mat
}.

Definition set_snap_xform (sg : snap_seg) (m : option mat) : snap_seg :=
  mk_snap_seg (fk_control sg) (ik_control sg) (fk_snap sg) (ik_snap sg) m.

(** ['hand' if limb == 'arm' else 'foot'] and the table of
    [picker_model.py], names without namespace. *)
Definition snap_info_of (limb side : string) : list (string * snap_seg) :=
  let end_name := if decide (limb = "arm") then "hand" else "foot" in
  let Limb := py_capitalize limb in
  [("start", mk_snap_seg (Some ("up" +:+ Limb +:+ "Fk_" +:+ side +:+ "_ctr")) None
                         (Some ("up" +:+ Limb +:+ "_" +:+ side +:+ "_jnt")) None None);
   ("mid", mk_snap_seg (Some ("low" +:+ Limb +:+ "Fk_" +:+ side +:+ "_ctr"))
                       (Some (limb +:+ "PoleVector_" +:+ side +:+ "_ctr"))
                       (Some ("low" +:+ Limb +:+ "_" +:+ side +:+ "_jnt"))
                       (Some (limb +:+ "PoleVector_" +:+ side +:+ "_snap")) None);
   ("end", mk_snap_seg (Some (end_name +:+ Limb +:+ "Fk_" +:+ side +:+ "_ctr"))
                       (Some (end_name +:+ Limb +:+ "Ik_" +:+ side +:+ "_ctr"))
                       (Some (end_name +:+ Limb +:+ "_" +:+ side +:+ "_skn"))
                       (Some (end_name +:+ Limb +:+ "_" +:+ side +:+ "_skn")) None)].

(** [if snap_info[key][sub_key] is not None: snap_info[key][sub_key] =
    '{}{}'.format(namespace, ...)] over the name fields ([snap_xform] is
    still [None] there). *)
Definition prefix_opt (ns : string) (o : option string) : option string :=
  (fun x => ns +:+ x) <$> o.

Definition prefix_seg (ns : string) (sg : snap_seg) : snap_seg :=
  mk_snap_seg (prefix_opt ns (fk_control sg)) (prefix_opt ns (ik_control sg))
    (prefix_opt ns (fk_snap sg)) (prefix_opt ns (ik_snap sg)) (snap_xform sg).

Definition prefix_snap_info (ns : string) (info : list (string * snap_seg)) : list (string * snap_seg) :=
  map (fun '(key, sg) => (key, prefix_seg ns sg)) info.

(** The table of [picker.py], each name formatted with the namespace. *)
Definition snap_info_ns (namespace limb side : string) : list (string * snap_seg) :=
  let end_name := if decide (limb = "arm") then "hand" else "foot" in
  let Limb := py_capitalize limb in
  [("start", mk_snap_seg (Some (namespace +:+ "up" +:+ Limb +:+ "Fk_" +:+ side +:+ "_ctr")) None
                         (Some (namespace +:+ "up" +:+ Limb +:+ "_" +:+ side +:+ "_jnt")) None None);
   ("mid", mk_snap_seg (Some (namespace +:+ "low" +:+ Limb +:+ "Fk_" +:+ side +:+ "_ctr"))
                       (Some (namespace +:+ limb +:+ "PoleVector_" +:+ side +:+ "_ctr"))
                       (Some (namespace +:+ "low" +:+ Limb +:+ "_" +:+ side +:+ "_jnt"))
                       (Some (namespace +:+ limb +:+ "PoleVector_" +:+ side +:+ "_snap")) None);
   ("end", mk_snap_seg (Some (namespace +:+ end_name +:+ Limb +:+ "Fk_" +:+ side +:+ "_ctr"))
                       (Some (namespace +:+ end_name +:+ Limb +:+ "Ik_" +:+ side +:+ "_ctr"))
                       (Some (namespace +:+ end_name +:+ Limb +:+ "_" +:+ side +:+ "_skn"))
                       (Some (namespace +:+ end_name +:+ Limb +:+ "_" +:+ side +:+ "_skn")) None)].

(** [control_value = 'ik_control' if state == 0 else 'fk_control'] and
    [snap_value] likewise. *)
Definition seg_control (use_ik : bool) (sg : snap_seg) : option string :=
  if use_ik then ik_control sg else fk_control sg.
Definition seg_snap (use_ik : bool) (sg : snap_seg) : option string :=
  if use_ik then ik_snap sg else fk_snap sg.

(** The truth value of an optional string: [None] and [''] are false. *)
Definition opt_truthy (o : option string) : bool :=
  match o with Some x => bool_decide (x <> "") | None => false end.

(** ** The two loops and the switch *)

(** The first loop: for each segment whose control is set, store the
    world matrix of its reference ([xform(None, ...)] is unreachable
    with these tables: a segment with a control has a reference). *)
Fixpoint capture (use_ik : bool) (info : list (string * snap_seg)) : M (list (string * snap_seg)) :=
  match info with
  | [] => ret []
  | (key, sg) :: rest =>
      let* sg' :=
        if opt_truthy (seg_control use_ik sg) then
          match seg_snap use_ik sg with
          | Some n => let* m := xform_get_matrix_ws n in ret (set_snap_xform sg (Some m))
          | None => raise TypeError
          end
        else ret sg in
      let* rest' := capture use_ik rest in
      ret ((key, sg') :: rest')
  end.

(** The second loop: each control of the target set takes its captured
    matrix in world space. *)
Definition apply_snaps (use_ik : bool) (info : list (string * snap_seg)) : M unit :=
  for_ info (fun '(key, sg) =>
    if opt_truthy (seg_control use_ik sg) then
      match seg_control use_ik sg, snap_xform sg with
      | Some c, Some m => xform_set_matrix_ws c m
      | _, _ => raise TypeError
      end
    else ret tt).

(** From [state = cmds.getAttr(...)] to the end: [settings_query] is the
    node the state is read from, [settings_control] the one it is
    written to. *)
Definition snap_core (settings_query settings_control : string) (info : list (string * snap_seg)) : M unit :=
  let* state := getAttr settings_query "fkIk" in
  let use_ik := py_eq_zero state in
  let* info' := capture use_ik info in
  let new_state := if py_eq_zero state then 1%Z else 0%Z in
  let* _ := setAttr settings_control "fkIk" (vnum new_state) in
  apply_snaps use_ik info'.

Definition settings_name (limb side : string) : string := limb +:+ "Settings_" +:+ side +:+ "_ctr".

(** [picker_model.snap_fk_ik(limb, side, namespace_le)]. *)
Definition snap_fk_ik_model (limb side : string) (namespace_le : option string) : M unit :=
  let info := snap_info_of limb side in
  let settings_control := settings_name limb side in
  match namespace_le with
  | Some namespace =>
      if decide (namespace <> "")
      then snap_core (namespace +:+ settings_control) (namespace +:+ settings_control)
             (prefix_snap_info namespace info)
      else snap_core settings_control settings_control info
  | None => snap_core settings_control settings_control info
  end.

(** [Picker.snap_fk_ik(limb, side)] with the line edit's text. *)
Definition snap_fk_ik_view (namespace limb side : string) : M unit :=
  undo_chunk (
    let settings_control := namespace +:+ settings_name limb side in
    snap_core (namespace +:+ settings_control) settings_control (snap_info_ns namespace limb side)).

End SnapCode.

Section SnapSpec.
Context `{XA : XformAlgebra}.

(** ** What the switch moves *)

(** The world matrix of a segment's reference in [s]. *)
Definition seg_ref (s : scene) (use_ik : bool) (sg : snap_seg) : option mat :=
  match seg_snap use_ik sg with Some r => world s r | None => None end.

(** The table after the first loop run in [s]. *)
Definition captured (s : scene) (use_ik : bool) (info : list (string * snap_seg)) : list (string * snap_seg) :=
  map (fun ks : string * snap_seg =>
         (ks.1, if opt_truthy (seg_control use_ik ks.2)
                then set_snap_xform ks.2 (seg_ref s use_ik ks.2) else ks.2)) info.

(** The (control, reference) pairs of the segments the switch moves. *)
Fixpoint snap_targets (use_ik : bool) (info : list (string * snap_seg)) : list (string * string) :=
  match info with
  | [] => []
  | (_, sg) :: rest =>
      match seg_control use_ik sg, seg_snap use_ik sg with
      | Some c, Some r =>
          if bool_decide (c <> "") then (c, r) :: snap_targets use_ik rest else snap_targets use_ik rest
      | _, _ => snap_targets use_ik rest
      end
  end.

(** The (control, matrix) pairs the second loop sets, for a table
    captured in [s]. *)
Fixpoint snap_moves (s : scene) (use_ik : bool) (info : list (string * snap_seg)) : list (string * mat) :=
  match info with
  | [] => []
  | (_, sg) :: rest =>
      match seg_control use_ik sg, seg_ref s use_ik sg with
      | Some c, Some M =>
          if bool_decide (c <> "") then (c, M) :: snap_moves s use_ik rest else snap_moves s use_ik rest
      | _, _ => snap_moves s use_ik rest
      end
  end.

(** Every segment with a control has a reference with a world matrix. *)
Definition refs_ok (s : scene) (use_ik : bool) (info : list (string * snap_seg)) : Prop :=
  Forall (fun ks : string * snap_seg =>
    opt_truthy (seg_control use_ik ks.2) = true -> is_Some (seg_ref s use_ik ks.2)) info.

#[export] Instance refs_ok_dec s use_ik info : Decision (refs_ok s use_ik info).
Proof. unfold refs_ok. apply _. Defined.

Lemma opt_truthy_true o : opt_truthy o = true <-> exists c, o = Some c /\ c <> "".
Proof.
  destruct o as [c|]; simpl; [|split; [done|by intros (? & ? & ?)]].
  rewrite bool_decide_eq_true. split; [eauto|]. by intros (? & [= ->] & ?).
Qed.

Lemma seg_control_set use_ik sg m : seg_control use_ik (set_snap_xform sg m) = seg_control use_ik sg.
Proof. by destruct use_ik. Qed.

(** The first loop reads the references and changes nothing. *)
Lemma capture_run s use_ik info :
  refs_ok s use_ik info -> capture use_ik info s = (Ok (captured s use_ik info), s).
Proof.
  induction info as [|[key sg] info IH]; intros Hok; [done|]. apply Forall_cons in Hok as [Hsg Hok].
  simpl in Hsg. cbn [capture captured map]. unfold bind at 1.
  destruct (opt_truthy (seg_control use_ik sg)) eqn:Et.
  - destruct (Hsg eq_refl) as [w Hw]. unfold seg_ref in Hw |- *.
    destruct (seg_snap use_ik sg) as [r|] eqn:Hr; [|done].
    unfold bind at 1. rewrite (xform_get_matrix_ws_ok _ _ _ Hw). cbn. unfold bind. rewrite (IH Hok).
    by rewrite Et, Hr, Hw.
  - cbn. unfold bind. rewrite (IH Hok). by rewrite Et.
Qed.

Lemma apply_captured s s1 use_ik info :
  refs_ok s use_ik info ->
  apply_snaps use_ik (captured s use_ik info) s1 =
  for_ (snap_moves s use_ik info) (fun '(c, M) => xform_set_matrix_ws c M) s1.
Proof.
  unfold apply_snaps. revert s1. induction info as [|[key sg] info IH]; intros s1 Hok; [done|].
  apply Forall_cons in Hok as [Hsg Hok]. simpl in Hsg. cbn [captured map for_ snap_moves fst snd].
  unfold bind at 1. destruct (opt_truthy (seg_control use_ik sg)) eqn:Et.
  - destruct (Hsg eq_refl) as [M HM]. apply opt_truthy_true in Et as (c & Hc & Hne).
    rewrite !seg_control_set, Hc, HM. cbn [opt_truthy snap_xform set_snap_xform].
    rewrite !bool_decide_true by done. cbn [for_]. unfold bind.
    destruct (xform_set_matrix_ws c M s1) as [[[]|e] s2]; [by apply IH|done].
  - cbn [for_ ret]. unfold bind. cbn beta iota.
    destruct (seg_control use_ik sg) as [c|]; [|by apply IH].
    simpl in Et. apply bool_decide_eq_false in Et.
    destruct (seg_ref s use_ik sg); cbn [opt_truthy]; repeat (case_bool_decide; [done|]); by apply IH.
Qed.

(** The moves are the targets, each with its reference's matrix in [s]. *)
Lemma snap_moves_targets s use_ik info (P : string -> option mat -> Prop) :
  refs_ok s use_ik info ->
  (snap_moves s use_ik info).*1 = (snap_targets use_ik info).*1 /\
  (Forall (fun cM : string * mat => P cM.1 (Some cM.2)) (snap_moves s use_ik info) ->
   Forall (fun cr : string * string => P cr.1 (world s cr.2)) (snap_targets use_ik info)).
Proof.
  induction info as [|[key sg] info IH]; intros Hok; [done|]. apply Forall_cons in Hok as [Hsg Hok].
  destruct (IH Hok) as [IH1 IH2]. simpl in Hsg. cbn [snap_moves snap_targets]. unfold seg_ref in *.
  destruct (seg_control use_ik sg) as [c|]; [|done]. simpl in Hsg.
  destruct (decide (c ≠ "")) as [Hne|Hne].
  - rewrite bool_decide_true in Hsg by done. destruct (seg_snap use_ik sg) as [r|]; [|by destruct (Hsg eq_refl)].
    destruct (Hsg eq_refl) as [M HM]. rewrite HM, !bool_decide_true by done. cbn [fmap list_fmap fst snd].
    rewrite IH1. split; [done|]. intros [? ?]%Forall_cons. constructor; [simpl; by rewrite HM|auto].
  - destruct (seg_snap use_ik sg) as [r|]; [destruct (world s r)|];
      rewrite ?bool_decide_false by done; auto.
Qed.

End SnapSpec.

Section SnapRun.
Context `{XA : XformAlgebra}.

(** The targets of a switch on [s] with settings control [sc]: each can
    be placed in world space and does not read [sc], and none set later
    feeds one set earlier. *)
Definition targets_ok (s : scene) (sc : string) (L : list (string * string)) : Prop :=
  Forall (fun cr : string * string => settable s cr.1 /\ sc ∉ deps s cr.1) L /\ indep s L.

#[export] Instance targets_ok_dec s sc L : Decision (targets_ok s sc L).
Proof. unfold targets_ok. apply _. Defined.

(** [1 if state == 0 else 0], written back through [setAttr]'s
    conversion: a numeric or boolean [fkIk] flips. *)
Lemma fkIk_flip v :
  (forall t, v <> VStr t) ->
  exists v', coerce v (vnum (if py_eq_zero v then 1%Z else 0%Z)) = Some v' /\
             py_eq_zero v' = negb (py_eq_zero v).
Proof.
  intros Hv. destruct v as [q|b|t]; [| |by destruct (Hv t)].
  - destruct (py_eq_zero (VNum q)) eqn:E; eexists; (split; [reflexivity|]); by vm_compute.
  - destruct b; eexists; (split; [reflexivity|]); by vm_compute.
Qed.

(** The settings control is not among the targets. *)
Lemma targets_ok_not_sc s sc L : targets_ok s sc L -> sc ∉ L.*1.
Proof.
  intros [Htg _] Hin. apply list_elem_of_fmap in Hin as [[c r] [-> Hcr]].
  eapply Forall_forall in Htg as [Hs Hd]; [|exact Hcr]. by apply Hd, deps_self, settable_node.
Qed.

(** (C2) The switch keeps the limb in place: run on a scene where the
    settings control [sc] has a numeric or boolean, unlocked [fkIk],
    every segment with a control has a reference with a world matrix,
    and the controls to move are free, do not read [sc] and do not feed
    one another backwards, [snap_fk_ik] succeeds, every control of the
    set that becomes active ends with the world matrix its reference had
    before the switch (the references are read before [fkIk] changes),
    and [fkIk] flips between zero and non-zero. *)
Theorem snap_core_run s sc ndsc att info :
  sc_nodes s !! sc = Some ndsc -> assoc_get "fkIk" (nd_attrs ndsc) = Some att ->
  at_locked att = false -> (forall t, at_value att <> VStr t) ->
  refs_ok s (py_eq_zero (at_value att)) info ->
  targets_ok s sc (snap_targets (py_eq_zero (at_value att)) info) ->
  exists s', snap_core sc sc info s = (Ok tt, s') /\
    Forall (fun cr : string * string => world s' cr.1 = world s cr.2)
      (snap_targets (py_eq_zero (at_value att)) info) /\
    exists v, run (getAttr sc "fkIk") s' = Ok v /\ py_eq_zero v = negb (py_eq_zero (at_value att)).
Proof.
  intros Hsc Hatt Hl Hv Hrefs Hok. pose proof (targets_ok_not_sc _ _ _ Hok) as Hnsc.
  destruct Hok as [Htg Hind]. destruct (fkIk_flip _ Hv) as [v' [Hco Hv']].
  set (u := py_eq_zero (at_value att)) in *.
  set (ndsc' := set_attrs ndsc (assoc_set "fkIk" (mk_attr v' (at_default att) (at_locked att)) (nd_attrs ndsc))).
  set (s1 := with_nodes s (<[sc := ndsc']> (sc_nodes s))).
  assert (Hsz : size (sc_nodes s1) = size (sc_nodes s)) by (apply map_size_insert_Some; eauto).
  assert (Hfr : forall c, sc ∉ deps s c -> forall y, y ∈ deps s c -> sc_nodes s1 !! y = sc_nodes s !! y).
  { intros c Hc y Hy. apply lookup_insert_ne. by intros ->. }
  destruct (snap_moves_targets s u info (fun c _ => c <> sc) Hrefs) as [Hfst _].
  destruct (xform_set_all s1 (snap_moves s u info)) as (s2 & Hrun & Hs2 & Hsh & Hout & Hws).
  { apply (Forall_same_keys (settable s1) (snap_targets u info)); [done|].
    eapply Forall_impl; [exact Htg|]. intros [c r] [Hs Hd]. eapply settable_frame; eauto. }
  { eapply indep_fst; [symmetry; exact Hfst|]. eapply indep_deps; [|exact Hind].
    intros c Hc. apply list_elem_of_fmap in Hc as [[c' r] [-> Hcr]].
    eapply Forall_forall in Htg as [_ Hd]; [|exact Hcr].
    by destruct (world_frame s s1 c' Hsz (Hfr c' Hd)). }
  exists s2. split.
  { unfold snap_core, bind at 1. rewrite (getAttr_user _ _ "fkIk" _ _ Hsc eq_refl Hatt). cbn zeta. fold u.
    unfold bind at 1. rewrite (capture_run _ _ _ Hrefs). unfold bind at 1.
    rewrite (setAttr_user _ _ "fkIk" _ _ _ _ Hsc eq_refl Hatt Hl Hco).
    fold ndsc' s1. by rewrite apply_captured. }
  split.
  { apply (proj2 (snap_moves_targets s u info (fun c o => world s2 c = o) Hrefs)). done. }
  exists v'. split; [|done].
  assert (Hs2sc : sc_nodes s2 !! sc = Some ndsc').
  { rewrite Hout by (by rewrite Hfst). apply lookup_insert_eq. }
  unfold run. rewrite (getAttr_user _ _ "fkIk" _ (mk_attr v' (at_default att) (at_locked att)) Hs2sc eq_refl);
    [done|]. apply assoc_get_set_eq. by rewrite Hatt.
Qed.

End SnapRun.

Section SnapHandlers.
Context `{XA : XformAlgebra}.

Lemma capture_wf use_ik info : keeps wf_scene (capture use_ik info).
Proof. induction info as [|[key sg] info IH]; simpl; solve_keeps. Qed.

Lemma capture_undo_indep use_ik info : undo_indep (capture use_ik info).
Proof. induction info as [|[key sg] info IH]; simpl; solve_undo_indep. Qed.

#[local] Hint Resolve capture_wf capture_undo_indep : picker.

Lemma snap_core_wf q sc info : keeps wf_scene (snap_core q sc info).
Proof. unfold snap_core, apply_snaps. solve_keeps. Qed.

Lemma snap_core_undo_indep q sc info : undo_indep (snap_core q sc info).
Proof. unfold snap_core, apply_snaps. solve_undo_indep. Qed.

End SnapHandlers.

Section SnapClaims.
Context `{XA : XformAlgebra}.

#[local] Hint Resolve snap_core_wf snap_core_undo_indep : picker.

(** The [picker.py] handler builds with the namespace the very table
    [picker_model.snap_fk_ik] builds without it and then prefixes. *)
Theorem snap_info_ns_prefix namespace limb side :
  snap_info_ns namespace limb side = prefix_snap_info namespace (snap_info_of limb side).
Proof. reflexivity. Qed.

(** With an empty namespace the [picker.py] handler computes exactly what
    [picker_model.snap_fk_ik] computes given that line edit: the undo
    bracket is invisible. *)
Theorem snap_fk_ik_view_refines_model limb side s :
  snap_fk_ik_view "" limb side s = snap_fk_ik_model limb side (Some "") s.
Proof.
  unfold snap_fk_ik_view, snap_fk_ik_model. rewrite undo_chunk_transparent by auto with picker.
  by rewrite decide_False by (intros H; by apply H).
Qed.

(** (C26) [picker.py] reads [fkIk] on ['{}{}.fkIk'.format(namespace,
    settings_control)] where [settings_control] already holds the
    namespace: on a scene without that doubled name the handler raises
    [NoObject] on it before reading or changing anything. *)
Theorem snap_fk_ik_view_double_namespace namespace limb side s :
  sc_nodes s !! (namespace +:+ namespace +:+ settings_name limb side) = None ->
  snap_fk_ik_view namespace limb side s =
    (Exc (NoObject (namespace +:+ namespace +:+ settings_name limb side)), s).
Proof.
  intros Hn. unfold snap_fk_ik_view. rewrite undo_chunk_transparent by auto with picker.
  unfold snap_core, getAttr, bind at 1 2. by rewrite get_node_none.
Qed.

(** Well-formedness of the scene is an invariant of both variants of
    [snap_fk_ik], on every path. *)
Theorem snap_handlers_keep_wf limb side namespace_le namespace :
  keeps wf_scene (snap_fk_ik_model limb side namespace_le) /\
  keeps wf_scene (snap_fk_ik_view namespace limb side).
Proof. unfold snap_fk_ik_model, snap_fk_ik_view, undo_chunk. split; solve_keeps. Qed.

End SnapClaims.

Module SnapDemo.
Import TrsGroup.

(** A left arm in the layout the handler expects, every name after
    [ns]: an FK chain of controls with joints under them, an IK chain
    under [armIk_grp] with the hand joint under the IK control, and
    the joints [snap_fk_ik] reads ([upArm_l_jnt], [lowArm_l_jnt],
    [handArm_l_skn]) constrained to the FK or the IK joint by
    [armSettings_l_ctr.fkIk] (0: FK).  The pole vector's reference hangs
    under the blended elbow. *)
Definition offset (x y z : Z) : trs := mk_trs (v3 x y z) (v3 0 0 0) (v3 1 1 1).

(** A joint sits exactly on its parent (the unit of the toy group). *)
Definition on_parent : trs := mk_trs (v3 0 0 0) (v3 0 0 0) (v3 0 0 0).

Definition blend_joint (ns fk ik : string) : node :=
  mk_node None rest_trs [] [] (Blend (ns +:+ "armSettings_l_ctr") "fkIk" (ns +:+ fk) (ns +:+ ik)).

Definition arm_nodes (ns : string) (state : Z) : list (string * node) :=
  map (fun p => (ns +:+ p.1, p.2))
  [("armSettings_l_ctr", ctrl None rest_trs [("fkIk", num_attr state)]);
   ("upArmFk_l_ctr", ctrl None (offset 0 10 0) []);
   ("lowArmFk_l_ctr", ctrl (Some (ns +:+ "upArmFk_l_ctr")) (offset 3 0 0) []);
   ("handArmFk_l_ctr", ctrl (Some (ns +:+ "lowArmFk_l_ctr")) (offset 3 0 0) []);
   ("upArm_l_fk", ctrl (Some (ns +:+ "upArmFk_l_ctr")) on_parent []);
   ("lowArm_l_fk", ctrl (Some (ns +:+ "lowArmFk_l_ctr")) on_parent []);
   ("handArm_l_fk", ctrl (Some (ns +:+ "handArmFk_l_ctr")) on_parent []);
   ("armIk_grp", ctrl None (offset 0 10 0) []);
   ("handArmIk_l_ctr", ctrl (Some (ns +:+ "armIk_grp")) (offset 4 (-3) 1) []);
   ("armPoleVector_l_ctr", ctrl (Some (ns +:+ "armIk_grp")) (offset 2 0 (-4)) []);
   ("upArm_l_ik", ctrl (Some (ns +:+ "armIk_grp")) on_parent []);
   ("lowArm_l_ik", ctrl (Some (ns +:+ "upArm_l_ik")) (offset 2 (-2) 0) []);
   ("handArm_l_ik", ctrl (Some (ns +:+ "handArmIk_l_ctr")) on_parent []);
   ("upArm_l_jnt", blend_joint ns "upArm_l_fk" "upArm_l_ik");
   ("lowArm_l_jnt", blend_joint ns "lowArm_l_fk" "lowArm_l_ik");
   ("handArm_l_skn", blend_joint ns "handArm_l_fk" "handArm_l_ik");
   ("armPoleVector_l_snap", ctrl (Some (ns +:+ "lowArm_l_jnt")) (offset 0 0 (-2)) [])].

Definition arm_rig (ns : string) (state : Z) : scene := scene_of (arm_nodes ns state) [].

Definition settings_node (state : Z) : node := ctrl None rest_trs [("fkIk", num_attr state)].

End SnapDemo.

Import SnapDemo.
Import TrsGroup.

(** In IK ([fkIk = 1]) the switch moves the three FK controls onto the
    IK pose of the joints, in chain order. *)
Example snap_demo_targets :
  snap_targets (py_eq_zero (at_value (num_attr 1))) (snap_info_of "arm" "l") =
    [("upArmFk_l_ctr", "upArm_l_jnt"); ("lowArmFk_l_ctr", "lowArm_l_jnt");
     ("handArmFk_l_ctr", "handArm_l_skn")].
Proof. reflexivity. Qed.

Lemma snap_core_run_witness :
  exists s', snap_core "armSettings_l_ctr" "armSettings_l_ctr" (snap_info_of "arm" "l") (arm_rig "" 1) = (Ok tt, s') /\
    Forall (fun cr : string * string => world s' cr.1 = world (arm_rig "" 1) cr.2)
      (snap_targets (py_eq_zero (at_value (num_attr 1))) (snap_info_of "arm" "l")) /\
    exists v, run (getAttr "armSettings_l_ctr" "fkIk") s' = Ok v /\
      py_eq_zero v = negb (py_eq_zero (at_value (num_attr 1))).
Proof.
  apply (snap_core_run (arm_rig "" 1) "armSettings_l_ctr" (settings_node 1) (num_attr 1));
    [concrete | concrete | concrete | by intros t [=] | decide_vm | decide_vm].
Defined.

(** The visible pose is kept: after the switch from IK to FK the joints
    the skin follows are where they were. *)
Example snap_demo_pose_kept :
  Forall (fun j => world (exec (snap_fk_ik_model "arm" "l" None) (arm_rig "" 1)) j = world (arm_rig "" 1) j)
    ["upArm_l_jnt"; "lowArm_l_jnt"; "handArm_l_skn"].
Proof. repeat constructor; vm_compute; reflexivity. Qed.

(** On a rig referenced under [rig:], the [picker.py] handler looks for
    [rig:rig:armSettings_l_ctr] and raises, where
    [picker_model.snap_fk_ik] switches the limb. *)
Lemma snap_fk_ik_view_double_namespace_witness :
  snap_fk_ik_view "rig:" "arm" "l" (arm_rig "rig:" 1) =
    (Exc (NoObject ("rig:" +:+ "rig:" +:+ settings_name "arm" "l")), arm_rig "rig:" 1) /\
  fst (snap_fk_ik_model "arm" "l" (Some "rig:") (arm_rig "rig:" 1)) = Ok tt.
Proof. split; [apply snap_fk_ik_view_double_namespace; concrete | by vm_compute]. Defined.
