(* ===== verification/Qt.v ===== *)
(** * Qt: the points and rectangles of Qt 5 the rubber band uses

    The drag selection of both windows computes with [QtCore.QPoint] and
    [QtCore.QRect].  This file models them from Qt 5 ([qrect.cpp]), which
    PySide2 binds: a [QRect] is its four stored coordinates [x1], [y1],
    [x2], [y2] (right and bottom inclusive, so [width = x2 - x1 + 1]);
    [QRect(QPoint, QSize)], [QRect(QPoint, QPoint)], [QSize()] (the
    invalid size [-1 x -1]), [normalized], [isNull], [intersects] and
    [moveTopLeft] follow Qt's code.  It is a model of the library the
    program calls, not of code of the repository. *)

From S2P Require Import Prelude.
From Stdlib Require Import ZArith Lia.
Local Open Scope Z_scope.

Record qpoint := QPoint { qx : Z; qy : Z }.

Record qrect := QRectRaw { x1 : Z; y1 : Z; x2 : Z; y2 : Z }.

#[export] Instance qpoint_eq_dec : EqDecision qpoint.
Proof. solve_decision. Defined.
#[export] Instance qrect_eq_dec : EqDecision qrect.
Proof. solve_decision. Defined.

Definition qp_add (p q : qpoint) : qpoint := QPoint (qx p + qx q) (qy p + qy q).
Definition qp_sub (p q : qpoint) : qpoint := QPoint (qx p - qx q) (qy p - qy q).

(** [QRect(topLeft, QSize(w, h))]. *)
Definition qrect_ps (p : qpoint) (w h : Z) : qrect :=
  QRectRaw (qx p) (qy p) (qx p + w - 1) (qy p + h - 1).

(** [QRect(topLeft, bottomRight)]. *)
Definition qrect_pp (p q : qpoint) : qrect := QRectRaw (qx p) (qy p) (qx q) (qy q).

Definition qwidth (r : qrect) : Z := x2 r - x1 r + 1.
Definition qheight (r : qrect) : Z := y2 r - y1 r + 1.
Definition top_left (r : qrect) : qpoint := QPoint (x1 r) (y1 r).

(** [QRect::normalized] of Qt 5: a coordinate pair is swapped only when
    the width (height) is below zero. *)
Definition normalized (r : qrect) : qrect :=
  let '(a1, a2) := if decide (x2 r < x1 r - 1) then (x2 r, x1 r) else (x1 r, x2 r) in
  let '(b1, b2) := if decide (y2 r < y1 r - 1) then (y2 r, y1 r) else (y1 r, y2 r) in
  QRectRaw a1 b1 a2 b2.

Definition is_null (r : qrect) : bool :=
  bool_decide (x2 r = x1 r - 1) && bool_decide (y2 r = y1 r - 1).

(** The interval a rectangle covers along one axis, the bounds swapped
    for a negative extent, as [QRect::intersects] computes it. *)
Definition span (a b : Z) : Z * Z := if decide (b - a + 1 < 0) then (b, a) else (a, b).

(** [QRect::intersects] of Qt 5. *)
Definition intersects (r s : qrect) : bool :=
  if is_null r || is_null s then false else
  let '(l1, r1) := span (x1 r) (x2 r) in
  let '(l2, r2) := span (x1 s) (x2 s) in
  if decide (l1 > r2 \/ l2 > r1) then false else
  let '(t1, b1) := span (y1 r) (y2 r) in
  let '(t2, b2) := span (y1 s) (y2 s) in
  if decide (t1 > b2 \/ t2 > b1) then false else true.

(** [QRect::moveTopLeft]: the size is kept. *)
Definition move_top_left (r : qrect) (p : qpoint) : qrect :=
  QRectRaw (qx p) (qy p) (x2 r + (qx p - x1 r)) (y2 r + (qy p - y1 r)).

(** The rectangle moved by [d]. *)
Definition translate (r : qrect) (d : qpoint) : qrect :=
  QRectRaw (x1 r + qx d) (y1 r + qy d) (x2 r + qx d) (y2 r + qy d).

(** A rectangle whose width and height are not negative. *)
Definition sized (r : qrect) : Prop := 0 <= qwidth r /\ 0 <= qheight r.

#[export] Instance sized_dec r : Decision (sized r).
Proof. unfold sized. apply _. Defined.

(** ** Lemmas *)

Lemma move_top_left_translate r d :
  move_top_left r (qp_add (top_left r) d) = translate r d.
Proof. destruct r, d. unfold move_top_left, translate, qp_add, top_left. simpl. f_equal; lia. Qed.

Lemma translate_size r d : qwidth (translate r d) = qwidth r /\ qheight (translate r d) = qheight r.
Proof. destruct r, d. unfold qwidth, qheight, translate. simpl. lia. Qed.

Lemma translate_add r d e : translate (translate r d) e = translate r (qp_add d e).
Proof. destruct r, d, e. unfold translate, qp_add. simpl. f_equal; lia. Qed.

Lemma translate_zero r : translate r (QPoint 0 0) = r.
Proof. destruct r. unfold translate. simpl. f_equal; lia. Qed.

Lemma qp_add_sub p q : qp_add q (qp_sub p q) = p.
Proof. destruct p, q. unfold qp_add, qp_sub. simpl. f_equal; lia. Qed.

Lemma qp_sub_add p q d : qp_sub (qp_add p d) (qp_add q d) = qp_sub p q.
Proof. destruct p, q, d. unfold qp_add, qp_sub. simpl. f_equal; lia. Qed.

Lemma qp_sub_add_r p d : qp_sub (qp_add p d) p = d.
Proof. destruct p, d. unfold qp_add, qp_sub. simpl. f_equal; lia. Qed.

Lemma qp_sub_diag p : qp_sub p p = QPoint 0 0.
Proof. destruct p. unfold qp_sub. simpl. f_equal; lia. Qed.

(** The rectangle [normalized] returns has no negative extent. *)
Lemma normalized_sized r : sized (normalized r).
Proof.
  destruct r as [a b c d]. unfold normalized, sized, qwidth, qheight. simpl.
  repeat case_decide; simpl; lia.
Qed.

(** Normalizing commutes with moving both corners. *)
Lemma normalized_translate p q d :
  normalized (qrect_pp (qp_add p d) (qp_add q d)) = translate (normalized (qrect_pp p q)) d.
Proof.
  destruct p, q, d. unfold normalized, qrect_pp, translate, qp_add. simpl.
  repeat case_decide; simpl; f_equal; lia.
Qed.

(** [QWidget::setGeometry] on a widget not yet shown: the size is
    bounded below by the default minimum size [0 x 0].  The development
    uses this instance only to run examples; its theorems hold for any
    [setGeometry] that stores a rectangle of non-negative size as given. *)
Definition qt_set_geometry (r : qrect) : qrect :=
  qrect_ps (top_left r) (Z.max 0 (qwidth r)) (Z.max 0 (qheight r)).

Lemma qt_set_geometry_sized r : sized r -> qt_set_geometry r = r.
Proof.
  destruct r as [a b c d]. unfold qt_set_geometry, sized, qrect_ps, qwidth, qheight, top_left. simpl.
  intros [? ?]. f_equal; lia.
Qed.
