(* ===== verification/Marquee.v ===== *)
(** * Marquee: the drag selection of both windows

    Models the rubber-band selection of [Picker] in
    [src/picker_controller.py] (lines 33-46 for its state, 145-206 for
    the four event handlers) and of [Picker] in [src/picker.py]
    (lines 493-554, the same handlers; only the final selection call
    differs).  The window's Python attributes [origin], [drag_selection],
    [source_geo], [alt_point], [delta], the rubber band's geometry and
    visibility and the style sheet of each tracked button form the
    record [marquee]; what the window does not change (the buttons with
    their cached styles, their rectangles on screen, the parent links of
    the widgets, the current tab) forms the record [window].  Each
    handler maps a state to a result and a state: an exception of the
    handler (PySide prints it and the event loop goes on) keeps the
    assignments made before it.  [handle] dispatches an event and
    [reachable] is the set of states a sequence of events reaches.

    Qt's [QWidget::setGeometry] is a parameter [set_geometry] of the
    section: the theorems assume only that it stores a rectangle of
    non-negative size as given, which is all the drag and pan
    rectangles need ([normalized] never yields a negative size).

    The [while] loop that finds the tab of a button follows
    [parentWidget()] links with fuel: the number of widgets plus one,
    enough for any tree of widgets ([find_tab_total]); what it returns
    is the loop's outcome as the relation [tab_search] describes it
    ([find_tab_correct]).

    Theorems: what a release selects and restores; the pan translates
    the band and re-anchors the drag; the invariant of the reachable
    states (by rule induction) and the absence of the [TypeError] it
    gives; the stale pan a release with Alt held leaves; that from every
    reachable state three events clear any pan ([marquee_recovers]); the
    two windows' releases agree. *)

From S2P Require Import Prelude Host Namespace Select Qt.
From Stdlib Require Import ZArith Lia.
Local Open Scope string_scope.
Local Open Scope picker_scope.

(** ** Events and state *)

Inductive mouse_button := LeftButton | RightButton | MiddleButton.

Inductive key := Key_Alt | Key_Other (code : Z).

(** [QtCore.Qt.AltModifier]. *)
Definition AltModifier : Z := 134217728.

(** What the handlers read and do not change. *)
Record window := mk_window {
  win_origin : qpoint;                      (** [mapToGlobal] of the window's origin *)
  widget_styles : list (string * string);   (** [widget_styles_dict]: name and cached style *)
  widget_rect : string -> qrect;            (** a button's rectangle on screen *)
  parent_widget : gmap string string;       (** [parentWidget()] by name; absent: [None] *)
  tab_index : Z                             (** [picker_tab.currentIndex()] *)
}.

(** The attributes the handlers assign. *)
Record marquee := mk_marquee {
  drag_selection : option qrect;
  origin : option qpoint;
  source_geo : option qrect;
  alt_point : option qpoint;
  delta : option qpoint;
  band_geo : qrect;                         (** [self.rubber_band.geometry()] *)
  band_shown : bool;
  styles : list (string * string)           (** each tracked button's style sheet *)
}.

Definition highlight_style : string := "color: black; background-color: white;".

(** [Picker.__init__]: nothing dragged yet, every button with its own
    style; [band0] is the rubber band's initial geometry. *)
Definition init_marquee (w : window) (band0 : qrect) : marquee :=
  mk_marquee None None None None None band0 false (widget_styles w).

Definition with_styles (st : marquee) (l : list (string * string)) : marquee :=
  mk_marquee (drag_selection st) (origin st) (source_geo st) (alt_point st) (delta st)
    (band_geo st) (band_shown st) l.

(** [rubber_ban_rect = QRect(rubber_band.mapToGlobal(rubber_band.rect().topLeft()),
    rubber_band.rect().size())]: the band's geometry on screen. *)
Definition band_global (w : window) (g : qrect) : qrect :=
  qrect_ps (qp_add (win_origin w) (top_left g)) (qwidth g) (qheight g).

(** The loop of [mouseMoveEvent]: every tracked button is highlighted
    when it meets the band and gets its cached style back otherwise. *)
Definition restyle (w : window) (band : qrect) : list (string * string) :=
  map (fun ws : string * string =>
         (ws.1, if intersects band (widget_rect w ws.1) then highlight_style else ws.2))
      (widget_styles w).

(** [while parent_tab.objectName() != 'body_tab' and ... != 'face_tab':
    parent_tab = parent_tab.parentWidget()]: [None] has no
    [objectName], hence [AttributeError] past the top; [None] when the
    fuel runs out. *)
Definition is_tab (name : string) : bool := bool_decide (name = "body_tab" \/ name = "face_tab").

Fixpoint find_tab (fuel : nat) (parents : gmap string string) (name : string) : option (res string) :=
  match fuel with
  | O => None
  | S f =>
      if is_tab name then Some (Ok name)
      else match parents !! name with
           | Some p => find_tab f parents p
           | None => Some (Exc AttributeError)
           end
  end.

Definition tab_fuel (w : window) : nat := S (size (parent_widget w)).

(** The two [if]s that append a button of the active tab. *)
Definition tab_pick (tab_index : Z) (tab name : string) : list string :=
  (if bool_decide (tab = "body_tab" /\ tab_index = 0%Z) then [name] else []) ++
  (if bool_decide (tab = "face_tab" /\ tab_index = 1%Z) then [name] else []).

(** The loop of [mouseReleaseEvent] over [widget_styles_dict]: a button
    meeting the band gets its cached style back and, when it lies in
    the active tab, its name is appended; the tab search may raise. *)
Fixpoint release_loop (w : window) (band : qrect) (ws : list (string * string))
    (sty : list (string * string)) (acc : list string) : res (list string) * list (string * string) :=
  match ws with
  | [] => (Ok acc, sty)
  | (name, style) :: rest =>
      if intersects band (widget_rect w name) then
        match find_tab (tab_fuel w) (parent_widget w) name with
        | Some (Ok tab) =>
            release_loop w band rest (assoc_set name style sty) (acc ++ tab_pick (tab_index w) tab name)
        | Some (Exc e) => (Exc e, sty)
        | None => (Exc RuntimeError, sty)
        end
      else release_loop w band rest sty acc
  end.

Section Handlers.
Variable set_geometry : qrect -> qrect.

(** [mousePressEvent]: a left press anchors a band of size [QSize()]
    at the press point and shows it. *)
Definition mousePressEvent (b : mouse_button) (pos : qpoint) (st : marquee) : marquee :=
  match b with
  | LeftButton =>
      let ds := qrect_ps pos (-1) (-1) in
      mk_marquee (Some ds) (Some pos) (source_geo st) (alt_point st) (delta st)
        (set_geometry ds) true (styles st)
  | _ => st
  end.

(** [keyReleaseEvent]: releasing Alt after a pan moves the anchor by the
    pan and forgets the pan. *)
Definition keyReleaseEvent (k : key) (st : marquee) : res unit * marquee :=
  match k with
  | Key_Alt =>
      match delta st with
      | Some d =>
          match origin st with
          | Some o => (Ok tt, mk_marquee (drag_selection st) (Some (qp_add o d)) None None None
                                (band_geo st) (band_shown st) (styles st))
          | None => (Exc TypeError, st)
          end
      | None => (Ok tt, st)
      end
  | Key_Other _ => (Ok tt, st)
  end.

(** [mouseMoveEvent]: with exactly Alt held the band keeps the geometry
    it had when the pan started and moves by the pointer's displacement;
    otherwise it spans the anchor and the pointer.  Then every tracked
    button is restyled. *)
Definition mouseMoveEvent (w : window) (mods : Z) (pos : qpoint) (st : marquee) : res unit * marquee :=
  let '(r, st1) :=
    if decide (mods = AltModifier) then
      let '(sg, ap) := match alt_point st with
                       | None => (Some (band_geo st), pos)
                       | Some ap => (source_geo st, ap)
                       end in
      let d := qp_sub pos ap in
      match sg with
      | Some g => (Ok tt, mk_marquee (drag_selection st) (origin st) (Some g) (Some ap) (Some d)
                           (set_geometry (move_top_left g (qp_add (top_left g) d))) (band_shown st) (styles st))
      | None => (Exc TypeError, mk_marquee (drag_selection st) (origin st) None (Some ap) (Some d)
                                  (band_geo st) (band_shown st) (styles st))
      end
    else
      match origin st with
      | Some o =>
          let ds := normalized (qrect_pp o pos) in
          (Ok tt, mk_marquee (Some ds) (origin st) (source_geo st) (alt_point st) (delta st)
                    (set_geometry ds) (band_shown st) (styles st))
      | None => (Exc TypeError, st)
      end in
  match r with
  | Ok _ => (Ok tt, with_styles st1 (restyle w (band_global w (band_geo st1))))
  | Exc e => (Exc e, st1)
  end.

(** The window part of [mouseReleaseEvent]: on a left release, hide the
    band and run the loop; [Ok (Some names)] is the list handed to the
    selection, [Ok None] a release of another button. *)
Definition release_ui (w : window) (b : mouse_button) (st : marquee) : res (option (list string)) * marquee :=
  match b with
  | LeftButton =>
      let st1 := mk_marquee (drag_selection st) (origin st) (source_geo st) (alt_point st) (delta st)
                   (band_geo st) false (styles st) in
      let '(r, sty) := release_loop w (band_global w (band_geo st1)) (widget_styles w) (styles st1) [] in
      match r with
      | Ok names => (Ok (Some names), with_styles st1 sty)
      | Exc e => (Exc e, with_styles st1 sty)
      end
  | _ => (Ok None, st)
  end.

(** [picker_controller.Picker.mouseReleaseEvent]: the list goes to
    [picker_model.select_control_list(control_list, self.namespace_le)]. *)
Definition mouseReleaseEvent_model (w : window) (namespace_le : option string) (b : mouse_button)
    (st : marquee) (s : scene) : res unit * marquee * scene :=
  match release_ui w b st with
  | (Ok (Some names), st') => let '(r, s') := select_control_list_model names namespace_le s in (r, st', s')
  | (Ok None, st') => (Ok tt, st', s)
  | (Exc e, st') => (Exc e, st', s)
  end.

(** [picker.Picker.mouseReleaseEvent]: the list goes to the undo-wrapped
    [self.select_control_list(control_list)]. *)
Definition mouseReleaseEvent_view (w : window) (namespace : string) (b : mouse_button)
    (st : marquee) (s : scene) : res unit * marquee * scene :=
  match release_ui w b st with
  | (Ok (Some names), st') => let '(r, s') := select_control_list_view namespace names s in (r, st', s')
  | (Ok None, st') => (Ok tt, st', s)
  | (Exc e, st') => (Exc e, st', s)
  end.

(** ** The event loop *)

Inductive event :=
| Press (b : mouse_button) (pos : qpoint)
| Move (mods : Z) (pos : qpoint)
| KeyUp (k : key)
| Release (b : mouse_button).

(** One event on the window's state (the selection call of a release
    acts on the scene, not on this state). *)
Definition handle (w : window) (ev : event) (st : marquee) : res unit * marquee :=
  match ev with
  | Press b pos => (Ok tt, mousePressEvent b pos st)
  | Move mods pos => mouseMoveEvent w mods pos st
  | KeyUp k => keyReleaseEvent k st
  | Release b =>
      let '(r, st') := release_ui w b st in
      (match r with Ok _ => Ok tt | Exc e => Exc e end, st')
  end.

(** Events in order; an exception ends its handler, not the loop. *)
Definition run_events (w : window) (evs : list event) (st : marquee) : marquee :=
  fold_left (fun st ev => snd (handle w ev st)) evs st.

Inductive reachable (w : window) (band0 : qrect) : marquee -> Prop :=
| reach_init : reachable w band0 (init_marquee w band0)
| reach_step ev st : reachable w band0 st -> reachable w band0 (snd (handle w ev st)).

End Handlers.

(** ** What the release loop computes *)

Section ReleaseSpec.

(** A rank that decreases from a widget to its parent: the links form a
    tree, as Qt's parent links always do. *)
Definition ranked (rank : string -> nat) (parents : gmap string string) : Prop :=
  map_Forall (fun c p => rank p < rank c) parents.

#[export] Instance ranked_dec rank parents : Decision (ranked rank parents).
Proof. unfold ranked. apply _. Defined.

(** The [while] loop of [mouseReleaseEvent] as a relation: a widget
    named [body_tab] or [face_tab] is its own tab; any other widget
    has the tab of its [parentWidget()], and [AttributeError] when it
    has none ([None.objectName()]). *)
Inductive tab_search (parents : gmap string string) : string -> res string -> Prop :=
| ts_tab n : n = "body_tab" \/ n = "face_tab" -> tab_search parents n (Ok n)
| ts_up n p r : ~ (n = "body_tab" \/ n = "face_tab") -> parents !! n = Some p ->
    tab_search parents p r -> tab_search parents n r
| ts_top n : ~ (n = "body_tab" \/ n = "face_tab") -> parents !! n = None ->
    tab_search parents n (Exc AttributeError).

(** The tab a button lies in, when the search finds one. *)
Definition tab_of (w : window) (name : string) : option string :=
  match find_tab (tab_fuel w) (parent_widget w) name with Some (Ok t) => Some t | _ => None end.

Definition tab_active (i : Z) (tab : string) : bool :=
  bool_decide (tab = "body_tab" /\ i = 0%Z) || bool_decide (tab = "face_tab" /\ i = 1%Z).

Definition in_active_tab (w : window) (name : string) : bool :=
  match tab_of w name with Some t => tab_active (tab_index w) t | None => false end.

(** The names a left release hands to the selection: the tracked
    buttons meeting the band whose tab is the active one, in the
    order of [widget_styles_dict]. *)
Definition marquee_names (w : window) (band : qrect) : list string :=
  filter (fun n => intersects band (widget_rect w n) && in_active_tab w n = true) (map fst (widget_styles w)).

(** The style sheets after the loop: a button of [ws] meeting the band
    has its cached style back, every other keeps its own. *)
Definition restore_from (w : window) (band : qrect) (ws sty : list (string * string)) : list (string * string) :=
  map (fun nc : string * string =>
         (nc.1, match assoc_get nc.1 ws with
                | Some st0 => if intersects band (widget_rect w nc.1) then st0 else nc.2
                | None => nc.2
                end)) sty.

Definition restore (w : window) (band : qrect) (sty : list (string * string)) : list (string * string) :=
  restore_from w band (widget_styles w) sty.

Lemma tab_pick_spec i tab name : tab_pick i tab name = if tab_active i tab then [name] else [].
Proof. unfold tab_pick, tab_active. repeat case_bool_decide; naive_solver. Qed.

(** The search runs out of fuel only along [f] distinct widgets that
    all have a parent. *)
(** What the fuelled search returns is the loop's outcome. *)
Lemma find_tab_sound f parents name r :
  find_tab f parents name = Some r -> tab_search parents name r.
Proof.
  revert name. induction f as [|f IH]; intros name; [done|]. simpl.
  destruct (is_tab name) eqn:Ht; [intros [= <-]; constructor; exact (bool_decide_eq_true_1 _ Ht)|].
  apply bool_decide_eq_false_1 in Ht.
  destruct (parents !! name) as [p|] eqn:Hp; [intros Hf; eapply ts_up; eauto|intros [= <-]; by constructor].
Qed.

Lemma find_tab_none_chain rank parents f name :
  ranked rank parents -> find_tab f parents name = None ->
  exists l, length l = f /\ NoDup l /\ Forall (fun y => is_Some (parents !! y) /\ rank y <= rank name) l.
Proof.
  intros Hr. revert name. induction f as [|f IH]; intros name Hn; [exists []; split_and!; by constructor|].
  simpl in Hn. destruct (is_tab name); [done|].
  destruct (parents !! name) as [p|] eqn:Hp; [|done].
  destruct (IH p Hn) as (l & Hlen & Hnd & Hl).
  assert (Hrk : rank p < rank name) by exact (map_Forall_lookup_1 _ _ _ _ Hr Hp).
  exists (name :: l). split; [simpl; lia|]. split.
  - constructor; [|done]. intros Hin. eapply Forall_forall in Hl as [_ ?]; [|exact Hin]. lia.
  - constructor; [split; [eauto|lia]|]. eapply Forall_impl; [exact Hl|]. intros y [? ?]. split; [done|lia].
Qed.

Lemma restore_from_nil w band sty : restore_from w band [] sty = sty.
Proof. unfold restore_from. induction sty as [|[k c] sty IH]; [done|]. cbn. f_equal. exact IH. Qed.

Lemma restore_from_cons w band n style rest sty :
  n ∉ map fst rest -> NoDup (map fst sty) ->
  restore_from w band ((n, style) :: rest) sty =
  restore_from w band rest (if intersects band (widget_rect w n) then assoc_set n style sty else sty).
Proof.
  intros Hn Hsty. unfold restore_from. destruct (intersects band (widget_rect w n)) eqn:Hi.
  - rewrite assoc_set_map, map_map by done. apply map_ext. intros [k c]. simpl.
    destruct (decide (k = n)) as [->|Hne]; simpl.
    + by rewrite assoc_get_notin, Hi.
    + done.
  - apply map_ext. intros [k c]. simpl. destruct (decide (k = n)) as [->|Hne].
    + by rewrite assoc_get_notin, Hi.
    + done.
Qed.

(** The loop hands on the names of [marquee_names] and restores the
    styles of the buttons meeting the band, when every such button has a
    tab. *)
Lemma release_loop_ok w band ws sty acc :
  NoDup (map fst ws) -> NoDup (map fst sty) ->
  Forall (fun n => intersects band (widget_rect w n) = true -> is_Some (tab_of w n)) (map fst ws) ->
  release_loop w band ws sty acc =
    (Ok (acc ++ filter (fun n => intersects band (widget_rect w n) && in_active_tab w n = true) (map fst ws))%list,
     restore_from w band ws sty).
Proof.
  revert sty acc. induction ws as [|[n style] ws IH]; intros sty acc Hnd Hsty Htab.
  { simpl. by rewrite app_nil_r, restore_from_nil. }
  simpl in Hnd, Htab. apply NoDup_cons in Hnd as [Hn Hnd]. apply Forall_cons in Htab as [Ht Htab].
  rewrite restore_from_cons by done. cbn [release_loop map fst]. rewrite filter_cons.
  destruct (intersects band (widget_rect w n)) eqn:Hi; cbn iota beta.
  - destruct (Ht eq_refl) as [t Ht']. unfold tab_of in Ht'.
    destruct (find_tab (tab_fuel w) (parent_widget w) n) as [[t'|e]|] eqn:Hf; try done.
    injection Ht' as ->. rewrite IH by (rewrite ?assoc_set_keys; done).
    unfold in_active_tab, tab_of. rewrite Hf, tab_pick_spec.
    destruct (tab_active (tab_index w) t); [rewrite decide_True by done | rewrite decide_False by (by intros [=])];
      by rewrite ?app_nil_r, <- ?app_assoc.
  - rewrite decide_False by (by intros [=]). by apply IH.
Qed.

End ReleaseSpec.

(** ** Running the handlers *)

Section Runs.
Variable set_geometry : qrect -> qrect.
Hypothesis set_geometry_sized : forall r, sized r -> set_geometry r = r.

Lemma sized_translate r d : sized r -> sized (translate r d).
Proof. unfold sized. destruct (translate_size r d) as [-> ->]. done. Qed.

Lemma restyle_keys w band : map fst (restyle w band) = map fst (widget_styles w).
Proof. unfold restyle. rewrite map_map. by apply map_ext. Qed.

(** A move without exactly Alt held, after a press: the band spans the
    anchor and the pointer. *)
Lemma move_plain w mods pos st o :
  mods <> AltModifier -> origin st = Some o ->
  mouseMoveEvent set_geometry w mods pos st =
    (Ok tt, mk_marquee (Some (normalized (qrect_pp o pos))) (origin st) (source_geo st) (alt_point st) (delta st)
              (normalized (qrect_pp o pos)) (band_shown st)
              (restyle w (band_global w (normalized (qrect_pp o pos))))).
Proof.
  intros Hm Ho. unfold mouseMoveEvent. rewrite decide_False, Ho by done. cbn.
  by rewrite set_geometry_sized by apply normalized_sized.
Qed.

(** The first move with Alt held records the band and the pointer. *)
Lemma move_alt_start w pos st :
  alt_point st = None -> sized (band_geo st) ->
  mouseMoveEvent set_geometry w AltModifier pos st =
    (Ok tt, mk_marquee (drag_selection st) (origin st) (Some (band_geo st)) (Some pos) (Some (QPoint 0 0))
              (band_geo st) (band_shown st) (restyle w (band_global w (band_geo st)))).
Proof.
  intros Ha Hs. unfold mouseMoveEvent. rewrite decide_True, Ha by done. cbn.
  rewrite move_top_left_translate, set_geometry_sized by (by apply sized_translate).
  by rewrite qp_sub_diag, translate_zero.
Qed.

(** A later move with Alt held moves the recorded band by the pointer's
    displacement since the pan started. *)
Lemma move_alt_cont w pos st ap g :
  alt_point st = Some ap -> source_geo st = Some g -> sized g ->
  mouseMoveEvent set_geometry w AltModifier pos st =
    (Ok tt, mk_marquee (drag_selection st) (origin st) (Some g) (Some ap) (Some (qp_sub pos ap))
              (translate g (qp_sub pos ap)) (band_shown st)
              (restyle w (band_global w (translate g (qp_sub pos ap))))).
Proof.
  intros Ha Hg Hs. unfold mouseMoveEvent. rewrite decide_True, Ha, Hg by done. cbn.
  by rewrite move_top_left_translate, set_geometry_sized by (by apply sized_translate).
Qed.

Lemma release_loop_keys w band ws sty acc :
  map fst (snd (release_loop w band ws sty acc)) = map fst sty.
Proof.
  revert sty acc. induction ws as [|[n style] ws IH]; intros sty acc; [done|]. cbn [release_loop].
  destruct (intersects band (widget_rect w n)); [|apply IH].
  destruct (find_tab (tab_fuel w) (parent_widget w) n) as [[t|e]|]; try done.
  by rewrite IH, assoc_set_keys.
Qed.

End Runs.

(** ** The theorems *)

(** The invariant of the window's drag state: a pan in progress has both
    its start point and its start geometry, a displacement only inside a
    pan, and one style sheet per tracked button. *)
Definition marquee_inv (w : window) (st : marquee) : Prop :=
  (is_Some (alt_point st) <-> is_Some (source_geo st)) /\
  (is_Some (delta st) -> is_Some (alt_point st)) /\
  map fst (styles st) = map fst (widget_styles w).

Section MarqueeClaims.
Variable set_geometry : qrect -> qrect.
Hypothesis set_geometry_sized : forall r, sized r -> set_geometry r = r.

Lemma handle_inv w ev st : marquee_inv w st -> marquee_inv w (snd (handle set_geometry w ev st)).
Proof.
  intros (Has & Hd & Hk). unfold marquee_inv, with_styles. destruct ev as [b pos|mods pos|k|b]; cbn [handle snd].
  - destruct b; done.
  - unfold mouseMoveEvent. case_decide.
    + destruct (alt_point st) as [ap|] eqn:Ha.
      * destruct (source_geo st) as [g|] eqn:Hg; [|by destruct (proj1 Has)].
        cbn -[restyle]. rewrite restyle_keys. split_and!; naive_solver.
      * cbn -[restyle]. rewrite restyle_keys. split_and!; naive_solver.
    + destruct (origin st); cbn -[restyle]; [rewrite restyle_keys|]; split_and!; naive_solver.
  - destruct k; [|done]. unfold keyReleaseEvent.
    destruct (delta st) eqn:E; [destruct (origin st)|]; cbn; rewrite ?E; split_and!; first [done | tauto].
  - destruct b; [|done..]. unfold release_ui. cbn [band_geo styles].
    pose proof (release_loop_keys w (band_global w (band_geo st)) (widget_styles w) (styles st) []) as Hrk.
    destruct (release_loop _ _ _ _ _) as [[names|e] sty]; cbn in *; split_and!; try done; congruence.
Qed.

Lemma reachable_inv w band0 st : reachable set_geometry w band0 st -> marquee_inv w st.
Proof. induction 1; [split_and!; naive_solver|]. by apply handle_inv. Qed.

End MarqueeClaims.

Section MarqueeTheorems.
Variable set_geometry : qrect -> qrect.
Hypothesis set_geometry_sized : forall r, sized r -> set_geometry r = r.

(** The fuel [S (size parents)] is enough on any tree of widgets. *)
Lemma find_tab_total rank parents name :
  ranked rank parents -> find_tab (S (size parents)) parents name <> None.
Proof.
  intros Hr Hn. destruct (find_tab_none_chain _ _ _ _ Hr Hn) as (l & Hlen & Hnd & Hl).
  assert (length l <= size parents); [|lia].
  apply nodup_dom_length; [done|]. intros y Hy. by eapply Forall_forall in Hl as [? _].
Qed.

(** (C21) The search for a button's tab terminates and is the [while]
    loop: on any tree of widgets (certified by a rank that drops from
    child to parent) it returns within its fuel, and what it returns is
    the loop's outcome [tab_search]: the first widget named [body_tab]
    or [face_tab] on the chain from the button up through its parents,
    or [AttributeError] when the chain ends without one. *)
Theorem find_tab_correct rank parents name :
  ranked rank parents ->
  exists r, find_tab (S (size parents)) parents name = Some r /\ tab_search parents name r.
Proof.
  intros Hr. destruct (find_tab (S (size parents)) parents name) as [r|] eqn:E.
  - exists r. split; [done|]. by eapply find_tab_sound.
  - by destruct (find_tab_total rank parents name Hr).
Qed.

(** (C3) A left release in [picker_controller.py] hides the band, gives each
    tracked button meeting it its cached style back, and selects
    ([picker_model.select_control_list]) exactly the tracked buttons
    meeting the band that lie in the active tab, in the order of the
    style cache; this when every button meeting the band has a tab. *)
Theorem mouseReleaseEvent_model_selects w ns st s :
  NoDup (map fst (widget_styles w)) -> NoDup (map fst (styles st)) ->
  Forall (fun n => intersects (band_global w (band_geo st)) (widget_rect w n) = true -> is_Some (tab_of w n))
    (map fst (widget_styles w)) ->
  mouseReleaseEvent_model w ns LeftButton st s =
    (fst (select_control_list_model (marquee_names w (band_global w (band_geo st))) ns s),
     mk_marquee (drag_selection st) (origin st) (source_geo st) (alt_point st) (delta st) (band_geo st) false
       (restore w (band_global w (band_geo st)) (styles st)),
     snd (select_control_list_model (marquee_names w (band_global w (band_geo st))) ns s)).
Proof.
  intros Hw Hs Ht. unfold mouseReleaseEvent_model, release_ui. cbn [band_geo styles].
  rewrite release_loop_ok, app_nil_l by done. cbn iota beta zeta.
  unfold marquee_names, restore, with_styles. set (L := filter _ (map fst (widget_styles w))).
  by destruct (select_control_list_model L ns s).
Qed.

(** After a drag whose last move highlighted the buttons meeting the
    band, a left release leaves every tracked button with its cached
    style: no highlight survives the drag. *)
Theorem drag_release_restores_styles w st :
  NoDup (map fst (widget_styles w)) ->
  styles st = restyle w (band_global w (band_geo st)) ->
  Forall (fun n => intersects (band_global w (band_geo st)) (widget_rect w n) = true -> is_Some (tab_of w n))
    (map fst (widget_styles w)) ->
  styles (snd (release_ui w LeftButton st)) = widget_styles w.
Proof.
  intros Hw Hs Ht. unfold release_ui. cbn [band_geo styles].
  rewrite release_loop_ok by (rewrite ?Hs, ?restyle_keys; done). cbn.
  rewrite Hs. unfold restore, restore_from, restyle. rewrite map_map.
  rewrite <- (map_id (widget_styles w)) at 2. apply map_ext_in. intros [n c] Hin. cbn.
  rewrite (assoc_get_nodup_in n c) by (first [done | by apply list_elem_of_In]). by destruct (intersects _ _).
Qed.

(** (C8) Every state the window reaches by events keeps the invariant, and
    on such a state a move with Alt held never raises: the [TypeError]
    of [QRect(None)] in [mouseMoveEvent] is unreachable. *)
Theorem marquee_reachable_safe w band0 st :
  reachable set_geometry w band0 st ->
  marquee_inv w st /\ forall pos, fst (mouseMoveEvent set_geometry w AltModifier pos st) = Ok tt.
Proof.
  intros Hr. pose proof (reachable_inv set_geometry w band0 st Hr) as Hinv. split; [done|].
  intros pos. destruct Hinv as (Has & _ & _). unfold mouseMoveEvent. rewrite decide_True by done.
  destruct (alt_point st) as [ap|] eqn:Ha; [|done].
  by destruct (source_geo st) as [g|]; [|destruct (proj1 Has)].
Qed.

End MarqueeTheorems.

Section MarqueePan.
Variable set_geometry : qrect -> qrect.
Hypothesis set_geometry_sized : forall r, sized r -> set_geometry r = r.

Lemma default_last_cons {A} (x y : A) l : default x (last (y :: l)) = default y (last l).
Proof.
  destruct l as [|z l]; [done|]. rewrite last_cons_cons.
  destruct (last (z :: l)) eqn:E; [done|]. by apply last_None in E.
Qed.

(** Moves with Alt held during a pan started at [p0] on the geometry
    [g]: the band is [g] moved by the last pointer position minus [p0]. *)
Lemma pan_moves w ps st p0 g cur :
  alt_point st = Some p0 -> source_geo st = Some g -> sized g ->
  band_geo st = translate g (qp_sub cur p0) ->
  let st' := run_events set_geometry w (map (Move AltModifier) ps) st in
  alt_point st' = Some p0 /\ source_geo st' = Some g /\ origin st' = origin st /\
  band_geo st' = translate g (qp_sub (default cur (last ps)) p0).
Proof.
  revert st cur. induction ps as [|p ps IH]; intros st cur Ha Hg Hs Hb; [done|].
  unfold run_events. cbn [map fold_left handle]. rewrite (move_alt_cont set_geometry set_geometry_sized w p st p0 g Ha Hg Hs).
  cbn [snd]. rewrite default_last_cons.
  match goal with |- context [fold_left _ _ ?st1] =>
    destruct (IH st1 p) as (? & ? & Ho & ?); [done..|] end.
  split_and!; try done.
Qed.

(** (C7) A pan keeps the band's size: after a press and any number of moves
    with Alt held, starting when no pan is in progress on a band of
    non-negative size, the band is its geometry at the start of the pan
    moved by the pointer's displacement, and the anchor is untouched. *)
Theorem alt_pan_translates w st p0 ps :
  alt_point st = None -> sized (band_geo st) ->
  let st' := run_events set_geometry w (map (Move AltModifier) (p0 :: ps)) st in
  band_geo st' = translate (band_geo st) (qp_sub (default p0 (last ps)) p0) /\
  qwidth (band_geo st') = qwidth (band_geo st) /\ qheight (band_geo st') = qheight (band_geo st) /\
  origin st' = origin st.
Proof.
  intros Ha Hs. unfold run_events. cbn [map fold_left handle].
  rewrite (move_alt_start set_geometry set_geometry_sized w p0 st Ha Hs). cbn [snd].
  match goal with |- context [fold_left _ _ ?st1] =>
    destruct (pan_moves w ps st1 p0 (band_geo st) p0 eq_refl eq_refl Hs) as (_ & _ & Ho & Hb) end.
  { cbn. by rewrite qp_sub_diag, translate_zero. }
  unfold run_events in Ho, Hb. rewrite Hb, Ho. destruct (translate_size (band_geo st) (qp_sub (default p0 (last ps)) p0)).
  by split_and!.
Qed.

End MarqueePan.

Section MarqueeAnchor.
Variable set_geometry : qrect -> qrect.
Hypothesis set_geometry_sized : forall r, sized r -> set_geometry r = r.

(** (C13) Releasing Alt re-anchors the drag without a jump: after a drag from
    the anchor [o] to [p], a pan with Alt held from [p] to [p + d], the
    release of Alt and a move without modifier to [p + d], the band is
    the drag rectangle moved by [d], the band the pan left, and the
    anchor is [o + d]. *)
Theorem alt_release_reanchors w st o p d :
  origin st = Some o -> alt_point st = None ->
  let st' := run_events set_geometry w
    [Move 0 p; Move AltModifier p; Move AltModifier (qp_add p d); KeyUp Key_Alt; Move 0 (qp_add p d)] st in
  band_geo st' = translate (normalized (qrect_pp o p)) d /\ origin st' = Some (qp_add o d).
Proof.
  intros Ho Ha. unfold run_events. cbn [fold_left handle].
  rewrite (move_plain set_geometry set_geometry_sized w 0 p st o) by (done || (unfold AltModifier; lia)). cbn [snd].
  rewrite (move_alt_start set_geometry set_geometry_sized w p) by (cbn [alt_point source_geo band_geo]; first [done | apply normalized_sized]). cbn [snd].
  rewrite (move_alt_cont set_geometry set_geometry_sized w (qp_add p d) _ p (normalized (qrect_pp o p))) by (cbn [alt_point source_geo band_geo]; first [done | apply normalized_sized]). cbn [snd keyReleaseEvent delta origin].
  rewrite qp_sub_add_r, Ho. cbn [snd fst origin drag_selection source_geo alt_point delta band_geo band_shown styles].
  rewrite (move_plain set_geometry set_geometry_sized w 0 _ _ (qp_add o d))
    by (cbn [origin]; first [done | unfold AltModifier; lia]).
  cbn [snd band_geo origin]. by rewrite normalized_translate.
Qed.

(** (C27) A drag released while Alt is still held leaves its pan behind: the
    next press with Alt held, at any point [p], followed by a move to
    [q], shows the previous pan's band moved by [q] minus the previous
    pan's start, not a band at [p]. *)
Theorem stale_alt_pan w st p q ap g :
  alt_point st = Some ap -> source_geo st = Some g -> sized g ->
  band_geo (snd (mouseMoveEvent set_geometry w AltModifier q (mousePressEvent set_geometry LeftButton p st)))
    = translate g (qp_sub q ap).
Proof.
  intros Ha Hg Hs. rewrite (move_alt_cont set_geometry set_geometry_sized w q _ ap g); done.
Qed.

End MarqueeAnchor.

Section MarqueeRecovery.
Variable set_geometry : qrect -> qrect.

Lemma run_events_reachable w band0 evs st :
  reachable set_geometry w band0 st -> reachable set_geometry w band0 (run_events set_geometry w evs st).
Proof.
  revert st. induction evs as [|ev evs IH]; intros st Hr; [done|]. apply IH. by constructor.
Qed.

(** (C22) Whatever events came before, the window can always be brought
    back to a clean drag: a left press at [p], a move to [p] with Alt
    held and the release of Alt reach a state with no pan in progress
    (no start point, start geometry or displacement), an anchor and the
    band shown, so that the stale pan of [stale_alt_pan] never
    survives this sequence. *)
Theorem marquee_recovers w band0 st p :
  reachable set_geometry w band0 st ->
  let st' := run_events set_geometry w [Press LeftButton p; Move AltModifier p; KeyUp Key_Alt] st in
  reachable set_geometry w band0 st' /\ alt_point st' = None /\ source_geo st' = None /\
  delta st' = None /\ is_Some (origin st') /\ band_shown st' = true.
Proof.
  intros Hr st'. split; [apply run_events_reachable, Hr|].
  destruct (reachable_inv set_geometry w band0 st Hr) as (Has & _ & _).
  unfold st', run_events. cbn [fold_left handle snd]. unfold mouseMoveEvent.
  rewrite decide_True by done. cbn [mousePressEvent alt_point source_geo].
  destruct (alt_point st) as [ap|] eqn:Ha.
  - destruct (source_geo st) as [g|]; [|by destruct (proj1 Has)]. cbn -[restyle]. by split_and!.
  - cbn -[restyle]. by split_and!.
Qed.

End MarqueeRecovery.

(** Given the text of the namespace line edit, the [picker.py] release
    computes exactly what the [picker_controller.py] one computes:
    window state, outcome and scene. *)
Theorem mouseReleaseEvent_view_refines_model w ns b st s :
  mouseReleaseEvent_view w ns b st s = mouseReleaseEvent_model w (Some ns) b st s.
Proof.
  unfold mouseReleaseEvent_view, mouseReleaseEvent_model.
  destruct (release_ui w b st) as [[[names|]|e] st']; [|done..]. by rewrite select_control_list_view_eq.
Qed.

Module MarqueeDemo.

(** A window at screen position (100, 0) with three tracked buttons: two
    on the body tab ([head_c_ctr] inside a frame, [hand_l_ctr]) and one
    on the face tab ([jaw_c_ctr]); the tabs hang under the stacked widget
    of [picker_tab], under the window. *)
Definition rects (n : string) : qrect :=
  if decide (n = "head_c_ctr") then qrect_ps (QPoint 110 40) 20 20
  else if decide (n = "hand_l_ctr") then qrect_ps (QPoint 180 160) 20 20
  else if decide (n = "jaw_c_ctr") then qrect_ps (QPoint 120 60) 10 10
  else qrect_ps (QPoint 0 0) 0 0.

Definition parents : gmap string string :=
  list_to_map [("head_c_ctr", "body_frame"); ("body_frame", "body_tab"); ("hand_l_ctr", "body_tab");
               ("jaw_c_ctr", "face_tab"); ("body_tab", "tab_stack"); ("face_tab", "tab_stack");
               ("tab_stack", "picker_tab"); ("picker_tab", "picker_window")].

(** Depth below the window. *)
Definition rank (n : string) : nat :=
  if decide (n = "picker_window") then 0 else if decide (n = "picker_tab") then 1
  else if decide (n = "tab_stack") then 2 else if decide (n = "body_frame") then 4
  else if decide (n = "body_tab" \/ n = "face_tab") then 3 else 5.

Definition styles0 : list (string * string) :=
  [("head_c_ctr", "background-color: yellow;"); ("hand_l_ctr", "background-color: red;");
   ("jaw_c_ctr", "background-color: blue;")].

Definition win (tab : Z) : window := mk_window (QPoint 100 0) styles0 rects parents tab.

Definition band0 : qrect := qrect_ps (QPoint 0 0) 100 30.

(** A press at (5, 30) and a drag to (40, 75) in window coordinates. *)
Definition drag : list event := [Press LeftButton (QPoint 5 30); Move 0 (QPoint 40 75)].

Definition st_drag (tab : Z) : marquee := run_events qt_set_geometry (win tab) drag (init_marquee (win tab) band0).

Definition rig : scene :=
  scene_of [("head_c_ctr", ctrl None rest_trs []); ("hand_l_ctr", ctrl None rest_trs []);
            ("jaw_c_ctr", ctrl None rest_trs [])] ["hand_l_ctr"].

End MarqueeDemo.

Import MarqueeDemo.

(** The drag meets the head and the jaw; on the body tab only the head
    is selected, on the face tab only the jaw. *)
Example marquee_demo_names :
  marquee_names (win 0) (band_global (win 0) (band_geo (st_drag 0))) = ["head_c_ctr"] /\
  marquee_names (win 1) (band_global (win 1) (band_geo (st_drag 1))) = ["jaw_c_ctr"].
Proof. split; vm_compute; reflexivity. Qed.

Lemma find_tab_correct_witness :
  ranked rank parents /\
  exists r, find_tab (S (size parents)) parents "jaw_c_ctr" = Some r /\ tab_search parents "jaw_c_ctr" r.
Proof. split; [decide_vm | apply (find_tab_correct rank); decide_vm]. Defined.

Lemma mouseReleaseEvent_model_selects_witness :
  mouseReleaseEvent_model (win 0) None LeftButton (st_drag 0) rig =
    (fst (select_control_list_model (marquee_names (win 0) (band_global (win 0) (band_geo (st_drag 0)))) None rig),
     mk_marquee (drag_selection (st_drag 0)) (origin (st_drag 0)) (source_geo (st_drag 0))
       (alt_point (st_drag 0)) (delta (st_drag 0)) (band_geo (st_drag 0)) false
       (restore (win 0) (band_global (win 0) (band_geo (st_drag 0))) (styles (st_drag 0))),
     snd (select_control_list_model (marquee_names (win 0) (band_global (win 0) (band_geo (st_drag 0)))) None rig)).
Proof. apply mouseReleaseEvent_model_selects; decide_vm. Defined.

Lemma drag_release_restores_styles_witness :
  styles (snd (release_ui (win 0) LeftButton (st_drag 0))) = widget_styles (win 0).
Proof. apply drag_release_restores_styles; [decide_vm | vm_compute; reflexivity | decide_vm]. Defined.

Lemma marquee_reachable_safe_witness :
  marquee_inv (win 0) (st_drag 0) /\
  forall pos, fst (mouseMoveEvent qt_set_geometry (win 0) AltModifier pos (st_drag 0)) = Ok tt.
Proof.
  apply (marquee_reachable_safe qt_set_geometry (win 0) band0).
  unfold st_drag, drag, run_events. cbn [fold_left]. apply reach_step, reach_step, reach_init.
Defined.

Lemma alt_pan_translates_witness :
  let st' := run_events qt_set_geometry (win 0) (map (Move AltModifier) (QPoint 40 75 :: [QPoint 50 80; QPoint 60 90])) (st_drag 0) in
  band_geo st' = translate (band_geo (st_drag 0)) (qp_sub (default (QPoint 40 75) (last [QPoint 50 80; QPoint 60 90])) (QPoint 40 75)) /\
  qwidth (band_geo st') = qwidth (band_geo (st_drag 0)) /\ qheight (band_geo st') = qheight (band_geo (st_drag 0)) /\
  origin st' = origin (st_drag 0).
Proof. apply (alt_pan_translates qt_set_geometry qt_set_geometry_sized); concrete. Defined.

Definition st_press : marquee := snd (handle qt_set_geometry (win 0) (Press LeftButton (QPoint 5 30)) (init_marquee (win 0) band0)).

Lemma alt_release_reanchors_witness :
  let st' := run_events qt_set_geometry (win 0)
    [Move 0 (QPoint 40 75); Move AltModifier (QPoint 40 75); Move AltModifier (qp_add (QPoint 40 75) (QPoint 10 5));
     KeyUp Key_Alt; Move 0 (qp_add (QPoint 40 75) (QPoint 10 5))] st_press in
  band_geo st' = translate (normalized (qrect_pp (QPoint 5 30) (QPoint 40 75))) (QPoint 10 5) /\
  origin st' = Some (qp_add (QPoint 5 30) (QPoint 10 5)).
Proof. apply (alt_release_reanchors qt_set_geometry qt_set_geometry_sized); concrete. Defined.

(** A pan from (40, 75) to (60, 80), then a release with Alt still held. *)
Definition st_stale : marquee :=
  run_events qt_set_geometry (win 0)
    [Move AltModifier (QPoint 40 75); Move AltModifier (QPoint 60 80); Release LeftButton] (st_drag 0).

Lemma stale_alt_pan_witness :
  band_geo (snd (mouseMoveEvent qt_set_geometry (win 0) AltModifier (QPoint 70 90)
                   (mousePressEvent qt_set_geometry LeftButton (QPoint 200 200) st_stale)))
  = translate (band_geo (st_drag 0)) (qp_sub (QPoint 70 90) (QPoint 40 75)).
Proof.
  apply (stale_alt_pan qt_set_geometry qt_set_geometry_sized); [vm_compute; reflexivity.. | decide_vm].
Defined.

(** The stale pan cleared: from [st_stale], a press, an Alt move and the
    release of Alt leave no pan behind. *)
Lemma marquee_recovers_witness :
  let st' := run_events qt_set_geometry (win 0)
    [Press LeftButton (QPoint 200 200); Move AltModifier (QPoint 200 200); KeyUp Key_Alt] st_stale in
  reachable qt_set_geometry (win 0) band0 st' /\ alt_point st' = None /\ source_geo st' = None /\
  delta st' = None /\ is_Some (origin st') /\ band_shown st' = true.
Proof.
  apply marquee_recovers. unfold st_stale, st_drag. apply run_events_reachable, run_events_reachable, reach_init.
Defined.
