(* ===== verification/Typing.v ===== *)
(** * Typing: the attribute types of the rig are kept by every handler

    Maya fixes the type of an attribute when the attribute is created:
    [cmds.setAttr] converts the value it is given to that type or
    raises, and none of the handlers of [src/picker_model.py] or
    [src/picker.py] adds or deletes an attribute.  This file states the
    typing of a scene (for every node, the names of its user attributes
    with the type of each value) and proves that every primitive of
    [Host] and every handler of both files leaves it unchanged, on every
    path, the raising ones included: the frame lemmas are registered in
    the [picker] database, so that [solve_preserves] proves a handler
    from its code. *)

From S2P Require Import Prelude Host Namespace Pose Select Bind Snap.
Local Open Scope picker_scope.

(** The type of a value, as [cmds.getAttr(..., type=True)] reports it. *)
Inductive vty := TNum | TBool | TStr.

#[export] Instance vty_eq_dec : EqDecision vty.
Proof. solve_decision. Defined.

Definition value_ty (v : value) : vty :=
  match v with VNum _ => TNum | VBool _ => TBool | VStr _ => TStr end.

(** The user attributes of a node with their types, in [listAttr] order. *)
Definition node_types (nd : node) : list (string * vty) :=
  map (fun p => (p.1, value_ty (at_value p.2))) (nd_attrs nd).

(** The typing of a scene: node by node. *)
Definition attr_types (s : scene) : gmap string (list (string * vty)) := node_types <$> sc_nodes s.

(** ** The frame of the primitives *)

(** [setAttr]'s conversion keeps the attribute's type. *)
Lemma coerce_ty old new v : coerce old new = Some v -> value_ty v = value_ty old.
Proof. destruct old, new; simpl; by intros [= <-]. Qed.

Lemma attr_types_insert s n nd nd' :
  sc_nodes s !! n = Some nd -> node_types nd' = node_types nd ->
  attr_types (with_nodes s (<[n := nd']> (sc_nodes s))) = attr_types s.
Proof.
  intros Hn Ht. unfold attr_types. simpl. rewrite fmap_insert, Ht.
  apply insert_id. by rewrite lookup_fmap, Hn.
Qed.

Lemma node_types_set_trs nd t : node_types (set_trs nd t) = node_types nd.
Proof. done. Qed.

(** Writing a user attribute with a value of its own type. *)
Lemma node_types_set_attr nd a att x :
  assoc_get a (nd_attrs nd) = Some att -> value_ty (at_value x) = value_ty (at_value att) ->
  node_types (set_attrs nd (assoc_set a x (nd_attrs nd))) = node_types nd.
Proof.
  intros Ha Hty. unfold node_types. simpl.
  rewrite (assoc_set_map_values (fun y => value_ty (at_value y))). simpl. rewrite Hty.
  apply assoc_set_get_same. by rewrite (assoc_get_map_values (fun y => value_ty (at_value y))), Ha.
Qed.

(** The shape of every call that rewrites a node: look it up, then put
    back a node of the same typing. *)
Ltac solve_types_put :=
  let s := fresh "s" in
  intros s; unfold exec, bind, get_node;
  destruct (sc_nodes s !! _) as [?nd|] eqn:?E; [|done]; simpl;
  repeat (case_match; simpl; try done);
  eapply attr_types_insert; eauto.

Section TypesFrame.
Context `{XA : XformAlgebra}.

Lemma getAttr_types n a : preserves attr_types (getAttr n a).
Proof. apply preserves_pure, getAttr_exec. Qed.

Lemma setAttr_types n a v : preserves attr_types (setAttr n a v).
Proof.
  unfold setAttr. solve_types_put.
  eapply node_types_set_attr; [done|]. by eapply coerce_ty.
Qed.

Lemma put_set_trs_types n (t : node -> trs) :
  preserves attr_types (let* nd := get_node n in put_node n (set_trs nd (t nd))).
Proof. solve_types_put. Qed.

Lemma check_exist_types l : preserves attr_types (check_exist l).
Proof. intros s. by rewrite check_exist_exec. Qed.

#[local] Hint Resolve check_exist_types : picker.

Lemma modify_nodes_types (g : scene -> scene) :
  (forall s, sc_nodes (g s) = sc_nodes s) -> preserves attr_types (modify g).
Proof. intros Hg s. unfold attr_types, exec, modify. simpl. by rewrite Hg. Qed.

Lemma world_of_types n : preserves attr_types (world_of n).
Proof. intros s. unfold exec, world_of. by destruct (world s n). Qed.

#[local] Hint Resolve world_of_types : picker.
#[local] Hint Extern 1 (preserves attr_types (modify _)) => apply modify_nodes_types; done : picker.

Lemma listAttr_ud_types n : preserves attr_types (listAttr_ud n).
Proof. unfold listAttr_ud. solve_preserves. Qed.
Lemma attributeQuery_default_types a n : preserves attr_types (attributeQuery_default a n).
Proof. unfold attributeQuery_default. solve_preserves. Qed.
Lemma attributeQuery_exists_types a n : preserves attr_types (attributeQuery_exists a n).
Proof. unfold attributeQuery_exists. solve_preserves. Qed.
Lemma select_replace_types l : preserves attr_types (select_replace l).
Proof. unfold select_replace. solve_preserves. Qed.
Lemma select_add_types l : preserves attr_types (select_add l).
Proof. unfold select_add. solve_preserves. Qed.
Lemma select_deselect_types l : preserves attr_types (select_deselect l).
Proof. unfold select_deselect. solve_preserves. Qed.
Lemma setKeyframe_types l : preserves attr_types (setKeyframe l).
Proof. unfold setKeyframe. solve_preserves. Qed.
Lemma ls_selection_types : preserves attr_types ls_selection.
Proof. done. Qed.
Lemma getModifiers_types : preserves attr_types getModifiers.
Proof. done. Qed.
Lemma undo_open_types : preserves attr_types undo_open.
Proof. done. Qed.
Lemma undo_close_types : preserves attr_types undo_close.
Proof. done. Qed.
Lemma xform_get_matrix_os_types n : preserves attr_types (xform_get_matrix_os n).
Proof. unfold xform_get_matrix_os. solve_preserves. Qed.
Lemma xform_set_matrix_os_types n m : preserves attr_types (xform_set_matrix_os n m).
Proof. apply (put_set_trs_types n (fun nd => _)). Qed.
Lemma xform_set_floats_os_types n l : preserves attr_types (xform_set_floats_os n l).
Proof. unfold xform_set_floats_os. pose proof xform_set_matrix_os_types. solve_preserves. Qed.
Lemma xform_get_matrix_ws_types n : preserves attr_types (xform_get_matrix_ws n).
Proof. unfold xform_get_matrix_ws. solve_preserves. Qed.
Lemma xform_set_matrix_ws_types n m : preserves attr_types (xform_set_matrix_ws n m).
Proof.
  intros s. unfold exec, xform_set_matrix_ws, bind, get_node, world_of.
  destruct (sc_nodes s !! n) as [nd|] eqn:E; [|done]. simpl.
  destruct (nd_parent nd) as [p|]; [destruct (world s p)|]; simpl; [|done|]; by eapply attr_types_insert.
Qed.
Lemma xform_get_t_types n : preserves attr_types (xform_get_t n).
Proof. unfold xform_get_t. solve_preserves. Qed.
Lemma xform_get_r_types n : preserves attr_types (xform_get_r n).
Proof. unfold xform_get_r. solve_preserves. Qed.
Lemma xform_set_t_types n v : preserves attr_types (xform_set_t n v).
Proof. apply (put_set_trs_types n (fun nd => _)). Qed.
Lemma xform_set_r_types n v : preserves attr_types (xform_set_r n v).
Proof. apply (put_set_trs_types n (fun nd => _)). Qed.
Lemma listRelatives_ad_types g : preserves attr_types (listRelatives_ad g).
Proof. unfold listRelatives_ad. solve_preserves. Qed.

End TypesFrame.

#[export] Hint Resolve getAttr_types setAttr_types check_exist_types world_of_types
  listAttr_ud_types attributeQuery_default_types attributeQuery_exists_types
  select_replace_types select_add_types select_deselect_types setKeyframe_types
  ls_selection_types getModifiers_types undo_open_types undo_close_types
  xform_get_matrix_os_types xform_set_matrix_os_types xform_set_floats_os_types
  xform_get_matrix_ws_types xform_set_matrix_ws_types xform_get_t_types xform_get_r_types
  xform_set_t_types xform_set_r_types listRelatives_ad_types : picker.

(** ** The handlers of both files *)

Section HandlerTypes.
Context `{XA : XformAlgebra}.

Lemma set_namespace_model_types : preserves attr_types set_namespace_model.
Proof. unfold set_namespace_model. solve_preserves. Qed.
Lemma set_namespace_view_types : preserves attr_types set_namespace_view.
Proof. unfold set_namespace_view. solve_preserves. Qed.

Lemma flip_one_model_types c : preserves attr_types (flip_one_model c).
Proof.
  unfold flip_one_model, flip_center, swap_matrices, swap_user_attrs, swap_attr. solve_preserves.
Qed.
Lemma flip_one_view_types c : preserves attr_types (flip_one_view c).
Proof.
  unfold flip_one_view, flip_center, swap_matrices, swap_user_attrs, swap_attr. solve_preserves.
Qed.
Lemma mirror_one_types c : preserves attr_types (mirror_one c).
Proof. unfold mirror_one, copy_user_attrs, copy_attr. solve_preserves. Qed.

#[local] Hint Resolve flip_one_model_types flip_one_view_types mirror_one_types : picker.

Lemma flip_pose_model_types : preserves attr_types flip_pose_model.
Proof. unfold flip_pose_model. solve_preserves. Qed.
Lemma flip_pose_view_types : preserves attr_types flip_pose_view.
Proof. unfold flip_pose_view, undo_chunk. solve_preserves. Qed.
Lemma mirror_pose_model_types : preserves attr_types mirror_pose_model.
Proof. unfold mirror_pose_model. solve_preserves. Qed.
Lemma mirror_pose_view_types : preserves attr_types mirror_pose_view.
Proof. unfold mirror_pose_view, undo_chunk. solve_preserves. Qed.

Lemma select_with_modifier_types l : preserves attr_types (select_with_modifier l).
Proof. unfold select_with_modifier, get_modifier. solve_preserves. Qed.
Lemma group_controls_types g : preserves attr_types (group_controls g).
Proof. unfold group_controls. solve_preserves. Qed.
Lemma toggle_attr_types n a : preserves attr_types (toggle_attr n a).
Proof. unfold toggle_attr. solve_preserves. Qed.

#[local] Hint Resolve select_with_modifier_types group_controls_types toggle_attr_types : picker.

Lemma select_control_model_types name le : preserves attr_types (select_control_model name le).
Proof. unfold select_control_model. solve_preserves. Qed.
Lemma select_control_view_types ns name : preserves attr_types (select_control_view ns name).
Proof. unfold select_control_view, undo_chunk. solve_preserves. Qed.
Lemma select_control_list_model_types l le : preserves attr_types (select_control_list_model l le).
Proof. unfold select_control_list_model. solve_preserves. Qed.
Lemma select_control_list_view_types ns l : preserves attr_types (select_control_list_view ns l).
Proof. unfold select_control_list_view, undo_chunk. solve_preserves. Qed.

Section GroupAction.
Variable act : list string -> M unit.
Hypothesis act_types : forall l, preserves attr_types (act l).

Lemma group_action_model_types grp le : preserves attr_types (group_action_model act grp le).
Proof. unfold group_action_model. solve_preserves. Qed.
Lemma group_action_view_types grp ns : preserves attr_types (group_action_view act grp ns).
Proof. unfold group_action_view, undo_chunk. solve_preserves. Qed.

End GroupAction.

Lemma vis_toggle_model_types a le : preserves attr_types (vis_toggle_model a le).
Proof. unfold vis_toggle_model. solve_preserves. Qed.
Lemma vis_toggle_view_types a ns : preserves attr_types (vis_toggle_view a ns).
Proof. unfold vis_toggle_view, undo_chunk. solve_preserves. Qed.

Lemma bind_one_types c : preserves attr_types (bind_one c).
Proof.
  unfold bind_one, reset_user_attrs, reset_user_attr, reset_channels, apply_skin_pose,
    skin_pose_floats, xform_set_pyfloats_os.
  solve_preserves.
Qed.

#[local] Hint Resolve bind_one_types : picker.

Lemma bind_pose_model_types le : preserves attr_types (bind_pose_model le).
Proof. unfold bind_pose_model. solve_preserves. Qed.
Lemma bind_pose_view_types ns : preserves attr_types (bind_pose_view ns).
Proof. unfold bind_pose_view, undo_chunk. solve_preserves. Qed.

Lemma capture_types use_ik info : preserves attr_types (capture use_ik info).
Proof. induction info as [|[key sg] info IH]; simpl; solve_preserves. Qed.

#[local] Hint Resolve capture_types : picker.

Lemma snap_core_types q sc info : preserves attr_types (snap_core q sc info).
Proof. unfold snap_core, apply_snaps. solve_preserves. Qed.

#[local] Hint Resolve snap_core_types : picker.

Lemma snap_fk_ik_model_types limb side le : preserves attr_types (snap_fk_ik_model limb side le).
Proof. unfold snap_fk_ik_model. solve_preserves. Qed.
Lemma snap_fk_ik_view_types ns limb side : preserves attr_types (snap_fk_ik_view ns limb side).
Proof. unfold snap_fk_ik_view, undo_chunk. solve_preserves. Qed.

End HandlerTypes.

#[export] Hint Resolve set_namespace_model_types set_namespace_view_types flip_pose_model_types
  flip_pose_view_types mirror_pose_model_types mirror_pose_view_types select_control_model_types
  select_control_view_types select_control_list_model_types select_control_list_view_types
  group_action_model_types group_action_view_types vis_toggle_model_types vis_toggle_view_types
  bind_pose_model_types bind_pose_view_types snap_fk_ik_model_types snap_fk_ik_view_types : picker.
