(* ===== verification/Window.v ===== *)
(** * Window: building the two windows and wiring their buttons

    Models the part of [Picker.__init__] of [src/picker_controller.py]
    (lines 60-119) and of [src/picker.py] (lines 59-118) that looks up
    the named widgets of the loaded [.ui] and connects their [clicked]
    signals, and [load_images] of both files (lines 135-143 and
    477-485, the same text but for the folder: pixmaps onto labels).

    A [.ui] is described by the object names of its push buttons, line
    edits and labels, in the order [findChildren] returns them; a widget
    is its position in that list.  [findChildren(cls, name)[0]] is the
    first widget of that name and raises [IndexError] when there is
    none, which aborts the constructor.  A connection is a pair (widget,
    action); clicking a widget runs, in the order they were connected,
    the slots connected to it, each on the text of the namespace line
    edit and the scene; an exception raised by a slot is printed by Qt
    and the next slot still runs.

    [picker_controller.py] connects the namespace button first and hands
    the line edit to every [picker_model] function; [picker.py] connects
    it last and its methods read the line edit's text.  Both connect
    every button whose name ends in [_ctr] to the selection of that
    name.

    Theorems: the wiring of both constructors against its specification
    [button_slots] (and [IndexError] on a [.ui] lacking a widget); the
    two windows agree on every click but the documented exceptions;
    which image a label shows.  [WindowSession] puts the clicks and the
    drag's events in one event loop. *)

From S2P Require Import Prelude PyStr Host Namespace Pose Select Bind Snap Qt Marquee Typing.
From Stdlib Require Import Ascii.
Local Open Scope string_scope.
Local Open Scope picker_scope.

(** ** The loaded [.ui] and the actions *)

Record ui_desc := mk_ui {
  ui_buttons : list string;      (** [findChildren(QPushButton)] *)
  ui_line_edits : list string;   (** [findChildren(QLineEdit)] *)
  ui_labels : list string        (** [findChildren(QLabel)] *)
}.

(** What a slot does: the handler it calls, with its bound arguments. *)
Inductive action :=
| SetNamespace
| BindPose | FlipPose | MirrorPose
| VisControls | VisGeometries
| SelectAll | SelectBody | SelectFace
| KeyAll | KeyBody | KeyFace
| SelectControl (name : string)
| SnapFkIk (limb side : string).

#[export] Instance action_eq_dec : EqDecision action.
Proof. solve_decision. Defined.

(** The index of the first widget called [name]. *)
Fixpoint find_first (name : string) (l : list string) : option nat :=
  match l with
  | [] => None
  | x :: l' => if decide (x = name) then Some 0 else S <$> find_first name l'
  end.

(** [findChildren(cls, name)[0]]. *)
Definition find_children_0 (name : string) (l : list string) : res nat :=
  match find_first name l with Some i => Ok i | None => Exc IndexError end.

Definition rbind {A B} (r : res A) (k : A -> res B) : res B :=
  match r with Ok a => k a | Exc e => Exc e end.

Notation "'let!' x := r 'in' k" := (rbind r (fun x => k))
  (at level 10, x name, r at level 100, k at level 200) : picker_scope.

(** The buttons looked up by name after the namespace, in the order of
    both files: pose, visibilities, selections, keys. *)
Definition pose_buttons : list (string * action) :=
  [("bindPose_pushButton", BindPose); ("flipPose_pushButton", FlipPose);
   ("mirrorPose_pushButton", MirrorPose); ("visControls_pushButton", VisControls);
   ("visGeometries_pushButton", VisGeometries); ("selectAll_pushButton", SelectAll);
   ("selectBody_pushButton", SelectBody); ("selectFace_pushButton", SelectFace);
   ("keyAll_pushButton", KeyAll); ("keyBody_pushButton", KeyBody);
   ("keyFace_pushButton", KeyFace)].

(** The four snap buttons, after the loop over the controls. *)
Definition snap_buttons : list (string * action) :=
  [("armSnap_l_pushButton", SnapFkIk "arm" "l"); ("armSnap_r_pushButton", SnapFkIk "arm" "r");
   ("legSnap_l_pushButton", SnapFkIk "leg" "l"); ("legSnap_r_pushButton", SnapFkIk "leg" "r")].

Definition namespace_button : string := "namespace_pushButton".
Definition namespace_line_edit : string := "namespace_lineEdit".

(** [pb = findChildren(QPushButton, name)[0]; pb.clicked.connect(slot)],
    one button after the other. *)
Fixpoint connect_named (bs : list string) (l : list (string * action)) : res (list (nat * action)) :=
  match l with
  | [] => Ok []
  | (name, a) :: l' =>
      let! i := find_children_0 name bs in
      let! c := connect_named bs l' in
      Ok ((i, a) :: c)
  end.

(** [for widget in findChildren(QPushButton): if
    widget.objectName().endswith('_ctr'): widget.clicked.connect(...)],
    [k] the index of the first widget of [bs]. *)
Fixpoint connect_controls (k : nat) (bs : list string) : list (nat * action) :=
  match bs with
  | [] => []
  | b :: bs' =>
      if py_endswith "_ctr" b then (k, SelectControl b) :: connect_controls (S k) bs'
      else connect_controls (S k) bs'
  end.

(** [picker_controller.Picker.__init__], lines 60-119. *)
Definition wire_controller (u : ui_desc) : res (list (nat * action)) :=
  let! ns_pb := find_children_0 namespace_button (ui_buttons u) in
  let! _ := find_children_0 namespace_line_edit (ui_line_edits u) in
  let! pose := connect_named (ui_buttons u) pose_buttons in
  let controls := connect_controls 0 (ui_buttons u) in
  let! snaps := connect_named (ui_buttons u) snap_buttons in
  Ok ((ns_pb, SetNamespace) :: pose ++ controls ++ snaps)%list.

(** [picker.Picker.__init__], lines 59-118: the namespace last. *)
Definition wire_view (u : ui_desc) : res (list (nat * action)) :=
  let! pose := connect_named (ui_buttons u) pose_buttons in
  let controls := connect_controls 0 (ui_buttons u) in
  let! snaps := connect_named (ui_buttons u) snap_buttons in
  let! ns_pb := find_children_0 namespace_button (ui_buttons u) in
  let! _ := find_children_0 namespace_line_edit (ui_line_edits u) in
  Ok (pose ++ controls ++ snaps ++ [(ns_pb, SetNamespace)])%list.

(** ** Clicking *)

(** The slots connected to widget [i], in connection order. *)
Definition slots (wl : list (nat * action)) (i : nat) : list action :=
  map snd (filter (fun c => c.1 = i) wl).

(** The window's state as the handlers see it: the line edit's text and
    the scene. *)
Definition wstate := (string * scene)%type.

Definition on_scene (text : string) (c : M unit) (s : scene) : res unit * wstate :=
  let '(r, s') := c s in (r, (text, s')).

Section Run.
Context `{XA : XformAlgebra}.

(** A slot of [picker_controller.py]: the [picker_model] function, given
    the line edit ([Some text]). *)
Definition run_model (a : action) (st : wstate) : res unit * wstate :=
  let '(text, s) := st in
  match a with
  | SetNamespace =>
      let '(r, s') := set_namespace_model s in
      match r with
      | Ok t => (Ok tt, (qt_set_text t, s'))
      | Exc e => (Exc e, (text, s'))
      end
  | BindPose => on_scene text (bind_pose_model (Some text)) s
  | FlipPose => on_scene text flip_pose_model s
  | MirrorPose => on_scene text mirror_pose_model s
  | VisControls => on_scene text (vis_controls_model (Some text)) s
  | VisGeometries => on_scene text (vis_geometries_model (Some text)) s
  | SelectAll => on_scene text (select_all_controls_model (Some text)) s
  | SelectBody => on_scene text (select_body_controls_model (Some text)) s
  | SelectFace => on_scene text (select_face_controls_model (Some text)) s
  | KeyAll => on_scene text (key_all_controls_model (Some text)) s
  | KeyBody => on_scene text (key_body_controls_model (Some text)) s
  | KeyFace => on_scene text (key_face_controls_model (Some text)) s
  | SelectControl name => on_scene text (select_control_model name (Some text)) s
  | SnapFkIk limb side => on_scene text (snap_fk_ik_model limb side (Some text)) s
  end.

(** A slot of [picker.py]: the method, which reads the line edit. *)
Definition run_view (a : action) (st : wstate) : res unit * wstate :=
  let '(text, s) := st in
  match a with
  | SetNamespace =>
      let '(r, s') := set_namespace_view s in
      match r with
      | Ok t => (Ok tt, (t, s'))
      | Exc e => (Exc e, (text, s'))
      end
  | BindPose => on_scene text (bind_pose_view text) s
  | FlipPose => on_scene text flip_pose_view s
  | MirrorPose => on_scene text mirror_pose_view s
  | VisControls => on_scene text (vis_controls_view text) s
  | VisGeometries => on_scene text (vis_geometries_view text) s
  | SelectAll => on_scene text (select_all_controls_view text) s
  | SelectBody => on_scene text (select_body_controls_view text) s
  | SelectFace => on_scene text (select_face_controls_view text) s
  | KeyAll => on_scene text (key_all_controls_view text) s
  | KeyBody => on_scene text (key_body_controls_view text) s
  | KeyFace => on_scene text (key_face_controls_view text) s
  | SelectControl name => on_scene text (select_control_view text name) s
  | SnapFkIk limb side => on_scene text (snap_fk_ik_view text limb side) s
  end.

(** [clicked.emit()]: every slot of the widget in turn. *)
Definition click (run : action -> wstate -> res unit * wstate) (wl : list (nat * action))
    (i : nat) (st : wstate) : wstate :=
  fold_left (fun st a => snd (run a st)) (slots wl i) st.

(** A session of clicks. *)
Definition clicks (run : action -> wstate -> res unit * wstate) (wl : list (nat * action))
    (ws : list nat) (st : wstate) : wstate :=
  fold_left (fun st i => click run wl i st) ws st.

End Run.

(** ** What the wiring should be *)

(** The buttons the two constructors look up by name. *)
Definition named_buttons : list (string * action) :=
  ((namespace_button, SetNamespace) :: pose_buttons ++ snap_buttons)%list.

(** The action [L] gives the name of widget [i], when [i] is the first
    widget of that name ([findChildren(...)[0]] never returns a later
    one). *)
Definition named_slots (bs : list string) (L : list (string * action)) (i : nat) : list action :=
  match bs !! i with
  | Some b => if decide (find_first b bs = Some i) then option_list (assoc_get b L) else []
  | None => []
  end.

(** The selection a [_ctr] button is connected to. *)
Definition control_slots (bs : list string) (i : nat) : list action :=
  match bs !! i with
  | Some b => if py_endswith "_ctr" b then [SelectControl b] else []
  | None => []
  end.

(** What clicking widget [i] should do. *)
Definition button_slots (u : ui_desc) (i : nat) : list action :=
  (named_slots (ui_buttons u) named_buttons i ++ control_slots (ui_buttons u) i)%list.

(** The widgets the constructors look up exist. *)
Definition ui_complete (u : ui_desc) : Prop :=
  Forall (fun p => p.1 ∈ ui_buttons u) named_buttons /\ namespace_line_edit ∈ ui_line_edits u.

#[export] Instance ui_complete_dec u : Decision (ui_complete u).
Proof. unfold ui_complete. apply _. Defined.

(** The actions on which the two windows are meant to agree, given the
    text of the line edit: all but [flip_pose], whose two variants
    differ, and, with a namespace, [bind_pose] and [snap_fk_ik], whose
    two variants look for different names. *)
Definition same_in_both (text : string) (a : action) : bool :=
  match a with
  | FlipPose => false
  | BindPose | SnapFkIk _ _ => bool_decide (text = "")
  | _ => true
  end.

(** The actions that do not depend on the namespace's text in either
    window's variant: everything but flip, bind and snap. *)
Definition ns_free (a : action) : bool :=
  match a with FlipPose | BindPose | SnapFkIk _ _ => false | _ => true end.

(** ** Lemmas on the lookups *)

Lemma find_first_lookup n l i : find_first n l = Some i -> l !! i = Some n.
Proof.
  revert i. induction l as [|x l IH]; intros i; simpl; [done|].
  case_decide; [intros [= <-]; by subst|]. destruct (find_first n l) eqn:E; [|done].
  intros [= <-]. simpl. by apply IH.
Qed.

Lemma find_first_elem n l : is_Some (find_first n l) <-> n ∈ l.
Proof.
  induction l as [|x l IH]; simpl.
  - split; [by intros []|]. intros H. by apply elem_of_nil in H.
  - rewrite elem_of_cons. case_decide; [subst; split; [by left|by eauto]|].
    rewrite fmap_is_Some, IH. naive_solver.
Qed.

Lemma find_children_0_ok n l : n ∈ l -> exists i, find_children_0 n l = Ok i /\ find_first n l = Some i.
Proof.
  intros [i Hi]%find_first_elem. exists i. unfold find_children_0. by rewrite Hi.
Qed.

Lemma find_children_0_exc n l : n ∉ l -> find_children_0 n l = Exc IndexError.
Proof.
  intros Hn. unfold find_children_0. destruct (find_first n l) eqn:E; [|done].
  destruct Hn. apply find_first_elem. by rewrite E.
Qed.

Lemma slots_app l1 l2 i : slots (l1 ++ l2) i = (slots l1 i ++ slots l2 i)%list.
Proof. unfold slots. by rewrite filter_app, map_app. Qed.

Lemma slots_cons k a l i : slots ((k, a) :: l) i = ((if decide (k = i) then [a] else []) ++ slots l i)%list.
Proof. unfold slots. rewrite filter_cons. simpl. by case_decide. Qed.

Lemma assoc_get_cons {A} k k' (v : A) l :
  assoc_get k ((k', v) :: l) = if decide (k = k') then Some v else assoc_get k l.
Proof. done. Qed.

Lemma assoc_get_app_nodup {A} k (L1 L2 : list (string * A)) :
  NoDup (map fst (L1 ++ L2)) ->
  option_list (assoc_get k (L1 ++ L2)) = (option_list (assoc_get k L1) ++ option_list (assoc_get k L2))%list.
Proof.
  rewrite map_app. intros (_ & Hd & _)%NoDup_app.
  induction L1 as [|[k' v] L1 IH]; simpl; [done|]. case_decide; [subst|apply IH; set_solver].
  rewrite (assoc_get_notin k' L2); [done|]. apply Hd. simpl. set_solver.
Qed.

Lemma named_slots_app bs L1 L2 i :
  NoDup (map fst (L1 ++ L2)) ->
  named_slots bs (L1 ++ L2) i = (named_slots bs L1 i ++ named_slots bs L2 i)%list.
Proof.
  intros Hnd. unfold named_slots. destruct (bs !! i); [|done].
  case_decide; [by apply assoc_get_app_nodup|done].
Qed.

Lemma named_slots_comm bs L1 L2 i :
  NoDup (map fst (L1 ++ L2)) ->
  (named_slots bs L1 i ++ named_slots bs L2 i)%list = (named_slots bs L2 i ++ named_slots bs L1 i)%list.
Proof.
  rewrite map_app. intros (_ & Hd & _)%NoDup_app. unfold named_slots.
  destruct (bs !! i) as [b|]; [|done]. case_decide; [|done].
  destruct (decide (b ∈ map fst L1)) as [Hb|Hb].
  - rewrite (assoc_get_notin b L2) by (by apply Hd). by rewrite app_nil_r.
  - rewrite (assoc_get_notin b L1) by done. simpl. by rewrite app_nil_r.
Qed.

(** No name looked up by name ends in [_ctr]: a widget has at most one
    slot. *)
Lemma control_named_excl bs L i :
  Forall (fun p => py_endswith "_ctr" p.1 = false) L ->
  control_slots bs i = [] \/ named_slots bs L i = [].
Proof.
  intros HL. unfold control_slots, named_slots. destruct (bs !! i) as [b|]; [|by left].
  destruct (py_endswith "_ctr" b) eqn:Hb; [right|by left]. case_decide; [|done].
  rewrite assoc_get_notin; [done|]. intros (p & -> & Hp)%list_elem_of_fmap.
  rewrite Forall_forall in HL. specialize (HL p Hp). congruence.
Qed.

Lemma connect_named_ok bs L :
  NoDup (map fst L) -> Forall (fun p => p.1 ∈ bs) L ->
  exists c, connect_named bs L = Ok c /\ forall i, slots c i = named_slots bs L i.
Proof.
  induction L as [|[n a] L IH]; intros Hnd HL.
  - exists []. split; [done|]. intros i. unfold named_slots. by destruct (bs !! i); [case_decide|].
  - cbn [map fst] in Hnd. apply NoDup_cons in Hnd as [Hn Hnd]. apply Forall_cons in HL as [Hin HL].
    destruct (find_children_0_ok n bs Hin) as (k & Hk & Hf).
    destruct (IH Hnd HL) as (c & Hc & Hs). exists ((k, a) :: c). split.
    { simpl. by rewrite Hk; simpl; rewrite Hc. }
    intros i. rewrite slots_cons, Hs. unfold named_slots. simpl in Hn.
    pose proof (find_first_lookup _ _ _ Hf) as Hl.
    destruct (decide (k = i)) as [<-|Hki].
    + rewrite Hl, !decide_True by done. simpl. rewrite decide_True by done.
      by rewrite assoc_get_notin.
    + simpl. destruct (bs !! i) as [b|]; [|done].
      case_decide; [|done]. simpl. case_decide; [subst b; congruence|done].
Qed.

Lemma connect_named_exc bs L :
  ~ Forall (fun p => p.1 ∈ bs) L -> connect_named bs L = Exc IndexError.
Proof.
  induction L as [|[n a] L IH]; intros H; [destruct H; constructor|]. simpl.
  destruct (decide (n ∈ bs)) as [Hn|Hn].
  - destruct (find_children_0_ok n bs Hn) as (k & -> & _). simpl.
    rewrite IH; [done|]. intros HF. apply H. by constructor.
  - by rewrite find_children_0_exc.
Qed.

Lemma named_slots_single bs n a k i :
  find_first n bs = Some k -> slots [(k, a)] i = named_slots bs [(n, a)] i.
Proof.
  intros Hf. destruct (connect_named_ok bs [(n, a)]) as (c & Hc & Hs).
  - by apply NoDup_singleton.
  - apply Forall_singleton. simpl. apply find_first_elem. by rewrite Hf.
  - rewrite <- Hs. simpl in Hc. unfold find_children_0 in Hc. rewrite Hf in Hc. by injection Hc as <-.
Qed.

Lemma connect_controls_slots k bs i :
  slots (connect_controls k bs) i = if decide (k <= i) then control_slots bs (i - k) else [].
Proof.
  revert k. induction bs as [|b bs IH]; intros k; simpl.
  - unfold control_slots. by case_decide; rewrite ?lookup_nil.
  - destruct (py_endswith "_ctr" b) eqn:E; [rewrite slots_cons|]; rewrite IH;
      unfold control_slots; destruct (decide (k = i)) as [->|Hki].
    all: repeat case_decide; try lia; rewrite ?Nat.sub_diag; simpl; rewrite ?E; try done.
    all: by replace (i - k) with (S (i - S k)) by lia.
Qed.

Lemma named_buttons_nodup : NoDup (map fst named_buttons).
Proof. decide_vm. Qed.

Lemma named_buttons_not_ctr : Forall (fun p => py_endswith "_ctr" p.1 = false) named_buttons.
Proof. decide_vm. Qed.

Lemma named_slots_parts bs i :
  named_slots bs named_buttons i =
    (named_slots bs [(namespace_button, SetNamespace)] i ++ named_slots bs pose_buttons i
     ++ named_slots bs snap_buttons i)%list.
Proof.
  transitivity (named_slots bs ([(namespace_button, SetNamespace)] ++ (pose_buttons ++ snap_buttons)) i);
    [done|].
  by rewrite !named_slots_app by decide_vm.
Qed.

(** The slots of a widget come from one place: the buttons looked up by
    name or the loop over the [_ctr] buttons. *)
Lemma button_slots_cases u i :
  (control_slots (ui_buttons u) i = [] /\ button_slots u i = named_slots (ui_buttons u) named_buttons i) \/
  (named_slots (ui_buttons u) [(namespace_button, SetNamespace)] i = [] /\
   named_slots (ui_buttons u) pose_buttons i = [] /\ named_slots (ui_buttons u) snap_buttons i = [] /\
   button_slots u i = control_slots (ui_buttons u) i).
Proof.
  unfold button_slots. destruct (control_named_excl (ui_buttons u) named_buttons i) as [HC|HN].
  - apply named_buttons_not_ctr.
  - left. rewrite HC. by rewrite app_nil_r.
  - right. rewrite HN. rewrite named_slots_parts in HN.
    by apply app_eq_nil in HN as [-> [-> ->]%app_eq_nil].
Qed.

Lemma wire_controller_slots u :
  ui_complete u -> exists wc, wire_controller u = Ok wc /\ forall i, slots wc i = button_slots u i.
Proof.
  intros [HF Hle]. unfold named_buttons in HF.
  apply Forall_cons in HF as [Hns HF]. apply Forall_app in HF as [HP HS]. simpl in Hns.
  destruct (find_children_0_ok _ _ Hns) as (k & Hk & Hf).
  destruct (find_children_0_ok _ _ Hle) as (k' & Hk' & _).
  destruct (connect_named_ok (ui_buttons u) pose_buttons) as (cP & HcP & HsP); [decide_vm|done|].
  destruct (connect_named_ok (ui_buttons u) snap_buttons) as (cS & HcS & HsS); [decide_vm|done|].
  eexists. split.
  { unfold wire_controller. rewrite Hk. cbn [rbind]. rewrite Hk'. cbn [rbind].
    rewrite HcP. cbn [rbind]. by rewrite HcS. }
  intros i. change ((k, SetNamespace) :: ?l) with ([(k, SetNamespace)] ++ l)%list.
  rewrite !slots_app, HsP, HsS, (named_slots_single _ _ _ _ _ Hf), connect_controls_slots.
  rewrite decide_True, Nat.sub_0_r by lia.
  destruct (button_slots_cases u i) as [(HC & ->)|(HN & HP' & HS' & ->)].
  - rewrite HC, named_slots_parts. by rewrite app_nil_l.
  - by rewrite HN, HP', HS', app_nil_r.
Qed.

Lemma wire_view_slots u :
  ui_complete u -> exists wv, wire_view u = Ok wv /\ forall i, slots wv i = button_slots u i.
Proof.
  intros [HF Hle]. unfold named_buttons in HF.
  apply Forall_cons in HF as [Hns HF]. apply Forall_app in HF as [HP HS]. simpl in Hns.
  destruct (find_children_0_ok _ _ Hns) as (k & Hk & Hf).
  destruct (find_children_0_ok _ _ Hle) as (k' & Hk' & _).
  destruct (connect_named_ok (ui_buttons u) pose_buttons) as (cP & HcP & HsP); [decide_vm|done|].
  destruct (connect_named_ok (ui_buttons u) snap_buttons) as (cS & HcS & HsS); [decide_vm|done|].
  eexists. split.
  { unfold wire_view. rewrite HcP. cbn [rbind]. rewrite HcS. cbn [rbind].
    rewrite Hk. cbn [rbind]. by rewrite Hk'. }
  intros i.
  rewrite !slots_app, HsP, HsS, (named_slots_single _ _ _ _ _ Hf), connect_controls_slots.
  rewrite decide_True, Nat.sub_0_r by lia.
  destruct (button_slots_cases u i) as [(HC & ->)|(HN & HP' & HS' & ->)].
  - rewrite HC, named_slots_parts, app_nil_l, app_assoc.
    rewrite <- (named_slots_app _ pose_buttons snap_buttons) by decide_vm.
    rewrite (named_slots_comm _ (pose_buttons ++ snap_buttons)) by decide_vm.
    by rewrite named_slots_app by decide_vm.
  - by rewrite HN, HP', HS', !app_nil_r.
Qed.

Lemma wire_controller_exc u : ~ ui_complete u -> wire_controller u = Exc IndexError.
Proof.
  intros Hu. unfold wire_controller, ui_complete, named_buttons in *.
  rewrite Forall_cons, Forall_app in Hu.
  destruct (decide (namespace_button ∈ ui_buttons u)) as [Hns|Hns];
    [|by rewrite find_children_0_exc].
  destruct (find_children_0_ok _ _ Hns) as (k & -> & _). cbn [rbind].
  destruct (decide (namespace_line_edit ∈ ui_line_edits u)) as [Hle|Hle];
    [|by rewrite find_children_0_exc].
  destruct (find_children_0_ok _ _ Hle) as (k' & -> & _). cbn [rbind].
  destruct (decide (Forall (fun p => p.1 ∈ ui_buttons u) pose_buttons)) as [HP|HP];
    [|by rewrite connect_named_exc].
  destruct (connect_named_ok (ui_buttons u) pose_buttons) as (cP & -> & _); [decide_vm|done|]. cbn [rbind].
  rewrite connect_named_exc; [done|]. naive_solver.
Qed.

Lemma wire_view_exc u : ~ ui_complete u -> wire_view u = Exc IndexError.
Proof.
  intros Hu. unfold wire_view, ui_complete, named_buttons in *.
  rewrite Forall_cons, Forall_app in Hu.
  destruct (decide (Forall (fun p => p.1 ∈ ui_buttons u) pose_buttons)) as [HP|HP];
    [|by rewrite connect_named_exc].
  destruct (connect_named_ok (ui_buttons u) pose_buttons) as (cP & -> & _); [decide_vm|done|]. cbn [rbind].
  destruct (decide (Forall (fun p => p.1 ∈ ui_buttons u) snap_buttons)) as [HS|HS];
    [|by rewrite connect_named_exc].
  destruct (connect_named_ok (ui_buttons u) snap_buttons) as (cS & -> & _); [decide_vm|done|]. cbn [rbind].
  destruct (decide (namespace_button ∈ ui_buttons u)) as [Hns|Hns];
    [|by rewrite find_children_0_exc].
  destruct (find_children_0_ok _ _ Hns) as (k & -> & _). cbn [rbind].
  rewrite find_children_0_exc; [done|]. naive_solver.
Qed.

(** ** The slots of the two windows *)

Section Slots.
Context `{XA : XformAlgebra}.

Lemma mirror_pose_view_eq s : mirror_pose_view s = mirror_pose_model s.
Proof.
  unfold mirror_pose_view, mirror_pose_model. rewrite undo_chunk_transparent; [done|].
  unfold mirror_one, copy_user_attrs, copy_attr. solve_undo_indep.
Qed.

Lemma on_scene_ext text (c1 c2 : M unit) s : c1 s = c2 s -> on_scene text c1 s = on_scene text c2 s.
Proof. unfold on_scene. by intros ->. Qed.

(** Slot by slot, [picker.py] does what [picker_controller.py] does on the
    actions of [same_in_both]. *)
Lemma run_view_model a text s :
  same_in_both text a = true -> run_view a (text, s) = run_model a (text, s).
Proof.
  intros Ha. pose proof (fun act grp a' name =>
    view_handlers_refine_model act text s name [] grp a') as Hv.
  destruct a; cbn [run_view run_model]; try apply on_scene_ext.
  - destruct (set_namespace_variants_agree s) as (H1 & H2 & H3). unfold exec, run in *.
    destruct (set_namespace_model s) as [[t|e] s1], (set_namespace_view s) as [[t'|e'] s2];
      simpl in *; congruence.
  - apply bool_decide_eq_true in Ha as ->. apply bind_pose_view_refines_model.
  - done.
  - apply mirror_pose_view_eq.
  - apply (Hv select_replace general_ctr "visControls" ""); eauto with picker.
  - apply (Hv select_replace general_ctr "visGeometries" ""); eauto with picker.
  - apply (Hv select_replace modules_grp "" ""); eauto with picker.
  - apply (Hv select_replace body_modules_grp "" ""); eauto with picker.
  - apply (Hv select_replace face_modules_grp "" ""); eauto with picker.
  - apply (Hv setKeyframe modules_grp "" ""); eauto with picker.
  - apply (Hv setKeyframe body_modules_grp "" ""); eauto with picker.
  - apply (Hv setKeyframe face_modules_grp "" ""); eauto with picker.
  - apply (Hv select_replace "" "" name); eauto with picker.
  - apply bool_decide_eq_true in Ha as ->. apply snap_fk_ik_view_refines_model.
Qed.

Lemma on_scene_types text c s :
  preserves attr_types c -> attr_types (snd (on_scene text c s)).2 = attr_types s.
Proof. intros Hc. specialize (Hc s). unfold on_scene, exec in *. by destruct (c s). Qed.

Lemma run_model_types a st : attr_types (snd (run_model a st)).2 = attr_types st.2.
Proof.
  destruct st as [text s]. destruct a; cbn [run_model]; try (apply on_scene_types; eauto with picker).
  pose proof (set_namespace_model_types s) as H. unfold exec in H.
  destruct (set_namespace_model s) as [[] s']; exact H.
Qed.

Lemma run_view_types a st : attr_types (snd (run_view a st)).2 = attr_types st.2.
Proof.
  destruct st as [text s]. destruct a; cbn [run_view]; try (apply on_scene_types; eauto with picker).
  pose proof (set_namespace_view_types s) as H. unfold exec in H.
  destruct (set_namespace_view s) as [[] s']; exact H.
Qed.

Lemma click_types run wl i st :
  (forall a st, attr_types (snd (run a st)).2 = attr_types st.2) ->
  attr_types (click run wl i st).2 = attr_types st.2.
Proof.
  intros Hrun. unfold click. generalize (slots wl i). intros l. revert st.
  induction l as [|a l IH]; intros st; simpl; [done|]. by rewrite IH, Hrun.
Qed.

End Slots.

(** ** [load_images] *)

(** [f.endswith(('.png', '.jpg', '.jpeg', '.gif'))]. *)
Definition is_image (f : string) : bool :=
  py_endswith ".png" f || py_endswith ".jpg" f || py_endswith ".jpeg" f || py_endswith ".gif" f.

(** ["{}_label".format(image_file.split('.')[0])]. *)
Definition label_name (image_file : string) : string :=
  match py_split "."%char image_file with x :: _ => x | [] => "" end +:+ "_label".

(** [load_images] of both files: the [setPixmap] calls, in order, as
    (label, image file); [image_list] keeps the files of
    [os.listdir] with an image extension, and [findChild(QLabel,
    label_name)] finds a label when one has that name. *)
Definition load_images (files labels : list string) : list (string * string) :=
  omap (fun image_file =>
          let n := label_name image_file in
          if decide (n ∈ labels) then Some (n, image_file) else None)
       (filter (fun f => is_image f = true) files).

(** The pixmap a label shows after the calls: the last one set. *)
Definition shown_image (calls : list (string * string)) (label : string) : option string :=
  snd <$> last (filter (fun c => c.1 = label) calls).

Lemma last_map {A B} (f : A -> B) l : last (map f l) = f <$> last l.
Proof.
  induction l as [|x l IH]; [done|]. simpl map. rewrite !last_cons, IH.
  by destruct (last l).
Qed.

Lemma omap_cons {A B} (g : A -> option B) x l :
  omap g (x :: l) = match g x with Some y => y :: omap g l | None => omap g l end.
Proof. done. Qed.

Lemma load_images_filter files labels label :
  filter (fun c => c.1 = label) (load_images files labels) =
    if decide (label ∈ labels)
    then map (fun f => (label, f)) (filter (fun f => is_image f = true /\ label_name f = label) files)
    else [].
Proof.
  unfold load_images. induction files as [|f files IH]; [simpl; by case_decide|].
  rewrite !filter_cons. destruct (is_image f) eqn:Hi.
  - rewrite decide_True, omap_cons by done.
    destruct (decide (label_name f ∈ labels)) as [Hin|Hin]; [rewrite filter_cons|]; cbn [fst]; rewrite IH;
      repeat case_decide; simpl; naive_solver.
  - rewrite decide_False by done. rewrite IH. repeat case_decide; naive_solver.
Qed.

(** A file named [stem.ext] whose stem has no dot goes to the label
    [stem_label]. *)
Lemma label_name_stem x ext : py_contains "." x = false -> label_name (x +:+ "." +:+ ext) = x +:+ "_label".
Proof.
  intros Hx. unfold label_name. change ("." +:+ ext) with (String "." ext).
  by rewrite py_split_app_sep, (py_split_free _ x Hx).
Qed.

(** An image file name holds a dot. *)
Lemma is_image_dot f : is_image f = true -> py_contains "." f = true.
Proof.
  unfold is_image. rewrite !orb_true_iff.
  intros [[[(p & ->)%py_endswith_split|(p & ->)%py_endswith_split]|(p & ->)%py_endswith_split]
         |(p & ->)%py_endswith_split]; by apply py_contains_app_r.
Qed.

Lemma is_image_ext stem ext : ext ∈ ["png"; "jpg"; "jpeg"; "gif"] -> is_image (stem +:+ "." +:+ ext) = true.
Proof.
  unfold is_image. rewrite !elem_of_cons, elem_of_nil.
  intros [->|[->|[->|[->|[]]]]]; cbn [String.append]; rewrite py_endswith_app; by rewrite ?orb_true_r.
Qed.

(** An image shown on [stem_label], [stem] without dot, is [stem.rest]. *)
Lemma image_stem f stem :
  py_contains "." stem = false -> is_image f = true -> label_name f = stem +:+ "_label" ->
  exists r, f = stem +:+ "." +:+ r.
Proof.
  intros Hstem Hi. unfold label_name. destruct (py_split "."%char f) as [|x xs] eqn:E;
    [by apply py_split_not_nil in E|].
  intros ->%str_app_cancel_r. destruct (py_split_head _ _ _ _ E) as [->|(r & ->)]; [|by exists r].
  apply is_image_dot in Hi. congruence.
Qed.

Lemma release_model_types w le b m s : attr_types (mouseReleaseEvent_model w le b m s).2 = attr_types s.
Proof.
  unfold mouseReleaseEvent_model. destruct (release_ui w b m) as [[[names|]|e] m']; [|done..].
  pose proof (select_control_list_model_types names le s) as H. unfold exec in H.
  by destruct (select_control_list_model names le s).
Qed.

Lemma release_view_types w ns b m s : attr_types (mouseReleaseEvent_view w ns b m s).2 = attr_types s.
Proof.
  unfold mouseReleaseEvent_view. destruct (release_ui w b m) as [[[names|]|e] m']; [|done..].
  pose proof (select_control_list_view_types ns names s) as H. unfold exec in H.
  by destruct (select_control_list_view ns names s).
Qed.

Lemma button_slots_single u i : length (button_slots u i) <= 1.
Proof.
  destruct (button_slots_cases u i) as [(_ & ->)|(_ & _ & _ & ->)].
  - unfold named_slots. destruct (_ !! i); [case_decide; [by destruct (assoc_get _ _); simpl; lia|]|]; simpl; lia.
  - unfold control_slots. destruct (_ !! i); [destruct (py_endswith _ _)|]; simpl; lia.
Qed.

Section ClickAgree.
Context `{XA : XformAlgebra}.

Lemma ns_free_same text a : ns_free a = true -> same_in_both text a = true.
Proof. by destruct a. Qed.

Lemma click_agree u wc wv i (st : wstate) :
  (forall i, slots wc i = button_slots u i) -> (forall i, slots wv i = button_slots u i) ->
  Forall (fun a => same_in_both st.1 a = true) (button_slots u i) ->
  click run_view wv i st = click run_model wc i st.
Proof.
  intros Hc Hv Hall. destruct st as [text s]. unfold click. rewrite Hc, Hv.
  pose proof (button_slots_single u i) as Hlen.
  destruct (button_slots u i) as [|a [|b l]]; [done| |simpl in Hlen; lia].
  rewrite Forall_singleton in Hall. cbn [fold_left]. rewrite run_view_model; [done|exact Hall].
Qed.

End ClickAgree.

(** ** The theorems *)

Section WindowTheorems.
Context `{XA : XformAlgebra}.

(** (C19) Both constructors succeed exactly on a [.ui] that has the widgets
    they look up, and then connect each push button as [button_slots]
    says: the first widget of each looked-up name to its handler, every
    [_ctr] button to the selection of its own name, nothing else; no
    widget gets more than one slot.  A [.ui] lacking one of those
    widgets stops both constructors with [IndexError]: a missing widget
    fails fast. *)
Theorem wiring_connects u :
  (ui_complete u ->
   exists wc wv, wire_controller u = Ok wc /\ wire_view u = Ok wv /\
     forall i, slots wc i = button_slots u i /\ slots wv i = button_slots u i /\
               length (button_slots u i) <= 1) /\
  (~ ui_complete u -> wire_controller u = Exc IndexError /\ wire_view u = Exc IndexError).
Proof.
  split; [|intros Hu; split; [by apply wire_controller_exc|by apply wire_view_exc]].
  intros Hu. destruct (wire_controller_slots u Hu) as (wc & Hwc & Hc).
  destruct (wire_view_slots u Hu) as (wv & Hwv & Hv).
  exists wc, wv. split_and!; [done|done|]. intros i. split_and!; [done|done|].
  apply button_slots_single.
Qed.

(** (C18) On the same [.ui], clicking any widget whose slot is one of
    [same_in_both] (everything but [flipPose_pushButton], and
    [bindPose_pushButton] and the snap buttons only with an empty
    namespace) leaves the two windows in the same state, line edit text
    and scene; and any session of clicks on widgets whose slots are
    [ns_free] (neither flip nor bind nor snap), the namespace button
    included, leaves both windows in the same state, whatever text the
    line edit holds along the way. *)
Theorem windows_agree u :
  ui_complete u ->
  exists wc wv, wire_controller u = Ok wc /\ wire_view u = Ok wv /\
    (forall text s i, Forall (fun a => same_in_both text a = true) (button_slots u i) ->
       click run_view wv i (text, s) = click run_model wc i (text, s)) /\
    (forall ws st, Forall (fun i => Forall (fun a => ns_free a = true) (button_slots u i)) ws ->
       clicks run_view wv ws st = clicks run_model wc ws st).
Proof.
  intros Hu. destruct (wire_controller_slots u Hu) as (wc & Hwc & Hc).
  destruct (wire_view_slots u Hu) as (wv & Hwv & Hv).
  exists wc, wv. split_and!; [done|done| |].
  - intros text s i. exact (click_agree u wc wv i (text, s) Hc Hv).
  - intros ws. unfold clicks. induction ws as [|i ws IH]; intros st Hws; [done|].
    apply Forall_cons in Hws as [Hi Hws]. cbn [fold_left].
    rewrite (click_agree u wc wv i st Hc Hv); [by apply IH|].
    eapply Forall_impl; [exact Hi|]. intros a. apply ns_free_same.
Qed.

(** The pixmap a label ends with: the last listed image file whose
    label name is the label's, when the [.ui] has that label. *)
Lemma load_images_last files labels label :
  shown_image (load_images files labels) label =
    if decide (label ∈ labels)
    then last (filter (fun f => is_image f = true /\ label_name f = label) files)
    else None.
Proof.
  unfold shown_image. rewrite load_images_filter. case_decide; [|done].
  rewrite last_map. by destruct (last _).
Qed.

(** (C30) A file [stem.ext] of the listing, with a stem without dot and
    [ext] one of [png], [jpg], [jpeg], [gif], ends shown on the label
    [stem_label] when the [.ui] has that label and no later file of the
    listing starts with [stem.]; a [.ui] without the label shows
    nothing there. *)
Theorem load_images_shows pre post labels stem ext :
  py_contains "." stem = false -> ext ∈ ["png"; "jpg"; "jpeg"; "gif"] ->
  Forall (fun f => ~ exists r, f = stem +:+ "." +:+ r) post ->
  shown_image (load_images (pre ++ [stem +:+ "." +:+ ext] ++ post) labels) (stem +:+ "_label") =
    if decide (stem +:+ "_label" ∈ labels) then Some (stem +:+ "." +:+ ext) else None.
Proof.
  intros Hstem Hext Hpost. rewrite load_images_last. case_decide; [|done].
  rewrite !filter_app, (filter_none _ post), app_nil_r.
  - rewrite filter_cons_True, filter_nil; [apply last_snoc|].
    split; [by apply is_image_ext|by apply label_name_stem].
  - intros f Hf [Hi Hl]. eapply Forall_forall in Hpost; [|exact Hf].
    apply Hpost. by apply (image_stem f stem).
Qed.

End WindowTheorems.

(** ** Witnesses *)

Module WindowDemo.

(** A [.ui] with every looked-up widget, a control button, and a second
    [bindPose_pushButton] (widget 14) that the constructors never
    connect. *)
Definition buttons : list string :=
  (["tab_pushButton"; namespace_button] ++ map fst pose_buttons ++
   ["general_c_ctr"; "bindPose_pushButton"] ++ map fst snap_buttons)%list.

Definition ui : ui_desc := mk_ui buttons [namespace_line_edit] ["arm_label"; "leg_label"].

Definition ui_no_line_edit : ui_desc := mk_ui buttons [] [].

End WindowDemo.

Import WindowDemo.
Import TrsGroup.

Example window_demo_slots :
  button_slots ui 2 = [BindPose] /\ button_slots ui 13 = [SelectControl "general_c_ctr"] /\
  button_slots ui 14 = [] /\ button_slots ui 0 = [].
Proof. split_and!; reflexivity. Qed.

Lemma wiring_connects_witness :
  (ui_complete ui /\ exists wc wv, wire_controller ui = Ok wc /\ wire_view ui = Ok wv /\
    forall i, slots wc i = button_slots ui i /\ slots wv i = button_slots ui i /\
              length (button_slots ui i) <= 1) /\
  (~ ui_complete ui_no_line_edit /\
   wire_controller ui_no_line_edit = Exc IndexError /\ wire_view ui_no_line_edit = Exc IndexError).
Proof.
  split; (split; [decide_vm|]).
  - apply (proj1 (wiring_connects ui)). decide_vm.
  - apply (proj2 (wiring_connects ui_no_line_edit)). decide_vm.
Defined.

Lemma windows_agree_witness :
  exists wc wv, wire_controller ui = Ok wc /\ wire_view ui = Ok wv /\
    click run_view wv 13 ("", SelectDemo.ui [] 0) = click run_model wc 13 ("", SelectDemo.ui [] 0) /\
    clicks run_view wv [1; 13; 4; 7] ("", SelectDemo.ui ["ns:a_ctr"] 0) =
    clicks run_model wc [1; 13; 4; 7] ("", SelectDemo.ui ["ns:a_ctr"] 0).
Proof.
  destruct (windows_agree ui) as (wc & wv & H1 & H2 & H3 & H4); [decide_vm|].
  exists wc, wv. split_and!; [exact H1|exact H2|apply H3; decide_vm|apply H4; decide_vm].
Defined.

(** Two files with the stem [arm] in the listing: the later one stays. *)
Example load_images_demo :
  shown_image (load_images ["arm.png"; "leg.gif"; "notes.txt"; "arm.jpg"] (ui_labels ui)) "arm_label"
    = Some "arm.jpg".
Proof. reflexivity. Qed.

Lemma load_images_shows_witness :
  py_contains "." "arm" = false /\ "jpg" ∈ ["png"; "jpg"; "jpeg"; "gif"] /\
  Forall (fun f => ~ exists r, f = "arm" +:+ "." +:+ r) ["notes.txt"] /\
  shown_image (load_images (["arm.png"] ++ ["arm" +:+ "." +:+ "jpg"] ++ ["notes.txt"]) (ui_labels ui))
    ("arm" +:+ "_label") = Some ("arm" +:+ "." +:+ "jpg").
Proof.
  assert (Hp : Forall (fun f => ~ exists r, f = "arm" +:+ "." +:+ r) ["notes.txt"]).
  { apply Forall_singleton. intros [r Hr]. discriminate Hr. }
  split_and!; [reflexivity|decide_vm|exact Hp|].
  etransitivity; [apply load_images_shows; [reflexivity|decide_vm|exact Hp]|]. decide_vm.
Defined.
