(* ===== verification/Session.v ===== *)
(** * Session: reopening the [picker.py] window, and the bootstrap

    Models [openWindow] of [src/picker.py] (lines 557-569) and the
    [sys.path] step of [src/picker_run.py] (lines 5-7).  [openWindow]
    looks among the children of Maya's main window for the picker
    window by object name, closes the first one it finds (the window
    has [WA_DeleteOnClose], so closing deletes it) and builds and shows
    a new one, whose constructor names it (line 20, before anything in
    the constructor can raise, so the new child exists even when the
    wiring fails): the children are kept as their object names in
    [findChildren] order.

    [openWindow] of [src/picker_controller.py] (lines 209-220) is
    modelled at the level of what its code decides: which of the
    windows [QApplication.allWindows()] lists it destroys (those whose
    object name contains ['pickerWindow']) and the names it gives the
    new window; what [destroy()] then does to a native window is Qt's
    and is not modelled.  The bootstrap [src/picker_run.py] adds the
    picker folder to [sys.path] unless it is there, then calls
    [picker_controller.openWindow(scale_factor=1)]. *)

From S2P Require Import Prelude PyStr.
Local Open Scope string_scope.

(** [char_name] and the object name [Picker.__init__] gives its window
    ([setObjectName('{}PickerWindow'.format(char_name))], line 20). *)
Definition char_name : string := "Hulk".
Definition picker_window_name : string := char_name +:+ "PickerWindow".

(** Removing the first child of that name: [picker_window[0].close()]. *)
Fixpoint close_first (name : string) (children : list string) : list string :=
  match children with
  | [] => []
  | c :: cs => if decide (c = name) then cs else c :: close_first name cs
  end.

(** The list comprehension over [findChildren(QWidget)] and
    [if picker_window: picker_window[0].close()]. *)
Definition close_picker (children : list string) : list string :=
  let picker_window := filter (fun x => x = picker_window_name) children in
  match picker_window with
  | w :: _ => close_first w children
  | [] => children
  end.

(** [openWindow(scale_factor)]: the first picker window closed, then
    [Picker(scale_factor)], a new child named [picker_window_name]. *)
Definition openWindow (children : list string) : list string :=
  (close_picker children ++ [picker_window_name])%list.

(** [if picker_folder not in sys.path: sys.path.append(picker_folder)]. *)
Definition picker_folder : string := "".

Definition add_picker_folder (sys_path : list string) : list string :=
  if decide (picker_folder ∈ sys_path) then sys_path else (sys_path ++ [picker_folder])%list.

(** [picker_controller]'s names: [window_name] (line 13) and the
    object name [openWindow] looks for and gives (line 210). *)
Definition window_name : string := "Picker".
Definition internal_window_name : string := "pickerWindow".

(** [picker_controller.openWindow]: [if QApplication.instance(): for win
    in QApplication.allWindows(): if internal_window_name in
    win.objectName(): win.destroy()]; then the new window, named
    [internal_window_name] and titled [window_name].  The result is the
    windows destroyed, in order, and the new window's object name and
    title. *)
Definition openWindow_controller (app_running : bool) (all_windows : list string)
    : list string * (string * string) :=
  let destroyed :=
    if app_running then filter (fun w => py_contains internal_window_name w = true) all_windows
    else [] in
  (destroyed, (internal_window_name, window_name)).

(** [picker_run.py]: the [sys.path] step, then [openWindow(scale_factor=1)]
    of [picker_controller] (the import and [importlib.reload] load the
    module and run nothing else). *)
Definition picker_run (app_running : bool) (sys_path all_windows : list string)
    : list string * (list string * (string * string)) :=
  let sys_path' := add_picker_folder sys_path in
  (sys_path', openWindow_controller app_running all_windows).

(** The number of picker windows among the children. *)
Definition picker_windows (children : list string) : nat :=
  length (filter (fun x => x = picker_window_name) children).

(** ** Lemmas *)

Lemma close_first_count name children :
  name ∈ children ->
  length (filter (fun x => x = name) (close_first name children)) =
    pred (length (filter (fun x => x = name) children)).
Proof.
  induction children as [|c cs IH]; intros Hin; [by apply elem_of_nil in Hin|].
  cbn [close_first]. rewrite filter_cons. case_decide as Hc; [by subst|].
  apply elem_of_cons in Hin as [->|Hin]; [done|]. rewrite filter_cons, decide_False by done.
  by apply IH.
Qed.

Lemma close_first_other name x children :
  x <> name -> x ∈ close_first name children <-> x ∈ children.
Proof.
  intros Hx. induction children as [|c cs IH]; simpl; [done|].
  case_decide; subst; rewrite ?elem_of_cons, ?IH; naive_solver.
Qed.

Lemma add_picker_folder_nodup sys_path : NoDup sys_path -> NoDup (add_picker_folder sys_path).
Proof.
  unfold add_picker_folder. case_decide as H; [done|]. intros Hnd.
  apply NoDup_app. split_and!; [done| |by apply NoDup_singleton].
  intros x Hx ->%list_elem_of_singleton. done.
Qed.

Lemma add_picker_folder_idem sys_path :
  add_picker_folder (add_picker_folder sys_path) = add_picker_folder sys_path.
Proof.
  unfold add_picker_folder. destruct (decide (picker_folder ∈ sys_path)) as [H|H].
  - by rewrite decide_True.
  - rewrite decide_True; [done|]. set_solver.
Qed.

Lemma filter_eq_cons name (l : list string) w ws :
  filter (fun x => x = name) l = w :: ws -> w = name /\ w ∈ l.
Proof.
  intros E. assert (w ∈ filter (fun x => x = name) l) as Hf by (rewrite E; left).
  by apply list_elem_of_filter in Hf.
Qed.

(** Closing removes one picker window, when there is one, and no other
    child. *)
Lemma close_picker_count children : picker_windows (close_picker children) = picker_windows children - 1.
Proof.
  unfold close_picker. destruct (filter _ children) as [|w ws] eqn:E.
  - unfold picker_windows. rewrite E. simpl. lia.
  - destruct (filter_eq_cons _ _ _ _ E) as [-> Hw]. unfold picker_windows.
    rewrite close_first_count, E by done. simpl. lia.
Qed.

Lemma close_picker_other children x : x <> picker_window_name -> x ∈ close_picker children <-> x ∈ children.
Proof.
  intros Hx. unfold close_picker. destruct (filter _ children) as [|w ws] eqn:E; [done|].
  destruct (filter_eq_cons _ _ _ _ E) as [-> _]. by apply close_first_other.
Qed.

(** ** The theorems *)

(** (C33) [openWindow] keeps the number of picker windows where it was,
    but at least one: a first call opens one, a later call replaces it,
    and a window that was already a duplicate stays a duplicate, only
    the first one being closed; every other child of the main window is
    kept. *)
Theorem openWindow_windows children :
  picker_windows (openWindow children) = Nat.max 1 (picker_windows children) /\
  forall x, x <> picker_window_name -> x ∈ openWindow children <-> x ∈ children.
Proof.
  unfold openWindow. split.
  - unfold picker_windows. rewrite filter_app, length_app.
    fold (picker_windows (close_picker children)). rewrite close_picker_count. simpl.
    unfold picker_windows. lia.
  - intros x Hx. rewrite elem_of_app, list_elem_of_singleton, close_picker_other by done. naive_solver.
Qed.

Example openWindow_demo :
  openWindow ["outliner"; "HulkPickerWindow"; "HulkPickerWindow"] =
    ["outliner"; "HulkPickerWindow"; "HulkPickerWindow"] /\
  openWindow ["outliner"] = ["outliner"; "HulkPickerWindow"].
Proof. split; reflexivity. Qed.

(** The windows [picker_controller.openWindow] destroys. *)
Lemma openWindow_controller_destroyed app_running all_windows w :
  w ∈ (openWindow_controller app_running all_windows).1 <->
  app_running = true /\ w ∈ all_windows /\ py_contains internal_window_name w = true.
Proof.
  unfold openWindow_controller. destruct app_running; cbn [fst];
    [rewrite list_elem_of_filter|rewrite elem_of_nil]; naive_solver.
Qed.

(** With Maya running, the bootstrap destroys another tool's
    ["facepickerWindow"] and leaves [picker.py]'s window open. *)
Example picker_run_demo :
  picker_run true ["/maya/scripts"] ["facepickerWindow"; "HulkPickerWindow"; "pickerWindowWindow"; "Outliner"]
  = (["/maya/scripts"; ""], (["facepickerWindow"; "pickerWindowWindow"], ("pickerWindow", "Picker"))).
Proof. reflexivity. Qed.

