(* ===== verification/Scale.v ===== *)
(** * Scale: the window scaled by [scale_factor]

    Models the loop of [Picker.__init__] that scales every widget of the
    loaded [.ui] ([src/picker_controller.py] and [src/picker.py], lines
    51-53, the same text in both): each widget [findChildren(QWidget)]
    lists gets [setGeometry(x() * k, y() * k, width() * k, height() *
    k)], its geometry being relative to its parent.  A widget's
    rectangle on screen is the window's origin plus the positions along
    its chain of parents, as [mapToGlobal] computes it, with the [.ui]'s
    top widget at the window's origin.

    Theorems: scaling every widget scales every position on screen about
    the window's origin; and the drag selection of [Marquee] does not
    depend on the scale, for a drag between the scaled points, except
    for a drag that ends exactly one pixel left of or above its start,
    where Qt 5's [normalized] keeps a rectangle of width (height) zero
    at scale 1 and not at a larger scale. *)

From S2P Require Import Prelude Qt Marquee.
From Stdlib Require Import ZArith Lia.
Local Open Scope Z_scope.

(** [x()], [y()], [width()], [height()]: a widget's rectangle in its
    parent. *)
Record wgeo := WGeo { gx : Z; gy : Z; gw : Z; gh : Z }.

(** [setGeometry(x() * k, y() * k, width() * k, height() * k)]. *)
Definition scale_geo (k : Z) (g : wgeo) : wgeo := WGeo (gx g * k) (gy g * k) (gw g * k) (gh g * k).

(** The loop over [ui_widget.findChildren(QWidget)], each widget
    rescaled from its current geometry. *)
Definition scale_children (k : Z) (children : list string) (geo : gmap string wgeo) : gmap string wgeo :=
  foldl (fun g c => match g !! c with Some x => <[c := scale_geo k x]> g | None => g end) geo children.

(** A widget's position relative to the window: its own plus its
    parents', up to the top widget of the [.ui] (which has no entry in
    [geo]); [fuel] bounds the chain. *)
Fixpoint offset (fuel : nat) (parents : gmap string string) (geo : gmap string wgeo) (n : string) : qpoint :=
  match fuel with
  | O => QPoint 0 0
  | S f =>
      match geo !! n with
      | None => QPoint 0 0
      | Some g =>
          qp_add (QPoint (gx g) (gy g))
            (match parents !! n with Some p => offset f parents geo p | None => QPoint 0 0 end)
      end
  end.

(** [QRect(widget.mapToGlobal(widget.rect().topLeft()), widget.rect().size())]. *)
Definition screen_rect (origin : qpoint) (parents : gmap string string) (geo : gmap string wgeo)
    (n : string) : qrect :=
  match geo !! n with
  | Some g => qrect_ps (qp_add origin (offset (S (size parents)) parents geo n)) (gw g) (gh g)
  | None => QRectRaw 0 0 (-1) (-1)
  end.

(** The window the drag selection sees, built from the geometry. *)
Definition layout (origin : qpoint) (styles : list (string * string)) (parents : gmap string string)
    (geo : gmap string wgeo) (tab : Z) : window :=
  mk_window origin styles (screen_rect origin parents geo) parents tab.

Definition qp_scale (k : Z) (p : qpoint) : qpoint := QPoint (qx p * k) (qy p * k).

(** ** Lemmas *)

Lemma scale_children_lookup k l geo c :
  NoDup l ->
  scale_children k l geo !! c = if decide (c ∈ l) then scale_geo k <$> geo !! c else geo !! c.
Proof.
  unfold scale_children. revert geo. induction l as [|c' l IH]; intros geo Hnd; simpl.
  - done.
  - apply NoDup_cons in Hnd as [Hc' Hnd]. rewrite IH by done.
    destruct (decide (c = c')) as [->|Hne].
    + rewrite (decide_False (P := c' ∈ l)) by done.
      destruct (decide (c' ∈ c' :: l)) as [_|H]; [|by destruct H; left].
      destruct (geo !! c') as [x|] eqn:E; [by rewrite lookup_insert_eq|by rewrite E].
    + assert (c ∈ c' :: l <-> c ∈ l) as Hiff by (rewrite elem_of_cons; naive_solver).
      destruct (geo !! c'); [rewrite lookup_insert_ne by congruence|];
        destruct (decide (c ∈ l)), (decide (c ∈ c' :: l)); naive_solver.
Qed.

(** The loop over every widget once scales the whole geometry. *)
Lemma scale_children_all k l geo :
  NoDup l -> (forall c, c ∈ l <-> is_Some (geo !! c)) -> scale_children k l geo = scale_geo k <$> geo.
Proof.
  intros Hnd Hl. apply map_eq. intros c. rewrite scale_children_lookup, lookup_fmap by done.
  case_decide as Hc; [done|]. destruct (geo !! c) eqn:E; [|done]. destruct Hc. apply Hl. by eexists.
Qed.

Lemma offset_scale k f parents geo n :
  offset f parents (scale_geo k <$> geo) n = qp_scale k (offset f parents geo n).
Proof.
  revert n. induction f as [|f IH]; intros n; simpl; [by unfold qp_scale; rewrite !Z.mul_0_l|].
  rewrite lookup_fmap. destruct (geo !! n) as [g|]; simpl; [|by unfold qp_scale; rewrite !Z.mul_0_l].
  destruct (parents !! n); [rewrite IH|];
    unfold qp_add, qp_scale; simpl; f_equal; lia.
Qed.

(** [intersects] on rectangles of non-negative size: the two intervals
    meet on both axes, neither rectangle being null. *)
Lemma intersects_sized r s :
  sized r -> sized s ->
  intersects r s = negb (is_null r || is_null s) &&
    bool_decide (x1 r <= x2 s /\ x1 s <= x2 r /\ y1 r <= y2 s /\ y1 s <= y2 r).
Proof.
  unfold sized, qwidth, qheight. intros [Hr1 Hr2] [Hs1 Hs2]. unfold intersects, span.
  rewrite !decide_False by lia. destruct (is_null r || is_null s); [done|]. simpl.
  repeat case_decide; case_bool_decide; naive_solver lia.
Qed.

(** A drag whose end is not one pixel left of (above) its start: the
    normalized rectangle spans the two points. *)
Lemma normalized_pp_minmax o p :
  qx p <> qx o - 1 -> qy p <> qy o - 1 ->
  normalized (qrect_pp o p) = QRectRaw (Z.min (qx o) (qx p)) (Z.min (qy o) (qy p))
                                       (Z.max (qx o) (qx p)) (Z.max (qy o) (qy p)).
Proof.
  intros Hx Hy. unfold normalized, qrect_pp. simpl.
  repeat case_decide; f_equal; lia.
Qed.

Lemma scale_off_by_one k a b : 0 < k -> b <> a - 1 -> b * k <> a * k - 1.
Proof.
  intros Hk Hab Heq. assert ((a - b) * k = 1) as H by lia.
  assert (0 <= a - b) by nia. apply Z.eq_mul_1_nonneg in H as [H1 H2]; lia.
Qed.

Lemma is_null_ps q w h : is_null (qrect_ps q w h) = bool_decide (w = 0) && bool_decide (h = 0).
Proof. unfold is_null, qrect_ps. simpl. by repeat case_bool_decide; try lia. Qed.

Lemma band_global_minmax w o p :
  qx p <> qx o - 1 -> qy p <> qy o - 1 ->
  band_global w (normalized (qrect_pp o p)) =
    QRectRaw (qx (win_origin w) + Z.min (qx o) (qx p)) (qy (win_origin w) + Z.min (qy o) (qy p))
             (qx (win_origin w) + Z.max (qx o) (qx p)) (qy (win_origin w) + Z.max (qy o) (qy p)).
Proof.
  intros Hx Hy. rewrite normalized_pp_minmax by done.
  unfold band_global, qrect_ps, qp_add, top_left, qwidth, qheight. simpl. f_equal; lia.
Qed.

(** One button against the band: the same answer at scale [k] as at
    scale 1. *)
Lemma intersects_scale k w o p q gw' gh' :
  0 < k -> 0 <= gw' -> 0 <= gh' -> qx p <> qx o - 1 -> qy p <> qy o - 1 ->
  intersects (band_global w (normalized (qrect_pp (qp_scale k o) (qp_scale k p))))
             (qrect_ps (qp_add (win_origin w) (qp_scale k q)) (gw' * k) (gh' * k)) =
  intersects (band_global w (normalized (qrect_pp o p))) (qrect_ps (qp_add (win_origin w) q) gw' gh').
Proof.
  intros Hk Hw Hh Hx Hy.
  rewrite !band_global_minmax by (unfold qp_scale; simpl; by apply scale_off_by_one || done).
  rewrite !intersects_sized
    by (unfold sized, qwidth, qheight, qrect_ps, qp_scale; simpl; split; nia).
  rewrite !is_null_ps. unfold is_null, qrect_ps, qp_add, qp_scale. simpl.
  assert (bool_decide (gw' * k = 0) = bool_decide (gw' = 0)) as -> by (apply bool_decide_ext; nia).
  assert (bool_decide (gh' * k = 0) = bool_decide (gh' = 0)) as -> by (apply bool_decide_ext; nia).
  rewrite !(bool_decide_eq_false_2 (_ + Z.max _ _ = _ + Z.min _ _ - 1)) by lia.
  f_equal. apply bool_decide_ext.
  rewrite !Z.mul_min_distr_nonneg_r, !Z.mul_max_distr_nonneg_r by lia.
  split; intros (?&?&?&?); split_and!; nia.
Qed.

(** After the loop over every widget, each widget's rectangle on screen
    is its old position scaled about the window's origin, with its size
    scaled. *)
Lemma screen_rect_scaled k children geo parents origin n g :
  NoDup children -> (forall c, c ∈ children <-> is_Some (geo !! c)) -> geo !! n = Some g ->
  screen_rect origin parents (scale_children k children geo) n =
    qrect_ps (qp_add origin (qp_scale k (offset (S (size parents)) parents geo n))) (gw g * k) (gh g * k).
Proof.
  intros Hnd Hl Hn. rewrite scale_children_all by done.
  unfold screen_rect. by rewrite lookup_fmap, Hn, offset_scale.
Qed.

(** The rectangle of a widget the [.ui] lacks, [QRect()], meets nothing. *)
Lemma intersects_null r : intersects r (QRectRaw 0 0 (-1) (-1)) = false.
Proof.
  unfold intersects. replace (is_null (QRectRaw 0 0 (-1) (-1))) with true by reflexivity.
  by rewrite orb_true_r.
Qed.

(** ** The theorem *)

(** (C23) Scaling the window by a positive integer factor [k] changes no
    drag selection: a drag between [k * o] and [k * p] on the scaled
    window hands the same names, in the same order, to the selection as
    a drag between [o] and [p] on the window at scale 1, provided every
    widget has a size of its own (width and height not negative) and the
    drag does not end exactly one pixel left of or above its start. *)
Theorem scale_keeps_selection k o p origin styles parents geo tab children :
  0 < k -> NoDup children -> (forall c, c ∈ children <-> is_Some (geo !! c)) ->
  map_Forall (fun _ g => 0 <= gw g /\ 0 <= gh g) geo ->
  qx p <> qx o - 1 -> qy p <> qy o - 1 ->
  let w := layout origin styles parents geo tab in
  let w' := layout origin styles parents (scale_children k children geo) tab in
  marquee_names w' (band_global w' (normalized (qrect_pp (qp_scale k o) (qp_scale k p)))) =
  marquee_names w (band_global w (normalized (qrect_pp o p))).
Proof.
  intros Hk Hnd Hl Hsz Hx Hy w w'. unfold marquee_names. apply list_filter_iff. intros n.
  assert (in_active_tab w' n = in_active_tab w n) as -> by reflexivity.
  enough (intersects (band_global w' (normalized (qrect_pp (qp_scale k o) (qp_scale k p)))) (widget_rect w' n)
          = intersects (band_global w (normalized (qrect_pp o p))) (widget_rect w n)) as -> by done.
  unfold w', w, layout. cbn [widget_rect].
  destruct (geo !! n) as [g|] eqn:Hn.
  - rewrite (screen_rect_scaled k children geo parents origin n g) by done.
    unfold screen_rect. rewrite Hn.
    destruct (map_Forall_lookup_1 _ _ _ _ Hsz Hn) as [Hw Hh].
    exact (intersects_scale k (mk_window origin styles (screen_rect origin parents geo) parents tab)
             o p _ (gw g) (gh g) Hk Hw Hh Hx Hy).
  - unfold screen_rect. rewrite Hn. rewrite scale_children_all by done. rewrite lookup_fmap, Hn. simpl.
    by rewrite !intersects_null.
Qed.

(** ** Witnesses *)

Module ScaleDemo.

(** A face button inside the body tab, at (31, 10) with size 10 x 20. *)
Definition geo : gmap string wgeo :=
  list_to_map [("body_tab", WGeo 0 0 300 300); ("head_c_ctr", WGeo 31 10 10 20)].
Definition parents : gmap string string := list_to_map [("head_c_ctr", "body_tab")].
Definition children : list string := ["body_tab"; "head_c_ctr"].
Definition styles : list (string * string) := [("head_c_ctr", "background-color: red;")].

Definition win (k : Z) : window :=
  layout (QPoint 100 50) styles parents (scale_children k children geo) 0.

End ScaleDemo.

Import ScaleDemo.

Lemma scale_keeps_selection_witness :
  marquee_names (win 3) (band_global (win 3)
    (normalized (qrect_pp (qp_scale 3 (QPoint 5 5)) (qp_scale 3 (QPoint 40 40))))) =
  marquee_names (layout (QPoint 100 50) styles parents geo 0)
    (band_global (layout (QPoint 100 50) styles parents geo 0) (normalized (qrect_pp (QPoint 5 5) (QPoint 40 40)))).
Proof.
  apply (scale_keeps_selection 3 (QPoint 5 5) (QPoint 40 40) (QPoint 100 50) styles parents geo 0 children);
    [lia | decide_vm | | decide_vm | simpl; lia | simpl; lia].
  intros c. unfold children, geo. rewrite !elem_of_cons, elem_of_nil.
  split; [intros [->|[->|[]]]; by eexists|].
  intros [x Hx]. unfold geo in Hx. simpl in Hx. rewrite !lookup_insert_Some, lookup_empty in Hx. naive_solver.
Defined.

(** The exception: a drag from (31, 5) ending one pixel to its left
    selects nothing at scale 1 (a band of width zero) and the button at
    scale 2. *)
Example scale_off_by_one_drag :
  marquee_names (win 1) (band_global (win 1) (normalized (qrect_pp (QPoint 31 5) (QPoint 30 40)))) = [] /\
  marquee_names (win 2) (band_global (win 2)
    (normalized (qrect_pp (qp_scale 2 (QPoint 31 5)) (qp_scale 2 (QPoint 30 40))))) = ["head_c_ctr"].
Proof. split; vm_compute; reflexivity. Qed.
