(* ===== verification/WindowSession.v ===== *)
(** * WindowSession: a picker window as one event loop

    A [Picker] window of either file receives two kinds of input: a
    click on a push button, which runs the slots [Window] connected to
    it, and the mouse and key events of the drag selection, which run
    the handlers of [Marquee] ([mousePressEvent], [keyReleaseEvent],
    [mouseMoveEvent], [mouseReleaseEvent]; lines 145-206 of
    [src/picker_controller.py], 493-554 of [src/picker.py], the same
    text but for the call of the release).  This file puts them in one
    state, [wwin]: the text of the namespace line edit, the drag state
    and the scene, and one step per event, [step_model] and [step_view].
    The drag state starts from the buttons the constructor caches
    ([tracked_buttons], lines 42-46 of both constructors).

    Theorems: the buttons the drag tracks are exactly the buttons a click
    selects; and the two windows agree on every session whose clicks do
    not touch flip, bind or snap, the drag's releases included. *)

From S2P Require Import Prelude PyStr Host Select Qt Marquee Window.
Local Open Scope picker_scope.

(** [widget_styles_dict]: every push button whose object name ends in
    [_ctr], in [findChildren] order, with its style sheet. *)
Definition tracked_buttons (bs : list string) (styleSheet : string -> string) : list (string * string) :=
  map (fun b => (b, styleSheet b)) (filter (fun b => py_endswith "_ctr" b = true) bs).

(** The state of a window: the line edit's text, the drag attributes
    and the scene. *)
Record wwin := mk_wwin {
  ww_text : string;
  ww_marquee : marquee;
  ww_scene : scene
}.

(** What reaches the window: a click on widget [i], or a mouse or key
    event. *)
Inductive wevent :=
| WClick (i : nat)
| WMouse (ev : event).

(** A session: the events in order. *)
Definition run_session (step : wevent -> wwin -> wwin) (evs : list wevent) (st : wwin) : wwin :=
  fold_left (fun st e => step e st) evs st.

Section Step.
Context `{XA : XformAlgebra}.
Variable set_geometry : qrect -> qrect.
Variable w : window.

(** The [picker_controller.py] window: the slots get the line edit, the
    release hands [self.namespace_le] to [picker_model]. *)
Definition step_model (wc : list (nat * action)) (e : wevent) (st : wwin) : wwin :=
  match e with
  | WClick i =>
      let '(text, s) := click run_model wc i (ww_text st, ww_scene st) in
      mk_wwin text (ww_marquee st) s
  | WMouse (Release b) =>
      let '(_, m, s) := mouseReleaseEvent_model w (Some (ww_text st)) b (ww_marquee st) (ww_scene st) in
      mk_wwin (ww_text st) m s
  | WMouse ev => mk_wwin (ww_text st) (snd (handle set_geometry w ev (ww_marquee st))) (ww_scene st)
  end.

(** The [picker.py] window: the methods read the line edit's text. *)
Definition step_view (wv : list (nat * action)) (e : wevent) (st : wwin) : wwin :=
  match e with
  | WClick i =>
      let '(text, s) := click run_view wv i (ww_text st, ww_scene st) in
      mk_wwin text (ww_marquee st) s
  | WMouse (Release b) =>
      let '(_, m, s) := mouseReleaseEvent_view w (ww_text st) b (ww_marquee st) (ww_scene st) in
      mk_wwin (ww_text st) m s
  | WMouse ev => mk_wwin (ww_text st) (snd (handle set_geometry w ev (ww_marquee st))) (ww_scene st)
  end.

End Step.

(** The events on which the two windows are meant to agree: every mouse
    and key event, and a click on a widget none of whose slots is flip,
    bind or snap. *)
Definition ev_ns_free (u : ui_desc) (e : wevent) : bool :=
  match e with
  | WClick i => forallb ns_free (button_slots u i)
  | WMouse _ => true
  end.


Section Agree.
Context `{XA : XformAlgebra}.
Variable set_geometry : qrect -> qrect.
Variable w : window.

(** One event on the two windows wired as [button_slots] says. *)
Lemma step_agree u wc wv e st :
  (forall i, slots wc i = button_slots u i) -> (forall i, slots wv i = button_slots u i) ->
  ev_ns_free u e = true -> step_view set_geometry w wv e st = step_model set_geometry w wc e st.
Proof.
  intros Hc Hv He. destruct e as [i|[b pos|mods pos|k|b]]; cbn [step_view step_model]; try done.
  - rewrite (click_agree u wc wv i _ Hc Hv); [done|]. cbn [ev_ns_free] in He.
    apply Forall_forall. intros a Ha. apply ns_free_same.
    apply (proj1 (forallb_forall _ _) He). by apply list_elem_of_In.
  - by rewrite mouseReleaseEvent_view_refines_model.
Qed.

(** A session of such events. *)
Lemma run_session_agree u wc wv evs st :
  (forall i, slots wc i = button_slots u i) -> (forall i, slots wv i = button_slots u i) ->
  Forall (fun e => ev_ns_free u e = true) evs ->
  run_session (step_view set_geometry w wv) evs st = run_session (step_model set_geometry w wc) evs st.
Proof.
  intros Hc Hv. unfold run_session. revert st.
  induction evs as [|e evs IH]; intros st Hevs; [done|].
  apply Forall_cons in Hevs as [He Hevs]. cbn [fold_left].
  rewrite (step_agree u wc wv e st Hc Hv He). by apply IH.
Qed.

End Agree.

(** ** The tracked buttons and the slots *)

Lemma tracked_buttons_names bs styleSheet :
  map fst (tracked_buttons bs styleSheet) = filter (fun b => py_endswith "_ctr" b = true) bs.
Proof. unfold tracked_buttons. rewrite map_map. apply map_id. Qed.

(** No button looked up by name selects a control. *)
Lemma named_slots_not_control bs i b : SelectControl b ∉ named_slots bs named_buttons i.
Proof.
  unfold named_slots. destruct (bs !! i) as [x|]; [|set_solver]. case_decide; [|set_solver].
  unfold named_buttons, pose_buttons, snap_buttons. cbn [app assoc_get].
  repeat case_decide; cbn [option_list];
    first [intros ?%list_elem_of_singleton; discriminate | apply not_elem_of_nil].
Qed.

Lemma control_slots_select bs i b :
  control_slots bs i = [SelectControl b] <-> bs !! i = Some b /\ py_endswith "_ctr" b = true.
Proof.
  unfold control_slots. destruct (bs !! i) as [x|]; [|naive_solver].
  destruct (py_endswith "_ctr" x) eqn:E; naive_solver congruence.
Qed.


(** ** The theorems *)

(** (C31) The drag tracks exactly the buttons a click selects: a name is
    among the cached [widget_styles_dict] entries of a [.ui] exactly
    when some push button of that name is connected, alone, to the
    selection of that name. *)
Theorem tracked_buttons_selectable u styleSheet b :
  b ∈ map fst (tracked_buttons (ui_buttons u) styleSheet) <-> exists i, button_slots u i = [SelectControl b].
Proof.
  rewrite tracked_buttons_names, list_elem_of_filter. split.
  - intros [He (i & Hi)%list_elem_of_lookup_1]. exists i.
    assert (control_slots (ui_buttons u) i = [SelectControl b]) as Hc by by apply control_slots_select.
    destruct (button_slots_cases u i) as [(HC & _)|(_ & _ & _ & ->)]; congruence.
  - intros (i & Hi). destruct (button_slots_cases u i) as [(_ & Hn)|(_ & _ & _ & Hs)].
    + destruct (named_slots_not_control (ui_buttons u) i b). rewrite <- Hn, Hi. set_solver.
    + rewrite Hs in Hi. apply control_slots_select in Hi as [Hl He]. split; [done|].
      by eapply list_elem_of_lookup_2.
Qed.

Section SessionTheorems.
Context `{XA : XformAlgebra}.
Variable set_geometry : qrect -> qrect.
Variable w : window.

(** (C20) On a [.ui] that has the widgets the constructors look up, the
    two windows agree on every session of clicks, mouse and key events
    in which no click reaches flip, bind or snap: the same line edit
    text, drag state and scene, the selections of the drag's releases
    included. *)
Theorem sessions_agree u :
  ui_complete u ->
  exists wc wv, wire_controller u = Ok wc /\ wire_view u = Ok wv /\
    forall evs st, Forall (fun e => ev_ns_free u e = true) evs ->
      run_session (step_view set_geometry w wv) evs st = run_session (step_model set_geometry w wc) evs st.
Proof.
  intros Hu. destruct (wire_controller_slots u Hu) as (wc & Hwc & Hc).
  destruct (wire_view_slots u Hu) as (wv & Hwv & Hv).
  exists wc, wv. split_and!; [done|done|]. intros evs st. by apply (run_session_agree set_geometry w u).
Qed.

End SessionTheorems.

(** ** Witnesses *)

Module WindowSessionDemo.
Import TrsGroup.

(** The demo [.ui] of [Window] in the window of [Marquee]'s demo, on its
    rig: a click on [general_c_ctr], a drag over the head and the jaw,
    its release, and a click on [selectAll_pushButton]. *)
Definition session : list wevent :=
  [WClick 13; WMouse (Press LeftButton (QPoint 5 30)); WMouse (Move 0 (QPoint 40 75));
   WMouse (Release LeftButton); WClick 7].

Definition st0 : wwin := mk_wwin "" (init_marquee (MarqueeDemo.win 0) MarqueeDemo.band0) MarqueeDemo.rig.

Definition wc : list (nat * action) :=
  match wire_controller WindowDemo.ui with Ok wc => wc | Exc _ => [] end.

Definition st_end : wwin := run_session (step_model qt_set_geometry (MarqueeDemo.win 0) wc) session st0.

End WindowSessionDemo.

Import WindowSessionDemo.
Import TrsGroup.

(** The drag of the session selects the head. *)
Example session_demo : sc_sel (ww_scene st_end) = ["head_c_ctr"].
Proof. vm_compute. reflexivity. Qed.

Lemma sessions_agree_witness :
  exists wc wv, wire_controller WindowDemo.ui = Ok wc /\ wire_view WindowDemo.ui = Ok wv /\
    run_session (step_view qt_set_geometry (MarqueeDemo.win 0) wv) session st0 =
    run_session (step_model qt_set_geometry (MarqueeDemo.win 0) wc) session st0.
Proof.
  destruct (sessions_agree qt_set_geometry (MarqueeDemo.win 0) WindowDemo.ui) as (wc & wv & H1 & H2 & H3);
    [decide_vm|].
  exists wc, wv. split_and!; [exact H1|exact H2|]. apply H3. decide_vm.
Defined.


Example tracked_buttons_demo :
  tracked_buttons (ui_buttons WindowDemo.ui) (fun _ => "") = [("general_c_ctr", "")] /\
  button_slots WindowDemo.ui 13 = [SelectControl "general_c_ctr"].
Proof. split; reflexivity. Qed.
