(* ===== verification/Build.v ===== *)
(** * Build: constructing and opening a picker window

    [Picker.__init__] of both files ([src/picker_controller.py] lines
    20-121, [src/picker.py] lines 14-118) as one function from the loaded
    [.ui] to the window it builds, and the two [openWindow] functions
    with the constructor's outcome.  After [loadUiWidget] (whose result
    is the [.ui] description) both constructors run the same body:
    [load_images], the drag attributes and [widget_styles_dict], the
    window's minimum and maximum size, the scaling loop and the fixed
    size of the [.ui] widget; then the wiring, which raises [IndexError]
    on a [.ui] lacking a looked-up widget and aborts the constructor.
    [build_window] composes [Window.load_images],
    [WindowSession.tracked_buttons], [Scale.scale_children] and
    [Scale.layout], and the wiring of either file.

    Theorems: a [.ui] lacking a looked-up widget makes [openWindow] of
    either file close the running picker window and show none; a
    complete one makes [picker_controller.openWindow] leave exactly one
    window named like the picker, and the window both constructors build
    from it is the same, so that [WindowSession]'s theorems apply to it
    from its first event. *)

From S2P Require Import Prelude PyStr Host Qt Marquee Window Session Scale WindowSession.
From Stdlib Require Import ZArith.
Local Open Scope picker_scope.

(** What a constructor leaves. *)
Record built := mk_built {
  b_pixmaps : list (string * string);       (** the [setPixmap] calls of [load_images] *)
  b_window : window;                        (** what the drag handlers read *)
  b_marquee : marquee;                      (** the drag attributes *)
  b_size_range : (Z * Z) * (Z * Z);         (** [setMinimumSize], [setMaximumSize] *)
  b_ui_size : Z * Z;                        (** [ui_widget.setFixedSize] *)
  b_wiring : list (nat * action)            (** the [clicked] connections *)
}.

Definition width_default : Z := 750.
Definition height_default : Z := 675.

(** The body of [Picker.__init__] after [loadUiWidget], for the [.ui]
    [u] with its image listing [files], its buttons' style sheets, the
    widgets [children] of [findChildren(QWidget)] with their parents and
    geometries, the [.ui] widget's size, the scale factor [k], the
    window's position on screen, the current tab and the rubber band's
    first geometry; [wire] is the file's wiring. *)
Definition build_window (wire : ui_desc -> res (list (nat * action))) (u : ui_desc) (files : list string)
    (styleSheet : string -> string) (children : list string) (parents : gmap string string)
    (geo : gmap string wgeo) (ui_size : Z * Z) (k : Z) (origin : qpoint) (tab : Z) (band0 : qrect)
    : res built :=
  let pixmaps := load_images files (ui_labels u) in
  let styles := tracked_buttons (ui_buttons u) styleSheet in
  let size_range := ((width_default * k, height_default * k)%Z, (width_default * k, height_default * k)%Z) in
  let w := layout origin styles parents (scale_children k children geo) tab in
  let ui_size' := ((ui_size.1 * k)%Z, (ui_size.2 * k)%Z) in
  let! wl := wire u in
  Ok (mk_built pixmaps w (init_marquee w band0) size_range ui_size' wl).

(** [picker_controller.Picker.__init__]. *)
Definition init_controller := build_window wire_controller.

(** [picker.Picker.__init__]. *)
Definition init_view := build_window wire_view.

(** [picker_controller.openWindow] with the constructor's outcome: the
    windows still shown, the destroyed ones removed and, when the
    constructor returns, the new window (named [internal_window_name]
    and shown) added; an exception of the constructor propagates before
    [setObjectName] and [show]. *)
Definition open_controller (all_windows : list string) (r : res built) : list string :=
  let '(destroyed, (name, _)) := openWindow_controller true all_windows in
  (filter (fun x => x ∉ destroyed) all_windows ++ match r with Ok _ => [name] | Exc _ => [] end)%list.

(** [picker.openWindow] with the constructor's outcome: the children of
    Maya's main window afterwards, and whether the new window is shown.
    [Picker(scale_factor)] makes itself a child of the main window and
    takes the name [picker_window_name] (lines 16-20) before anything
    can raise, so the child is there whether or not the constructor
    returns; [show()] runs only when it returns. *)
Definition open_view (children : list string) (r : res built) : list string * bool :=
  ((close_picker children ++ [picker_window_name])%list, match r with Ok _ => true | Exc _ => false end).

(** ** Lemmas *)

Lemma build_window_exc wire u files sty children parents geo ui_size k origin tab band0 e :
  wire u = Exc e -> build_window wire u files sty children parents geo ui_size k origin tab band0 = Exc e.
Proof. intros Hw. unfold build_window. by rewrite Hw. Qed.

Lemma build_window_ok wire u files sty children parents geo ui_size k origin tab band0 wl :
  wire u = Ok wl ->
  build_window wire u files sty children parents geo ui_size k origin tab band0 =
    let w := layout origin (tracked_buttons (ui_buttons u) sty) parents (scale_children k children geo) tab in
    Ok (mk_built (load_images files (ui_labels u)) w (init_marquee w band0)
          ((width_default * k, height_default * k)%Z, (width_default * k, height_default * k)%Z)
          ((ui_size.1 * k)%Z, (ui_size.2 * k)%Z) wl).
Proof. intros Hw. unfold build_window. by rewrite Hw. Qed.

(** The windows shown after [picker_controller.openWindow]: the ones
    not named like the picker, and the new one when it is built. *)
Lemma open_controller_shown all_windows r x :
  x ∈ open_controller all_windows r <->
  (x ∈ all_windows /\ py_contains internal_window_name x = false) \/
  (is_Some (match r with Ok b => Some b | Exc _ => None end) /\ x = internal_window_name).
Proof.
  pose proof (fun w => openWindow_controller_destroyed true all_windows w) as Hd.
  unfold open_controller. destruct (openWindow_controller true all_windows) as [destroyed [name title]] eqn:E.
  cbn [fst] in Hd. unfold openWindow_controller in E. injection E as _ <- _.
  rewrite elem_of_app, list_elem_of_filter, Hd.
  destruct r as [b|e]; rewrite ?list_elem_of_singleton, ?elem_of_nil;
    destruct (py_contains internal_window_name x); naive_solver.
Qed.


(** ** The theorems *)

Section BuildTheorems.
Context `{XA : XformAlgebra}.
Variables (files : list string) (styleSheet : string -> string) (children : list string)
  (parents : gmap string string) (geo : gmap string wgeo) (ui_size : Z * Z) (k : Z)
  (origin : qpoint) (tab : Z) (band0 : qrect).

Local Abbreviation init_c u := (init_controller u files styleSheet children parents geo ui_size k origin tab band0).
Local Abbreviation init_v u := (init_view u files styleSheet children parents geo ui_size k origin tab band0).

(** (C29) A [.ui] lacking a widget the constructors look up makes both
    constructors raise [IndexError]; [picker_controller.openWindow] has
    by then destroyed every window named like the picker and shows none;
    [picker.openWindow] has closed the running picker window and leaves
    in its place a hidden child of the same name (so the count of
    children of that name is unchanged, at least one), which the next
    call closes: a broken [.ui] takes the working picker down with it. *)
Theorem open_incomplete_ui u all_windows main_children :
  ~ ui_complete u ->
  init_c u = Exc IndexError /\ init_v u = Exc IndexError /\
  (forall x, x ∈ open_controller all_windows (init_c u) -> py_contains internal_window_name x = false) /\
  (open_view main_children (init_v u)).2 = false /\
  picker_windows (open_view main_children (init_v u)).1 = Nat.max 1 (picker_windows main_children).
Proof.
  intros Hu.
  assert (init_c u = Exc IndexError) as Hc by (apply build_window_exc, wire_controller_exc, Hu).
  assert (init_v u = Exc IndexError) as Hv by (apply build_window_exc, wire_view_exc, Hu).
  split_and!; [done|done| |by rewrite Hv|].
  - intros x. rewrite Hc, open_controller_shown. intros [[_ ?]|[[? ?] _]]; done.
  - cbn [fst open_view]. unfold picker_windows. rewrite filter_app, length_app.
    fold (picker_windows (close_picker main_children)). rewrite close_picker_count. simpl.
    unfold picker_windows. lia.
Qed.

(** On a complete [.ui] both constructors build the same window:
    the same pixmaps, drag state, sizes and tracked buttons, each wired
    as [button_slots] says; and [picker_controller.openWindow] then
    shows exactly one window whose name contains ['pickerWindow'], the
    new one, whatever windows were open before. *)
Theorem open_complete_ui u all_windows :
  ui_complete u ->
  filter (fun x => py_contains internal_window_name x = true) (open_controller all_windows (init_c u)) =
    [internal_window_name] /\
  exists bc bv, init_c u = Ok bc /\ init_v u = Ok bv /\
    b_pixmaps bc = b_pixmaps bv /\ b_window bc = b_window bv /\ b_marquee bc = b_marquee bv /\
    b_size_range bc = b_size_range bv /\ b_ui_size bc = b_ui_size bv /\
    forall i, slots (b_wiring bc) i = button_slots u i /\ slots (b_wiring bv) i = button_slots u i.
Proof.
  intros Hu. destruct (wire_controller_slots u Hu) as (wc & Hwc & Hc).
  destruct (wire_view_slots u Hu) as (wv & Hwv & Hv).
  unfold init_controller, init_view. rewrite (build_window_ok _ _ _ _ _ _ _ _ _ _ _ _ wc Hwc),
    (build_window_ok _ _ _ _ _ _ _ _ _ _ _ _ wv Hwv).
  split; [|eexists _, _; split_and!; try done; by intros i; split].
  unfold open_controller. destruct (openWindow_controller true all_windows) as [destroyed [name title]] eqn:E.
  pose proof (fun w => openWindow_controller_destroyed true all_windows w) as Hd. rewrite E in Hd.
  cbn [fst] in Hd. unfold openWindow_controller in E. injection E as _ <- _.
  rewrite filter_app, filter_none; [by vm_compute|].
  intros x [Hx Hin]%list_elem_of_filter Hp. apply Hx, Hd. by split_and!.
Qed.

End BuildTheorems.

(** ** Witnesses *)

Module BuildDemo.
(** The demo [.ui] of [Window], one image, no scaling. *)
Definition files : list string := ["arm.png"].
Definition build (wire : ui_desc -> res (list (nat * action))) (u : ui_desc) : res built :=
  build_window wire u files (fun _ => "") [] ∅ ∅ (750, 675)%Z 1%Z (QPoint 0 0) 0%Z MarqueeDemo.band0.
End BuildDemo.

Import BuildDemo.

Example build_demo :
  exists bc, build wire_controller WindowDemo.ui = Ok bc /\
    b_pixmaps bc = [("arm_label", "arm.png")] /\ b_size_range bc = ((750, 675), (750, 675))%Z /\
    widget_styles (b_window bc) = [("general_c_ctr", "")].
Proof. eexists. split_and!; reflexivity. Qed.

Lemma open_incomplete_ui_witness :
  ~ ui_complete WindowDemo.ui_no_line_edit /\
  (open_view ["HulkPickerWindow"; "outliner"] (build wire_view WindowDemo.ui_no_line_edit)).2 = false /\
  picker_windows (open_view ["HulkPickerWindow"; "outliner"] (build wire_view WindowDemo.ui_no_line_edit)).1 = 1.
Proof.
  split; [decide_vm|].
  destruct (open_incomplete_ui files (fun _ => "") [] ∅ ∅ (750, 675)%Z 1%Z (QPoint 0 0) 0%Z MarqueeDemo.band0
              WindowDemo.ui_no_line_edit ["facepickerWindow"] ["HulkPickerWindow"; "outliner"])
    as (_ & _ & _ & H1 & H2); [decide_vm|].
  unfold build. fold (init_view WindowDemo.ui_no_line_edit files). rewrite H1, H2. split; reflexivity.
Defined.

Lemma open_complete_ui_witness :
  ui_complete WindowDemo.ui /\
  filter (fun x => py_contains internal_window_name x = true)
    (open_controller ["facepickerWindow"; "pickerWindowWindow"; "Outliner"] (build wire_controller WindowDemo.ui))
  = [internal_window_name].
Proof.
  split; [decide_vm|].
  apply (open_complete_ui files (fun _ => "") [] ∅ ∅ (750, 675)%Z 1%Z (QPoint 0 0) 0%Z MarqueeDemo.band0
           WindowDemo.ui). decide_vm.
Defined.
